(** * Hatari FDC / DMA emulation (src/fdc.c): shallow embedding

    The C file keeps three file-scope records ([FDC], [FDC_DMA],
    [FDC_DRIVES]) and a work buffer, and every function mutates them in
    place.  Here the globals are gathered in one [State] record that is
    passed explicitly; a C function [void f(args)] becomes
    [f : args -> State -> State], and the [FDC_Update...Cmd] functions,
    which return a delay in FDC cycles, become [State -> State * Z].

    Integers are [Z]; the C width of a variable is written out at each
    assignment ([u8], [u16], [u32], [u64]). *)

From Stdlib Require Import ZArith List Bool Lia.
Import ListNotations.
Local Open Scope Z_scope.

(** ** Machine integers *)

Definition u8  (x : Z) : Z := x mod 256.
Definition u16 (x : Z) : Z := x mod 65536.
Definition u32 (x : Z) : Z := x mod 4294967296.
Definition u64 (x : Z) : Z := x mod 18446744073709551616.
(** Conversion of a 32-bit pattern to C [int]. *)
Definition s32 (x : Z) : Z :=
  let y := u32 x in if y <? 2147483648 then y else y - 4294967296.

(** [x & m] is non zero *)
Definition tst (x m : Z) : bool := negb (Z.land x m =? 0).

(** The array accesses of the C code: reading outside the list gives [d],
    writing outside the list leaves it unchanged (C has no defined
    behaviour there). *)
Definition rd {A} (d : A) (l : list A) (i : Z) : A :=
  if i <? 0 then d else nth (Z.to_nat i) l d.

Fixpoint upd_nat {A} (l : list A) (n : nat) (v : A) : list A :=
  match l, n with
  | [], _ => []
  | _ :: t, O => v :: t
  | h :: t, S k => h :: upd_nat t k v
  end.

Definition wr {A} (l : list A) (i : Z) (v : A) : list A :=
  if i <? 0 then l else upd_nat l (Z.to_nat i) v.

(** [memcpy (buf, bytes, length bytes)] at the start of a buffer *)
Definition store_prefix (bytes buf : list Z) : list Z :=
  firstn (length buf) (bytes ++ skipn (length bytes) buf).

(** ** Constants of fdc.c *)

Definition FDC_STR_BIT_BUSY        : Z := 0x01.
Definition FDC_STR_BIT_INDEX       : Z := 0x02.
Definition FDC_STR_BIT_DRQ         : Z := 0x02.
Definition FDC_STR_BIT_TR00        : Z := 0x04.
Definition FDC_STR_BIT_LOST_DATA   : Z := 0x04.
Definition FDC_STR_BIT_CRC_ERROR   : Z := 0x08.
Definition FDC_STR_BIT_RNF         : Z := 0x10.
Definition FDC_STR_BIT_SPIN_UP     : Z := 0x20.
Definition FDC_STR_BIT_RECORD_TYPE : Z := 0x20.
Definition FDC_STR_BIT_WPRT        : Z := 0x40.
Definition FDC_STR_BIT_MOTOR_ON    : Z := 0x80.

Definition FDC_COMMAND_BIT_VERIFY          : Z := 4.
Definition FDC_COMMAND_BIT_HEAD_LOAD       : Z := 4.
Definition FDC_COMMAND_BIT_SPIN_UP         : Z := 8.
Definition FDC_COMMAND_BIT_UPDATE_TRACK    : Z := 16.
Definition FDC_COMMAND_BIT_MULTIPLE_SECTOR : Z := 16.

Definition FDC_INTERRUPT_COND_IP        : Z := 4.
Definition FDC_INTERRUPT_COND_IMMEDIATE : Z := 8.

Definition FDC_DELAY_CYCLE_MFM_BYTE  : Z := 4 * 8 * 8.
Definition FDC_TRACK_BYTES_STANDARD  : Z := 6268.
Definition FDC_DELAY_IP_SPIN_UP      : Z := 6.
Definition FDC_DELAY_IP_MOTOR_OFF    : Z := 9.
Definition FDC_DELAY_IP_ADDRESS_ID   : Z := 5.
Definition FDC_DELAY_US_HEAD_LOAD    : Z := 15 * 1000.
(** [3.71 * 1000], converted to [Uint32] at the only call *)
Definition FDC_DELAY_US_INDEX_PULSE_LENGTH : Z := 3710.

Definition FDC_DELAY_CYCLE_TYPE_I_PREPARE       : Z := 90 * 8.
Definition FDC_DELAY_CYCLE_TYPE_II_PREPARE      : Z := 1 * 8.
Definition FDC_DELAY_CYCLE_TYPE_III_PREPARE     : Z := 1 * 8.
Definition FDC_DELAY_CYCLE_TYPE_IV_PREPARE      : Z := 100 * 8.
Definition FDC_DELAY_CYCLE_COMMAND_COMPLETE     : Z := 1 * 8.
Definition FDC_DELAY_CYCLE_COMMAND_IMMEDIATE    : Z := 0.
Definition FDC_DELAY_CYCLE_WAIT_NO_DRIVE_FLOPPY : Z := 50000.
Definition FDC_DELAY_CYCLE_REFRESH_INDEX_PULSE  : Z := 500.

Definition FDC_DMA_SECTOR_SIZE    : Z := 512.
Definition FDC_DMA_FIFO_SIZE      : Z := 16.
Definition FDC_PHYSICAL_MAX_TRACK : Z := 90.

Definition FDC_StepRate_ms : list Z := [6; 12; 2; 3].

Definition FDC_SECTOR_SIZE_512 : Z := 2.

Definition FDC_TRACK_LAYOUT_STANDARD_GAP1  : Z := 60.
Definition FDC_TRACK_LAYOUT_STANDARD_GAP2  : Z := 12.
Definition FDC_TRACK_LAYOUT_STANDARD_GAP3a : Z := 22.
Definition FDC_TRACK_LAYOUT_STANDARD_GAP3b : Z := 12.
Definition FDC_TRACK_LAYOUT_STANDARD_GAP4  : Z := 40.
Definition FDC_TRACK_LAYOUT_STANDARD_RAW_SECTOR_512 : Z :=
  FDC_TRACK_LAYOUT_STANDARD_GAP2
  + 3 + 1 + 6 + FDC_TRACK_LAYOUT_STANDARD_GAP3a + FDC_TRACK_LAYOUT_STANDARD_GAP3b
  + 3 + 1 + 512 + 2 + FDC_TRACK_LAYOUT_STANDARD_GAP4.

Definition FDC_FAST_FDC_FACTOR : Z := 10.

Definition FDC_DENSITY_FACTOR_DD : Z := 1.
Definition FDC_DENSITY_FACTOR_HD : Z := 2.
Definition FDC_DENSITY_FACTOR_ED : Z := 4.

(** [MAX_FLOPPYDRIVES] comes from floppy.h: drives A: and B: *)
Definition MAX_FLOPPYDRIVES : Z := 2.

(** Size of [DMADiskWorkSpace] *)
Definition DMADiskWorkSpace_SIZE : Z := FDC_TRACK_BYTES_STANDARD * 4 + 1000.

(** ** The two enumerations *)

(** Values of [FDC.Command] *)
Inductive FDCEMU_CMD : Set :=
| FDCEMU_CMD_NULL
| FDCEMU_CMD_RESTORE
| FDCEMU_CMD_SEEK
| FDCEMU_CMD_STEP
| FDCEMU_CMD_READSECTORS
| FDCEMU_CMD_WRITESECTORS
| FDCEMU_CMD_READADDRESS
| FDCEMU_CMD_READTRACK
| FDCEMU_CMD_WRITETRACK
| FDCEMU_CMD_MOTOR_STOP.

(** Values of [FDC.CommandState] *)
Inductive FDCEMU_RUN : Set :=
| FDCEMU_RUN_NULL
| FDCEMU_RUN_RESTORE_SEEKTOTRACKZERO
| FDCEMU_RUN_RESTORE_SEEKTOTRACKZERO_SPIN_UP
| FDCEMU_RUN_RESTORE_SEEKTOTRACKZERO_MOTOR_ON
| FDCEMU_RUN_RESTORE_SEEKTOTRACKZERO_LOOP
| FDCEMU_RUN_RESTORE_VERIFY
| FDCEMU_RUN_RESTORE_VERIFY_HEAD_OK
| FDCEMU_RUN_RESTORE_VERIFY_NEXT_SECTOR_HEADER
| FDCEMU_RUN_RESTORE_VERIFY_CHECK_SECTOR_HEADER
| FDCEMU_RUN_RESTORE_COMPLETE
| FDCEMU_RUN_SEEK_TOTRACK
| FDCEMU_RUN_SEEK_TOTRACK_SPIN_UP
| FDCEMU_RUN_SEEK_TOTRACK_MOTOR_ON
| FDCEMU_RUN_SEEK_VERIFY
| FDCEMU_RUN_SEEK_VERIFY_HEAD_OK
| FDCEMU_RUN_SEEK_VERIFY_NEXT_SECTOR_HEADER
| FDCEMU_RUN_SEEK_VERIFY_CHECK_SECTOR_HEADER
| FDCEMU_RUN_SEEK_COMPLETE
| FDCEMU_RUN_STEP_ONCE
| FDCEMU_RUN_STEP_ONCE_SPIN_UP
| FDCEMU_RUN_STEP_ONCE_MOTOR_ON
| FDCEMU_RUN_STEP_VERIFY
| FDCEMU_RUN_STEP_VERIFY_HEAD_OK
| FDCEMU_RUN_STEP_VERIFY_NEXT_SECTOR_HEADER
| FDCEMU_RUN_STEP_VERIFY_CHECK_SECTOR_HEADER
| FDCEMU_RUN_STEP_COMPLETE
| FDCEMU_RUN_READSECTORS_READDATA
| FDCEMU_RUN_READSECTORS_READDATA_SPIN_UP
| FDCEMU_RUN_READSECTORS_READDATA_HEAD_LOAD
| FDCEMU_RUN_READSECTORS_READDATA_MOTOR_ON
| FDCEMU_RUN_READSECTORS_READDATA_NEXT_SECTOR_HEADER
| FDCEMU_RUN_READSECTORS_READDATA_CHECK_SECTOR_HEADER
| FDCEMU_RUN_READSECTORS_READDATA_TRANSFER_START
| FDCEMU_RUN_READSECTORS_READDATA_TRANSFER_LOOP
| FDCEMU_RUN_READSECTORS_CRC
| FDCEMU_RUN_READSECTORS_RNF
| FDCEMU_RUN_READSECTORS_COMPLETE
| FDCEMU_RUN_WRITESECTORS_WRITEDATA
| FDCEMU_RUN_WRITESECTORS_WRITEDATA_SPIN_UP
| FDCEMU_RUN_WRITESECTORS_WRITEDATA_HEAD_LOAD
| FDCEMU_RUN_WRITESECTORS_WRITEDATA_MOTOR_ON
| FDCEMU_RUN_WRITESECTORS_WRITEDATA_NEXT_SECTOR_HEADER
| FDCEMU_RUN_WRITESECTORS_WRITEDATA_CHECK_SECTOR_HEADER
| FDCEMU_RUN_WRITESECTORS_WRITEDATA_TRANSFER_START
| FDCEMU_RUN_WRITESECTORS_WRITEDATA_TRANSFER_LOOP
| FDCEMU_RUN_WRITESECTORS_CRC
| FDCEMU_RUN_WRITESECTORS_RNF
| FDCEMU_RUN_WRITESECTORS_COMPLETE
| FDCEMU_RUN_READADDRESS
| FDCEMU_RUN_READADDRESS_SPIN_UP
| FDCEMU_RUN_READADDRESS_HEAD_LOAD
| FDCEMU_RUN_READADDRESS_MOTOR_ON
| FDCEMU_RUN_READADDRESS_TRANSFER_START
| FDCEMU_RUN_READADDRESS_TRANSFER_LOOP
| FDCEMU_RUN_READADDRESS_COMPLETE
| FDCEMU_RUN_READTRACK
| FDCEMU_RUN_READTRACK_SPIN_UP
| FDCEMU_RUN_READTRACK_HEAD_LOAD
| FDCEMU_RUN_READTRACK_MOTOR_ON
| FDCEMU_RUN_READTRACK_INDEX
| FDCEMU_RUN_READTRACK_TRANSFER_LOOP
| FDCEMU_RUN_READTRACK_COMPLETE
| FDCEMU_RUN_WRITETRACK
| FDCEMU_RUN_WRITETRACK_SPIN_UP
| FDCEMU_RUN_WRITETRACK_HEAD_LOAD
| FDCEMU_RUN_WRITETRACK_MOTOR_ON
| FDCEMU_RUN_WRITETRACK_INDEX
| FDCEMU_RUN_WRITETRACK_TRANSFER_LOOP
| FDCEMU_RUN_WRITETRACK_COMPLETE
| FDCEMU_RUN_MOTOR_STOP
| FDCEMU_RUN_MOTOR_STOP_WAIT
| FDCEMU_RUN_MOTOR_STOP_COMPLETE.

Definition cmd_is_null (c : FDCEMU_CMD) : bool :=
  match c with FDCEMU_CMD_NULL => true | _ => false end.

(** [ConfigureParams.System.nMachineType] *)
Inductive MACHINETYPE : Set :=
| MACHINE_ST | MACHINE_STE | MACHINE_TT | MACHINE_FALCON | MACHINE_MEGA_STE.

Definition machine_limited_4MB (m : MACHINETYPE) : bool :=
  match m with
  | MACHINE_ST | MACHINE_STE | MACHINE_MEGA_STE => true
  | _ => false
  end.

Definition machine_is_falcon (m : MACHINETYPE) : bool :=
  match m with MACHINE_FALCON => true | _ => false end.

(** Image types of floppy.h that [FDC_GetEmulationMode] looks at *)
Inductive FLOPPY_IMAGE_TYPE : Set :=
| FLOPPY_IMAGE_TYPE_NONE | FLOPPY_IMAGE_TYPE_IPF | FLOPPY_IMAGE_TYPE_OTHER.

Inductive FDC_EMULATION_MODE : Set :=
| FDC_EMULATION_MODE_INTERNAL | FDC_EMULATION_MODE_IPF.

(** ** The three records of fdc.c *)

Record FDC_STRUCT : Type := mkFDC {
  DR : Z;                          (* Uint8 *)
  TR : Z;                          (* Uint8 *)
  SR : Z;                          (* Uint8 *)
  CR : Z;                          (* Uint8 *)
  STR : Z;                         (* Uint8 *)
  StepDirection : Z;               (* int : +1 or -1 *)
  SideSignal : Z;                  (* Uint8 *)
  DriveSelSignal : Z;              (* int : 0, 1 or -1 *)
  Command : FDCEMU_CMD;
  CommandState : FDCEMU_RUN;
  CommandType : Z;                 (* Uint8 *)
  ReplaceCommandPossible : bool;
  StatusTypeI : bool;
  IndexPulse_Counter : Z;          (* int *)
  NextSector_ID_Field_SR : Z;      (* Uint8 *)
  InterruptCond : Z                (* Uint8 *)
}.

Record FDC_DMA_STRUCT : Type := mkDMA {
  Status : Z;                      (* Uint16 *)
  Mode : Z;                        (* Uint16 *)
  SectorCount : Z;                 (* Uint16 *)
  BytesInSector : Z;               (* Uint16 *)
  FIFO : list Z;                   (* Uint8 [16] *)
  FIFO_Size : Z;                   (* int *)
  ff8604_recent_val : Z;           (* Uint16 *)
  PosInBuffer : Z;                 (* int *)
  PosInBufferTransfer : Z;         (* int *)
  BytesToTransfer : Z              (* int *)
}.

Record FDC_DRIVE_STRUCT : Type := mkDrive {
  Enabled : bool;
  DiskInserted : bool;
  RPM : Z;                         (* int *)
  Density : Z;                     (* int *)
  HeadTrack : Z;                   (* Uint8 *)
  IndexPulse_Time : Z              (* Uint64 *)
}.

(** What [FDC_DRIVES[i]] reads when [i] is not a drive number *)
Definition no_drive : FDC_DRIVE_STRUCT := mkDrive false false 0 0 0 0.

(** Field assignments *)

Definition set_DR v (f : FDC_STRUCT) := mkFDC v (TR f) (SR f) (CR f) (STR f) (StepDirection f) (SideSignal f) (DriveSelSignal f) (Command f) (CommandState f) (CommandType f) (ReplaceCommandPossible f) (StatusTypeI f) (IndexPulse_Counter f) (NextSector_ID_Field_SR f) (InterruptCond f).
Definition set_TR v (f : FDC_STRUCT) := mkFDC (DR f) v (SR f) (CR f) (STR f) (StepDirection f) (SideSignal f) (DriveSelSignal f) (Command f) (CommandState f) (CommandType f) (ReplaceCommandPossible f) (StatusTypeI f) (IndexPulse_Counter f) (NextSector_ID_Field_SR f) (InterruptCond f).
Definition set_SR v (f : FDC_STRUCT) := mkFDC (DR f) (TR f) v (CR f) (STR f) (StepDirection f) (SideSignal f) (DriveSelSignal f) (Command f) (CommandState f) (CommandType f) (ReplaceCommandPossible f) (StatusTypeI f) (IndexPulse_Counter f) (NextSector_ID_Field_SR f) (InterruptCond f).
Definition set_CR v (f : FDC_STRUCT) := mkFDC (DR f) (TR f) (SR f) v (STR f) (StepDirection f) (SideSignal f) (DriveSelSignal f) (Command f) (CommandState f) (CommandType f) (ReplaceCommandPossible f) (StatusTypeI f) (IndexPulse_Counter f) (NextSector_ID_Field_SR f) (InterruptCond f).
Definition set_STR v (f : FDC_STRUCT) := mkFDC (DR f) (TR f) (SR f) (CR f) v (StepDirection f) (SideSignal f) (DriveSelSignal f) (Command f) (CommandState f) (CommandType f) (ReplaceCommandPossible f) (StatusTypeI f) (IndexPulse_Counter f) (NextSector_ID_Field_SR f) (InterruptCond f).
Definition set_StepDirection v (f : FDC_STRUCT) := mkFDC (DR f) (TR f) (SR f) (CR f) (STR f) v (SideSignal f) (DriveSelSignal f) (Command f) (CommandState f) (CommandType f) (ReplaceCommandPossible f) (StatusTypeI f) (IndexPulse_Counter f) (NextSector_ID_Field_SR f) (InterruptCond f).
Definition set_SideSignal v (f : FDC_STRUCT) := mkFDC (DR f) (TR f) (SR f) (CR f) (STR f) (StepDirection f) v (DriveSelSignal f) (Command f) (CommandState f) (CommandType f) (ReplaceCommandPossible f) (StatusTypeI f) (IndexPulse_Counter f) (NextSector_ID_Field_SR f) (InterruptCond f).
Definition set_DriveSelSignal v (f : FDC_STRUCT) := mkFDC (DR f) (TR f) (SR f) (CR f) (STR f) (StepDirection f) (SideSignal f) v (Command f) (CommandState f) (CommandType f) (ReplaceCommandPossible f) (StatusTypeI f) (IndexPulse_Counter f) (NextSector_ID_Field_SR f) (InterruptCond f).
Definition set_Command v (f : FDC_STRUCT) := mkFDC (DR f) (TR f) (SR f) (CR f) (STR f) (StepDirection f) (SideSignal f) (DriveSelSignal f) v (CommandState f) (CommandType f) (ReplaceCommandPossible f) (StatusTypeI f) (IndexPulse_Counter f) (NextSector_ID_Field_SR f) (InterruptCond f).
Definition set_CommandState v (f : FDC_STRUCT) := mkFDC (DR f) (TR f) (SR f) (CR f) (STR f) (StepDirection f) (SideSignal f) (DriveSelSignal f) (Command f) v (CommandType f) (ReplaceCommandPossible f) (StatusTypeI f) (IndexPulse_Counter f) (NextSector_ID_Field_SR f) (InterruptCond f).
Definition set_CommandType v (f : FDC_STRUCT) := mkFDC (DR f) (TR f) (SR f) (CR f) (STR f) (StepDirection f) (SideSignal f) (DriveSelSignal f) (Command f) (CommandState f) v (ReplaceCommandPossible f) (StatusTypeI f) (IndexPulse_Counter f) (NextSector_ID_Field_SR f) (InterruptCond f).
Definition set_ReplaceCommandPossible v (f : FDC_STRUCT) := mkFDC (DR f) (TR f) (SR f) (CR f) (STR f) (StepDirection f) (SideSignal f) (DriveSelSignal f) (Command f) (CommandState f) (CommandType f) v (StatusTypeI f) (IndexPulse_Counter f) (NextSector_ID_Field_SR f) (InterruptCond f).
Definition set_StatusTypeI v (f : FDC_STRUCT) := mkFDC (DR f) (TR f) (SR f) (CR f) (STR f) (StepDirection f) (SideSignal f) (DriveSelSignal f) (Command f) (CommandState f) (CommandType f) (ReplaceCommandPossible f) v (IndexPulse_Counter f) (NextSector_ID_Field_SR f) (InterruptCond f).
Definition set_IndexPulse_Counter v (f : FDC_STRUCT) := mkFDC (DR f) (TR f) (SR f) (CR f) (STR f) (StepDirection f) (SideSignal f) (DriveSelSignal f) (Command f) (CommandState f) (CommandType f) (ReplaceCommandPossible f) (StatusTypeI f) v (NextSector_ID_Field_SR f) (InterruptCond f).
Definition set_NextSector_ID_Field_SR v (f : FDC_STRUCT) := mkFDC (DR f) (TR f) (SR f) (CR f) (STR f) (StepDirection f) (SideSignal f) (DriveSelSignal f) (Command f) (CommandState f) (CommandType f) (ReplaceCommandPossible f) (StatusTypeI f) (IndexPulse_Counter f) v (InterruptCond f).
Definition set_InterruptCond v (f : FDC_STRUCT) := mkFDC (DR f) (TR f) (SR f) (CR f) (STR f) (StepDirection f) (SideSignal f) (DriveSelSignal f) (Command f) (CommandState f) (CommandType f) (ReplaceCommandPossible f) (StatusTypeI f) (IndexPulse_Counter f) (NextSector_ID_Field_SR f) v.

Definition set_Status v (d : FDC_DMA_STRUCT) := mkDMA v (Mode d) (SectorCount d) (BytesInSector d) (FIFO d) (FIFO_Size d) (ff8604_recent_val d) (PosInBuffer d) (PosInBufferTransfer d) (BytesToTransfer d).
Definition set_Mode v (d : FDC_DMA_STRUCT) := mkDMA (Status d) v (SectorCount d) (BytesInSector d) (FIFO d) (FIFO_Size d) (ff8604_recent_val d) (PosInBuffer d) (PosInBufferTransfer d) (BytesToTransfer d).
Definition set_SectorCount v (d : FDC_DMA_STRUCT) := mkDMA (Status d) (Mode d) v (BytesInSector d) (FIFO d) (FIFO_Size d) (ff8604_recent_val d) (PosInBuffer d) (PosInBufferTransfer d) (BytesToTransfer d).
Definition set_BytesInSector v (d : FDC_DMA_STRUCT) := mkDMA (Status d) (Mode d) (SectorCount d) v (FIFO d) (FIFO_Size d) (ff8604_recent_val d) (PosInBuffer d) (PosInBufferTransfer d) (BytesToTransfer d).
Definition set_FIFO v (d : FDC_DMA_STRUCT) := mkDMA (Status d) (Mode d) (SectorCount d) (BytesInSector d) v (FIFO_Size d) (ff8604_recent_val d) (PosInBuffer d) (PosInBufferTransfer d) (BytesToTransfer d).
Definition set_FIFO_Size v (d : FDC_DMA_STRUCT) := mkDMA (Status d) (Mode d) (SectorCount d) (BytesInSector d) (FIFO d) v (ff8604_recent_val d) (PosInBuffer d) (PosInBufferTransfer d) (BytesToTransfer d).
Definition set_ff8604_recent_val v (d : FDC_DMA_STRUCT) := mkDMA (Status d) (Mode d) (SectorCount d) (BytesInSector d) (FIFO d) (FIFO_Size d) v (PosInBuffer d) (PosInBufferTransfer d) (BytesToTransfer d).
Definition set_PosInBuffer v (d : FDC_DMA_STRUCT) := mkDMA (Status d) (Mode d) (SectorCount d) (BytesInSector d) (FIFO d) (FIFO_Size d) (ff8604_recent_val d) v (PosInBufferTransfer d) (BytesToTransfer d).
Definition set_PosInBufferTransfer v (d : FDC_DMA_STRUCT) := mkDMA (Status d) (Mode d) (SectorCount d) (BytesInSector d) (FIFO d) (FIFO_Size d) (ff8604_recent_val d) (PosInBuffer d) v (BytesToTransfer d).
Definition set_BytesToTransfer v (d : FDC_DMA_STRUCT) := mkDMA (Status d) (Mode d) (SectorCount d) (BytesInSector d) (FIFO d) (FIFO_Size d) (ff8604_recent_val d) (PosInBuffer d) (PosInBufferTransfer d) v.

Definition set_Enabled v (d : FDC_DRIVE_STRUCT) := mkDrive v (DiskInserted d) (RPM d) (Density d) (HeadTrack d) (IndexPulse_Time d).
Definition set_DiskInserted v (d : FDC_DRIVE_STRUCT) := mkDrive (Enabled d) v (RPM d) (Density d) (HeadTrack d) (IndexPulse_Time d).
Definition set_RPM v (d : FDC_DRIVE_STRUCT) := mkDrive (Enabled d) (DiskInserted d) v (Density d) (HeadTrack d) (IndexPulse_Time d).
Definition set_Density v (d : FDC_DRIVE_STRUCT) := mkDrive (Enabled d) (DiskInserted d) (RPM d) v (HeadTrack d) (IndexPulse_Time d).
Definition set_HeadTrack v (d : FDC_DRIVE_STRUCT) := mkDrive (Enabled d) (DiskInserted d) (RPM d) (Density d) v (IndexPulse_Time d).
Definition set_IndexPulse_Time v (d : FDC_DRIVE_STRUCT) := mkDrive (Enabled d) (DiskInserted d) (RPM d) (Density d) (HeadTrack d) v.

(** ** The collaborators of fdc.c

    Everything fdc.c calls or reads that lives in another file of the
    emulator (configuration, floppy images, libc, RAM copy), and the two
    cycle conversions of fdc.c that are computed in floating point
    ([rint] over [long double]). *)

Class Platform : Type := {
  (** [ConfigureParams.System.nMachineType] *)
  nMachineType : MACHINETYPE;
  (** [ConfigureParams.DiskImage.FastFloppy] *)
  FastFloppy : bool;
  (** [MachineClocks.FDC_Freq] *)
  MachineClocks_FDC_Freq : Z;
  (** [FDC_FdcCyclesToCpuCycles], [FDC_CpuCyclesToFdcCycles] : floating point *)
  FDC_FdcCyclesToCpuCycles : Z -> Z;
  FDC_CpuCyclesToFdcCycles : Z -> Z;
  (** libc [rand ()] : value returned by the n-th call *)
  rand : nat -> Z;
  (** state of floppy.c ([EmulationDrives], transition phases, disk images) *)
  Floppy : Type;
  EmulationDrives_bDiskInserted : Floppy -> Z -> bool;
  EmulationDrives_ImageType : Floppy -> Z -> FLOPPY_IMAGE_TYPE;
  (** [Floppy_FindDiskDetails] : sectors per track, sides per disk *)
  Floppy_FindDiskDetails : Floppy -> Z -> Z * Z;
  Floppy_IsWriteProtected : Floppy -> Z -> bool;
  (** [Floppy_ReadSectors (Drive, buf, Sector, Track, Side, 1, NULL, &SectorSize)] :
      the bytes stored in [buf] ([SectorSize] is their number), or failure *)
  Floppy_ReadSectors : Floppy -> Z -> Z -> Z -> Z -> option (list Z);
  (** [Floppy_WriteSectors (Drive, pBuffer, Sector, Track, Side, 1, NULL, &SectorSize)] :
      the new disk state and [SectorSize], or failure; [pBuffer] is given
      as the 512 bytes it points at *)
  Floppy_WriteSectors : Floppy -> Z -> list Z -> Z -> Z -> Z -> option (Floppy * Z);
  Floppy_DriveTransitionUpdateState : Floppy -> Z -> Floppy * Z;
  (** [crc16_reset] then [crc16_add_byte] over the bytes (utils.c) *)
  crc16 : list Z -> Z;
  (** [STMemory_SafeCopy (addr, src, len, name)] on the RAM *)
  STMemory_SafeCopy : (Z -> Z) -> Z -> list Z -> (Z -> Z)
}.

Section Hatari.
Context {P : Platform}.

(** ** The emulator state seen by fdc.c *)

Record State : Type := mkState {
  FDC : FDC_STRUCT;
  FDC_DMA : FDC_DMA_STRUCT;
  FDC_DRIVES : list FDC_DRIVE_STRUCT;       (* [MAX_FLOPPYDRIVES] *)
  DMADiskWorkSpace : list Z;
  (** RAM bytes, and the three DMA address bytes of the I/O area *)
  STRam : Z -> Z;
  IoMem_ff8609 : Z;
  IoMem_ff860b : Z;
  IoMem_ff860d : Z;
  (** MFP: the GPIP register and the number of calls of
      [MFP_InputOnChannel (MFP_INT_FDCHDC, 0)] so far *)
  MFP_GPIP : Z;
  MFP_FDCHDC_Inputs : nat;
  (** the pending [INTERRUPT_FDC] timer: (cpu cycles, internal offset) *)
  FDC_Timer : option (Z * Z);
  CyclesGlobalClockCounter : Z;             (* Uint64 *)
  rand_calls : nat;
  Disks : Floppy
}.

Definition updFDC (g : FDC_STRUCT -> FDC_STRUCT) (s : State) : State :=
  mkState (g (FDC s)) (FDC_DMA s) (FDC_DRIVES s) (DMADiskWorkSpace s) (STRam s)
    (IoMem_ff8609 s) (IoMem_ff860b s) (IoMem_ff860d s) (MFP_GPIP s) (MFP_FDCHDC_Inputs s)
    (FDC_Timer s) (CyclesGlobalClockCounter s) (rand_calls s) (Disks s).
Definition updDMA (g : FDC_DMA_STRUCT -> FDC_DMA_STRUCT) (s : State) : State :=
  mkState (FDC s) (g (FDC_DMA s)) (FDC_DRIVES s) (DMADiskWorkSpace s) (STRam s)
    (IoMem_ff8609 s) (IoMem_ff860b s) (IoMem_ff860d s) (MFP_GPIP s) (MFP_FDCHDC_Inputs s)
    (FDC_Timer s) (CyclesGlobalClockCounter s) (rand_calls s) (Disks s).
Definition set_FDC_DRIVES v (s : State) : State :=
  mkState (FDC s) (FDC_DMA s) v (DMADiskWorkSpace s) (STRam s)
    (IoMem_ff8609 s) (IoMem_ff860b s) (IoMem_ff860d s) (MFP_GPIP s) (MFP_FDCHDC_Inputs s)
    (FDC_Timer s) (CyclesGlobalClockCounter s) (rand_calls s) (Disks s).
Definition set_DMADiskWorkSpace v (s : State) : State :=
  mkState (FDC s) (FDC_DMA s) (FDC_DRIVES s) v (STRam s)
    (IoMem_ff8609 s) (IoMem_ff860b s) (IoMem_ff860d s) (MFP_GPIP s) (MFP_FDCHDC_Inputs s)
    (FDC_Timer s) (CyclesGlobalClockCounter s) (rand_calls s) (Disks s).
Definition set_STRam v (s : State) : State :=
  mkState (FDC s) (FDC_DMA s) (FDC_DRIVES s) (DMADiskWorkSpace s) v
    (IoMem_ff8609 s) (IoMem_ff860b s) (IoMem_ff860d s) (MFP_GPIP s) (MFP_FDCHDC_Inputs s)
    (FDC_Timer s) (CyclesGlobalClockCounter s) (rand_calls s) (Disks s).
Definition set_IoMem_ff8609 v (s : State) : State :=
  mkState (FDC s) (FDC_DMA s) (FDC_DRIVES s) (DMADiskWorkSpace s) (STRam s)
    v (IoMem_ff860b s) (IoMem_ff860d s) (MFP_GPIP s) (MFP_FDCHDC_Inputs s)
    (FDC_Timer s) (CyclesGlobalClockCounter s) (rand_calls s) (Disks s).
Definition set_IoMem_ff860b v (s : State) : State :=
  mkState (FDC s) (FDC_DMA s) (FDC_DRIVES s) (DMADiskWorkSpace s) (STRam s)
    (IoMem_ff8609 s) v (IoMem_ff860d s) (MFP_GPIP s) (MFP_FDCHDC_Inputs s)
    (FDC_Timer s) (CyclesGlobalClockCounter s) (rand_calls s) (Disks s).
Definition set_IoMem_ff860d v (s : State) : State :=
  mkState (FDC s) (FDC_DMA s) (FDC_DRIVES s) (DMADiskWorkSpace s) (STRam s)
    (IoMem_ff8609 s) (IoMem_ff860b s) v (MFP_GPIP s) (MFP_FDCHDC_Inputs s)
    (FDC_Timer s) (CyclesGlobalClockCounter s) (rand_calls s) (Disks s).
Definition set_MFP_GPIP v (s : State) : State :=
  mkState (FDC s) (FDC_DMA s) (FDC_DRIVES s) (DMADiskWorkSpace s) (STRam s)
    (IoMem_ff8609 s) (IoMem_ff860b s) (IoMem_ff860d s) v (MFP_FDCHDC_Inputs s)
    (FDC_Timer s) (CyclesGlobalClockCounter s) (rand_calls s) (Disks s).
Definition set_MFP_FDCHDC_Inputs v (s : State) : State :=
  mkState (FDC s) (FDC_DMA s) (FDC_DRIVES s) (DMADiskWorkSpace s) (STRam s)
    (IoMem_ff8609 s) (IoMem_ff860b s) (IoMem_ff860d s) (MFP_GPIP s) v
    (FDC_Timer s) (CyclesGlobalClockCounter s) (rand_calls s) (Disks s).
Definition set_FDC_Timer v (s : State) : State :=
  mkState (FDC s) (FDC_DMA s) (FDC_DRIVES s) (DMADiskWorkSpace s) (STRam s)
    (IoMem_ff8609 s) (IoMem_ff860b s) (IoMem_ff860d s) (MFP_GPIP s) (MFP_FDCHDC_Inputs s)
    v (CyclesGlobalClockCounter s) (rand_calls s) (Disks s).
Definition set_CyclesGlobalClockCounter v (s : State) : State :=
  mkState (FDC s) (FDC_DMA s) (FDC_DRIVES s) (DMADiskWorkSpace s) (STRam s)
    (IoMem_ff8609 s) (IoMem_ff860b s) (IoMem_ff860d s) (MFP_GPIP s) (MFP_FDCHDC_Inputs s)
    (FDC_Timer s) v (rand_calls s) (Disks s).
Definition set_rand_calls v (s : State) : State :=
  mkState (FDC s) (FDC_DMA s) (FDC_DRIVES s) (DMADiskWorkSpace s) (STRam s)
    (IoMem_ff8609 s) (IoMem_ff860b s) (IoMem_ff860d s) (MFP_GPIP s) (MFP_FDCHDC_Inputs s)
    (FDC_Timer s) (CyclesGlobalClockCounter s) v (Disks s).
Definition set_Disks v (s : State) : State :=
  mkState (FDC s) (FDC_DMA s) (FDC_DRIVES s) (DMADiskWorkSpace s) (STRam s)
    (IoMem_ff8609 s) (IoMem_ff860b s) (IoMem_ff860d s) (MFP_GPIP s) (MFP_FDCHDC_Inputs s)
    (FDC_Timer s) (CyclesGlobalClockCounter s) (rand_calls s) v.

(** [FDC_DRIVES[i]] and [FDC_DRIVES[i].field = ...] *)
Definition drive (i : Z) (s : State) : FDC_DRIVE_STRUCT := rd no_drive (FDC_DRIVES s) i.
Definition updDrive (i : Z) (g : FDC_DRIVE_STRUCT -> FDC_DRIVE_STRUCT) (s : State) : State :=
  set_FDC_DRIVES (wr (FDC_DRIVES s) i (g (drive i s))) s.

(** [FDC_DRIVES[FDC.DriveSelSignal]] *)
Definition seldrive (s : State) : FDC_DRIVE_STRUCT := drive (DriveSelSignal (FDC s)) s.
Definition updSeldrive (g : FDC_DRIVE_STRUCT -> FDC_DRIVE_STRUCT) (s : State) : State :=
  updDrive (DriveSelSignal (FDC s)) g s.

(** ** Delays and timer *)

(** [(Uint32) (((Uint64) FDC_CLOCK_STANDARD * Delay_micro) / 1000000)] *)
Definition FDC_DelayToFdcCycles (Delay_micro : Z) : Z :=
  u32 (Z.quot (8000000 * Delay_micro) 1000000).

(** [FDC_StepRate_ms[ FDC_STEP_RATE ] * 1000] converted by [FDC_DelayToFdcCycles] *)
Definition FDC_STEP_RATE (s : State) : Z := Z.land (CR (FDC s)) 0x03.
Definition FDC_StepDelay (s : State) : Z :=
  FDC_DelayToFdcCycles (rd 0 FDC_StepRate_ms (FDC_STEP_RATE s) * 1000).

(** [CycInt_AddRelativeInterruptWithOffset] arms the one-shot FDC timer. *)
Definition FDC_StartTimer_FdcCycles (FdcCycles InternalCycleOffset : Z) (s : State) : State :=
  let FdcCycles :=
    if FastFloppy && (FDC_FAST_FDC_FACTOR <? FdcCycles)
    then Z.quot FdcCycles FDC_FAST_FDC_FACTOR else FdcCycles in
  set_FDC_Timer (Some (FDC_FdcCyclesToCpuCycles FdcCycles, InternalCycleOffset)) s.

Definition FDC_TransferByte_FdcCycles (NbBytes : Z) (s : State) : Z :=
  Z.quot (NbBytes * FDC_DELAY_CYCLE_MFM_BYTE) (Density (seldrive s)).

(** ** Init and reset *)

Definition FDC_Init_drive (d : FDC_DRIVE_STRUCT) : FDC_DRIVE_STRUCT :=
  mkDrive true false (300 * 1000) FDC_DENSITY_FACTOR_DD 0 0.

Definition FDC_Init (s : State) : State :=
  set_FDC_DRIVES (map FDC_Init_drive (FDC_DRIVES s)) s.

(** [HDC_ResetCommandStatus] belongs to hdc.c and touches nothing here. *)
Definition FDC_ResetDMA (s : State) : State :=
  updDMA (fun d =>
    set_BytesToTransfer 0 (set_PosInBufferTransfer 0 (set_PosInBuffer 0
      (set_SectorCount 0 (set_BytesInSector FDC_DMA_SECTOR_SIZE (set_FIFO_Size 0 d)))))) s.

(** [IPF_Reset] belongs to floppy_ipf.c. *)
Definition FDC_Reset (bCold : bool) (s : State) : State :=
  let s := updFDC (fun f => set_StatusTypeI false (set_SR 1 (set_STR 0 (set_CR 0 f)))) s in
  let s := if bCold
           then updDMA (set_ff8604_recent_val 0) (updFDC (fun f => set_DR 0 (set_TR 0 f)) s)
           else s in
  let s := updFDC (fun f =>
             set_IndexPulse_Counter 0 (set_InterruptCond 0 (set_CommandType 0
               (set_CommandState FDCEMU_RUN_NULL (set_Command FDCEMU_CMD_NULL
                 (set_StepDirection 1 f)))))) s in
  let s := set_FDC_DRIVES (map (set_IndexPulse_Time 0) (FDC_DRIVES s)) s in
  let s := updDMA (fun d => set_Mode 0 (set_Status 1 d)) s in
  FDC_ResetDMA s.

(** ** DMA status and address *)

Definition FDC_SetDMAStatus (bError : bool) (s : State) : State :=
  if negb bError
  then updDMA (fun d => set_Status (u16 (Z.lor (Status d) 0x1)) d) s
  else updDMA (fun d => set_Status (u16 (Z.land (Status d) (Z.lnot 0x1))) d) s.

Definition FDC_DMA_GetModeControl_R_WR (s : State) : Z := Z.land (Mode (FDC_DMA s)) 0x100.

Definition FDC_GetDMAAddress (s : State) : Z :=
  Z.lor (Z.lor (Z.shiftl (IoMem_ff8609 s) 16) (Z.shiftl (IoMem_ff860b s) 8)) (IoMem_ff860d s).

Definition FDC_WriteDMAAddress (Address : Z) (s : State) : State :=
  let Address := u32 Address in
  let Address := if machine_limited_4MB nMachineType then Z.land Address 0x3fffff else Address in
  let Address := Z.land Address 0xfffffffe in
  set_IoMem_ff860d (u8 Address)
    (set_IoMem_ff860b (u8 (Z.shiftr Address 8))
      (set_IoMem_ff8609 (u8 (Z.shiftr Address 16)) s)).

(** The I/O layer of the emulator (ioMem.c) stores the byte the CPU writes
    in [IoMem] and then calls the handler of the address with
    [IoAccessCurrentAddress] set. *)
Definition IoMem_WriteByte (addr v : Z) (s : State) : State :=
  if addr =? 0xff8609 then set_IoMem_ff8609 (u8 v) s
  else if addr =? 0xff860b then set_IoMem_ff860b (u8 v) s
  else if addr =? 0xff860d then set_IoMem_ff860d (u8 v) s
  else s.

Definition FDC_DmaAddress_WriteByte (IoAccessCurrentAddress : Z) (s : State) : State :=
  let s := if (IoAccessCurrentAddress =? 0xff8609) && machine_limited_4MB nMachineType
           then set_IoMem_ff8609 (Z.land (IoMem_ff8609 s) 0x3f) s else s in
  if IoAccessCurrentAddress =? 0xff860d
  then set_IoMem_ff860d (Z.land (IoMem_ff860d s) 0xfe) s else s.

(** A CPU byte write at $ff8609/0b/0d *)
Definition DmaAddress_bput (addr v : Z) (s : State) : State :=
  FDC_DmaAddress_WriteByte addr (IoMem_WriteByte addr v s).

(** ** The DMA FIFO *)

(** Sector count bookkeeping after a 16 byte block, common to push and pull *)
Definition FDC_DMA_block_done (d : FDC_DMA_STRUCT) : FDC_DMA_STRUCT :=
  let d := set_ff8604_recent_val
             (u16 (Z.lor (Z.shiftl (rd 0 (FIFO d) (FDC_DMA_FIFO_SIZE - 2)) 8)
                         (rd 0 (FIFO d) (FDC_DMA_FIFO_SIZE - 1)))) d in
  let d := set_BytesInSector (u16 (BytesInSector d - FDC_DMA_FIFO_SIZE)) d in
  if BytesInSector d <=? 0
  then set_BytesInSector FDC_DMA_SECTOR_SIZE (set_SectorCount (u16 (SectorCount d - 1)) d)
  else d.

Definition FDC_DMA_FIFO_Push (Byte : Z) (s : State) : State :=
  let s := updDMA (fun d =>
             set_ff8604_recent_val (u16 (Z.lor (Z.land (ff8604_recent_val d) 0xff00) Byte)) d) s in
  if SectorCount (FDC_DMA s) =? 0 then FDC_SetDMAStatus true s
  else
    let s := FDC_SetDMAStatus false s in
    let s := updDMA (fun d =>
               set_FIFO_Size (FIFO_Size d + 1) (set_FIFO (wr (FIFO d) (FIFO_Size d) Byte) d)) s in
    if FIFO_Size (FDC_DMA s) <? FDC_DMA_FIFO_SIZE then s
    else
      let Address := FDC_GetDMAAddress s in
      let s := set_STRam (STMemory_SafeCopy (STRam s) Address (FIFO (FDC_DMA s))) s in
      let s := FDC_WriteDMAAddress (Address + FDC_DMA_FIFO_SIZE) s in
      let s := updDMA (set_FIFO_Size 0) s in
      updDMA FDC_DMA_block_done s.

(** [memcpy (FDC_DMA.FIFO, &STRam[Address], FDC_DMA_FIFO_SIZE)] *)
Definition STRam_block (m : Z -> Z) (Address : Z) : list Z :=
  map (fun k => m (Address + Z.of_nat k)) (seq 0 (Z.to_nat FDC_DMA_FIFO_SIZE)).

Definition FDC_DMA_FIFO_Pull (s : State) : State * Z :=
  if SectorCount (FDC_DMA s) =? 0 then (FDC_SetDMAStatus true s, 0)
  else
    let s := FDC_SetDMAStatus false s in
    let '(s, Byte) :=
      if 0 <? FIFO_Size (FDC_DMA s)
      then
        let Byte := rd 0 (FIFO (FDC_DMA s)) (FDC_DMA_FIFO_SIZE - FIFO_Size (FDC_DMA s)) in
        (updDMA (fun d => set_FIFO_Size (FIFO_Size d - 1) d) s, Byte)
      else
        let Address := FDC_GetDMAAddress s in
        let s := updDMA (set_FIFO (STRam_block (STRam s) Address)) s in
        let s := FDC_WriteDMAAddress (Address + FDC_DMA_FIFO_SIZE) s in
        let s := updDMA (set_FIFO_Size (FDC_DMA_FIFO_SIZE - 1)) s in
        let s := updDMA FDC_DMA_block_done s in
        (s, rd 0 (FIFO (FDC_DMA s)) 0) in
    (updDMA (fun d =>
       set_ff8604_recent_val (u16 (Z.lor (Z.land (ff8604_recent_val d) 0xff00) Byte)) d) s,
     Byte).

(** ** Status register, interrupt line *)

(** [FDC_SetDriveLedBusy] only drives the status bar. *)
Definition STR_update (DisableBits EnableBits str : Z) : Z :=
  let str := u8 (Z.land str (Z.lnot DisableBits)) in
  u8 (Z.lor str EnableBits).

Definition FDC_Update_STR (DisableBits EnableBits : Z) (s : State) : State :=
  updFDC (fun f => set_STR (STR_update DisableBits EnableBits (STR f)) f) s.

Definition FDC_SetIRQ (s : State) : State :=
  set_MFP_GPIP (u8 (Z.land (MFP_GPIP s) (Z.lnot 0x20)))
    (set_MFP_FDCHDC_Inputs (S (MFP_FDCHDC_Inputs s)) s).

Definition FDC_ClearIRQ (s : State) : State :=
  if Z.land (InterruptCond (FDC s)) FDC_INTERRUPT_COND_IMMEDIATE =? 0
  then set_MFP_GPIP (u8 (Z.lor (MFP_GPIP s) 0x20)) s
  else s.

(** The FDC interrupt line is asserted when bit 5 of GPIP is 0. *)
Definition FDC_IRQ_asserted (s : State) : bool := negb (Z.testbit (MFP_GPIP s) 5).

Definition FDC_GetCmdType (CR : Z) : Z :=
  if Z.land CR 0x80 =? 0 then 1
  else if Z.land CR 0x40 =? 0 then 2
  else if negb (Z.land CR 0xf0 =? 0xd0) then 3
  else 4.

Definition FDC_CmdCompleteCommon (DoInt : bool) (s : State) : State * Z :=
  let s := FDC_Update_STR FDC_STR_BIT_BUSY 0 s in
  let s := if DoInt then FDC_SetIRQ s else s in
  let s := updFDC (fun f =>
             set_CommandState FDCEMU_RUN_MOTOR_STOP (set_Command FDCEMU_CMD_MOTOR_STOP f)) s in
  (s, FDC_DELAY_CYCLE_COMMAND_IMMEDIATE).

(** ** Floppy geometry *)

Definition FDC_GetSectorsPerTrack (Drive Track Side : Z) (s : State) : Z :=
  if EmulationDrives_bDiskInserted (Disks s) Drive
  then u16 (fst (Floppy_FindDiskDetails (Disks s) Drive))
  else 0.

Definition FDC_GetSidesPerDisk (Drive Track : Z) (s : State) : Z :=
  if EmulationDrives_bDiskInserted (Disks s) Drive
  then u16 (snd (Floppy_FindDiskDetails (Disks s) Drive))
  else 0.

Definition FDC_GetDensity (Drive : Z) (s : State) : Z :=
  if EmulationDrives_bDiskInserted (Disks s) Drive
  then
    let SectorsPerTrack :=
      FDC_GetSectorsPerTrack Drive (HeadTrack (drive Drive s)) (SideSignal (FDC s)) s in
    if 36 <=? SectorsPerTrack then FDC_DENSITY_FACTOR_ED
    else if 18 <=? SectorsPerTrack then FDC_DENSITY_FACTOR_HD
    else FDC_DENSITY_FACTOR_DD
  else FDC_DENSITY_FACTOR_DD.

Definition FDC_GetBytesPerTrack (Drive : Z) (s : State) : Z :=
  FDC_TRACK_BYTES_STANDARD * Density (drive Drive s).

Definition FDC_GetCyclesPerRev_FdcCycles (Drive : Z) (s : State) : Z :=
  let FdcCyclesPerRev :=
    u32 (Z.quot (MachineClocks_FDC_Freq * 1000) (Z.quot (RPM (drive Drive s)) 60)) in
  if machine_is_falcon nMachineType then Z.quot FdcCyclesPerRev 2 else FdcCyclesPerRev.

(** ** Angular clock *)

Definition FDC_IndexPulse_Init (Drive : Z) (s : State) : State :=
  let FdcCyclesPerRev := FDC_GetCyclesPerRev_FdcCycles Drive s in
  let r := rand (rand_calls s) in
  let s := set_rand_calls (S (rand_calls s)) s in
  let t := u64 (CyclesGlobalClockCounter s
                - Z.rem (u32 r) (u32 (FDC_FdcCyclesToCpuCycles FdcCyclesPerRev))) in
  let t := if t <=? 0 then 1 else t in
  updDrive Drive (set_IndexPulse_Time t) s.

(** No valid drive or floppy *)
Definition no_drive_floppy (s : State) : bool :=
  (DriveSelSignal (FDC s) <? 0) || negb (Enabled (seldrive s))
  || negb (DiskInserted (seldrive s)).

Definition FDC_IndexPulse_Update (s : State) : State :=
  if Z.land (STR (FDC s)) FDC_STR_BIT_MOTOR_ON =? 0 then s
  else if no_drive_floppy s then s
  else
    let s := if IndexPulse_Time (seldrive s) =? 0
             then FDC_IndexPulse_Init (DriveSelSignal (FDC s)) s else s in
    let FdcCyclesPerRev := FDC_GetCyclesPerRev_FdcCycles (DriveSelSignal (FDC s)) s in
    let rev := u32 (FDC_FdcCyclesToCpuCycles FdcCyclesPerRev) in
    if rev <=? u64 (CyclesGlobalClockCounter s - IndexPulse_Time (seldrive s))
    then
      let s := updSeldrive (fun d => set_IndexPulse_Time (u64 (IndexPulse_Time d + rev)) d) s in
      let s := updFDC (fun f => set_IndexPulse_Counter (IndexPulse_Counter f + 1) f) s in
      if tst (InterruptCond (FDC s)) FDC_INTERRUPT_COND_IP then FDC_SetIRQ s else s
    else s.

Definition FDC_UpdateAll (s : State) : State := FDC_IndexPulse_Update s.

(** Result and the value stored through [pFdcCyclesPerRev] *)
Definition FDC_IndexPulse_GetCurrentPos_FdcCycles (s : State) : Z * Z :=
  if (DriveSelSignal (FDC s) <? 0) || (IndexPulse_Time (seldrive s) =? 0) then (-1, 0)
  else
    let FdcCyclesPerRev := FDC_GetCyclesPerRev_FdcCycles (DriveSelSignal (FDC s)) s in
    let CpuCyclesSinceIndex := u32 (CyclesGlobalClockCounter s - IndexPulse_Time (seldrive s)) in
    (s32 (FDC_CpuCyclesToFdcCycles CpuCyclesSinceIndex), FdcCyclesPerRev).

Definition FDC_IndexPulse_GetCurrentPos_NbBytes (s : State) : Z :=
  let FdcCyclesSinceIndex := fst (FDC_IndexPulse_GetCurrentPos_FdcCycles s) in
  if FdcCyclesSinceIndex <? 0 then -1
  else Z.quot (FdcCyclesSinceIndex * Density (seldrive s)) FDC_DELAY_CYCLE_MFM_BYTE.

Definition FDC_IndexPulse_GetState (s : State) : Z :=
  let FdcCyclesSinceIndex := fst (FDC_IndexPulse_GetCurrentPos_FdcCycles s) in
  if (0 <=? FdcCyclesSinceIndex)
     && (u32 FdcCyclesSinceIndex <? FDC_DelayToFdcCycles FDC_DELAY_US_INDEX_PULSE_LENGTH)
  then 1 else 0.

Definition FDC_NextIndexPulse_FdcCycles (s : State) : Z :=
  let '(FdcCyclesSinceIndex, FdcCyclesPerRev) := FDC_IndexPulse_GetCurrentPos_FdcCycles s in
  if FdcCyclesSinceIndex <? 0 then -1
  else
    let res := s32 (FdcCyclesPerRev - FdcCyclesSinceIndex) in
    if res <=? 1 then s32 FdcCyclesPerRev else res.

(** The [for] loop of [FDC_NextSectorID_NbBytes]: values of [i] and
    [TrackPos] when it stops *)
Fixpoint NextSectorID_scan (fuel : nat) (CurrentPos MaxSector i TrackPos : Z) : Z * Z :=
  match fuel with
  | O => (i, TrackPos)
  | S fuel' =>
      if i <? MaxSector then
        if CurrentPos <? TrackPos then (i, TrackPos)
        else NextSectorID_scan fuel' CurrentPos MaxSector (i + 1)
               (TrackPos + FDC_TRACK_LAYOUT_STANDARD_RAW_SECTOR_512)
      else (i, TrackPos)
  end.

Definition FDC_NextSectorID_NbBytes (s : State) : State * Z :=
  let CurrentPos := FDC_IndexPulse_GetCurrentPos_NbBytes s in
  if CurrentPos <? 0 then (s, -1)
  else
    let MaxSector := FDC_GetSectorsPerTrack (DriveSelSignal (FDC s))
                       (HeadTrack (seldrive s)) (SideSignal (FDC s)) s in
    let TrackPos := FDC_TRACK_LAYOUT_STANDARD_GAP1 + FDC_TRACK_LAYOUT_STANDARD_GAP2 in
    let '(i, TrackPos) :=
      NextSectorID_scan (Z.to_nat MaxSector) CurrentPos MaxSector 0 TrackPos in
    let '(NbBytes, NextSector) :=
      if i =? MaxSector
      then (FDC_GetBytesPerTrack (DriveSelSignal (FDC s)) s - CurrentPos
            + FDC_TRACK_LAYOUT_STANDARD_GAP1 + FDC_TRACK_LAYOUT_STANDARD_GAP2, 1)
      else (TrackPos - CurrentPos, i + 1) in
    (updFDC (set_NextSector_ID_Field_SR (u8 NextSector)) s, NbBytes).

(** ** Drive events *)

Definition valid_drive_nr (Drive : Z) : bool := (0 <=? Drive) && (Drive <? MAX_FLOPPYDRIVES).

Definition FDC_EnableDrive (Drive : Z) (value : bool) (s : State) : State :=
  if valid_drive_nr Drive then updDrive Drive (set_Enabled value) s else s.

Definition FDC_InsertFloppy (Drive : Z) (s : State) : State :=
  if valid_drive_nr Drive then
    let s := updDrive Drive (set_DiskInserted true) s in
    let s := if negb (Z.land (STR (FDC s)) FDC_STR_BIT_MOTOR_ON =? 0)
             then FDC_IndexPulse_Init Drive s
             else updDrive Drive (set_IndexPulse_Time 0) s in
    updDrive Drive (set_Density (FDC_GetDensity Drive s)) s
  else s.

Definition FDC_EjectFloppy (Drive : Z) (s : State) : State :=
  if valid_drive_nr Drive
  then updDrive Drive (fun d => set_IndexPulse_Time 0 (set_DiskInserted false d)) s
  else s.

(** [IPF_SetDriveSide] belongs to floppy_ipf.c. *)
Definition FDC_SetDriveSide (io_porta_old io_porta_new : Z) (s : State) : State :=
  if io_porta_old =? io_porta_new then s
  else
    let Side := Z.land (Z.lnot io_porta_new) 0x01 in
    let Drive := -1 in
    let Drive := if Z.land io_porta_new 0x04 =? 0 then 1 else Drive in
    let Drive := if Z.land io_porta_new 0x02 =? 0 then 0 else Drive in
    let s :=
      if negb (DriveSelSignal (FDC s) =? Drive) then
        let s := if 0 <=? DriveSelSignal (FDC s)
                 then updSeldrive (set_IndexPulse_Time 0) s else s in
        if 0 <=? Drive then
          if DiskInserted (drive Drive s)
             && negb (Z.land (STR (FDC s)) FDC_STR_BIT_MOTOR_ON =? 0)
          then FDC_IndexPulse_Init Drive s
          else updDrive Drive (set_IndexPulse_Time 0) s
        else s
      else s in
    updFDC (fun f => set_DriveSelSignal Drive (set_SideSignal Side f)) s.

(** ** Motor *)

Definition FDC_Set_MotorON (FDC_CR : Z) (s : State) : State * bool :=
  let '(s, SpinUp) :=
    if (Z.land FDC_CR FDC_COMMAND_BIT_SPIN_UP =? 0)
       && (Z.land (STR (FDC s)) FDC_STR_BIT_MOTOR_ON =? 0)
    then
      let s := FDC_Update_STR FDC_STR_BIT_SPIN_UP 0 s in
      (updFDC (set_IndexPulse_Counter 0) s, true)
    else (s, false) in
  let s := FDC_Update_STR 0 FDC_STR_BIT_MOTOR_ON s in
  let s := if no_drive_floppy s then s
           else if IndexPulse_Time (seldrive s) =? 0
                then FDC_IndexPulse_Init (DriveSelSignal (FDC s)) s
                else s in
  (s, SpinUp).

Definition FDC_VerifyTrack (s : State) : bool :=
  if no_drive_floppy s then false
  else if negb (HeadTrack (seldrive s) =? TR (FDC s)) then false
  else if (SideSignal (FDC s) =? 1)
          && (FDC_GetSidesPerDisk (DriveSelSignal (FDC s)) (HeadTrack (seldrive s)) s =? 1)
       then false
  else true.

(** ** The command sub-state machines

    Each [case] of a C [switch] is one definition; a [case] that falls
    through into the next one ends with a call of it. *)

Definition set_state (st : FDCEMU_RUN) (s : State) : State := updFDC (set_CommandState st) s.

(** *** Motor stop *)

Definition MotorStop_COMPLETE (s : State) : State * Z :=
  let s := FDC_Update_STR FDC_STR_BIT_MOTOR_ON 0 s in
  (updFDC (set_Command FDCEMU_CMD_NULL) s, 0).

Definition MotorStop_WAIT (s : State) : State * Z :=
  if IndexPulse_Counter (FDC s) <? FDC_DELAY_IP_MOTOR_OFF
  then (s, FDC_DELAY_CYCLE_REFRESH_INDEX_PULSE)
  else MotorStop_COMPLETE s.

Definition FDC_UpdateMotorStop (s : State) : State * Z :=
  match CommandState (FDC s) with
  | FDCEMU_RUN_MOTOR_STOP =>
      MotorStop_WAIT (set_state FDCEMU_RUN_MOTOR_STOP_WAIT (updFDC (set_IndexPulse_Counter 0) s))
  | FDCEMU_RUN_MOTOR_STOP_WAIT => MotorStop_WAIT s
  | FDCEMU_RUN_MOTOR_STOP_COMPLETE => MotorStop_COMPLETE s
  | _ => (s, 0)
  end.

(** *** Parts written three times in the C file (Restore, Seek, Step) *)

(** [case ..._VERIFY] *)
Definition TypeI_VERIFY (head_ok complete : FDCEMU_RUN) (s : State) : State * Z :=
  if tst (CR (FDC s)) FDC_COMMAND_BIT_VERIFY
  then (set_state head_ok s, FDC_DelayToFdcCycles FDC_DELAY_US_HEAD_LOAD)
  else (set_state complete s, FDC_DELAY_CYCLE_COMMAND_COMPLETE).

(** [case ..._VERIFY_NEXT_SECTOR_HEADER] *)
Definition TypeI_VERIFY_NEXT_SECTOR_HEADER (check complete : FDCEMU_RUN) (s : State) : State * Z :=
  if FDC_DELAY_IP_ADDRESS_ID <=? IndexPulse_Counter (FDC s) then
    let s := FDC_Update_STR 0 FDC_STR_BIT_RNF s in
    (set_state complete s, FDC_DELAY_CYCLE_COMMAND_COMPLETE)
  else
    let '(s, NextSectorID_NbBytes) := FDC_NextSectorID_NbBytes s in
    if NextSectorID_NbBytes <? 0 then (s, FDC_DELAY_CYCLE_WAIT_NO_DRIVE_FLOPPY)
    else (set_state check s, FDC_TransferByte_FdcCycles (NextSectorID_NbBytes + 10) s).

(** [case ..._VERIFY_HEAD_OK] *)
Definition TypeI_VERIFY_HEAD_OK (check complete : FDCEMU_RUN) (s : State) : State * Z :=
  TypeI_VERIFY_NEXT_SECTOR_HEADER check complete (updFDC (set_IndexPulse_Counter 0) s).

(** [case ..._VERIFY_CHECK_SECTOR_HEADER] *)
Definition TypeI_VERIFY_CHECK_SECTOR_HEADER (next complete : FDCEMU_RUN) (s : State) : State * Z :=
  if FDC_VerifyTrack s then
    let s := FDC_Update_STR FDC_STR_BIT_RNF 0 s in
    (set_state complete s, FDC_DELAY_CYCLE_COMMAND_COMPLETE)
  else (set_state next s, FDC_DELAY_CYCLE_COMMAND_IMMEDIATE).

(** The first [case] of every type I, II and III command *)
Definition Cmd_START (spin_up no_spin_up : FDCEMU_RUN) (s : State) : State * Z :=
  let '(s, SpinUp) := FDC_Set_MotorON (CR (FDC s)) s in
  if SpinUp then (set_state spin_up s, FDC_DELAY_CYCLE_REFRESH_INDEX_PULSE)
  else (set_state no_spin_up s, FDC_DELAY_CYCLE_COMMAND_IMMEDIATE).

(** An enabled drive is selected *)
Definition drive_enabled (s : State) : bool :=
  (0 <=? DriveSelSignal (FDC s)) && Enabled (seldrive s).

(** *** Restore *)

Definition Restore_LOOP (s : State) : State * Z :=
  (* no [break] after the first [if] *)
  let s := if TR (FDC s) =? 0 then
             let s := FDC_Update_STR 0 FDC_STR_BIT_RNF s in
             let s := FDC_Update_STR FDC_STR_BIT_TR00 0 s in
             fst (FDC_CmdCompleteCommon true s)
           else s in
  if (DriveSelSignal (FDC s) <? 0) || negb (Enabled (seldrive s))
     || negb (HeadTrack (seldrive s) =? 0)
  then
    let s := FDC_Update_STR FDC_STR_BIT_TR00 0 s in
    let s := updFDC (fun f => set_TR (u8 (TR f - 1)) f) s in
    let s := if drive_enabled s
             then updSeldrive (fun d => set_HeadTrack (u8 (HeadTrack d - 1)) d) s else s in
    (s, FDC_StepDelay s)
  else
    let s := FDC_Update_STR 0 FDC_STR_BIT_TR00 s in
    let s := updFDC (set_TR 0) s in
    (set_state FDCEMU_RUN_RESTORE_VERIFY s, FDC_DELAY_CYCLE_COMMAND_IMMEDIATE).

Definition Restore_MOTOR_ON (s : State) : State * Z :=
  let s := FDC_Update_STR 0 FDC_STR_BIT_SPIN_UP s in
  let s := updFDC (fun f => set_TR 0xff (set_ReplaceCommandPossible false f)) s in
  Restore_LOOP (set_state FDCEMU_RUN_RESTORE_SEEKTOTRACKZERO_LOOP s).

Definition Restore_SPIN_UP (s : State) : State * Z :=
  if IndexPulse_Counter (FDC s) <? FDC_DELAY_IP_SPIN_UP
  then (s, FDC_DELAY_CYCLE_REFRESH_INDEX_PULSE)
  else Restore_MOTOR_ON s.

Definition FDC_UpdateRestoreCmd (s : State) : State * Z :=
  match CommandState (FDC s) with
  | FDCEMU_RUN_RESTORE_SEEKTOTRACKZERO =>
      Cmd_START FDCEMU_RUN_RESTORE_SEEKTOTRACKZERO_SPIN_UP
                FDCEMU_RUN_RESTORE_SEEKTOTRACKZERO_MOTOR_ON s
  | FDCEMU_RUN_RESTORE_SEEKTOTRACKZERO_SPIN_UP => Restore_SPIN_UP s
  | FDCEMU_RUN_RESTORE_SEEKTOTRACKZERO_MOTOR_ON => Restore_MOTOR_ON s
  | FDCEMU_RUN_RESTORE_SEEKTOTRACKZERO_LOOP => Restore_LOOP s
  | FDCEMU_RUN_RESTORE_VERIFY =>
      TypeI_VERIFY FDCEMU_RUN_RESTORE_VERIFY_HEAD_OK FDCEMU_RUN_RESTORE_COMPLETE s
  | FDCEMU_RUN_RESTORE_VERIFY_HEAD_OK =>
      TypeI_VERIFY_HEAD_OK FDCEMU_RUN_RESTORE_VERIFY_CHECK_SECTOR_HEADER
                           FDCEMU_RUN_RESTORE_COMPLETE s
  | FDCEMU_RUN_RESTORE_VERIFY_NEXT_SECTOR_HEADER =>
      TypeI_VERIFY_NEXT_SECTOR_HEADER FDCEMU_RUN_RESTORE_VERIFY_CHECK_SECTOR_HEADER
                                      FDCEMU_RUN_RESTORE_COMPLETE s
  | FDCEMU_RUN_RESTORE_VERIFY_CHECK_SECTOR_HEADER =>
      TypeI_VERIFY_CHECK_SECTOR_HEADER FDCEMU_RUN_RESTORE_VERIFY_NEXT_SECTOR_HEADER
                                       FDCEMU_RUN_RESTORE_COMPLETE s
  | FDCEMU_RUN_RESTORE_COMPLETE => FDC_CmdCompleteCommon true s
  | _ => (s, 0)
  end.

(** *** Seek *)

(** [FDC_DRIVES[...].HeadTrack += FDC.StepDirection] unless the head is at
    a physical limit; then TR00 *)
Definition Seek_move_head (s : State) : State * Z :=
  let FdcCycles := FDC_StepDelay s in
  if drive_enabled s then
    let '(s, FdcCycles) :=
      if (HeadTrack (seldrive s) =? FDC_PHYSICAL_MAX_TRACK) && (StepDirection (FDC s) =? 1)
      then (set_state FDCEMU_RUN_SEEK_VERIFY s, FDC_DELAY_CYCLE_COMMAND_IMMEDIATE)
      else if (HeadTrack (seldrive s) =? 0) && (StepDirection (FDC s) =? -1)
      then (set_state FDCEMU_RUN_SEEK_VERIFY (updFDC (set_TR 0) s),
            FDC_DELAY_CYCLE_COMMAND_IMMEDIATE)
      else (updSeldrive (fun d => set_HeadTrack (u8 (HeadTrack d + StepDirection (FDC s))) d) s,
            FdcCycles) in
    let s := if HeadTrack (seldrive s) =? 0 then FDC_Update_STR 0 FDC_STR_BIT_TR00 s else s in
    (s, FdcCycles)
  else (s, FdcCycles).

Definition Seek_MOTOR_ON (s : State) : State * Z :=
  let s := FDC_Update_STR 0 FDC_STR_BIT_SPIN_UP s in
  let s := updFDC (set_ReplaceCommandPossible false) s in
  if TR (FDC s) =? DR (FDC s)
  then (set_state FDCEMU_RUN_SEEK_VERIFY s, FDC_DELAY_CYCLE_COMMAND_IMMEDIATE)
  else
    let s := if DR (FDC s) <? TR (FDC s)
             then updFDC (set_StepDirection (-1)) s
             else updFDC (set_StepDirection 1) s in
    let s := updFDC (fun f => set_TR (u8 (TR f + StepDirection f)) f) s in
    let s := FDC_Update_STR FDC_STR_BIT_TR00 0 s in
    Seek_move_head s.

Definition Seek_SPIN_UP (s : State) : State * Z :=
  if IndexPulse_Counter (FDC s) <? FDC_DELAY_IP_SPIN_UP
  then (s, FDC_DELAY_CYCLE_REFRESH_INDEX_PULSE)
  else Seek_MOTOR_ON s.

Definition FDC_UpdateSeekCmd (s : State) : State * Z :=
  match CommandState (FDC s) with
  | FDCEMU_RUN_SEEK_TOTRACK =>
      Cmd_START FDCEMU_RUN_SEEK_TOTRACK_SPIN_UP FDCEMU_RUN_SEEK_TOTRACK_MOTOR_ON s
  | FDCEMU_RUN_SEEK_TOTRACK_SPIN_UP => Seek_SPIN_UP s
  | FDCEMU_RUN_SEEK_TOTRACK_MOTOR_ON => Seek_MOTOR_ON s
  | FDCEMU_RUN_SEEK_VERIFY =>
      TypeI_VERIFY FDCEMU_RUN_SEEK_VERIFY_HEAD_OK FDCEMU_RUN_SEEK_COMPLETE s
  | FDCEMU_RUN_SEEK_VERIFY_HEAD_OK =>
      TypeI_VERIFY_HEAD_OK FDCEMU_RUN_SEEK_VERIFY_CHECK_SECTOR_HEADER FDCEMU_RUN_SEEK_COMPLETE s
  | FDCEMU_RUN_SEEK_VERIFY_NEXT_SECTOR_HEADER =>
      TypeI_VERIFY_NEXT_SECTOR_HEADER FDCEMU_RUN_SEEK_VERIFY_CHECK_SECTOR_HEADER
                                      FDCEMU_RUN_SEEK_COMPLETE s
  | FDCEMU_RUN_SEEK_VERIFY_CHECK_SECTOR_HEADER =>
      TypeI_VERIFY_CHECK_SECTOR_HEADER FDCEMU_RUN_SEEK_VERIFY_NEXT_SECTOR_HEADER
                                       FDCEMU_RUN_SEEK_COMPLETE s
  | FDCEMU_RUN_SEEK_COMPLETE => FDC_CmdCompleteCommon true s
  | _ => (s, 0)
  end.

(** *** Step, Step-In, Step-Out *)

Definition Step_move_head (s : State) : State * Z :=
  let FdcCycles := FDC_StepDelay s in
  if drive_enabled s then
    let '(s, FdcCycles) :=
      if (HeadTrack (seldrive s) =? FDC_PHYSICAL_MAX_TRACK) && (StepDirection (FDC s) =? 1)
      then (s, FDC_DELAY_CYCLE_COMMAND_IMMEDIATE)
      else if (HeadTrack (seldrive s) =? 0) && (StepDirection (FDC s) =? -1)
      then (s, FDC_DELAY_CYCLE_COMMAND_IMMEDIATE)
      else (updSeldrive (fun d => set_HeadTrack (u8 (HeadTrack d + StepDirection (FDC s))) d) s,
            FdcCycles) in
    let s := if HeadTrack (seldrive s) =? 0 then FDC_Update_STR 0 FDC_STR_BIT_TR00 s else s in
    (s, FdcCycles)
  else (s, FdcCycles).

Definition Step_MOTOR_ON (s : State) : State * Z :=
  let s := FDC_Update_STR 0 FDC_STR_BIT_SPIN_UP s in
  let s := updFDC (set_ReplaceCommandPossible false) s in
  let s := if tst (CR (FDC s)) FDC_COMMAND_BIT_UPDATE_TRACK
           then updFDC (fun f => set_TR (u8 (TR f + StepDirection f)) f) s else s in
  let s := FDC_Update_STR FDC_STR_BIT_TR00 0 s in
  let '(s, FdcCycles) := Step_move_head s in
  (set_state FDCEMU_RUN_STEP_VERIFY s, FdcCycles).

Definition Step_SPIN_UP (s : State) : State * Z :=
  if IndexPulse_Counter (FDC s) <? FDC_DELAY_IP_SPIN_UP
  then (s, FDC_DELAY_CYCLE_REFRESH_INDEX_PULSE)
  else Step_MOTOR_ON s.

Definition FDC_UpdateStepCmd (s : State) : State * Z :=
  match CommandState (FDC s) with
  | FDCEMU_RUN_STEP_ONCE =>
      Cmd_START FDCEMU_RUN_STEP_ONCE_SPIN_UP FDCEMU_RUN_STEP_ONCE_MOTOR_ON s
  | FDCEMU_RUN_STEP_ONCE_SPIN_UP => Step_SPIN_UP s
  | FDCEMU_RUN_STEP_ONCE_MOTOR_ON => Step_MOTOR_ON s
  | FDCEMU_RUN_STEP_VERIFY =>
      TypeI_VERIFY FDCEMU_RUN_STEP_VERIFY_HEAD_OK FDCEMU_RUN_STEP_COMPLETE s
  | FDCEMU_RUN_STEP_VERIFY_HEAD_OK =>
      TypeI_VERIFY_HEAD_OK FDCEMU_RUN_STEP_VERIFY_CHECK_SECTOR_HEADER FDCEMU_RUN_STEP_COMPLETE s
  | FDCEMU_RUN_STEP_VERIFY_NEXT_SECTOR_HEADER =>
      TypeI_VERIFY_NEXT_SECTOR_HEADER FDCEMU_RUN_STEP_VERIFY_CHECK_SECTOR_HEADER
                                      FDCEMU_RUN_STEP_COMPLETE s
  | FDCEMU_RUN_STEP_VERIFY_CHECK_SECTOR_HEADER =>
      TypeI_VERIFY_CHECK_SECTOR_HEADER FDCEMU_RUN_STEP_VERIFY_NEXT_SECTOR_HEADER
                                       FDCEMU_RUN_STEP_COMPLETE s
  | FDCEMU_RUN_STEP_COMPLETE => FDC_CmdCompleteCommon true s
  | _ => (s, 0)
  end.

(** *** Sector access *)

(** [DMADiskWorkSpace[i]] *)
Definition WorkSpace_byte (i : Z) (s : State) : Z := rd 0 (DMADiskWorkSpace s) i.

(** Result: the sector size when the read succeeded.  [buf] is
    [DMADiskWorkSpace] here; a failed read leaves it as it was. *)
Definition FDC_ReadSectorFromFloppy (Drive Sector : Z) (s : State) : State * option Z :=
  match Floppy_ReadSectors (Disks s) Drive Sector (HeadTrack (drive Drive s)) (SideSignal (FDC s)) with
  | Some bytes =>
      (set_DMADiskWorkSpace (store_prefix bytes (DMADiskWorkSpace s)) s,
       Some (Z.of_nat (length bytes)))
  | None => (s, None)
  end.

Definition STRam_sector (m : Z -> Z) (Address : Z) : list Z :=
  map (fun k => m (Address + Z.of_nat k)) (seq 0 (Z.to_nat FDC_DMA_SECTOR_SIZE)).

Definition FDC_WriteSectorToFloppy (Drive DMASectorsCount Sector : Z) (s : State)
  : State * option Z :=
  let '(s, pBuffer) :=
    if 0 <? DMASectorsCount then (s, STRam_sector (STRam s) (FDC_GetDMAAddress s))
    else
      let zeros := repeat 0 (Z.to_nat FDC_DMA_SECTOR_SIZE) in
      (set_DMADiskWorkSpace (store_prefix zeros (DMADiskWorkSpace s)) s, zeros) in
  match Floppy_WriteSectors (Disks s) Drive pBuffer Sector
          (HeadTrack (drive Drive s)) (SideSignal (FDC s)) with
  | Some (disks, SectorSize) => (set_Disks disks s, Some SectorSize)
  | None => (s, None)
  end.

(** [case ..._TRANSFER_LOOP] of the three reading commands *)
Definition Read_TRANSFER_LOOP (done : FDCEMU_RUN) (done_cycles : State -> Z) (s : State)
  : State * Z :=
  let n := BytesToTransfer (FDC_DMA s) in
  let s := updDMA (set_BytesToTransfer (n - 1)) s in
  if 0 <? n then
    let b := WorkSpace_byte (PosInBuffer (FDC_DMA s)) s in
    let s := updDMA (fun d => set_PosInBuffer (PosInBuffer d + 1) d) s in
    let s := FDC_DMA_FIFO_Push b s in
    (s, FDC_TransferByte_FdcCycles 1 s)
  else (set_state done s, done_cycles s).

(** [case ..._NEXT_SECTOR_HEADER] of the two type II commands *)
Definition TypeII_NEXT_SECTOR_HEADER (check rnf : FDCEMU_RUN) (s : State) : State * Z :=
  if FDC_DELAY_IP_ADDRESS_ID <=? IndexPulse_Counter (FDC s)
  then (set_state rnf s, FDC_DELAY_CYCLE_COMMAND_IMMEDIATE)
  else
    let '(s, NextSectorID_NbBytes) := FDC_NextSectorID_NbBytes s in
    if NextSectorID_NbBytes <? 0 then (s, FDC_DELAY_CYCLE_WAIT_NO_DRIVE_FLOPPY)
    else (set_state check s, FDC_TransferByte_FdcCycles (NextSectorID_NbBytes + 7) s).

Definition TypeII_MOTOR_ON (check rnf : FDCEMU_RUN) (s : State) : State * Z :=
  let s := updFDC (fun f => set_IndexPulse_Counter 0 (set_ReplaceCommandPossible false f)) s in
  TypeII_NEXT_SECTOR_HEADER check rnf s.

Definition TypeII_HEAD_LOAD (motor_on check rnf : FDCEMU_RUN) (s : State) : State * Z :=
  if tst (CR (FDC s)) FDC_COMMAND_BIT_HEAD_LOAD
  then (set_state motor_on s, FDC_DelayToFdcCycles FDC_DELAY_US_HEAD_LOAD)
  else TypeII_MOTOR_ON check rnf s.

Definition TypeII_SPIN_UP (motor_on check rnf : FDCEMU_RUN) (s : State) : State * Z :=
  if IndexPulse_Counter (FDC s) <? FDC_DELAY_IP_SPIN_UP
  then (s, FDC_DELAY_CYCLE_REFRESH_INDEX_PULSE)
  else TypeII_HEAD_LOAD motor_on check rnf s.

Definition TypeII_CHECK_SECTOR_HEADER (start next : FDCEMU_RUN) (s : State) : State * Z :=
  if NextSector_ID_Field_SR (FDC s) =? SR (FDC s)
  then (set_state start s,
        FDC_TransferByte_FdcCycles
          (1 + 2 + FDC_TRACK_LAYOUT_STANDARD_GAP3a + FDC_TRACK_LAYOUT_STANDARD_GAP3b + 3 + 1) s)
  else (set_state next s, FDC_DELAY_CYCLE_COMMAND_IMMEDIATE).

Definition TypeII_CRC (again complete : FDCEMU_RUN) (s : State) : State * Z :=
  if tst (CR (FDC s)) FDC_COMMAND_BIT_MULTIPLE_SECTOR
  then (set_state again (updFDC (fun f => set_SR (u8 (SR f + 1)) f) s),
        FDC_DELAY_CYCLE_COMMAND_IMMEDIATE)
  else (set_state complete s, FDC_DELAY_CYCLE_COMMAND_COMPLETE).

Definition TypeII_RNF (s : State) : State * Z :=
  FDC_CmdCompleteCommon true (FDC_Update_STR 0 FDC_STR_BIT_RNF s).

(** *** Read sector(s) *)

Definition ReadSectors_TRANSFER_START (s : State) : State * Z :=
  match FDC_ReadSectorFromFloppy (DriveSelSignal (FDC s)) (SR (FDC s)) s with
  | (s, Some SectorSize) =>
      let s := updDMA (fun d => set_PosInBuffer 0 (set_BytesToTransfer SectorSize d)) s in
      (set_state FDCEMU_RUN_READSECTORS_READDATA_TRANSFER_LOOP s,
       FDC_DELAY_CYCLE_COMMAND_IMMEDIATE)
  | (s, None) => (set_state FDCEMU_RUN_READSECTORS_RNF s, FDC_DELAY_CYCLE_COMMAND_IMMEDIATE)
  end.

Definition FDC_UpdateReadSectorsCmd (s : State) : State * Z :=
  match CommandState (FDC s) with
  | FDCEMU_RUN_READSECTORS_READDATA =>
      Cmd_START FDCEMU_RUN_READSECTORS_READDATA_SPIN_UP
                FDCEMU_RUN_READSECTORS_READDATA_HEAD_LOAD s
  | FDCEMU_RUN_READSECTORS_READDATA_SPIN_UP =>
      TypeII_SPIN_UP FDCEMU_RUN_READSECTORS_READDATA_MOTOR_ON
        FDCEMU_RUN_READSECTORS_READDATA_CHECK_SECTOR_HEADER FDCEMU_RUN_READSECTORS_RNF s
  | FDCEMU_RUN_READSECTORS_READDATA_HEAD_LOAD =>
      TypeII_HEAD_LOAD FDCEMU_RUN_READSECTORS_READDATA_MOTOR_ON
        FDCEMU_RUN_READSECTORS_READDATA_CHECK_SECTOR_HEADER FDCEMU_RUN_READSECTORS_RNF s
  | FDCEMU_RUN_READSECTORS_READDATA_MOTOR_ON =>
      TypeII_MOTOR_ON FDCEMU_RUN_READSECTORS_READDATA_CHECK_SECTOR_HEADER
        FDCEMU_RUN_READSECTORS_RNF s
  | FDCEMU_RUN_READSECTORS_READDATA_NEXT_SECTOR_HEADER =>
      TypeII_NEXT_SECTOR_HEADER FDCEMU_RUN_READSECTORS_READDATA_CHECK_SECTOR_HEADER
        FDCEMU_RUN_READSECTORS_RNF s
  | FDCEMU_RUN_READSECTORS_READDATA_CHECK_SECTOR_HEADER =>
      TypeII_CHECK_SECTOR_HEADER FDCEMU_RUN_READSECTORS_READDATA_TRANSFER_START
        FDCEMU_RUN_READSECTORS_READDATA_NEXT_SECTOR_HEADER s
  | FDCEMU_RUN_READSECTORS_READDATA_TRANSFER_START => ReadSectors_TRANSFER_START s
  | FDCEMU_RUN_READSECTORS_READDATA_TRANSFER_LOOP =>
      Read_TRANSFER_LOOP FDCEMU_RUN_READSECTORS_CRC (FDC_TransferByte_FdcCycles 2) s
  | FDCEMU_RUN_READSECTORS_CRC =>
      TypeII_CRC FDCEMU_RUN_READSECTORS_READDATA FDCEMU_RUN_READSECTORS_COMPLETE s
  | FDCEMU_RUN_READSECTORS_RNF => TypeII_RNF s
  | FDCEMU_RUN_READSECTORS_COMPLETE => FDC_CmdCompleteCommon true s
  | _ => (s, 0)
  end.

(** *** Write sector(s) *)

Definition WriteSectors_TRANSFER_START (s : State) : State * Z :=
  match FDC_WriteSectorToFloppy (DriveSelSignal (FDC s)) (SectorCount (FDC_DMA s))
          (SR (FDC s)) s with
  | (s, Some SectorSize) =>
      let s := updDMA (fun d => set_PosInBuffer 0 (set_BytesToTransfer SectorSize d)) s in
      (set_state FDCEMU_RUN_WRITESECTORS_WRITEDATA_TRANSFER_LOOP s,
       FDC_DELAY_CYCLE_COMMAND_IMMEDIATE)
  | (s, None) => (set_state FDCEMU_RUN_WRITESECTORS_RNF s, FDC_DELAY_CYCLE_COMMAND_IMMEDIATE)
  end.

Definition WriteSectors_TRANSFER_LOOP (s : State) : State * Z :=
  let n := BytesToTransfer (FDC_DMA s) in
  let s := updDMA (set_BytesToTransfer (n - 1)) s in
  if 0 <? n then
    let s := fst (FDC_DMA_FIFO_Pull s) in
    (s, FDC_TransferByte_FdcCycles 1 s)
  else (set_state FDCEMU_RUN_WRITESECTORS_CRC s, FDC_TransferByte_FdcCycles 2 s).

Definition FDC_UpdateWriteSectorsCmd (s : State) : State * Z :=
  (* the write protection is looked at on every call *)
  let '(s, FdcCycles) :=
    if (0 <=? DriveSelSignal (FDC s)) && Enabled (seldrive s) && DiskInserted (seldrive s)
       && Floppy_IsWriteProtected (Disks s) (DriveSelSignal (FDC s))
    then FDC_CmdCompleteCommon true (FDC_Update_STR 0 FDC_STR_BIT_WPRT s)
    else (FDC_Update_STR FDC_STR_BIT_WPRT 0 s, 0) in
  match CommandState (FDC s) with
  | FDCEMU_RUN_WRITESECTORS_WRITEDATA =>
      Cmd_START FDCEMU_RUN_WRITESECTORS_WRITEDATA_SPIN_UP
                FDCEMU_RUN_WRITESECTORS_WRITEDATA_HEAD_LOAD s
  | FDCEMU_RUN_WRITESECTORS_WRITEDATA_SPIN_UP =>
      TypeII_SPIN_UP FDCEMU_RUN_WRITESECTORS_WRITEDATA_MOTOR_ON
        FDCEMU_RUN_WRITESECTORS_WRITEDATA_CHECK_SECTOR_HEADER FDCEMU_RUN_WRITESECTORS_RNF s
  | FDCEMU_RUN_WRITESECTORS_WRITEDATA_HEAD_LOAD =>
      TypeII_HEAD_LOAD FDCEMU_RUN_WRITESECTORS_WRITEDATA_MOTOR_ON
        FDCEMU_RUN_WRITESECTORS_WRITEDATA_CHECK_SECTOR_HEADER FDCEMU_RUN_WRITESECTORS_RNF s
  | FDCEMU_RUN_WRITESECTORS_WRITEDATA_MOTOR_ON =>
      TypeII_MOTOR_ON FDCEMU_RUN_WRITESECTORS_WRITEDATA_CHECK_SECTOR_HEADER
        FDCEMU_RUN_WRITESECTORS_RNF s
  | FDCEMU_RUN_WRITESECTORS_WRITEDATA_NEXT_SECTOR_HEADER =>
      TypeII_NEXT_SECTOR_HEADER FDCEMU_RUN_WRITESECTORS_WRITEDATA_CHECK_SECTOR_HEADER
        FDCEMU_RUN_WRITESECTORS_RNF s
  | FDCEMU_RUN_WRITESECTORS_WRITEDATA_CHECK_SECTOR_HEADER =>
      TypeII_CHECK_SECTOR_HEADER FDCEMU_RUN_WRITESECTORS_WRITEDATA_TRANSFER_START
        FDCEMU_RUN_WRITESECTORS_WRITEDATA_NEXT_SECTOR_HEADER s
  | FDCEMU_RUN_WRITESECTORS_WRITEDATA_TRANSFER_START => WriteSectors_TRANSFER_START s
  | FDCEMU_RUN_WRITESECTORS_WRITEDATA_TRANSFER_LOOP => WriteSectors_TRANSFER_LOOP s
  | FDCEMU_RUN_WRITESECTORS_CRC =>
      TypeII_CRC FDCEMU_RUN_WRITESECTORS_WRITEDATA FDCEMU_RUN_WRITESECTORS_COMPLETE s
  | FDCEMU_RUN_WRITESECTORS_RNF => TypeII_RNF s
  | FDCEMU_RUN_WRITESECTORS_COMPLETE => FDC_CmdCompleteCommon true s
  | _ => (s, FdcCycles)
  end.

(** *** Read address *)

Definition ReadAddress_MOTOR_ON (s : State) : State * Z :=
  let '(s, NextSectorID_NbBytes) := FDC_NextSectorID_NbBytes s in
  if NextSectorID_NbBytes <? 0 then (s, FDC_DELAY_CYCLE_WAIT_NO_DRIVE_FLOPPY)
  else (set_state FDCEMU_RUN_READADDRESS_TRANSFER_START s,
        FDC_TransferByte_FdcCycles (NextSectorID_NbBytes + 4) s).

Definition ReadAddress_HEAD_LOAD (s : State) : State * Z :=
  let s := updFDC (set_ReplaceCommandPossible false) s in
  if tst (CR (FDC s)) FDC_COMMAND_BIT_HEAD_LOAD
  then (set_state FDCEMU_RUN_READADDRESS_MOTOR_ON s, FDC_DelayToFdcCycles FDC_DELAY_US_HEAD_LOAD)
  else ReadAddress_MOTOR_ON s.

Definition ReadAddress_SPIN_UP (s : State) : State * Z :=
  if IndexPulse_Counter (FDC s) <? FDC_DELAY_IP_SPIN_UP
  then (s, FDC_DELAY_CYCLE_REFRESH_INDEX_PULSE)
  else ReadAddress_HEAD_LOAD s.

(** The ID field with its sync bytes and its CRC *)
Definition ID_Field (Track Side Sector : Z) : list Z :=
  let hd := [0xa1; 0xa1; 0xa1; 0xfe; Track; Side; Sector; FDC_SECTOR_SIZE_512] in
  let CRC := u16 (crc16 hd) in
  hd ++ [u8 (Z.shiftr CRC 8); Z.land CRC 0xff].

Definition ReadAddress_TRANSFER_START (s : State) : State * Z :=
  let id := ID_Field (HeadTrack (seldrive s)) (SideSignal (FDC s))
                     (NextSector_ID_Field_SR (FDC s)) in
  let s := set_DMADiskWorkSpace (store_prefix id (DMADiskWorkSpace s)) s in
  let s := updFDC (set_SR (HeadTrack (seldrive s))) s in
  let s := updDMA (fun d => set_PosInBuffer 4 (set_BytesToTransfer 6 d)) s in
  (set_state FDCEMU_RUN_READADDRESS_TRANSFER_LOOP s, FDC_DELAY_CYCLE_COMMAND_IMMEDIATE).

Definition FDC_UpdateReadAddressCmd (s : State) : State * Z :=
  match CommandState (FDC s) with
  | FDCEMU_RUN_READADDRESS =>
      Cmd_START FDCEMU_RUN_READADDRESS_SPIN_UP FDCEMU_RUN_READADDRESS_HEAD_LOAD s
  | FDCEMU_RUN_READADDRESS_SPIN_UP => ReadAddress_SPIN_UP s
  | FDCEMU_RUN_READADDRESS_HEAD_LOAD => ReadAddress_HEAD_LOAD s
  | FDCEMU_RUN_READADDRESS_MOTOR_ON => ReadAddress_MOTOR_ON s
  | FDCEMU_RUN_READADDRESS_TRANSFER_START => ReadAddress_TRANSFER_START s
  | FDCEMU_RUN_READADDRESS_TRANSFER_LOOP =>
      Read_TRANSFER_LOOP FDCEMU_RUN_READADDRESS_COMPLETE
        (fun _ => FDC_DELAY_CYCLE_COMMAND_COMPLETE) s
  | FDCEMU_RUN_READADDRESS_COMPLETE => FDC_CmdCompleteCommon true s
  | _ => (s, 0)
  end.

(** *** Read track *)

(** [len] bytes of the work buffer from position [pos] on *)
Definition WorkSpace_slice (pos len : Z) (s : State) : list Z :=
  map (fun k => WorkSpace_byte (pos + Z.of_nat k) s) (seq 0 (Z.to_nat len)).

Definition CRC_bytes (l : list Z) : list Z :=
  let CRC := u16 (crc16 l) in [u8 (Z.shiftr CRC 8); Z.land CRC 0xff].

(** One round of the [for ( Sector=1 ; ... )] loop of the [_INDEX] case:
    [track] is what was written so far from the start of the work buffer,
    [SectorSize] the local variable of that name.  When the sector can not
    be read the C code skips [SectorSize] bytes of the buffer. *)
Definition ReadTrack_sector (s : State) (Sector : Z) (acc : list Z * Z) : list Z * Z :=
  let '(track, SectorSize) := acc in
  let track := track ++ repeat 0x00 (Z.to_nat FDC_TRACK_LAYOUT_STANDARD_GAP2) in
  let track := track ++ ID_Field (HeadTrack (seldrive s)) (SideSignal (FDC s)) (u8 Sector) in
  let track := track ++ repeat 0x4e (Z.to_nat FDC_TRACK_LAYOUT_STANDARD_GAP3a) in
  let track := track ++ repeat 0x00 (Z.to_nat FDC_TRACK_LAYOUT_STANDARD_GAP3b) in
  let dam := [0xa1; 0xa1; 0xa1; 0xfb] in
  let track := track ++ dam in
  let '(data, SectorSize) :=
    match Floppy_ReadSectors (Disks s) (DriveSelSignal (FDC s)) (u8 Sector)
            (HeadTrack (seldrive s)) (SideSignal (FDC s)) with
    | Some bytes => (bytes, Z.of_nat (length bytes))
    | None => (WorkSpace_slice (Z.of_nat (length track)) SectorSize s, SectorSize)
    end in
  let track := track ++ data ++ CRC_bytes (dam ++ data) in
  (track ++ repeat 0x4e (Z.to_nat FDC_TRACK_LAYOUT_STANDARD_GAP4), SectorSize).

Fixpoint ReadTrack_sectors (s : State) (n : nat) (Sector : Z) (acc : list Z * Z) : list Z * Z :=
  match n with
  | O => acc
  | S n' => ReadTrack_sectors s n' (Sector + 1) (ReadTrack_sector s Sector acc)
  end.

(** The [_INDEX] case.  [SectorSize] is not initialised in the C code; it
    is taken as 0 before the first sector is read. *)
Definition ReadTrack_INDEX (s : State) : State * Z :=
  let Drive := DriveSelSignal (FDC s) in
  let BytesPerTrack := FDC_GetBytesPerTrack Drive s in
  let s :=
    if (SideSignal (FDC s) =? 1)
       && negb (FDC_GetSidesPerDisk Drive (HeadTrack (seldrive s)) s =? 2)
    then
      let n := Z.to_nat BytesPerTrack in
      let bytes := map (fun k => Z.land (rand (rand_calls s + k)%nat) 0xff) (seq 0 n) in
      set_rand_calls (rand_calls s + n)%nat
        (set_DMADiskWorkSpace (store_prefix bytes (DMADiskWorkSpace s)) s)
    else
      let gap1 := repeat 0x4e (Z.to_nat FDC_TRACK_LAYOUT_STANDARD_GAP1) in
      let nsect := FDC_GetSectorsPerTrack Drive (HeadTrack (seldrive s)) (SideSignal (FDC s)) s in
      let track := fst (ReadTrack_sectors s (Z.to_nat nsect) 1 (gap1, 0)) in
      let track := track ++ repeat 0x4e (Z.to_nat (BytesPerTrack - Z.of_nat (length track))) in
      set_DMADiskWorkSpace (store_prefix track (DMADiskWorkSpace s)) s in
  let s := updDMA (fun d => set_PosInBuffer 0 (set_BytesToTransfer BytesPerTrack d)) s in
  (set_state FDCEMU_RUN_READTRACK_TRANSFER_LOOP s, FDC_DELAY_CYCLE_COMMAND_IMMEDIATE).

Definition ReadTrack_MOTOR_ON (s : State) : State * Z :=
  let FdcCycles := FDC_NextIndexPulse_FdcCycles s in
  if FdcCycles <? 0 then (s, FDC_DELAY_CYCLE_WAIT_NO_DRIVE_FLOPPY)
  else (set_state FDCEMU_RUN_READTRACK_INDEX s, FdcCycles).

Definition ReadTrack_HEAD_LOAD (s : State) : State * Z :=
  let s := updFDC (set_ReplaceCommandPossible false) s in
  if tst (CR (FDC s)) FDC_COMMAND_BIT_HEAD_LOAD
  then (set_state FDCEMU_RUN_READTRACK_MOTOR_ON s, FDC_DelayToFdcCycles FDC_DELAY_US_HEAD_LOAD)
  else ReadTrack_MOTOR_ON s.

Definition ReadTrack_SPIN_UP (s : State) : State * Z :=
  if IndexPulse_Counter (FDC s) <? FDC_DELAY_IP_SPIN_UP
  then (s, FDC_DELAY_CYCLE_REFRESH_INDEX_PULSE)
  else ReadTrack_HEAD_LOAD s.

Definition FDC_UpdateReadTrackCmd (s : State) : State * Z :=
  match CommandState (FDC s) with
  | FDCEMU_RUN_READTRACK =>
      Cmd_START FDCEMU_RUN_READTRACK_SPIN_UP FDCEMU_RUN_READTRACK_HEAD_LOAD s
  | FDCEMU_RUN_READTRACK_SPIN_UP => ReadTrack_SPIN_UP s
  | FDCEMU_RUN_READTRACK_HEAD_LOAD => ReadTrack_HEAD_LOAD s
  | FDCEMU_RUN_READTRACK_MOTOR_ON => ReadTrack_MOTOR_ON s
  | FDCEMU_RUN_READTRACK_INDEX => ReadTrack_INDEX s
  | FDCEMU_RUN_READTRACK_TRANSFER_LOOP =>
      Read_TRANSFER_LOOP FDCEMU_RUN_READTRACK_COMPLETE
        (fun _ => FDC_DELAY_CYCLE_COMMAND_COMPLETE) s
  | FDCEMU_RUN_READTRACK_COMPLETE => FDC_CmdCompleteCommon true s
  | _ => (s, 0)
  end.

(** ** The timer handler *)

(** The [switch (FDC.Command)] of the handler; a command without a [case]
    leaves [FdcCycles] as it was. *)
Definition FDC_Update_dispatch (FdcCycles : Z) (s : State) : State * Z :=
  match Command (FDC s) with
  | FDCEMU_CMD_RESTORE => FDC_UpdateRestoreCmd s
  | FDCEMU_CMD_SEEK => FDC_UpdateSeekCmd s
  | FDCEMU_CMD_STEP => FDC_UpdateStepCmd s
  | FDCEMU_CMD_READSECTORS => FDC_UpdateReadSectorsCmd s
  | FDCEMU_CMD_WRITESECTORS => FDC_UpdateWriteSectorsCmd s
  | FDCEMU_CMD_READADDRESS => FDC_UpdateReadAddressCmd s
  | FDCEMU_CMD_READTRACK => FDC_UpdateReadTrackCmd s
  | FDCEMU_CMD_MOTOR_STOP => FDC_UpdateMotorStop s
  | FDCEMU_CMD_NULL | FDCEMU_CMD_WRITETRACK => (s, FdcCycles)
  end.

(** One round of the [do ... while] loop *)
Definition FDC_Update_round (FdcCycles : Z) (s : State) : State * Z :=
  FDC_Update_dispatch FdcCycles (FDC_UpdateAll s).

(** The loop runs as long as a command is active and asks for no delay;
    [None] when [fuel] rounds were not enough. *)
Fixpoint FDC_Update_loop (fuel : nat) (FdcCycles : Z) (s : State) : option (State * Z) :=
  match fuel with
  | O => None
  | S fuel' =>
      let '(s, FdcCycles) := FDC_Update_round FdcCycles s in
      if negb (cmd_is_null (Command (FDC s))) && (FdcCycles =? 0)
      then FDC_Update_loop fuel' FdcCycles s
      else Some (s, FdcCycles)
  end.

(** [CycInt_AcknowledgeInterrupt] disarms the timer. *)
Definition FDC_InterruptHandler_Update (fuel : nat) (PendingInterruptCount : Z) (s : State)
  : option State :=
  let PendingCyclesOver := - PendingInterruptCount in
  let s := set_FDC_Timer None s in
  match FDC_Update_loop fuel 0 s with
  | None => None
  | Some (s, FdcCycles) =>
      Some (if negb (cmd_is_null (Command (FDC s)))
            then FDC_StartTimer_FdcCycles FdcCycles (- PendingCyclesOver) s
            else s)
  end.

(** ** Starting a command *)

Definition start_cmd (c : FDCEMU_CMD) (st : FDCEMU_RUN) (s : State) : State :=
  updFDC (fun f => set_CommandState st (set_Command c f)) s.

Definition TypeI_STR_clear : Z :=
  Z.lor (Z.lor FDC_STR_BIT_INDEX FDC_STR_BIT_CRC_ERROR) FDC_STR_BIT_RNF.
Definition TypeII_STR_clear : Z :=
  Z.lor (Z.lor (Z.lor (Z.lor FDC_STR_BIT_DRQ FDC_STR_BIT_LOST_DATA) FDC_STR_BIT_CRC_ERROR)
               FDC_STR_BIT_RNF) FDC_STR_BIT_RECORD_TYPE.

Definition FDC_TypeI_Restore (s : State) : State * Z :=
  let s := start_cmd FDCEMU_CMD_RESTORE FDCEMU_RUN_RESTORE_SEEKTOTRACKZERO s in
  (FDC_Update_STR TypeI_STR_clear FDC_STR_BIT_BUSY s, FDC_DELAY_CYCLE_TYPE_I_PREPARE).

Definition FDC_TypeI_Seek (s : State) : State * Z :=
  let s := start_cmd FDCEMU_CMD_SEEK FDCEMU_RUN_SEEK_TOTRACK s in
  (FDC_Update_STR TypeI_STR_clear FDC_STR_BIT_BUSY s, FDC_DELAY_CYCLE_TYPE_I_PREPARE).

Definition FDC_TypeI_Step (s : State) : State * Z :=
  let s := start_cmd FDCEMU_CMD_STEP FDCEMU_RUN_STEP_ONCE s in
  (FDC_Update_STR TypeI_STR_clear FDC_STR_BIT_BUSY s, FDC_DELAY_CYCLE_TYPE_I_PREPARE).

Definition FDC_TypeI_StepIn (s : State) : State * Z :=
  let s := start_cmd FDCEMU_CMD_STEP FDCEMU_RUN_STEP_ONCE s in
  let s := updFDC (set_StepDirection 1) s in
  (FDC_Update_STR TypeI_STR_clear FDC_STR_BIT_BUSY s, FDC_DELAY_CYCLE_TYPE_I_PREPARE).

Definition FDC_TypeI_StepOut (s : State) : State * Z :=
  let s := start_cmd FDCEMU_CMD_STEP FDCEMU_RUN_STEP_ONCE s in
  let s := updFDC (set_StepDirection (-1)) s in
  (FDC_Update_STR TypeI_STR_clear FDC_STR_BIT_BUSY s, FDC_DELAY_CYCLE_TYPE_I_PREPARE).

Definition FDC_TypeII_ReadSector (s : State) : State * Z :=
  let s := start_cmd FDCEMU_CMD_READSECTORS FDCEMU_RUN_READSECTORS_READDATA s in
  (FDC_Update_STR (Z.lor TypeII_STR_clear FDC_STR_BIT_WPRT) FDC_STR_BIT_BUSY s,
   FDC_DELAY_CYCLE_TYPE_II_PREPARE + 0).

Definition FDC_TypeII_WriteSector (s : State) : State * Z :=
  let s := start_cmd FDCEMU_CMD_WRITESECTORS FDCEMU_RUN_WRITESECTORS_WRITEDATA s in
  (FDC_Update_STR TypeII_STR_clear FDC_STR_BIT_BUSY s, FDC_DELAY_CYCLE_TYPE_II_PREPARE + 0).

Definition FDC_TypeIII_ReadAddress (s : State) : State * Z :=
  let s := start_cmd FDCEMU_CMD_READADDRESS FDCEMU_RUN_READADDRESS s in
  (FDC_Update_STR (Z.lor TypeII_STR_clear FDC_STR_BIT_WPRT) FDC_STR_BIT_BUSY s,
   FDC_DELAY_CYCLE_TYPE_III_PREPARE + 0).

Definition FDC_TypeIII_ReadTrack (s : State) : State * Z :=
  let s := start_cmd FDCEMU_CMD_READTRACK FDCEMU_RUN_READTRACK s in
  (FDC_Update_STR (Z.lor TypeII_STR_clear FDC_STR_BIT_WPRT) FDC_STR_BIT_BUSY s,
   FDC_DELAY_CYCLE_TYPE_III_PREPARE + 0).

Definition FDC_TypeIII_WriteTrack (s : State) : State * Z :=
  let s := FDC_Update_STR 0 FDC_STR_BIT_RNF s in
  (start_cmd FDCEMU_CMD_NULL FDCEMU_RUN_NULL s, FDC_DELAY_CYCLE_TYPE_III_PREPARE).

Definition FDC_TypeIV_ForceInterrupt (s : State) : State * Z :=
  let s := if Z.land (STR (FDC s)) FDC_STR_BIT_BUSY =? 0
           then updFDC (set_StatusTypeI true) s else s in
  let s := updFDC (fun f => set_InterruptCond (Z.land (CR f) 0x0f) f) s in
  let s := if tst (InterruptCond (FDC s)) FDC_INTERRUPT_COND_IMMEDIATE
           then FDC_SetIRQ s else FDC_ClearIRQ s in
  let '(s, FdcCycles) := FDC_CmdCompleteCommon false s in
  (s, FDC_DELAY_CYCLE_TYPE_IV_PREPARE + FdcCycles).

Definition FDC_ExecuteTypeICommands (s : State) : State * Z :=
  let s := updFDC (fun f => set_StatusTypeI true (set_CommandType 1 f)) s in
  let s := FDC_ClearIRQ s in
  let hi := Z.land (CR (FDC s)) 0xf0 in
  if hi =? 0x00 then FDC_TypeI_Restore s
  else if hi =? 0x10 then FDC_TypeI_Seek s
  else if (hi =? 0x20) || (hi =? 0x30) then FDC_TypeI_Step s
  else if (hi =? 0x40) || (hi =? 0x50) then FDC_TypeI_StepIn s
  else if (hi =? 0x60) || (hi =? 0x70) then FDC_TypeI_StepOut s
  else (s, 0).

Definition FDC_ExecuteTypeIICommands (s : State) : State * Z :=
  let s := updFDC (fun f => set_StatusTypeI false (set_CommandType 2 f)) s in
  let s := FDC_ClearIRQ s in
  let hi := Z.land (CR (FDC s)) 0xf0 in
  if (hi =? 0x80) || (hi =? 0x90) then FDC_TypeII_ReadSector s
  else if (hi =? 0xa0) || (hi =? 0xb0) then FDC_TypeII_WriteSector s
  else (s, 0).

Definition FDC_ExecuteTypeIIICommands (s : State) : State * Z :=
  let s := updFDC (fun f => set_StatusTypeI false (set_CommandType 3 f)) s in
  let s := FDC_ClearIRQ s in
  let hi := Z.land (CR (FDC s)) 0xf0 in
  if hi =? 0xc0 then FDC_TypeIII_ReadAddress s
  else if hi =? 0xe0 then FDC_TypeIII_ReadTrack s
  else if hi =? 0xf0 then FDC_TypeIII_WriteTrack s
  else (s, 0).

Definition FDC_ExecuteTypeIVCommands (s : State) : State * Z :=
  FDC_TypeIV_ForceInterrupt (updFDC (set_CommandType 4) s).

Definition FDC_ExecuteCommand (s : State) : State :=
  let Type' := FDC_GetCmdType (CR (FDC s)) in
  let '(s, FdcCycles) :=
    if Type' =? 1 then FDC_ExecuteTypeICommands s
    else if Type' =? 2 then FDC_ExecuteTypeIICommands s
    else if Type' =? 3 then FDC_ExecuteTypeIIICommands s
    else FDC_ExecuteTypeIVCommands s in
  let s := updFDC (set_ReplaceCommandPossible true) s in
  FDC_StartTimer_FdcCycles FdcCycles 0 s.

(** ** Register writes at $ff8604

    The byte written by the CPU, [IoMem_ReadByte (0xff8605)], is the
    argument [b]. *)

Definition FDC_WriteSectorCountRegister (b : Z) (s : State) : State :=
  updDMA (set_SectorCount b) s.

Definition FDC_WriteCommandRegister (b : Z) (s : State) : State :=
  let execute (s : State) := FDC_ExecuteCommand (updFDC (set_CR b) s) in
  if tst (STR (FDC s)) FDC_STR_BIT_BUSY then
    let Type_new := FDC_GetCmdType b in
    if Type_new =? 4 then execute s
    else if ReplaceCommandPossible (FDC s)
            && (((Type_new =? 1) && (CommandType (FDC s) =? Type_new))
                || ((Type_new =? 2) && (CommandType (FDC s) =? Type_new)))
    then execute s
    else s
  else execute s.

Definition FDC_WriteTrackRegister (b : Z) (s : State) : State := updFDC (set_TR b) s.
Definition FDC_WriteSectorRegister (b : Z) (s : State) : State := updFDC (set_SR b) s.
Definition FDC_WriteDataRegister (b : Z) (s : State) : State := updFDC (set_DR b) s.

(** ** The bus interface

    [byte_access] is [nIoMemAccessSize == SIZE_BYTE]: the word registers
    answer it with a bus error and do nothing else.  [io_porta] is
    [PSGRegisters[PSG_REG_IO_PORTA]].  The hard disk controller (hdc.c)
    and the IPF engine (floppy_ipf.c) are other files: what they do when
    an access is routed to them is not part of this state. *)

Definition FDC_GetEmulationMode (io_porta : Z) (s : State) : FDC_EMULATION_MODE :=
  let ipf (a b : Z) :=
    match EmulationDrives_ImageType (Disks s) a, EmulationDrives_ImageType (Disks s) b with
    | FLOPPY_IMAGE_TYPE_IPF, _ => FDC_EMULATION_MODE_IPF
    | FLOPPY_IMAGE_TYPE_NONE, FLOPPY_IMAGE_TYPE_IPF => FDC_EMULATION_MODE_IPF
    | _, _ => FDC_EMULATION_MODE_INTERNAL
    end in
  let Mode' := FDC_EMULATION_MODE_INTERNAL in
  let Mode' := if Z.land io_porta 0x04 =? 0 then ipf 1 0 else Mode' in
  let Mode' := if Z.land io_porta 0x02 =? 0 then ipf 0 1 else Mode' in
  Mode'.

Definition FDC_DiskController_WriteWord (byte_access : bool) (io_porta w : Z) (s : State)
  : State :=
  if byte_access then s
  else
    let b := Z.land w 0xff in
    if tst (Mode (FDC_DMA s)) 0x10 then FDC_WriteSectorCountRegister b s
    else
      let s := updDMA (fun d =>
                 set_ff8604_recent_val (u16 (Z.lor (Z.land (ff8604_recent_val d) 0xff00) b)) d) s in
      if Z.land (Mode (FDC_DMA s)) 0x0008 =? 0x0008 then s
      else
        let FDC_reg := Z.shiftr (Z.land (Mode (FDC_DMA s)) 0x6) 1 in
        match FDC_GetEmulationMode io_porta s with
        | FDC_EMULATION_MODE_INTERNAL =>
            let s := FDC_UpdateAll s in
            if FDC_reg =? 0 then FDC_WriteCommandRegister b s
            else if FDC_reg =? 1 then FDC_WriteTrackRegister b s
            else if FDC_reg =? 2 then FDC_WriteSectorRegister b s
            else FDC_WriteDataRegister b s
        | FDC_EMULATION_MODE_IPF => s
        end.

(** The status register as read in a type I view *)
Definition FDC_Status_TypeI_refresh (s : State) : State :=
  if (DriveSelSignal (FDC s) <? 0) || negb (Enabled (seldrive s))
  then FDC_Update_STR (Z.lor (Z.lor FDC_STR_BIT_TR00 FDC_STR_BIT_INDEX) FDC_STR_BIT_WPRT) 0 s
  else
    let s := if HeadTrack (seldrive s) =? 0
             then FDC_Update_STR 0 FDC_STR_BIT_TR00 s
             else FDC_Update_STR FDC_STR_BIT_TR00 0 s in
    let s := if negb (FDC_IndexPulse_GetState s =? 0)
             then FDC_Update_STR 0 FDC_STR_BIT_INDEX s
             else FDC_Update_STR FDC_STR_BIT_INDEX 0 s in
    let s := if negb (DiskInserted (seldrive s)) then FDC_Update_STR 0 FDC_STR_BIT_WPRT s
             else if Floppy_IsWriteProtected (Disks s) (DriveSelSignal (FDC s))
             then FDC_Update_STR 0 FDC_STR_BIT_WPRT s
             else FDC_Update_STR FDC_STR_BIT_WPRT 0 s in
    let '(disks, ForceWPRT) :=
      Floppy_DriveTransitionUpdateState (Disks s) (DriveSelSignal (FDC s)) in
    let s := set_Disks disks s in
    if ForceWPRT =? 1 then FDC_Update_STR 0 FDC_STR_BIT_WPRT s
    else if ForceWPRT =? -1 then FDC_Update_STR FDC_STR_BIT_WPRT 0 s
    else s.

(** [ext] is the byte an access routed to the HDC or to the IPF engine
    returns.  The result is the word stored at $ff8604 for the CPU, when
    there is one. *)
Definition FDC_DiskControllerStatus_ReadWord (byte_access : bool) (io_porta ext : Z) (s : State)
  : State * option Z :=
  if byte_access then (s, None)
  else
    let '(s, DiskControllerByte) :=
      if tst (Mode (FDC_DMA s)) 0x10 then (s, ff8604_recent_val (FDC_DMA s))
      else if Z.land (Mode (FDC_DMA s)) 0x0008 =? 0x0008 then (s, u16 ext)
      else
        let FDC_reg := Z.shiftr (Z.land (Mode (FDC_DMA s)) 0x6) 1 in
        match FDC_GetEmulationMode io_porta s with
        | FDC_EMULATION_MODE_INTERNAL =>
            let s := FDC_UpdateAll s in
            if FDC_reg =? 0 then
              let s := if StatusTypeI (FDC s) then FDC_Status_TypeI_refresh s else s in
              (FDC_ClearIRQ s, STR (FDC s))
            else if FDC_reg =? 1 then (s, TR (FDC s))
            else if FDC_reg =? 2 then (s, SR (FDC s))
            else (s, DR (FDC s))
        | FDC_EMULATION_MODE_IPF =>
            let v := u16 ext in
            if (FDC_reg =? 0) && (0 <=? DriveSelSignal (FDC s)) then
              let '(disks, ForceWPRT) :=
                Floppy_DriveTransitionUpdateState (Disks s) (DriveSelSignal (FDC s)) in
              let v := if ForceWPRT =? 1 then Z.lor v FDC_STR_BIT_WPRT else v in
              let v := if ForceWPRT =? -1 then u16 (Z.land v (Z.lnot FDC_STR_BIT_WPRT)) else v in
              (set_Disks disks s, v)
            else (s, v)
        end in
    let s := if Z.land (Mode (FDC_DMA s)) 0x10 =? 0
             then updDMA (fun d =>
                    set_ff8604_recent_val
                      (u16 (Z.lor (Z.land (ff8604_recent_val d) 0xff00)
                                  (Z.land DiskControllerByte 0xff))) d) s
             else s in
    (s, Some DiskControllerByte).

Definition FDC_DmaModeControl_WriteWord (byte_access : bool) (w : Z) (s : State) : State :=
  if byte_access then s
  else
    let Mode_prev := Mode (FDC_DMA s) in
    let s := updDMA (set_Mode (u16 w)) s in
    if tst (Z.lxor Mode_prev (Mode (FDC_DMA s))) 0x0100 then FDC_ResetDMA s else s.

Definition FDC_DmaStatus_ReadWord (byte_access : bool) (s : State) : State * option Z :=
  if byte_access then (s, None)
  else
    let s := if negb (SectorCount (FDC_DMA s) =? 0)
             then updDMA (fun d => set_Status (u16 (Z.lor (Status d) 0x02)) d) s
             else updDMA (fun d => set_Status (u16 (Z.land (Status d) (Z.lnot 0x02))) d) s in
    (s, Some (Z.lor (Status (FDC_DMA s)) (Z.land (ff8604_recent_val (FDC_DMA s)) 0xfff8))).

(** ** Traces

    What can happen to the controller: a reset, a CPU access to one of its
    registers, a drive event of the user interface, the timer, and time
    passing on the global cycle counter. *)

Inductive Event : Type :=
| EvReset (bCold : bool)
| EvWriteWord (byte_access : bool) (io_porta w : Z)
| EvReadWord (byte_access : bool) (io_porta ext : Z)
| EvDmaModeControl (byte_access : bool) (w : Z)
| EvDmaStatus (byte_access : bool)
| EvDmaAddress (addr v : Z)
| EvEnableDrive (Drive : Z) (value : bool)
| EvInsertFloppy (Drive : Z)
| EvEjectFloppy (Drive : Z)
| EvSetDriveSide (io_porta_old io_porta_new : Z)
| EvTimer (fuel : nat) (PendingInterruptCount : Z)
| EvCycles (n : Z).

(** [None] : the timer handler did not come back within its fuel. *)
Definition step (e : Event) (s : State) : option State :=
  match e with
  | EvReset bCold => Some (FDC_Reset bCold s)
  | EvWriteWord ba io w => Some (FDC_DiskController_WriteWord ba io w s)
  | EvReadWord ba io ext => Some (fst (FDC_DiskControllerStatus_ReadWord ba io ext s))
  | EvDmaModeControl ba w => Some (FDC_DmaModeControl_WriteWord ba w s)
  | EvDmaStatus ba => Some (fst (FDC_DmaStatus_ReadWord ba s))
  | EvDmaAddress addr v => Some (DmaAddress_bput addr v s)
  | EvEnableDrive d v => Some (FDC_EnableDrive d v s)
  | EvInsertFloppy d => Some (FDC_InsertFloppy d s)
  | EvEjectFloppy d => Some (FDC_EjectFloppy d s)
  | EvSetDriveSide o n => Some (FDC_SetDriveSide o n s)
  | EvTimer fuel p => FDC_InterruptHandler_Update fuel p s
  | EvCycles n => Some (set_CyclesGlobalClockCounter (u64 (CyclesGlobalClockCounter s + n)) s)
  end.

Fixpoint run (es : list Event) (s : State) : option State :=
  match es with
  | [] => Some s
  | e :: es' => match step e s with Some s' => run es' s' | None => None end
  end.

(** The state the emulator starts in: the file-scope records are zero
    (C static storage), then [FDC_Init] and a cold [FDC_Reset] run.  The
    three bytes of the DMA address live in the I/O memory, which this
    file does not initialise: they are taken to be 0 at the start, as
    the rest of the static storage. *)
Definition zero_State (m : Z -> Z) (gpip : Z) (disks : Floppy) : State :=
  mkState
    (mkFDC 0 0 0 0 0 0 0 0 FDCEMU_CMD_NULL FDCEMU_RUN_NULL 0 false false 0 0 0)
    (mkDMA 0 0 0 0 (repeat 0 (Z.to_nat FDC_DMA_FIFO_SIZE)) 0 0 0 0 0)
    (repeat no_drive (Z.to_nat MAX_FLOPPYDRIVES))
    (repeat 0 (Z.to_nat DMADiskWorkSpace_SIZE))
    m 0 0 0 gpip 0%nat None 0 0%nat disks.

Definition power_on (m : Z -> Z) (gpip : Z) (disks : Floppy) : State :=
  FDC_Reset true (FDC_Init (zero_State m gpip disks)).

Inductive reachable : State -> Prop :=
| reach_power_on m gpip disks : reachable (power_on m gpip disks)
| reach_step e s s' : reachable s -> step e s = Some s' -> reachable s'.

(** ** Status bits as the claims name them *)

Definition STR_bit (m : Z) (s : State) : bool := tst (STR (FDC s)) m.

(** A command of the WD1772 is running (neither idle nor the motor-stop
    pseudo command) *)
Definition command_in_flight (c : FDCEMU_CMD) : bool :=
  match c with
  | FDCEMU_CMD_NULL | FDCEMU_CMD_MOTOR_STOP => false
  | _ => true
  end.

(** The replacement rule in the words of the specification: the new
    command is of type IV, or the running command can still be replaced
    and the new command has its type (I for I, II for II). *)
Definition replacement_allowed (b : Z) (s : State) : Prop :=
  FDC_GetCmdType b = 4
  \/ (ReplaceCommandPossible (FDC s) = true
      /\ ((FDC_GetCmdType b = 1 /\ CommandType (FDC s) = 1)
          \/ (FDC_GetCmdType b = 2 /\ CommandType (FDC s) = 2))).

(** The DMA address is word aligned *)
Definition DMA_address_aligned (s : State) : Prop := Z.testbit (FDC_GetDMAAddress s) 0 = false.

(** ** Invariants of the reachable states *)

Definition head_ok (d : FDC_DRIVE_STRUCT) : Prop := 0 <= HeadTrack d <= FDC_PHYSICAL_MAX_TRACK.

Record Inv (s : State) : Prop := mkInv {
  inv_busy : Z.testbit (STR (FDC s)) 0 = command_in_flight (Command (FDC s));
  inv_heads : Forall head_ok (FDC_DRIVES s);
  inv_dir : StepDirection (FDC s) = 1 \/ StepDirection (FDC s) = -1;
  inv_addr : Z.testbit (IoMem_ff860d s) 0 = false;
  inv_fifo_size : 0 <= FIFO_Size (FDC_DMA s) < FDC_DMA_FIFO_SIZE;
  inv_fifo_length : length (FIFO (FDC_DMA s)) = Z.to_nat FDC_DMA_FIFO_SIZE
}.

(** The physical heads, the drive selection and the step direction are
    the same in two states *)
Definition same_heads (s s' : State) : Prop :=
  map HeadTrack (FDC_DRIVES s') = map HeadTrack (FDC_DRIVES s)
  /\ map Enabled (FDC_DRIVES s') = map Enabled (FDC_DRIVES s)
  /\ DriveSelSignal (FDC s') = DriveSelSignal (FDC s)
  /\ StepDirection (FDC s') = StepDirection (FDC s).

(** What a type I command works on: the command and its state, the
    Track, Command and Status Registers, whether an enabled drive is
    selected, and where its head is *)
Definition typeI_view (s : State) : FDCEMU_CMD * FDCEMU_RUN * Z * Z * Z * bool * Z :=
  (Command (FDC s), CommandState (FDC s), TR (FDC s), CR (FDC s), STR (FDC s),
   drive_enabled s, HeadTrack (seldrive s)).


(** What a sector transfer works on: the command and its state, the
    Command and Status Registers, the DMA engine, the work buffer, the
    memory, the three bytes of the DMA address and the density of the
    selected drive *)
Definition typeII_view (s : State)
  : FDCEMU_CMD * FDCEMU_RUN * Z * Z * FDC_DMA_STRUCT * list Z * (Z -> Z) * (Z * Z * Z) * Z :=
  (Command (FDC s), CommandState (FDC s), CR (FDC s), STR (FDC s), FDC_DMA s,
   DMADiskWorkSpace s, STRam s, (IoMem_ff8609 s, IoMem_ff860b s, IoMem_ff860d s),
   Density (seldrive s)).

(** The sector the Sector Register names, read from the track and side
    under the head of the selected drive *)
Definition sector_under_head (s : State) : option (list Z) :=
  Floppy_ReadSectors (Disks s) (DriveSelSignal (FDC s)) (SR (FDC s))
    (HeadTrack (seldrive s)) (SideSignal (FDC s)).

(** ** The DMA address mask, runs of the FIFO, more invariants *)

(** The bits of an address that [FDC_WriteDMAAddress] keeps *)
Definition DMA_address_mask : Z :=
  if machine_limited_4MB nMachineType then 0x3ffffe else 0xfffffe.

(** [FDC_DMA_FIFO_Push] called on each byte of a list, the first byte
    first *)
Definition FDC_DMA_FIFO_Push_list (bytes : list Z) (s : State) : State :=
  fold_left (fun s b => FDC_DMA_FIFO_Push b s) bytes s.

(** [FDC_DMA_FIFO_Pull] called [n] times: the state after and the bytes
    returned, the first one first *)
Fixpoint FDC_DMA_FIFO_Pull_n (n : nat) (s : State) : State * list Z :=
  match n with
  | O => (s, [])
  | S n' =>
      let '(s, b) := FDC_DMA_FIFO_Pull s in
      let '(s, l) := FDC_DMA_FIFO_Pull_n n' s in
      (s, b :: l)
  end.

Definition density_ok (d : FDC_DRIVE_STRUCT) : Prop :=
  Density d = FDC_DENSITY_FACTOR_DD \/ Density d = FDC_DENSITY_FACTOR_HD
  \/ Density d = FDC_DENSITY_FACTOR_ED.

Record Inv2 (s : State) : Prop := mkInv2 {
  inv2_status : 0 <= Status (FDC_DMA s) < 4;
  inv2_bytes : 0 < BytesInSector (FDC_DMA s) <= FDC_DMA_SECTOR_SIZE;
  inv2_bytes16 : BytesInSector (FDC_DMA s) mod FDC_DMA_FIFO_SIZE = 0;
  inv2_sel : -1 <= DriveSelSignal (FDC s) <= 1;
  inv2_side : 0 <= SideSignal (FDC s) <= 1;
  inv2_drives : length (FDC_DRIVES s) = Z.to_nat MAX_FLOPPYDRIVES;
  inv2_density : Forall density_ok (FDC_DRIVES s)
}.

(** An active command has its timer *)
Definition timer_armed (s : State) : Prop :=
  Command (FDC s) <> FDCEMU_CMD_NULL -> exists c o, FDC_Timer s = Some (c, o).

(** What the DMA engine works on: its registers but for the position in
    the work buffer, the memory and the three bytes of the DMA address *)
Definition dma_view (s : State) :=
  (Status (FDC_DMA s), Mode (FDC_DMA s), SectorCount (FDC_DMA s), BytesInSector (FDC_DMA s),
   FIFO (FDC_DMA s), FIFO_Size (FDC_DMA s), ff8604_recent_val (FDC_DMA s),
   STRam s, (IoMem_ff8609 s, IoMem_ff860b s, IoMem_ff860d s)).

(** [pBuffer] of [FDC_WriteSectorToFloppy]: the 512 bytes of memory at
    the DMA address, or 512 zero bytes when the DMA sector counter is 0 *)
Definition sector_to_write (s : State) : list Z :=
  if 0 <? SectorCount (FDC_DMA s) then STRam_sector (STRam s) (FDC_GetDMAAddress s)
  else repeat 0 (Z.to_nat FDC_DMA_SECTOR_SIZE).

(** What the write protection test and the sector write of Write Sector
    read besides the DMA *)
Definition write_env (s : State) :=
  (Disks s, DriveSelSignal (FDC s), SR (FDC s), SideSignal (FDC s), HeadTrack (seldrive s)).

(** ** Runs of the timer

    A tick is (cycles elapsed on the global clock before the timer fires,
    fuel of the handler, [PendingInterruptCount]). *)
Definition Tick : Type := Z * nat * Z.

Definition tick_events (t : Tick) : list Event :=
  let '(n, fuel, pending) := t in [EvCycles n; EvTimer fuel pending].

Definition timer_events (ts : list Tick) : list Event := flat_map tick_events ts.

Definition tick_fuel (t : Tick) : nat := snd (fst t).

End Hatari.

(** * A platform to run the model on

    An ST with one double sided, nine sector disk image in drive A:, no
    image in drive B:, unit cycle conversions and a linear congruential
    [rand]. *)

Definition test_sector (Sector Track Side : Z) : list Z :=
  map (fun k => (Z.of_nat k * 7 + Sector + 16 * Track + 128 * Side) mod 256) (seq 0 512).

Definition crc16_add_bit (crc : Z) : Z :=
  if Z.testbit crc 15 then Z.lxor (u16 (Z.shiftl crc 1)) 0x1021 else u16 (Z.shiftl crc 1).

Definition crc16_add_byte (crc c : Z) : Z :=
  let crc := Z.lxor crc (Z.shiftl c 8) in
  crc16_add_bit (crc16_add_bit (crc16_add_bit (crc16_add_bit
    (crc16_add_bit (crc16_add_bit (crc16_add_bit (crc16_add_bit crc))))))).

Definition test_crc16 (l : list Z) : Z := fold_left crc16_add_byte l 0xffff.

Definition test_SafeCopy (m : Z -> Z) (addr : Z) (src : list Z) : Z -> Z :=
  fun a => if (addr <=? a) && (a <? addr + Z.of_nat (length src))
           then nth (Z.to_nat (a - addr)) src 0 else m a.

Definition test_platform : Platform := {|
  nMachineType := MACHINE_ST;
  FastFloppy := false;
  MachineClocks_FDC_Freq := 8021247;
  FDC_FdcCyclesToCpuCycles := fun c => c;
  FDC_CpuCyclesToFdcCycles := fun c => c;
  rand := fun n => (Z.of_nat n * 1103515245 + 12345) mod 2147483648;
  Floppy := unit;
  EmulationDrives_bDiskInserted := fun _ d => d =? 0;
  EmulationDrives_ImageType :=
    fun _ d => if d =? 0 then FLOPPY_IMAGE_TYPE_OTHER else FLOPPY_IMAGE_TYPE_NONE;
  Floppy_FindDiskDetails := fun _ _ => (9, 2);
  Floppy_IsWriteProtected := fun _ _ => false;
  Floppy_ReadSectors :=
    fun _ d Sector Track Side =>
      if (d =? 0) && (1 <=? Sector) && (Sector <=? 9)
      then Some (test_sector Sector Track Side) else None;
  Floppy_WriteSectors :=
    fun f d _ Sector _ _ =>
      if (d =? 0) && (1 <=? Sector) && (Sector <=? 9) then Some (f, 512) else None;
  Floppy_DriveTransitionUpdateState := fun f _ => (f, 0);
  crc16 := test_crc16;
  STMemory_SafeCopy := test_SafeCopy
|}.

(** Power on, drive A: selected on side 0, the disk inserted *)
Definition test_power_on : @State test_platform :=
  @FDC_InsertFloppy test_platform 0
    (@FDC_SetDriveSide test_platform 0x07 0x05 (@power_on test_platform (fun _ => 0) 0xff tt)).

(** Power on with no drive selected *)
Definition test_no_drive : @State test_platform :=
  @FDC_SetDriveSide test_platform 0x05 0x07 test_power_on.

(** The state of the controller after [es], or the state before when the
    timer handler does not come back *)
Definition test_after (es : list Event) (s : @State test_platform) : @State test_platform :=
  match @run test_platform es s with Some s' => s' | None => s end.

(** The timer fires every 300 cycles, the handler has fuel for three
    rounds *)
Definition test_ticks (n : nat) : list Tick := repeat (300, 3%nat, 0) n.

(** Restore with the spin-up disabled (command byte 0x08) has been
    written *)
Definition test_restore : @State test_platform :=
  test_after [EvWriteWord false 0x05 0x08] test_power_on.


(** That Restore has completed, the motor still runs *)
Definition test_motor_stop : @State test_platform :=
  test_after ([EvWriteWord false 0x05 0x08] ++ timer_events (test_ticks 2)) test_power_on.

(** Read Sector (command byte 0x88) with the DMA sector counter at 0 has
    found the header of sector 1 *)
Definition test_read_start : @State test_platform :=
  test_after ([EvWriteWord false 0x05 0x88] ++ timer_events (test_ticks 2)) test_power_on.

(** 0x55 has been written to the Track Register through the window at
    8604 *)
Definition test_shadow : @State test_platform :=
  test_after [EvDmaModeControl false 0x02; EvWriteWord false 0x05 0x55] test_power_on.

(** Restore runs and the window at 8604 selects the Track Register *)
Definition test_busy_track_select : @State test_platform :=
  test_after [EvWriteWord false 0x05 0x08; EvDmaModeControl false 0x02] test_power_on.

(** Step-Out (command byte 0x68) is about to step with the head at
    track 0 *)
Definition test_step_out : @State test_platform :=
  updFDC (set_CommandState FDCEMU_RUN_STEP_ONCE_MOTOR_ON)
    (test_after [EvWriteWord false 0x05 0x68] test_power_on).

(** Step-In has moved the head to track 1, Restore has stepped it back
    to track 0 and then the program has written 0 to the Track Register *)
Definition test_restore_stray : @State test_platform :=
  test_after
    ([EvWriteWord false 0x05 0x48] ++ timer_events (test_ticks 3)
     ++ [EvWriteWord false 0x05 0x08] ++ timer_events (test_ticks 1)
     ++ [EvDmaModeControl false 0x02; EvWriteWord false 0x05 0x00])
    test_power_on.

(** The DMA sector counter has been set to 1 through the window at 8604 *)
Definition test_dma_one : @State test_platform :=
  test_after [EvDmaModeControl false 0x10; EvWriteWord false 0x05 0x01] test_power_on.

(** The same with the counter at 2 *)
Definition test_dma_two : @State test_platform :=
  test_after [EvDmaModeControl false 0x10; EvWriteWord false 0x05 0x02] test_power_on.

(** Sixteen bytes and the 512 bytes of a sector *)
Definition test_block : list Z := map Z.of_nat (seq 1 16).
Definition test_bytes : list Z := map (fun k => Z.of_nat k mod 256) (seq 0 512).

(** Write Sector (command byte 0xA8) has been written *)
Definition test_write_start : @State test_platform :=
  test_after [EvWriteWord false 0x05 0xa8] test_power_on.

(** The test machine with every disk write protected *)
Definition test_platform_protected : Platform := {|
  nMachineType := MACHINE_ST;
  FastFloppy := false;
  MachineClocks_FDC_Freq := 8021247;
  FDC_FdcCyclesToCpuCycles := fun c => c;
  FDC_CpuCyclesToFdcCycles := fun c => c;
  rand := fun n => (Z.of_nat n * 1103515245 + 12345) mod 2147483648;
  Floppy := unit;
  EmulationDrives_bDiskInserted := fun _ d => d =? 0;
  EmulationDrives_ImageType :=
    fun _ d => if d =? 0 then FLOPPY_IMAGE_TYPE_OTHER else FLOPPY_IMAGE_TYPE_NONE;
  Floppy_FindDiskDetails := fun _ _ => (9, 2);
  Floppy_IsWriteProtected := fun _ _ => true;
  Floppy_ReadSectors :=
    fun _ d Sector Track Side =>
      if (d =? 0) && (1 <=? Sector) && (Sector <=? 9)
      then Some (test_sector Sector Track Side) else None;
  Floppy_WriteSectors :=
    fun f d _ Sector _ _ =>
      if (d =? 0) && (1 <=? Sector) && (Sector <=? 9) then Some (f, 512) else None;
  Floppy_DriveTransitionUpdateState := fun f _ => (f, 0);
  crc16 := test_crc16;
  STMemory_SafeCopy := test_SafeCopy
|}.

(** Write Sector (command byte 0xA8) has been written on that machine,
    drive A: selected and its disk inserted *)
Definition test_write_protected : @State test_platform_protected :=
  @FDC_DiskController_WriteWord test_platform_protected false 0x05 0xa8
    (@FDC_InsertFloppy test_platform_protected 0
      (@FDC_SetDriveSide test_platform_protected 0x07 0x05
        (@power_on test_platform_protected (fun _ => 0) 0xff tt))).

(** The window at 8604 selects the Data Register *)
Definition test_data_select : @State test_platform :=
  test_after [EvDmaModeControl false 0x06] test_power_on.

(** The window at 8604 selects the DMA sector counter *)
Definition test_count_select : @State test_platform :=
  test_after [EvDmaModeControl false 0x10] test_power_on.

(** Force Interrupt with the immediate condition (command byte 0xD8) has
    been written *)
Definition test_force_immediate : @State test_platform :=
  test_after [EvWriteWord false 0x05 0xd8] test_power_on.

(** Two sectors to pull, the memory holding 1, 2, 3, ... from address 0 *)
Definition test_pull : @State test_platform :=
  @set_STRam test_platform (fun a => a mod 256 + 1) test_dma_two.

(** One sector to pull, its first 31 blocks already pulled *)
Definition test_pull_last : @State test_platform :=
  fst (@FDC_DMA_FIFO_Pull_n test_platform 496
         (@set_STRam test_platform (fun a => a mod 256 + 1) test_dma_one)).

(** Read Sector of sector 1 with the DMA address at 0x010200 and the DMA
    sector counter at 1 has found the header of the sector *)
Definition test_read_dma_start : @State test_platform :=
  test_after ([EvDmaAddress 0xff8609 0x01; EvDmaAddress 0xff860b 0x02; EvDmaAddress 0xff860d 0x00;
               EvDmaModeControl false 0x10; EvWriteWord false 0x05 0x01;
               EvDmaModeControl false 0x00; EvWriteWord false 0x05 0x88]
              ++ timer_events (test_ticks 2)) test_power_on.

(** The same for Write Sector, the DMA set to read from memory *)
Definition test_write_dma_start : @State test_platform :=
  test_after ([EvDmaAddress 0xff8609 0x01; EvDmaAddress 0xff860b 0x02; EvDmaAddress 0xff860d 0x00;
               EvDmaModeControl false 0x190; EvWriteWord false 0x05 0x01;
               EvDmaModeControl false 0x180; EvWriteWord false 0x05 0xa8]
              ++ timer_events (test_ticks 2)) test_power_on.

(** * Properties *)

(** ** Bits *)

Lemma land_pow2 x k : 0 <= k -> Z.land x (2 ^ k) = if Z.testbit x k then 2 ^ k else 0.
Proof.
  intros Hk. apply Z.bits_inj'. intros n Hn.
  rewrite Z.land_spec, Z.pow2_bits_eqb by lia.
  destruct (Z.eqb_spec k n) as [->|Hne].
  - destruct (Z.testbit x n); [now rewrite Z.pow2_bits_true by lia|now rewrite Z.bits_0].
  - rewrite andb_false_r.
    destruct (Z.testbit x k); [|now rewrite Z.bits_0].
    symmetry. now apply Z.pow2_bits_false.
Qed.

Lemma tst_pow2 x k : 0 <= k -> tst x (2 ^ k) = Z.testbit x k.
Proof.
  intros Hk. unfold tst. rewrite land_pow2 by assumption.
  destruct (Z.testbit x k); [|reflexivity].
  assert (0 < 2 ^ k) by (apply Z.pow_pos_nonneg; lia).
  destruct (Z.eqb_spec (2 ^ k) 0); [lia|reflexivity].
Qed.

Lemma tst_bit x m k : m = 2 ^ k -> 0 <= k -> tst x m = Z.testbit x k.
Proof. intros -> Hk. now apply tst_pow2. Qed.

Lemma u8_bit x i : 0 <= i < 8 -> Z.testbit (u8 x) i = Z.testbit x i.
Proof. intros H. unfold u8. change 256 with (2 ^ 8). apply Z.mod_pow2_bits_low. lia. Qed.

Lemma u16_bit x i : 0 <= i < 16 -> Z.testbit (u16 x) i = Z.testbit x i.
Proof. intros H. unfold u16. change 65536 with (2 ^ 16). apply Z.mod_pow2_bits_low. lia. Qed.

Lemma u32_bit x i : 0 <= i < 32 -> Z.testbit (u32 x) i = Z.testbit x i.
Proof. intros H. unfold u32. change 4294967296 with (2 ^ 32). apply Z.mod_pow2_bits_low. lia. Qed.

Lemma u8_range x : 0 <= u8 x < 256.
Proof. unfold u8. apply Z.mod_pos_bound. lia. Qed.

Lemma u8_small x : 0 <= x < 256 -> u8 x = x.
Proof. intros H. unfold u8. now apply Z.mod_small. Qed.

Lemma testbit_ff00_low n : 0 <= n < 8 -> Z.testbit 0xff00 n = false.
Proof. intros H. change 0xff00 with (Z.shiftl 255 8). apply Z.shiftl_spec_low. lia. Qed.

Lemma land_ff x : Z.land x 0xff = x mod 256.
Proof. change 0xff with (Z.ones 8). rewrite Z.land_ones by lia. reflexivity. Qed.

Lemma low_byte_merge sh B : Z.land (u16 (Z.lor (Z.land sh 0xff00) B)) 0xff = Z.land B 0xff.
Proof.
  apply Z.bits_inj'. intros n Hn. rewrite !Z.land_spec.
  change 0xff with (Z.ones 8). rewrite Z.testbit_ones_nonneg by lia.
  destruct (Z.ltb_spec n 8) as [Hlt|Hge]; [|now rewrite !andb_false_r].
  rewrite u16_bit, Z.lor_spec, Z.land_spec, testbit_ff00_low by lia.
  now rewrite andb_false_r.
Qed.

Lemma low_byte_word hi lo : Z.land (u16 (Z.lor (Z.shiftl hi 8) lo)) 0xff = Z.land lo 0xff.
Proof.
  apply Z.bits_inj'. intros n Hn. rewrite !Z.land_spec.
  change 0xff with (Z.ones 8). rewrite Z.testbit_ones_nonneg by lia.
  destruct (Z.ltb_spec n 8) as [Hlt|Hge]; [|now rewrite !andb_false_r].
  rewrite u16_bit, Z.lor_spec, Z.shiftl_spec_low by lia.
  reflexivity.
Qed.

Lemma land_ff_byte b : 0 <= b < 256 -> Z.land b 0xff = b.
Proof. intros H. rewrite land_ff. now apply Z.mod_small. Qed.

Lemma u16_clear_bit0 x : Z.testbit (u16 (Z.land x (Z.lnot 1))) 0 = false.
Proof. rewrite u16_bit, Z.land_spec, Z.lnot_spec by lia. now rewrite andb_false_r. Qed.

Lemma address_bit0 a b c :
  Z.testbit (Z.lor (Z.lor (Z.shiftl a 16) (Z.shiftl b 8)) c) 0 = Z.testbit c 0.
Proof. rewrite !Z.lor_spec, !Z.shiftl_spec_low by lia. reflexivity. Qed.

Lemma land_fe_bit0 x : Z.testbit (Z.land x 0xfe) 0 = false.
Proof. rewrite Z.land_spec. now rewrite andb_false_r. Qed.

Lemma land_3f_range x : 0 <= Z.land x 0x3f < 64.
Proof. change 0x3f with (Z.ones 6). rewrite Z.land_ones by lia. apply Z.mod_pos_bound. lia. Qed.

Lemma WriteDMAAddress_low_bit0 A : Z.testbit (u8 (Z.land A 0xfffffffe)) 0 = false.
Proof. rewrite u8_bit, Z.land_spec by lia. now rewrite andb_false_r. Qed.

Lemma WriteDMAAddress_high_range A :
  0 <= u8 (Z.shiftr (Z.land (Z.land (u32 A) 0x3fffff) 0xfffffffe) 16) < 64.
Proof.
  set (H := u8 _).
  assert (E : H = Z.land H 0x3f).
  { apply Z.bits_inj'. intros n Hn. rewrite Z.land_spec.
    change 0x3f with (Z.ones 6). rewrite Z.testbit_ones_nonneg by lia.
    destruct (Z.ltb_spec n 6) as [Hlt|Hge]; [now rewrite andb_true_r|].
    rewrite andb_false_r. subst H.
    destruct (Z.ltb_spec n 8) as [H8|H8].
    - rewrite u8_bit, Z.shiftr_spec, !Z.land_spec by lia.
      change 0x3fffff with (Z.ones 22). rewrite Z.testbit_ones_nonneg by lia.
      destruct (Z.ltb_spec (n + 16) 22); [lia|]. now rewrite andb_false_r.
    - unfold u8. change 256 with (2 ^ 8). apply Z.mod_pow2_bits_high. lia. }
  rewrite E. apply land_3f_range.
Qed.

Lemma STR_update_bit d e x i :
  0 <= i < 8 ->
  Z.testbit (STR_update d e x) i = (Z.testbit x i && negb (Z.testbit d i)) || Z.testbit e i.
Proof.
  intros Hi. unfold STR_update.
  rewrite u8_bit, Z.lor_spec, u8_bit, Z.land_spec, Z.lnot_spec by lia.
  reflexivity.
Qed.

Lemma STR_update_range d e x : 0 <= STR_update d e x < 256.
Proof. apply u8_range. Qed.

Lemma Forall_upd_nat {A} (Q : A -> Prop) l n v : Forall Q l -> Q v -> Forall Q (upd_nat l n v).
Proof. intros Hl Hv. revert n. induction Hl; intros [|n]; simpl; auto. Qed.

Lemma Forall_wr {A} (Q : A -> Prop) l i v : Forall Q l -> Q v -> Forall Q (wr l i v).
Proof. intros. unfold wr. destruct (i <? 0); auto using Forall_upd_nat. Qed.

Lemma Forall_rd {A} (Q : A -> Prop) d l i : Q d -> Forall Q l -> Q (rd d l i).
Proof.
  intros Hd Hl. unfold rd. destruct (i <? 0); auto.
  rewrite Forall_forall in Hl.
  destruct (nth_in_or_default (Z.to_nat i) l d) as [H|H]; auto.
  rewrite H. auto.
Qed.

Lemma length_upd_nat {A} (l : list A) n v : length (upd_nat l n v) = length l.
Proof. revert n. induction l; intros [|n]; simpl; auto. Qed.

Lemma length_wr {A} (l : list A) i v : length (wr l i v) = length l.
Proof. unfold wr. destruct (i <? 0); auto using length_upd_nat. Qed.

Lemma nth_upd_nat_same {A} (l : list A) n v d :
  (n < length l)%nat -> nth n (upd_nat l n v) d = v.
Proof. revert n. induction l; intros [|n] H; simpl in *; try lia; auto. apply IHl. lia. Qed.

Lemma rd_wr_same {A} (l : list A) i v d :
  0 <= i < Z.of_nat (length l) -> rd d (wr l i v) i = v.
Proof.
  intros H. unfold rd, wr. destruct (Z.ltb_spec i 0); [lia|].
  apply nth_upd_nat_same. lia.
Qed.

(** Reduction is kept to projections of records: arithmetic is left to
    [lia] and to the bit lemmas. *)
#[local] Arguments STR_update : simpl never.
#[local] Arguments Z.testbit : simpl never.
#[local] Arguments Z.land : simpl never.
#[local] Arguments Z.lor : simpl never.
#[local] Arguments Z.lxor : simpl never.
#[local] Arguments Z.lnot : simpl never.
#[local] Arguments Z.shiftl : simpl never.
#[local] Arguments Z.shiftr : simpl never.
#[local] Arguments Z.modulo : simpl never.
#[local] Arguments Z.quot : simpl never.
#[local] Arguments Z.rem : simpl never.
#[local] Arguments Z.mul : simpl never.
#[local] Arguments Z.add : simpl never.
#[local] Arguments Z.sub : simpl never.
#[local] Arguments Z.opp : simpl never.
#[local] Arguments Z.leb : simpl never.
#[local] Arguments Z.ltb : simpl never.
#[local] Arguments Z.eqb : simpl never.
#[local] Arguments Z.to_nat : simpl never.
#[local] Arguments Z.of_nat : simpl never.
#[local] Arguments u8 : simpl never.
#[local] Arguments u16 : simpl never.
#[local] Arguments u32 : simpl never.
#[local] Arguments u64 : simpl never.
#[local] Arguments s32 : simpl never.
#[local] Arguments tst : simpl never.
#[local] Arguments rd : simpl never.
#[local] Arguments wr : simpl never.
#[local] Arguments store_prefix : simpl never.
#[local] Arguments NextSectorID_scan : simpl never.

(** Case analysis on the innermost test of the goal *)
Ltac brk :=
  match goal with
  | |- context [if ?c then _ else _] =>
      lazymatch c with
      | context [if _ then _ else _] => fail
      | context [match _ with _ => _ end] => fail
      | _ => destruct c eqn:?
      end
  | |- context [match ?c with _ => _ end] =>
      lazymatch c with
      | context [if _ then _ else _] => fail
      | context [match _ with _ => _ end] => fail
      | _ => destruct c eqn:?
      end
  end.

(** Tests between constants *)
Ltac pconst p :=
  lazymatch p with
  | xH => idtac
  | xI ?q => pconst q
  | xO ?q => pconst q
  end.

Ltac zconst a :=
  lazymatch a with
  | Z0 => idtac
  | Zpos ?p => pconst p
  | Zneg ?p => pconst p
  end.

(** [a] is built from literals and named constants *)
Ltac closedZ a :=
  lazymatch a with
  | Z0 => idtac
  | Zpos ?p => pconst p
  | Zneg ?p => pconst p
  | ?x + ?y => closedZ x; closedZ y
  | ?x - ?y => closedZ x; closedZ y
  | ?x * ?y => closedZ x; closedZ y
  | Z.land ?x ?y => closedZ x; closedZ y
  | Z.lor ?x ?y => closedZ x; closedZ y
  | _ => is_const a; let a' := eval vm_compute in a in zconst a'
  end.

Ltac const_test_of t a b :=
  closedZ a; closedZ b;
  let v := eval vm_compute in t in
  change t with v.

Ltac const_tests :=
  repeat match goal with
  | |- context [?a =? ?b] => const_test_of (a =? b) a b
  | |- context [?a <? ?b] => const_test_of (a <? b) a b
  | |- context [?a <=? ?b] => const_test_of (a <=? b) a b
  end.

Ltac brks := repeat (const_tests; cbn; brk; cbn); const_tests; cbn.

(** Bits of constants *)
Ltac const_bits :=
  repeat match goal with
  | |- context [Z.testbit ?c ?k] =>
      closedZ c; closedZ k;
      let v := eval vm_compute in (Z.testbit c k) in
      lazymatch v with
      | true => change (Z.testbit c k) with true
      | false => change (Z.testbit c k) with false
      end
  end.

(** From the tests of the C code to bits *)
Ltac tst2bit :=
  unfold STR_bit in *;
  rewrite ?(tst_bit _ FDC_STR_BIT_BUSY 0), ?(tst_bit _ FDC_STR_BIT_INDEX 1),
    ?(tst_bit _ FDC_STR_BIT_TR00 2), ?(tst_bit _ FDC_STR_BIT_CRC_ERROR 3),
    ?(tst_bit _ FDC_STR_BIT_RNF 4), ?(tst_bit _ FDC_STR_BIT_SPIN_UP 5),
    ?(tst_bit _ FDC_STR_BIT_WPRT 6), ?(tst_bit _ FDC_STR_BIT_MOTOR_ON 7) in *
    by first [reflexivity | lia].

Ltac str_bits :=
  rewrite ?STR_update_bit by lia; const_bits;
  rewrite ?andb_true_r, ?andb_false_r, ?orb_false_r, ?orb_true_r.

Section Properties.
Context {P : Platform}.


(** ** Reset (C10) *)

(** C10. Both kinds of reset leave status 0, sector 1, no command, step
    direction +1, no interrupt condition and no index pulse reference on
    any drive; a warm reset keeps the track register, the data register
    and the latest-ff8604-word shadow. *)
Theorem C10_reset (s : State) :
  (TR (FDC (FDC_Reset false s)) = TR (FDC s)
   /\ DR (FDC (FDC_Reset false s)) = DR (FDC s)
   /\ ff8604_recent_val (FDC_DMA (FDC_Reset false s)) = ff8604_recent_val (FDC_DMA s))
  /\ forall bCold,
       STR (FDC (FDC_Reset bCold s)) = 0
       /\ SR (FDC (FDC_Reset bCold s)) = 1
       /\ Command (FDC (FDC_Reset bCold s)) = FDCEMU_CMD_NULL
       /\ StepDirection (FDC (FDC_Reset bCold s)) = 1
       /\ InterruptCond (FDC (FDC_Reset bCold s)) = 0
       /\ Forall (fun d => IndexPulse_Time d = 0) (FDC_DRIVES (FDC_Reset bCold s)).
Proof.
  split.
  - repeat split; reflexivity.
  - intros [|]; repeat split; try reflexivity;
      cbn; apply Forall_forall; intros d Hd;
      apply in_map_iff in Hd; destruct Hd as [d' [<- _]]; reflexivity.
Qed.

(** ** Track and sector register writes (C9) *)

(** C9. A write to the track register or to the sector register stores
    the byte, whatever the status register holds; so does the same write
    coming through the $ff8604 window. *)
Theorem C9_track_sector_write (b : Z) (s : State) :
  TR (FDC (FDC_WriteTrackRegister b s)) = b
  /\ SR (FDC (FDC_WriteSectorRegister b s)) = b
  /\ (forall io_porta w,
        tst (Mode (FDC_DMA s)) 0x10 = false ->
        Z.land (Mode (FDC_DMA s)) 0x0008 <> 0x0008 ->
        FDC_GetEmulationMode io_porta s = FDC_EMULATION_MODE_INTERNAL ->
        (Z.shiftr (Z.land (Mode (FDC_DMA s)) 0x6) 1 = 1 ->
         TR (FDC (FDC_DiskController_WriteWord false io_porta w s)) = Z.land w 0xff)
        /\ (Z.shiftr (Z.land (Mode (FDC_DMA s)) 0x6) 1 = 2 ->
            SR (FDC (FDC_DiskController_WriteWord false io_porta w s)) = Z.land w 0xff)).
Proof.
  split; [reflexivity|]. split; [reflexivity|].
  intros io w Hsc Hhdc Hmode.
  assert (Hm : forall s0 : State, FDC_GetEmulationMode io
            (updDMA (fun d => set_ff8604_recent_val
               (u16 (Z.lor (Z.land (ff8604_recent_val d) 0xff00) (Z.land w 0xff))) d) s0)
            = FDC_GetEmulationMode io s0) by reflexivity.
  unfold FDC_DiskController_WriteWord. rewrite Hsc. cbn.
  destruct (Z.eqb_spec (Z.land (Mode (FDC_DMA s)) 8) 8) as [E|_]; [contradiction|].
  rewrite Hm, Hmode.
  split; intros ->; reflexivity.
Qed.

(** ** Command register (C1, C8) *)

Ltac unfold_execute :=
  unfold FDC_ExecuteCommand, FDC_ExecuteTypeICommands, FDC_ExecuteTypeIICommands,
    FDC_ExecuteTypeIIICommands, FDC_ExecuteTypeIVCommands,
    FDC_TypeI_Restore, FDC_TypeI_Seek, FDC_TypeI_Step, FDC_TypeI_StepIn, FDC_TypeI_StepOut,
    FDC_TypeII_ReadSector, FDC_TypeII_WriteSector,
    FDC_TypeIII_ReadAddress, FDC_TypeIII_ReadTrack, FDC_TypeIII_WriteTrack,
    FDC_TypeIV_ForceInterrupt, FDC_CmdCompleteCommon, start_cmd,
    FDC_ClearIRQ, FDC_SetIRQ, FDC_Update_STR, FDC_StartTimer_FdcCycles.

Lemma GetCmdType_cases b :
  FDC_GetCmdType b = 1 \/ FDC_GetCmdType b = 2 \/ FDC_GetCmdType b = 3 \/ FDC_GetCmdType b = 4.
Proof. unfold FDC_GetCmdType. brks; auto. Qed.

Lemma ExecuteCommand_started (s : State) :
  let s' := FDC_ExecuteCommand s in
  CR (FDC s') = CR (FDC s)
  /\ CommandType (FDC s') = FDC_GetCmdType (CR (FDC s))
  /\ ReplaceCommandPossible (FDC s') = true
  /\ exists c o, FDC_Timer s' = Some (c, o).
Proof.
  destruct (GetCmdType_cases (CR (FDC s))) as [H|[H|[H|H]]];
    unfold_execute; rewrite H; cbn; brks; repeat split; eauto.
Qed.

(** C1. While BUSY is set a write to the command register is dropped,
    unless the new command is of type IV or the running command can still
    be replaced and the new one has its type; then the byte is stored in
    the command register and the command is started. *)
Theorem C1_command_write_while_busy (b : Z) (s : State) :
  STR_bit FDC_STR_BIT_BUSY s = true ->
  (replacement_allowed b s ->
     let s' := FDC_WriteCommandRegister b s in
     s' = FDC_ExecuteCommand (updFDC (set_CR b) s)
     /\ CR (FDC s') = b
     /\ CommandType (FDC s') = FDC_GetCmdType b
     /\ ReplaceCommandPossible (FDC s') = true
     /\ exists c o, FDC_Timer s' = Some (c, o))
  /\ (~ replacement_allowed b s -> FDC_WriteCommandRegister b s = s).
Proof.
  intros Hbusy. unfold STR_bit in Hbusy.
  assert (Hex : replacement_allowed b s ->
          FDC_WriteCommandRegister b s = FDC_ExecuteCommand (updFDC (set_CR b) s)).
  { intros Ha. unfold FDC_WriteCommandRegister. rewrite Hbusy.
    destruct Ha as [H4|[Hr [[H1 Hc]|[H2 Hc]]]].
    - rewrite H4. reflexivity.
    - rewrite H1, Hr, Hc. reflexivity.
    - rewrite H2, Hr, Hc. reflexivity. }
  split.
  - intros Ha. cbv zeta. rewrite (Hex Ha).
    split; [reflexivity|].
    exact (ExecuteCommand_started (updFDC (set_CR b) s)).
  - intros Hn. unfold FDC_WriteCommandRegister. rewrite Hbusy.
    destruct (Z.eqb_spec (FDC_GetCmdType b) 4) as [E|_].
    { exfalso. apply Hn. left. exact E. }
    destruct (ReplaceCommandPossible (FDC s)) eqn:Hr; [|reflexivity].
    cbn.
    destruct (Z.eqb_spec (FDC_GetCmdType b) 1) as [E1|_].
    { destruct (Z.eqb_spec (CommandType (FDC s)) (FDC_GetCmdType b)) as [Ec|_].
      - exfalso. apply Hn. right. split; [exact Hr|]. left. split; congruence.
      - cbn. destruct (Z.eqb_spec (FDC_GetCmdType b) 2); [congruence|reflexivity]. }
    cbn.
    destruct (Z.eqb_spec (FDC_GetCmdType b) 2) as [E2|_]; [|reflexivity].
    destruct (Z.eqb_spec (CommandType (FDC s)) (FDC_GetCmdType b)) as [Ec|_]; [|reflexivity].
    exfalso. apply Hn. right. split; [exact Hr|]. right. split; congruence.
Qed.

Lemma WriteTrack_type b : Z.land b 0xf0 = 0xf0 -> FDC_GetCmdType b = 3.
Proof.
  intros H. unfold FDC_GetCmdType.
  assert (H80 : Z.land b 0x80 = 0x80).
  { change 0x80 with (Z.land 0xf0 0x80) at 1. rewrite Z.land_assoc, H. reflexivity. }
  assert (H40 : Z.land b 0x40 = 0x40).
  { change 0x40 with (Z.land 0xf0 0x40) at 1. rewrite Z.land_assoc, H. reflexivity. }
  rewrite H80, H40, H. reflexivity.
Qed.

(** C8 (as the code has it). Write Track is not implemented: an accepted
    Write Track sets RNF and ends at once with the command tag Null, not
    through the common completion path: BUSY stays clear, no interrupt is
    raised and the motor-stop timer is not entered.  It is accepted only
    when BUSY is clear. *)
Theorem C8_write_track (b : Z) (s : State) :
  Z.land b 0xf0 = 0xf0 ->
  let s' := FDC_WriteCommandRegister b s in
  (STR_bit FDC_STR_BIT_BUSY s = true -> s' = s)
  /\ (STR_bit FDC_STR_BIT_BUSY s = false ->
      STR_bit FDC_STR_BIT_RNF s' = true
      /\ STR_bit FDC_STR_BIT_BUSY s' = false
      /\ Command (FDC s') = FDCEMU_CMD_NULL
      /\ CommandState (FDC s') = FDCEMU_RUN_NULL
      /\ MFP_FDCHDC_Inputs s' = MFP_FDCHDC_Inputs s
      /\ (FDC_IRQ_asserted s' = true -> FDC_IRQ_asserted s = true)).
Proof.
  intros Hb s'. subst s'. pose proof (WriteTrack_type b Hb) as Ht.
  unfold STR_bit, FDC_WriteCommandRegister. split; intros Hbusy; rewrite Hbusy.
  - rewrite Ht. cbn. rewrite andb_false_r. reflexivity.
  - unfold_execute. cbn. rewrite Ht. const_tests. cbn.
    unfold FDC_IRQ_asserted.
    destruct (Z.land (InterruptCond (FDC s)) FDC_INTERRUPT_COND_IMMEDIATE =? 0);
      cbn; rewrite Hb; const_tests; cbn; tst2bit; str_bits; repeat split; auto.
    rewrite u8_bit, Z.lor_spec by lia. const_bits. rewrite orb_true_r. discriminate.
Qed.

(** ** The DMA ports (C6, C3) *)

Lemma Push_shadow (b : Z) (s : State) :
  0 <= FIFO_Size (FDC_DMA s) < FDC_DMA_FIFO_SIZE ->
  length (FIFO (FDC_DMA s)) = Z.to_nat FDC_DMA_FIFO_SIZE ->
  Z.land (ff8604_recent_val (FDC_DMA (FDC_DMA_FIFO_Push b s))) 0xff = Z.land b 0xff.
Proof.
  intros Hsz Hlen.
  unfold FDC_DMA_FIFO_Push, FDC_SetDMAStatus, FDC_WriteDMAAddress, FDC_DMA_block_done.
  cbn. brks; try apply low_byte_merge.
  all: rewrite low_byte_word; f_equal.
  all: assert (FIFO_Size (FDC_DMA s) = 15) as -> by (unfold FDC_DMA_FIFO_SIZE in *; lia).
  all: apply rd_wr_same; rewrite Hlen; unfold FDC_DMA_FIFO_SIZE; lia.
Qed.

(** C6 (as the code has it). Every push records the byte in the low half
    of the latest-ff8604-word shadow, also while the sector counter is 0;
    a pull records the byte it returns while the sector counter is not 0;
    a pull made while the sector counter is 0 returns 0 and leaves the
    shadow as it was. *)
Theorem C6_shadow_low_half :
  (forall (b : Z) (s : State),
      0 <= b < 256 ->
      0 <= FIFO_Size (FDC_DMA s) < FDC_DMA_FIFO_SIZE ->
      length (FIFO (FDC_DMA s)) = Z.to_nat FDC_DMA_FIFO_SIZE ->
      Z.land (ff8604_recent_val (FDC_DMA (FDC_DMA_FIFO_Push b s))) 0xff = b)
  /\ (forall s : State,
      SectorCount (FDC_DMA s) <> 0 ->
      Z.land (ff8604_recent_val (FDC_DMA (fst (FDC_DMA_FIFO_Pull s)))) 0xff
      = Z.land (snd (FDC_DMA_FIFO_Pull s)) 0xff)
  /\ (forall s : State,
      SectorCount (FDC_DMA s) = 0 ->
      snd (FDC_DMA_FIFO_Pull s) = 0
      /\ ff8604_recent_val (FDC_DMA (fst (FDC_DMA_FIFO_Pull s)))
         = ff8604_recent_val (FDC_DMA s)).
Proof.
  split; [|split].
  - intros b s Hb Hsz Hlen. rewrite Push_shadow by assumption. now apply land_ff_byte.
  - intros s Hc. unfold FDC_DMA_FIFO_Pull.
    destruct (Z.eqb_spec (SectorCount (FDC_DMA s)) 0) as [E|_]; [contradiction|].
    unfold FDC_SetDMAStatus, FDC_WriteDMAAddress, FDC_DMA_block_done.
    cbn. brks; apply low_byte_merge.
  - intros s Hc. unfold FDC_DMA_FIFO_Pull. rewrite Hc. split; reflexivity.
Qed.

(** Part of C3: what a push does while the sector counter is 0 *)
Lemma Push_count0 (b : Z) (s : State) :
  SectorCount (FDC_DMA s) = 0 ->
  let s' := FDC_DMA_FIFO_Push b s in
  Z.testbit (Status (FDC_DMA s')) 0 = false
  /\ FIFO (FDC_DMA s') = FIFO (FDC_DMA s)
  /\ FIFO_Size (FDC_DMA s') = FIFO_Size (FDC_DMA s)
  /\ BytesInSector (FDC_DMA s') = BytesInSector (FDC_DMA s)
  /\ SectorCount (FDC_DMA s') = 0
  /\ (IoMem_ff8609 s', IoMem_ff860b s', IoMem_ff860d s')
     = (IoMem_ff8609 s, IoMem_ff860b s, IoMem_ff860d s)
  /\ STRam s' = STRam s.
Proof.
  intros Hc. unfold FDC_DMA_FIFO_Push. cbn. rewrite Hc. cbn.
  repeat split; auto. apply u16_clear_bit0.
Qed.

(** What a push changes while the sector counter is 0: the shadow and the
    error bit of the DMA status *)
Lemma Push_count0_eq (b : Z) (s : State) :
  SectorCount (FDC_DMA s) = 0 ->
  FDC_DMA_FIFO_Push b s
  = updDMA (fun d =>
      set_Status (u16 (Z.land (Status d) (Z.lnot 0x1)))
        (set_ff8604_recent_val (u16 (Z.lor (Z.land (ff8604_recent_val d) 0xff00) b)) d)) s.
Proof. intros Hc. unfold FDC_DMA_FIFO_Push. cbn. rewrite Hc. reflexivity. Qed.

(** ** The invariants hold in every reachable state *)

Ltac b2p :=
  repeat match goal with
  | H : _ && _ = true |- _ => apply andb_true_iff in H; destruct H
  | H : _ || _ = false |- _ => apply orb_false_iff in H; destruct H
  | H : negb _ = true |- _ => apply negb_true_iff in H
  | H : negb _ = false |- _ => apply negb_false_iff in H
  | H : (_ =? _) = true |- _ => apply Z.eqb_eq in H
  | H : (_ =? _) = false |- _ => apply Z.eqb_neq in H
  | H : (_ <? _) = true |- _ => apply Z.ltb_lt in H
  | H : (_ <? _) = false |- _ => apply Z.ltb_ge in H
  | H : (_ <=? _) = true |- _ => apply Z.leb_le in H
  | H : (_ <=? _) = false |- _ => apply Z.leb_gt in H
  end.

Ltac b2p_or :=
  repeat match goal with
  | H : _ && _ = false |- _ => apply andb_false_iff in H; destruct H
  | H : _ || _ = true |- _ => apply orb_true_iff in H; destruct H
  end; b2p.

Lemma no_drive_head_ok : head_ok no_drive.
Proof. unfold head_ok, no_drive, FDC_PHYSICAL_MAX_TRACK. cbn. lia. Qed.

Lemma head_ok_rd l i : Forall head_ok l -> head_ok (rd no_drive l i).
Proof. intros. apply Forall_rd; auto using no_drive_head_ok. Qed.

Lemma head_ok_map (g : FDC_DRIVE_STRUCT -> FDC_DRIVE_STRUCT) l :
  (forall d, head_ok d -> head_ok (g d)) -> Forall head_ok l -> Forall head_ok (map g l).
Proof. intros Hg Hl. induction Hl; simpl; auto. Qed.

Ltac heads_fin :=
  lazymatch goal with
  | |- Forall head_ok (wr _ _ _) => apply Forall_wr; [heads_fin | unfold head_ok; cbn; heads_val]
  | |- Forall head_ok (map _ _) => apply head_ok_map; [intros ? ?; assumption | heads_fin]
  | |- Forall head_ok _ => assumption
  end
with heads_val :=
  first
    [ solve [apply head_ok_rd; heads_fin]
    | solve [unfold head_ok, FDC_PHYSICAL_MAX_TRACK, u8 in *; cbn in *; b2p_or;
             first [congruence | Z.to_euclidean_division_equations; lia]] ].

Ltac inv_solve :=
  first
    [ solve [auto]
    | solve [str_bits; cbn; first [assumption | reflexivity | congruence]]
    | solve [heads_fin]
    | solve [apply WriteDMAAddress_low_bit0]
    | solve [apply land_fe_bit0]
    | solve [unfold FDC_DMA_FIFO_SIZE in *; b2p; lia]
    | solve [rewrite ?length_wr, ?length_map, ?length_seq; auto] ].

Ltac inv_fin := constructor; cbn; brks; inv_solve.

Ltac inv_start s H :=
  intros H;
  pose proof (head_ok_rd (FDC_DRIVES s) (DriveSelSignal (FDC s)) (inv_heads s H)) as Hsel;
  destruct H as [Hb Hh Hd Ha Hs Hl].

Ltac unfold_prims :=
  repeat progress
    unfold FDC_CmdCompleteCommon, FDC_IndexPulse_Init, FDC_NextSectorID_NbBytes,
      FDC_Set_MotorON, FDC_DMA_FIFO_Push, FDC_DMA_FIFO_Pull, FDC_SetDMAStatus,
      FDC_WriteDMAAddress, FDC_DMA_block_done, FDC_ReadSectorFromFloppy,
      FDC_WriteSectorToFloppy, FDC_StartTimer_FdcCycles, start_cmd,
      set_state, FDC_SetIRQ, FDC_ClearIRQ, FDC_Update_STR, no_drive_floppy,
      drive_enabled, updSeldrive, seldrive, updDrive, drive in *.

Ltac inv_crush s :=
  let H := fresh "H" in
  inv_start s H; unfold_prims; cbn; brks; inv_fin.

Create HintDb fdc_inv discriminated.

Lemma Inv_UpdateAll s : Inv s -> Inv (FDC_UpdateAll s).
Proof. unfold FDC_UpdateAll, FDC_IndexPulse_Update. inv_crush s. Qed.

Lemma Inv_CmdCompleteCommon b s : Inv s -> Inv (fst (FDC_CmdCompleteCommon b s)).
Proof. inv_crush s. Qed.

Lemma Inv_Cmd_START a b s : Inv s -> Inv (fst (Cmd_START a b s)).
Proof. unfold Cmd_START. inv_crush s. Qed.

Lemma Inv_TypeI_VERIFY a b s : Inv s -> Inv (fst (TypeI_VERIFY a b s)).
Proof. unfold TypeI_VERIFY. inv_crush s. Qed.

Lemma Inv_TypeI_VERIFY_NEXT a b s :
  Inv s -> Inv (fst (TypeI_VERIFY_NEXT_SECTOR_HEADER a b s)).
Proof. unfold TypeI_VERIFY_NEXT_SECTOR_HEADER. inv_crush s. Qed.

Lemma Inv_TypeI_VERIFY_HEAD_OK a b s : Inv s -> Inv (fst (TypeI_VERIFY_HEAD_OK a b s)).
Proof. unfold TypeI_VERIFY_HEAD_OK, TypeI_VERIFY_NEXT_SECTOR_HEADER. inv_crush s. Qed.

Lemma Inv_TypeI_VERIFY_CHECK a b s :
  Inv s -> Inv (fst (TypeI_VERIFY_CHECK_SECTOR_HEADER a b s)).
Proof. unfold TypeI_VERIFY_CHECK_SECTOR_HEADER. inv_crush s. Qed.

Lemma Inv_Restore_LOOP s : Inv s -> Inv (fst (Restore_LOOP s)).
Proof. unfold Restore_LOOP. inv_crush s. Qed.

Lemma Inv_Restore_MOTOR_ON s : Inv s -> Inv (fst (Restore_MOTOR_ON s)).
Proof. unfold Restore_MOTOR_ON, Restore_LOOP. inv_crush s. Qed.

Lemma Inv_Restore_SPIN_UP s : Inv s -> Inv (fst (Restore_SPIN_UP s)).
Proof.
  intros H. unfold Restore_SPIN_UP. brks; auto using Inv_Restore_MOTOR_ON.
Qed.

Lemma Inv_Seek_MOTOR_ON s : Inv s -> Inv (fst (Seek_MOTOR_ON s)).
Proof. unfold Seek_MOTOR_ON, Seek_move_head. inv_crush s. Qed.

Lemma Inv_Seek_SPIN_UP s : Inv s -> Inv (fst (Seek_SPIN_UP s)).
Proof. intros H. unfold Seek_SPIN_UP. brks; auto using Inv_Seek_MOTOR_ON. Qed.

Lemma Inv_Step_MOTOR_ON s : Inv s -> Inv (fst (Step_MOTOR_ON s)).
Proof. unfold Step_MOTOR_ON, Step_move_head. inv_crush s. Qed.

Lemma Inv_Step_SPIN_UP s : Inv s -> Inv (fst (Step_SPIN_UP s)).
Proof. intros H. unfold Step_SPIN_UP. brks; auto using Inv_Step_MOTOR_ON. Qed.

Lemma Inv_Read_TRANSFER_LOOP a c s : Inv s -> Inv (fst (Read_TRANSFER_LOOP a c s)).
Proof. unfold Read_TRANSFER_LOOP. inv_crush s. Qed.

Lemma Inv_TypeII_NEXT a b s : Inv s -> Inv (fst (TypeII_NEXT_SECTOR_HEADER a b s)).
Proof. unfold TypeII_NEXT_SECTOR_HEADER. inv_crush s. Qed.

Lemma Inv_TypeII_MOTOR_ON a b s : Inv s -> Inv (fst (TypeII_MOTOR_ON a b s)).
Proof. unfold TypeII_MOTOR_ON, TypeII_NEXT_SECTOR_HEADER. inv_crush s. Qed.

Lemma Inv_TypeII_HEAD_LOAD m a b s : Inv s -> Inv (fst (TypeII_HEAD_LOAD m a b s)).
Proof.
  intros H. unfold TypeII_HEAD_LOAD. destruct (tst _ _); auto using Inv_TypeII_MOTOR_ON.
  revert H. inv_crush s.
Qed.

Lemma Inv_TypeII_SPIN_UP m a b s : Inv s -> Inv (fst (TypeII_SPIN_UP m a b s)).
Proof. intros H. unfold TypeII_SPIN_UP. brks; auto using Inv_TypeII_HEAD_LOAD. Qed.

Lemma Inv_TypeII_CHECK a b s : Inv s -> Inv (fst (TypeII_CHECK_SECTOR_HEADER a b s)).
Proof. unfold TypeII_CHECK_SECTOR_HEADER. inv_crush s. Qed.

Lemma Inv_TypeII_CRC a b s : Inv s -> Inv (fst (TypeII_CRC a b s)).
Proof. unfold TypeII_CRC. inv_crush s. Qed.

Lemma Inv_TypeII_RNF s : Inv s -> Inv (fst (TypeII_RNF s)).
Proof. unfold TypeII_RNF. inv_crush s. Qed.

Lemma Inv_ReadSectors_TRANSFER_START s : Inv s -> Inv (fst (ReadSectors_TRANSFER_START s)).
Proof. unfold ReadSectors_TRANSFER_START. inv_crush s. Qed.

Lemma Inv_WriteSectors_TRANSFER_START s : Inv s -> Inv (fst (WriteSectors_TRANSFER_START s)).
Proof. unfold WriteSectors_TRANSFER_START. inv_crush s. Qed.

Lemma Inv_WriteSectors_TRANSFER_LOOP s : Inv s -> Inv (fst (WriteSectors_TRANSFER_LOOP s)).
Proof. unfold WriteSectors_TRANSFER_LOOP. inv_crush s. Qed.

Lemma Inv_ReadAddress_MOTOR_ON s : Inv s -> Inv (fst (ReadAddress_MOTOR_ON s)).
Proof. unfold ReadAddress_MOTOR_ON. inv_crush s. Qed.

Lemma Inv_ReadAddress_HEAD_LOAD s : Inv s -> Inv (fst (ReadAddress_HEAD_LOAD s)).
Proof. unfold ReadAddress_HEAD_LOAD, ReadAddress_MOTOR_ON. inv_crush s. Qed.

Lemma Inv_ReadAddress_SPIN_UP s : Inv s -> Inv (fst (ReadAddress_SPIN_UP s)).
Proof. intros H. unfold ReadAddress_SPIN_UP. brks; auto using Inv_ReadAddress_HEAD_LOAD. Qed.

Lemma Inv_ReadAddress_TRANSFER_START s : Inv s -> Inv (fst (ReadAddress_TRANSFER_START s)).
Proof. unfold ReadAddress_TRANSFER_START. inv_crush s. Qed.

Lemma Inv_ReadTrack_MOTOR_ON s : Inv s -> Inv (fst (ReadTrack_MOTOR_ON s)).
Proof. unfold ReadTrack_MOTOR_ON. inv_crush s. Qed.

Lemma Inv_ReadTrack_HEAD_LOAD s : Inv s -> Inv (fst (ReadTrack_HEAD_LOAD s)).
Proof. unfold ReadTrack_HEAD_LOAD, ReadTrack_MOTOR_ON. inv_crush s. Qed.

Lemma Inv_ReadTrack_SPIN_UP s : Inv s -> Inv (fst (ReadTrack_SPIN_UP s)).
Proof. intros H. unfold ReadTrack_SPIN_UP. brks; auto using Inv_ReadTrack_HEAD_LOAD. Qed.

Lemma Inv_ReadTrack_INDEX s : Inv s -> Inv (fst (ReadTrack_INDEX s)).
Proof. unfold ReadTrack_INDEX. inv_crush s. Qed.

Hint Resolve Inv_UpdateAll Inv_CmdCompleteCommon Inv_Cmd_START Inv_TypeI_VERIFY
  Inv_TypeI_VERIFY_NEXT Inv_TypeI_VERIFY_HEAD_OK Inv_TypeI_VERIFY_CHECK
  Inv_Restore_LOOP Inv_Restore_MOTOR_ON Inv_Restore_SPIN_UP
  Inv_Seek_MOTOR_ON Inv_Seek_SPIN_UP Inv_Step_MOTOR_ON Inv_Step_SPIN_UP
  Inv_Read_TRANSFER_LOOP Inv_TypeII_NEXT Inv_TypeII_MOTOR_ON Inv_TypeII_HEAD_LOAD
  Inv_TypeII_SPIN_UP Inv_TypeII_CHECK Inv_TypeII_CRC Inv_TypeII_RNF
  Inv_ReadSectors_TRANSFER_START Inv_WriteSectors_TRANSFER_START
  Inv_WriteSectors_TRANSFER_LOOP Inv_ReadAddress_MOTOR_ON Inv_ReadAddress_HEAD_LOAD
  Inv_ReadAddress_SPIN_UP Inv_ReadAddress_TRANSFER_START Inv_ReadTrack_MOTOR_ON
  Inv_ReadTrack_HEAD_LOAD Inv_ReadTrack_SPIN_UP Inv_ReadTrack_INDEX : fdc_inv.

Lemma Inv_UpdateRestoreCmd s : Inv s -> Inv (fst (FDC_UpdateRestoreCmd s)).
Proof. intros H. unfold FDC_UpdateRestoreCmd. destruct (CommandState (FDC s)); auto with fdc_inv. Qed.

Lemma Inv_UpdateSeekCmd s : Inv s -> Inv (fst (FDC_UpdateSeekCmd s)).
Proof. intros H. unfold FDC_UpdateSeekCmd. destruct (CommandState (FDC s)); auto with fdc_inv. Qed.

Lemma Inv_UpdateStepCmd s : Inv s -> Inv (fst (FDC_UpdateStepCmd s)).
Proof. intros H. unfold FDC_UpdateStepCmd. destruct (CommandState (FDC s)); auto with fdc_inv. Qed.

Lemma Inv_UpdateReadSectorsCmd s : Inv s -> Inv (fst (FDC_UpdateReadSectorsCmd s)).
Proof.
  intros H. unfold FDC_UpdateReadSectorsCmd. destruct (CommandState (FDC s)); auto with fdc_inv.
Qed.

Lemma Inv_UpdateReadAddressCmd s : Inv s -> Inv (fst (FDC_UpdateReadAddressCmd s)).
Proof.
  intros H. unfold FDC_UpdateReadAddressCmd. destruct (CommandState (FDC s)); auto with fdc_inv.
Qed.

Lemma Inv_UpdateReadTrackCmd s : Inv s -> Inv (fst (FDC_UpdateReadTrackCmd s)).
Proof.
  intros H. unfold FDC_UpdateReadTrackCmd. destruct (CommandState (FDC s)); auto with fdc_inv.
Qed.

Lemma Inv_Update_STR_nobusy d e s :
  Z.testbit d 0 = false -> Z.testbit e 0 = false -> Inv s -> Inv (FDC_Update_STR d e s).
Proof.
  intros Hd0 He0 [Hb Hh Hd Ha Hs Hl]. constructor; cbn; auto.
  rewrite STR_update_bit, Hd0, He0 by lia. now rewrite andb_true_r, orb_false_r.
Qed.

Lemma Inv_UpdateWriteSectorsCmd s : Inv s -> Inv (fst (FDC_UpdateWriteSectorsCmd s)).
Proof.
  intros H. unfold FDC_UpdateWriteSectorsCmd.
  destruct (_ && Floppy_IsWriteProtected _ _).
  - cbn.
    exact (Inv_CmdCompleteCommon true (FDC_Update_STR 0 FDC_STR_BIT_WPRT s)
             (Inv_Update_STR_nobusy 0 FDC_STR_BIT_WPRT s eq_refl eq_refl H)).
  - assert (H1 : Inv (FDC_Update_STR FDC_STR_BIT_WPRT 0 s)) by now apply Inv_Update_STR_nobusy.
    revert H1. generalize (FDC_Update_STR FDC_STR_BIT_WPRT 0 s). intros s1 H1.
    destruct (CommandState (FDC s1)); auto with fdc_inv.
Qed.

Lemma Inv_UpdateMotorStop s :
  Command (FDC s) = FDCEMU_CMD_MOTOR_STOP -> Inv s -> Inv (fst (FDC_UpdateMotorStop s)).
Proof.
  intros Hc H. unfold FDC_UpdateMotorStop, MotorStop_WAIT, MotorStop_COMPLETE.
  destruct (CommandState (FDC s)); try exact H.
  all: revert H; inv_start s H; rewrite Hc in Hb; cbn in Hb; unfold_prims; cbn; brks.
  all: constructor; cbn; rewrite ?Hc; cbn; inv_solve.
Qed.

Lemma Inv_Update_dispatch c s : Inv s -> Inv (fst (FDC_Update_dispatch c s)).
Proof.
  intros H. unfold FDC_Update_dispatch.
  destruct (Command (FDC s)) eqn:Hc;
    auto using Inv_UpdateRestoreCmd, Inv_UpdateSeekCmd, Inv_UpdateStepCmd,
      Inv_UpdateReadSectorsCmd, Inv_UpdateWriteSectorsCmd, Inv_UpdateReadAddressCmd,
      Inv_UpdateReadTrackCmd, Inv_UpdateMotorStop.
Qed.

Lemma Inv_Update_round c s : Inv s -> Inv (fst (FDC_Update_round c s)).
Proof. intros H. unfold FDC_Update_round. auto using Inv_Update_dispatch, Inv_UpdateAll. Qed.

Lemma Inv_Update_loop fuel : forall c s s' c',
  Inv s -> FDC_Update_loop fuel c s = Some (s', c') -> Inv s'.
Proof.
  induction fuel as [|fuel IH]; intros c s s' c' H E; [discriminate|].
  cbn in E. pose proof (Inv_Update_round c s H) as H1.
  destruct (FDC_Update_round c s) as [s1 c1]. cbn in H1.
  destruct (negb (cmd_is_null (Command (FDC s1))) && (c1 =? 0)).
  - eapply IH; eauto.
  - now inversion E; subst.
Qed.

Lemma Inv_set_FDC_Timer t s : Inv s -> Inv (set_FDC_Timer t s).
Proof. intros [Hb Hh Hd Ha Hs Hl]. constructor; auto. Qed.

Lemma Inv_StartTimer c o s : Inv s -> Inv (FDC_StartTimer_FdcCycles c o s).
Proof. intros H. unfold FDC_StartTimer_FdcCycles. now apply Inv_set_FDC_Timer. Qed.

Lemma Inv_InterruptHandler fuel p s s' :
  Inv s -> FDC_InterruptHandler_Update fuel p s = Some s' -> Inv s'.
Proof.
  intros H E. unfold FDC_InterruptHandler_Update in E.
  destruct (FDC_Update_loop fuel 0 (set_FDC_Timer None s)) as [[s1 c1]|] eqn:El; [|discriminate].
  apply Inv_Update_loop in El; [|now apply Inv_set_FDC_Timer].
  inversion E; subst. destruct (negb _); auto using Inv_StartTimer.
Qed.

Lemma Inv_ExecuteCommand s :
  (FDC_GetCmdType (CR (FDC s)) = 3 -> Z.testbit (STR (FDC s)) 0 = false) ->
  Inv s -> Inv (FDC_ExecuteCommand s).
Proof.
  intros H3. inv_start s H.
  destruct (GetCmdType_cases (CR (FDC s))) as [E|[E|[E|E]]];
    unfold_execute; rewrite E in *; cbn; brks;
    try (specialize (H3 eq_refl)); inv_fin.
  all: rewrite H3; reflexivity.
Qed.

Lemma Inv_set_CR b s : Inv s -> Inv (updFDC (set_CR b) s).
Proof. intros [Hb Hh Hd Ha Hs Hl]. constructor; auto. Qed.

Lemma Inv_WriteCommandRegister b s : Inv s -> Inv (FDC_WriteCommandRegister b s).
Proof.
  intros H. unfold FDC_WriteCommandRegister.
  destruct (tst (STR (FDC s)) FDC_STR_BIT_BUSY) eqn:Hbusy.
  - destruct (Z.eqb_spec (FDC_GetCmdType b) 4) as [E4|_].
    { apply Inv_ExecuteCommand; [|now apply Inv_set_CR]. cbn. congruence. }
    destruct (ReplaceCommandPossible (FDC s)); cbn; [|exact H].
    destruct (Z.eqb_spec (FDC_GetCmdType b) 1) as [E1|_].
    { destruct (CommandType (FDC s) =? FDC_GetCmdType b); cbn.
      - apply Inv_ExecuteCommand; [|now apply Inv_set_CR]. cbn. congruence.
      - destruct (Z.eqb_spec (FDC_GetCmdType b) 2); [congruence|exact H]. }
    cbn. destruct (Z.eqb_spec (FDC_GetCmdType b) 2) as [E2|_]; [|exact H].
    destruct (CommandType (FDC s) =? FDC_GetCmdType b); cbn; [|exact H].
    apply Inv_ExecuteCommand; [|now apply Inv_set_CR]. cbn. congruence.
  - apply Inv_ExecuteCommand; [|now apply Inv_set_CR]. cbn. intros _.
    rewrite (tst_bit _ FDC_STR_BIT_BUSY 0) in Hbusy by (reflexivity || lia). exact Hbusy.
Qed.

Lemma Inv_DiskController_WriteWord ba io w s :
  Inv s -> Inv (FDC_DiskController_WriteWord ba io w s).
Proof.
  intros H. unfold FDC_DiskController_WriteWord.
  destruct ba; [exact H|].
  destruct (tst (Mode (FDC_DMA s)) 16).
  { destruct H as [Hb Hh Hd Ha Hs Hl]. constructor; auto. }
  match goal with |- context [updDMA ?g s] => set (s1 := updDMA g s) end.
  assert (H1 : Inv s1) by (destruct H as [Hb Hh Hd Ha Hs Hl]; constructor; auto).
  clearbody s1.
  destruct (Z.land (Mode (FDC_DMA s1)) 8 =? 8); [exact H1|].
  destruct (FDC_GetEmulationMode io s1); [|exact H1].
  pose proof (Inv_UpdateAll s1 H1) as H2. cbv zeta.
  destruct (_ =? 0); [now apply Inv_WriteCommandRegister|].
  destruct (_ =? 1); [|destruct (_ =? 2)].
  all: destruct H2 as [Hb Hh Hd Ha Hs Hl]; constructor; auto.
Qed.

Lemma Inv_DiskControllerStatus_ReadWord ba io ext s :
  Inv s -> Inv (fst (FDC_DiskControllerStatus_ReadWord ba io ext s)).
Proof.
  intros H. unfold FDC_DiskControllerStatus_ReadWord.
  destruct ba; [exact H|].
  assert (Hsh : forall (t : State) v, Inv t ->
            Inv (if Z.land (Mode (FDC_DMA t)) 16 =? 0
                 then updDMA (fun d => set_ff8604_recent_val
                        (u16 (Z.lor (Z.land (ff8604_recent_val d) 65280) (Z.land v 255))) d) t
                 else t)).
  { intros t v [Hb Hh Hd Ha Hs Hl]. destruct (_ =? 0); constructor; auto. }
  destruct (tst (Mode (FDC_DMA s)) 16); [cbn; now apply Hsh|].
  destruct (Z.land (Mode (FDC_DMA s)) 8 =? 8); [cbn; now apply Hsh|].
  destruct (FDC_GetEmulationMode io s).
  - pose proof (Inv_UpdateAll s H) as H1. cbv zeta.
    revert H1. generalize (FDC_UpdateAll s). clear H. intros s1.
    destruct (_ =? 0).
    + intros H1.
      assert (H2 : Inv (FDC_ClearIRQ
                (if StatusTypeI (FDC s1) then FDC_Status_TypeI_refresh s1 else s1))).
      { revert H1. unfold FDC_Status_TypeI_refresh. inv_crush s1. }
      cbn. now apply Hsh.
    + intros H1. destruct (_ =? 1); [|destruct (_ =? 2)]; cbn; now apply Hsh.
  - cbv zeta. destruct (_ && _); [|cbn; now apply Hsh].
    destruct (Floppy_DriveTransitionUpdateState _ _) as [disks f].
    apply (Hsh (set_Disks disks s)). destruct H as [Hb Hh Hd Ha Hs Hl]. constructor; auto.
Qed.

Lemma Inv_ResetDMA s : Inv s -> Inv (FDC_ResetDMA s).
Proof. intros [Hb Hh Hd Ha Hs Hl]. constructor; cbn; auto. unfold FDC_DMA_FIFO_SIZE. lia. Qed.

Lemma Inv_DmaModeControl ba w s : Inv s -> Inv (FDC_DmaModeControl_WriteWord ba w s).
Proof.
  intros H. unfold FDC_DmaModeControl_WriteWord. destruct ba; [exact H|].
  assert (H1 : Inv (updDMA (set_Mode (u16 w)) s))
    by (destruct H as [Hb Hh Hd Ha Hs Hl]; constructor; auto).
  cbv zeta. destruct (tst _ _); auto using Inv_ResetDMA.
Qed.

Lemma Inv_DmaStatus ba s : Inv s -> Inv (fst (FDC_DmaStatus_ReadWord ba s)).
Proof.
  intros H. unfold FDC_DmaStatus_ReadWord. destruct ba; [exact H|].
  destruct H as [Hb Hh Hd Ha Hs Hl]. destruct (negb _); constructor; auto.
Qed.

Lemma Inv_DmaAddress_bput addr v s : Inv s -> Inv (DmaAddress_bput addr v s).
Proof.
  unfold DmaAddress_bput, FDC_DmaAddress_WriteByte, IoMem_WriteByte.
  intros [Hb Hh Hd Ha Hs Hl].
  destruct (Z.eqb_spec addr 0xff8609) as [->|N9]; cbn.
  { destruct (machine_limited_4MB nMachineType); constructor; auto. }
  destruct (Z.eqb_spec addr 0xff860b) as [->|Nb]; cbn.
  { constructor; auto. }
  destruct (Z.eqb_spec addr 0xff860d) as [->|Nd]; cbn; constructor; auto.
  cbn. apply land_fe_bit0.
Qed.

Lemma Inv_EnableDrive d v s : Inv s -> Inv (FDC_EnableDrive d v s).
Proof. unfold FDC_EnableDrive. inv_crush s. Qed.

Lemma Inv_InsertFloppy d s : Inv s -> Inv (FDC_InsertFloppy d s).
Proof. unfold FDC_InsertFloppy. inv_crush s. Qed.

Lemma Inv_EjectFloppy d s : Inv s -> Inv (FDC_EjectFloppy d s).
Proof. unfold FDC_EjectFloppy. inv_crush s. Qed.

Lemma Inv_SetDriveSide o n s : Inv s -> Inv (FDC_SetDriveSide o n s).
Proof. unfold FDC_SetDriveSide. inv_crush s. Qed.

Lemma Inv_Reset bCold s :
  Forall head_ok (FDC_DRIVES s) ->
  Z.testbit (IoMem_ff860d s) 0 = false ->
  length (FIFO (FDC_DMA s)) = Z.to_nat FDC_DMA_FIFO_SIZE ->
  Inv (FDC_Reset bCold s).
Proof.
  intros Hh Ha Hl. unfold FDC_Reset, FDC_ResetDMA.
  destruct bCold; constructor; cbn; auto; try reflexivity.
  all: try (apply head_ok_map; [intros d Hd0; exact Hd0|assumption]).
  all: unfold FDC_DMA_FIFO_SIZE; lia.
Qed.

Lemma Inv_power_on m gpip disks : Inv (power_on m gpip disks).
Proof.
  unfold power_on. apply Inv_Reset; cbn; try reflexivity.
  repeat constructor; unfold head_ok, FDC_PHYSICAL_MAX_TRACK; cbn; lia.
Qed.

Lemma Inv_step e s s' : Inv s -> step e s = Some s' -> Inv s'.
Proof.
  intros H E. destruct e; cbn in E; try (inversion E; subst; clear E).
  - destruct H. now apply Inv_Reset.
  - now apply Inv_DiskController_WriteWord.
  - now apply Inv_DiskControllerStatus_ReadWord.
  - now apply Inv_DmaModeControl.
  - now apply Inv_DmaStatus.
  - now apply Inv_DmaAddress_bput.
  - now apply Inv_EnableDrive.
  - now apply Inv_InsertFloppy.
  - now apply Inv_EjectFloppy.
  - now apply Inv_SetDriveSide.
  - eapply Inv_InterruptHandler; eauto.
  - destruct H as [Hb Hh Hd Ha Hs Hl]. constructor; auto.
Qed.

Lemma reachable_Inv s : reachable s -> Inv s.
Proof. induction 1; eauto using Inv_power_on, Inv_step. Qed.

Lemma Inv_run es : forall s s', Inv s -> run es s = Some s' -> Inv s'.
Proof.
  induction es as [|e es IH]; intros s s' H E; cbn in E.
  - now inversion E; subst.
  - destruct (step e s) as [s1|] eqn:E1; [|discriminate]. eauto using Inv_step.
Qed.

Lemma reachable_run es : forall s s', reachable s -> run es s = Some s' -> reachable s'.
Proof.
  induction es as [|e es IH]; intros s s' H E; cbn in E.
  - now inversion E; subst.
  - destruct (step e s) as [s1|] eqn:E1; [|discriminate]. eauto using reach_step.
Qed.

(** ** BUSY and the command tag (C2) *)

(** C2 (as the code has it). In every reachable state BUSY is set if and
    only if a command of the controller is in flight: the command tag is
    neither Null nor the internal Motor-Stop pseudo command.  Throughout
    the motor-stop period that follows a completion the tag is Motor-Stop
    and BUSY is clear. *)
Theorem C2_busy_iff_command_in_flight (s : State) :
  reachable s ->
  (STR_bit FDC_STR_BIT_BUSY s = true
   <-> (Command (FDC s) <> FDCEMU_CMD_NULL /\ Command (FDC s) <> FDCEMU_CMD_MOTOR_STOP))
  /\ (Command (FDC s) = FDCEMU_CMD_MOTOR_STOP -> STR_bit FDC_STR_BIT_BUSY s = false).
Proof.
  intros Hr. pose proof (inv_busy s (reachable_Inv s Hr)) as Hb.
  unfold STR_bit. rewrite (tst_bit _ FDC_STR_BIT_BUSY 0) by (reflexivity || lia).
  rewrite Hb. split; [split|].
  - intros H. split; intros E; rewrite E in H; discriminate.
  - intros [H1 H2]. destruct (Command (FDC s)); try reflexivity; contradiction.
  - intros ->. reflexivity.
Qed.

(** ** The DMA address (C7) *)

Lemma aligned_iff s : DMA_address_aligned s <-> Z.testbit (IoMem_ff860d s) 0 = false.
Proof. unfold DMA_address_aligned, FDC_GetDMAAddress. now rewrite address_bit0. Qed.

(** C7. A write to the low DMA address byte forces its bit 0 to 0 and a
    write to another DMA address byte leaves the low byte alone, so the
    address stays word aligned; on ST, STE and MegaSTE a write to the
    high byte keeps its low six bits; the address the DMA engine writes
    back is word aligned and, on those machines, has a six bit high byte;
    in every reachable state the address is word aligned. *)
Theorem C7_dma_address :
  (forall (addr v : Z) (s : State),
      let s' := DmaAddress_bput addr v s in
      (addr = 0xff860d -> DMA_address_aligned s')
      /\ (DMA_address_aligned s -> DMA_address_aligned s')
      /\ (machine_limited_4MB nMachineType = true -> addr = 0xff8609 ->
          IoMem_ff8609 s' = Z.land (u8 v) 0x3f /\ 0 <= IoMem_ff8609 s' < 64))
  /\ (forall (Address : Z) (s : State),
      let s' := FDC_WriteDMAAddress Address s in
      DMA_address_aligned s'
      /\ (machine_limited_4MB nMachineType = true -> 0 <= IoMem_ff8609 s' < 64))
  /\ (forall s : State, reachable s -> DMA_address_aligned s)
  /\ (forall (s : State) (addr v : Z),
      reachable s -> DMA_address_aligned (DmaAddress_bput addr v s)).
Proof.
  split; [|split; [|split]].
  - intros addr v s s'. subst s'. rewrite !aligned_iff.
    unfold DmaAddress_bput, FDC_DmaAddress_WriteByte, IoMem_WriteByte.
    split; [|split].
    + intros ->. cbn. apply land_fe_bit0.
    + intros Ha.
      destruct (Z.eqb_spec addr 0xff8609) as [->|N9]; cbn.
      { destruct (machine_limited_4MB nMachineType); exact Ha. }
      destruct (Z.eqb_spec addr 0xff860b) as [->|Nb]; cbn; [exact Ha|].
      destruct (Z.eqb_spec addr 0xff860d) as [->|Nd]; cbn; [apply land_fe_bit0|exact Ha].
    + intros Hm ->. cbn. rewrite Hm. cbn. split; [reflexivity|apply land_3f_range].
  - intros A s s'. subst s'. rewrite aligned_iff. unfold FDC_WriteDMAAddress. cbn. split.
    + apply WriteDMAAddress_low_bit0.
    + intros ->. apply WriteDMAAddress_high_range.
  - intros s Hr. apply aligned_iff. exact (inv_addr s (reachable_Inv s Hr)).
  - intros s addr v Hr. apply aligned_iff.
    exact (inv_addr _ (Inv_DmaAddress_bput addr v s (reachable_Inv s Hr))).
Qed.


(** ** The physical head (C5) *)

Lemma nth_upd_nat_other {A} (l : list A) n m v d :
  n <> m -> nth m (upd_nat l n v) d = nth m l d.
Proof.
  revert n m. induction l; intros [|n] [|m] H; simpl; auto; congruence.
Qed.

Lemma rd_wr_other {A} (l : list A) i j v d : i <> j -> rd d (wr l i v) j = rd d l j.
Proof.
  intros H. unfold rd, wr. destruct (Z.ltb_spec j 0); auto.
  destruct (Z.ltb_spec i 0); auto.
  apply nth_upd_nat_other. lia.
Qed.

Lemma rd_out_of_range {A} (l : list A) i d :
  ~ (0 <= i < Z.of_nat (length l)) -> rd d l i = d.
Proof.
  intros H. unfold rd. destruct (Z.ltb_spec i 0); auto.
  apply nth_overflow. lia.
Qed.

Lemma upd_nat_out_of_range {A} (l : list A) n v : (length l <= n)%nat -> upd_nat l n v = l.
Proof.
  revert n. induction l; intros [|n] Hn; simpl in *; auto; try lia.
  f_equal. apply IHl. lia.
Qed.

Lemma wr_out_of_range {A} (l : list A) i v :
  ~ (0 <= i < Z.of_nat (length l)) -> wr l i v = l.
Proof.
  intros H. unfold wr. destruct (Z.ltb_spec i 0); auto.
  apply upd_nat_out_of_range. lia.
Qed.

Lemma rd_map {A B} (g : A -> B) d l i : rd (g d) (map g l) i = g (rd d l i).
Proof. unfold rd. destruct (i <? 0); auto. apply map_nth. Qed.

Lemma map_upd_nat {A B} (g : A -> B) l n v : map g (upd_nat l n v) = upd_nat (map g l) n (g v).
Proof. revert n. induction l; intros [|n]; simpl; auto. f_equal. apply IHl. Qed.

Lemma map_wr {A B} (g : A -> B) l i v : map g (wr l i v) = wr (map g l) i (g v).
Proof. unfold wr. destruct (i <? 0); auto using map_upd_nat. Qed.

Lemma upd_nat_same {A} (l : list A) n d : upd_nat l n (nth n l d) = l.
Proof. revert n. induction l; intros [|n]; simpl; auto. f_equal. apply IHl. Qed.

Lemma wr_rd_same {A} (l : list A) i d : wr l i (rd d l i) = l.
Proof. unfold wr, rd. destruct (i <? 0); auto using upd_nat_same. Qed.

(** Writing a drive back with a field [g] untouched leaves the list of
    that field as it was *)
Lemma map_wr_frame {B} (g : FDC_DRIVE_STRUCT -> B) l i v :
  g v = g (rd no_drive l i) -> map g (wr l i v) = map g l.
Proof. intros H. rewrite map_wr, H, <- rd_map. apply wr_rd_same. Qed.

Lemma same_heads_refl s : same_heads s s.
Proof. repeat split. Qed.

Lemma same_heads_trans s1 s2 s3 : same_heads s1 s2 -> same_heads s2 s3 -> same_heads s1 s3.
Proof.
  intros (A1 & A2 & A3 & A4) (B1 & B2 & B3 & B4). repeat split; congruence.
Qed.

Lemma same_heads_head s s' :
  same_heads s s' ->
  HeadTrack (seldrive s') = HeadTrack (seldrive s) /\ drive_enabled s' = drive_enabled s.
Proof.
  intros (A1 & A2 & A3 & A4). unfold drive_enabled, seldrive, drive.
  rewrite A3.
  change (HeadTrack (rd no_drive (FDC_DRIVES s') (DriveSelSignal (FDC s))))
    with (id HeadTrack (rd no_drive (FDC_DRIVES s') (DriveSelSignal (FDC s)))).
  change (Enabled (rd no_drive (FDC_DRIVES s') (DriveSelSignal (FDC s))))
    with (id Enabled (rd no_drive (FDC_DRIVES s') (DriveSelSignal (FDC s)))).
  unfold id. rewrite <- !rd_map, A1, A2, !rd_map. auto.
Qed.

Ltac heads_frame :=
  intros; unfold_prims; cbn; brks; unfold same_heads; cbn;
  rewrite ?map_wr_frame by reflexivity; repeat split.

Lemma heads_UpdateAll s : same_heads s (FDC_UpdateAll s).
Proof.
  unfold FDC_UpdateAll, FDC_IndexPulse_Update. heads_frame.
Qed.

Lemma heads_CmdCompleteCommon DoInt s : same_heads s (fst (FDC_CmdCompleteCommon DoInt s)).
Proof. heads_frame. Qed.

Lemma heads_Cmd_START a b s : same_heads s (fst (Cmd_START a b s)).
Proof. unfold Cmd_START. heads_frame. Qed.

Lemma heads_TypeI_VERIFY a b s : same_heads s (fst (TypeI_VERIFY a b s)).
Proof. unfold TypeI_VERIFY. heads_frame. Qed.

Lemma heads_TypeI_VERIFY_NEXT a b s :
  same_heads s (fst (TypeI_VERIFY_NEXT_SECTOR_HEADER a b s)).
Proof. unfold TypeI_VERIFY_NEXT_SECTOR_HEADER. heads_frame. Qed.

Lemma heads_TypeI_VERIFY_HEAD_OK a b s : same_heads s (fst (TypeI_VERIFY_HEAD_OK a b s)).
Proof. unfold TypeI_VERIFY_HEAD_OK, TypeI_VERIFY_NEXT_SECTOR_HEADER. heads_frame. Qed.

Lemma heads_TypeI_VERIFY_CHECK a b s :
  same_heads s (fst (TypeI_VERIFY_CHECK_SECTOR_HEADER a b s)).
Proof. unfold TypeI_VERIFY_CHECK_SECTOR_HEADER. heads_frame. Qed.

Lemma Enabled_in_range l i :
  Enabled (rd no_drive l i) = true -> 0 <= i < Z.of_nat (length l).
Proof.
  intros H. destruct (Z.leb_spec 0 i); destruct (Z.ltb_spec i (Z.of_nat (length l))); auto.
  all: rewrite rd_out_of_range in H by lia; discriminate.
Qed.

Ltac head_hyps :=
  repeat match goal with
  | H : context [_ && false] |- _ => rewrite andb_false_r in H
  | H : context [_ && true] |- _ => rewrite andb_true_r in H
  | H : context [_ || false] |- _ => rewrite orb_false_r in H
  end;
  b2p_or.

Ltac head_write :=
  rewrite rd_wr_same;
  [ first [reflexivity | congruence | cbn; lia]
  | match goal with H : Enabled _ = true |- _ => apply Enabled_in_range in H; exact H end ].

Ltac head_fin :=
  first
    [ reflexivity
    | solve [head_hyps; first [discriminate | congruence | lia | head_write]] ].

(** The head of the selected drive after the stepping case of Step *)
Lemma Step_MOTOR_ON_head s :
  let s' := fst (Step_MOTOR_ON s) in
  let h := HeadTrack (seldrive s) in
  let d := StepDirection (FDC s) in
  StepDirection (FDC s') = d
  /\ HeadTrack (seldrive s') =
       if drive_enabled s then
         if (h =? FDC_PHYSICAL_MAX_TRACK) && (d =? 1) then h
         else if (h =? 0) && (d =? -1) then h
         else u8 (h + d)
       else h.
Proof.
  unfold Step_MOTOR_ON, Step_move_head. unfold_prims. cbn. brks.
  all: split; [reflexivity|].
  all: head_fin.
Qed.

(** The same for Seek, with the direction the case has chosen *)
Lemma Seek_MOTOR_ON_head s :
  let s' := fst (Seek_MOTOR_ON s) in
  let h := HeadTrack (seldrive s) in
  let d := StepDirection (FDC s') in
  HeadTrack (seldrive s') =
    if TR (FDC s) =? DR (FDC s) then h
    else if drive_enabled s then
      if (h =? FDC_PHYSICAL_MAX_TRACK) && (d =? 1) then h
      else if (h =? 0) && (d =? -1) then h
      else u8 (h + d)
    else h.
Proof.
  unfold Seek_MOTOR_ON, Seek_move_head. unfold_prims. cbn. brks.
  all: head_fin.
Qed.

(** Restore steps towards track 0 whatever the step direction is, and
    not below it *)
Lemma Restore_LOOP_head s :
  let s' := fst (Restore_LOOP s) in
  let h := HeadTrack (seldrive s) in
  HeadTrack (seldrive s') = if drive_enabled s && negb (h =? 0) then u8 (h - 1) else h.
Proof.
  unfold Restore_LOOP. unfold_prims. cbn. brks.
  all: head_fin.
Qed.

Lemma Restore_MOTOR_ON_head s :
  let s' := fst (Restore_MOTOR_ON s) in
  let h := HeadTrack (seldrive s) in
  HeadTrack (seldrive s') = if drive_enabled s && negb (h =? 0) then u8 (h - 1) else h.
Proof.
  unfold Restore_MOTOR_ON. cbv zeta.
  match goal with |- context [Restore_LOOP ?x] => rewrite (Restore_LOOP_head x) end.
  reflexivity.
Qed.

Ltac heads_case :=
  cbv zeta;
  first
    [ solve [left; first
        [ apply same_heads_refl | apply heads_CmdCompleteCommon | apply heads_Cmd_START
        | apply heads_TypeI_VERIFY | apply heads_TypeI_VERIFY_NEXT
        | apply heads_TypeI_VERIFY_HEAD_OK | apply heads_TypeI_VERIFY_CHECK ]]
    | solve [right; reflexivity]
    | solve [right; left; reflexivity]
    | solve [right; right; reflexivity] ].

Lemma UpdateStepCmd_head s :
  let s' := fst (FDC_UpdateStepCmd s) in
  same_heads s s' \/ s' = fst (Step_MOTOR_ON s).
Proof.
  unfold FDC_UpdateStepCmd, Step_SPIN_UP.
  destruct (CommandState (FDC s)); try destruct (IndexPulse_Counter (FDC s) <? _);
    heads_case.
Qed.

Lemma UpdateSeekCmd_head s :
  let s' := fst (FDC_UpdateSeekCmd s) in
  same_heads s s' \/ s' = fst (Seek_MOTOR_ON s).
Proof.
  unfold FDC_UpdateSeekCmd, Seek_SPIN_UP.
  destruct (CommandState (FDC s)); try destruct (IndexPulse_Counter (FDC s) <? _);
    heads_case.
Qed.

Lemma UpdateRestoreCmd_head s :
  let s' := fst (FDC_UpdateRestoreCmd s) in
  same_heads s s' \/ s' = fst (Restore_MOTOR_ON s) \/ s' = fst (Restore_LOOP s).
Proof.
  unfold FDC_UpdateRestoreCmd, Restore_SPIN_UP.
  destruct (CommandState (FDC s)); try destruct (IndexPulse_Counter (FDC s) <? _);
    heads_case.
Qed.

(** C5. The physical head of every drive stays within 0 .. 90
    ([FDC_PHYSICAL_MAX_TRACK]) in every state the emulator can reach, and
    one call of the Step (with a step direction of +1 or -1), Seek or
    Restore state machine keeps the selected head within 0 .. 90. One
    call of the Step or Seek state machine with the selected head at
    track 90 and the step direction inward (+1) leaves the head at 90;
    with the head at track 0 and the direction outward (-1) it leaves the
    head at 0; Restore, which only steps outward, leaves a head at
    track 0 there. *)
Theorem C5_head_track_range :
  (forall s, reachable s ->
     Forall (fun d => 0 <= HeadTrack d <= FDC_PHYSICAL_MAX_TRACK) (FDC_DRIVES s)
     /\ 0 <= HeadTrack (seldrive s) <= FDC_PHYSICAL_MAX_TRACK)
  /\ (forall s, 0 <= HeadTrack (seldrive s) <= FDC_PHYSICAL_MAX_TRACK ->
        (StepDirection (FDC s) = 1 \/ StepDirection (FDC s) = -1 ->
         0 <= HeadTrack (seldrive (fst (FDC_UpdateStepCmd s))) <= FDC_PHYSICAL_MAX_TRACK)
        /\ 0 <= HeadTrack (seldrive (fst (FDC_UpdateSeekCmd s))) <= FDC_PHYSICAL_MAX_TRACK
        /\ 0 <= HeadTrack (seldrive (fst (FDC_UpdateRestoreCmd s))) <= FDC_PHYSICAL_MAX_TRACK)
  /\ (forall s, HeadTrack (seldrive s) = FDC_PHYSICAL_MAX_TRACK ->
        (StepDirection (FDC s) = 1 ->
           HeadTrack (seldrive (fst (FDC_UpdateStepCmd s))) = FDC_PHYSICAL_MAX_TRACK)
        /\ (StepDirection (FDC (fst (FDC_UpdateSeekCmd s))) = 1 ->
              HeadTrack (seldrive (fst (FDC_UpdateSeekCmd s))) = FDC_PHYSICAL_MAX_TRACK))
  /\ (forall s, HeadTrack (seldrive s) = 0 ->
        (StepDirection (FDC s) = -1 -> HeadTrack (seldrive (fst (FDC_UpdateStepCmd s))) = 0)
        /\ (StepDirection (FDC (fst (FDC_UpdateSeekCmd s))) = -1 ->
              HeadTrack (seldrive (fst (FDC_UpdateSeekCmd s))) = 0)
        /\ HeadTrack (seldrive (fst (FDC_UpdateRestoreCmd s))) = 0).
Proof.
  split; [|split; [|split]].
  - intros s Hr. pose proof (inv_heads s (reachable_Inv s Hr)) as Hh. split.
    + exact Hh.
    + exact (head_ok_rd _ _ Hh).
  - intros s Hh. unfold FDC_PHYSICAL_MAX_TRACK in *. split; [|split].
    + intros Hd. destruct (UpdateStepCmd_head s) as [Hs | Hs].
      * rewrite (proj1 (same_heads_head _ _ Hs)). exact Hh.
      * rewrite Hs. rewrite (proj2 (Step_MOTOR_ON_head s)).
        unfold FDC_PHYSICAL_MAX_TRACK, u8. brks; b2p_or; try lia;
          destruct Hd as [Hd | Hd]; rewrite Hd in *;
          Z.to_euclidean_division_equations; lia.
    + destruct (UpdateSeekCmd_head s) as [Hs | Hs].
      * rewrite (proj1 (same_heads_head _ _ Hs)). exact Hh.
      * rewrite Hs. rewrite (Seek_MOTOR_ON_head s).
        assert (Hd : TR (FDC s) = DR (FDC s)
                     \/ StepDirection (FDC (fst (Seek_MOTOR_ON s))) = 1
                     \/ StepDirection (FDC (fst (Seek_MOTOR_ON s))) = -1).
        { unfold Seek_MOTOR_ON, Seek_move_head. unfold_prims. cbn. brks; b2p; auto. }
        unfold FDC_PHYSICAL_MAX_TRACK, u8.
        destruct Hd as [Hd | Hd].
        { apply Z.eqb_eq in Hd. rewrite Hd. exact Hh. }
        brks; b2p_or; try lia;
          destruct Hd as [Hd | Hd]; rewrite Hd in *;
          Z.to_euclidean_division_equations; lia.
    + destruct (UpdateRestoreCmd_head s) as [Hs | [Hs | Hs]].
      * rewrite (proj1 (same_heads_head _ _ Hs)). exact Hh.
      * rewrite Hs, (Restore_MOTOR_ON_head s). unfold u8.
        brks; b2p_or; try lia; Z.to_euclidean_division_equations; lia.
      * rewrite Hs, (Restore_LOOP_head s). unfold u8.
        brks; b2p_or; try lia; Z.to_euclidean_division_equations; lia.
  - intros s Hh. split.
    + intros Hd. destruct (UpdateStepCmd_head s) as [Hs | Hs].
      * rewrite (proj1 (same_heads_head _ _ Hs)). exact Hh.
      * rewrite Hs. rewrite (proj2 (Step_MOTOR_ON_head s)), Hh, Hd.
        destruct (drive_enabled s); reflexivity.
    + intros Hd. destruct (UpdateSeekCmd_head s) as [Hs | Hs].
      * rewrite (proj1 (same_heads_head _ _ Hs)). exact Hh.
      * rewrite Hs in *. rewrite (Seek_MOTOR_ON_head s), Hh, Hd.
        destruct (TR (FDC s) =? DR (FDC s)), (drive_enabled s); reflexivity.
  - intros s Hh. split; [|split].
    + intros Hd. destruct (UpdateStepCmd_head s) as [Hs | Hs].
      * rewrite (proj1 (same_heads_head _ _ Hs)). exact Hh.
      * rewrite Hs. rewrite (proj2 (Step_MOTOR_ON_head s)), Hh, Hd.
        destruct (drive_enabled s); reflexivity.
    + intros Hd. destruct (UpdateSeekCmd_head s) as [Hs | Hs].
      * rewrite (proj1 (same_heads_head _ _ Hs)). exact Hh.
      * rewrite Hs in *. rewrite (Seek_MOTOR_ON_head s), Hh, Hd.
        destruct (TR (FDC s) =? DR (FDC s)), (drive_enabled s); reflexivity.
    + destruct (UpdateRestoreCmd_head s) as [Hs | [Hs | Hs]].
      * rewrite (proj1 (same_heads_head _ _ Hs)). exact Hh.
      * rewrite Hs, (Restore_MOTOR_ON_head s), Hh. rewrite andb_false_r. reflexivity.
      * rewrite Hs, (Restore_LOOP_head s), Hh. rewrite andb_false_r. reflexivity.
Qed.


(** ** Restore (C4) *)

Lemma view_of_same_heads s s' :
  same_heads s s' ->
  Command (FDC s') = Command (FDC s) -> CommandState (FDC s') = CommandState (FDC s) ->
  TR (FDC s') = TR (FDC s) -> CR (FDC s') = CR (FDC s) -> STR (FDC s') = STR (FDC s) ->
  typeI_view s' = typeI_view s.
Proof.
  intros Hh H1 H2 H3 H4 H5. destruct (same_heads_head s s' Hh) as [Ha Hb].
  unfold typeI_view. congruence.
Qed.

Lemma view_UpdateAll s : typeI_view (FDC_UpdateAll s) = typeI_view s.
Proof.
  apply view_of_same_heads; [apply heads_UpdateAll | ..];
    unfold FDC_UpdateAll, FDC_IndexPulse_Update; unfold_prims; cbn; brks; reflexivity.
Qed.




(** The leaves of a case analysis: a contradiction among the tests, or
    equal values *)
Ltac leaf := first [reflexivity | solve [head_hyps; first [discriminate | congruence | lia]]].




Lemma view_inv s cmd st tr cr str en h :
  typeI_view s = (cmd, st, tr, cr, str, en, h) ->
  Command (FDC s) = cmd /\ CommandState (FDC s) = st /\ TR (FDC s) = tr /\ CR (FDC s) = cr
  /\ STR (FDC s) = str /\ drive_enabled s = en /\ HeadTrack (seldrive s) = h.
Proof. unfold typeI_view. intros H. injection H as <- <- <- <- <- <- <-. repeat split. Qed.

Lemma IRQ_UpdateAll s : FDC_IRQ_asserted s = true -> FDC_IRQ_asserted (FDC_UpdateAll s) = true.
Proof.
  unfold FDC_UpdateAll, FDC_IndexPulse_Update, FDC_IRQ_asserted. unfold_prims. cbn. brks.
  all: intros H; try exact H.
  all: rewrite u8_bit by lia; rewrite Z.land_spec; const_bits; rewrite andb_false_r; reflexivity.
Qed.

(** ** The timer handler, round by round *)

Lemma Update_loop_exit fuel c0 s :
  let r := FDC_Update_round c0 s in
  negb (cmd_is_null (Command (FDC (fst r)))) && (snd r =? 0) = false ->
  FDC_Update_loop (S fuel) c0 s = Some r.
Proof.
  cbv zeta. intros Hc. cbn [FDC_Update_loop].
  destruct (FDC_Update_round c0 s) as [s1 c]. cbn [fst snd] in Hc. rewrite Hc. reflexivity.
Qed.

Lemma Update_loop_again fuel c0 s :
  let r := FDC_Update_round c0 s in
  negb (cmd_is_null (Command (FDC (fst r)))) && (snd r =? 0) = true ->
  FDC_Update_loop (S fuel) c0 s = FDC_Update_loop fuel (snd r) (fst r).
Proof.
  cbv zeta. intros Hc. cbn [FDC_Update_loop].
  destruct (FDC_Update_round c0 s) as [s1 c]. cbn [fst snd] in *. rewrite Hc. reflexivity.
Qed.

Lemma loop_exit_nonzero s c : c <> 0 -> negb (cmd_is_null (Command (FDC s))) && (c =? 0) = false.
Proof. intros H. apply Z.eqb_neq in H. rewrite H. apply andb_false_r. Qed.

(** The handler leaves the state its loop has ended in, with the timer
    started again or not *)
Lemma handler_of_loop fuel p s s1 c :
  FDC_Update_loop fuel 0 (set_FDC_Timer None s) = Some (s1, c) ->
  exists s', FDC_InterruptHandler_Update fuel p s = Some s'
             /\ set_FDC_Timer None s' = set_FDC_Timer None s1.
Proof.
  intros H. unfold FDC_InterruptHandler_Update. cbv zeta. rewrite H.
  eexists. split; [reflexivity|].
  destruct (negb (cmd_is_null (Command (FDC s1)))); reflexivity.
Qed.

Lemma up_to_timer {A} (f : State -> A) s s' :
  (forall t x, f (set_FDC_Timer t x) = f x) ->
  set_FDC_Timer None s' = set_FDC_Timer None s -> f s' = f s.
Proof. intros Hf H. rewrite <- (Hf None s'), H. apply Hf. Qed.


Lemma view_cycles n s : typeI_view (set_CyclesGlobalClockCounter n s) = typeI_view s.
Proof. reflexivity. Qed.

Lemma run_app es1 es2 s :
  run (es1 ++ es2) s = match run es1 s with Some s' => run es2 s' | None => None end.
Proof.
  revert s. induction es1 as [|e es1 IH]; intros s; cbn [run app]; auto.
  destruct (step e s); auto.
Qed.

Lemma run_ticks_cons t ts s :
  run (timer_events (t :: ts)) s
  = match run (tick_events t) s with Some s' => run (timer_events ts) s' | None => None end.
Proof. unfold timer_events. cbn [flat_map]. apply run_app. Qed.

Lemma run_tick n fuel p s :
  run (tick_events (n, fuel, p)) s
  = FDC_InterruptHandler_Update fuel p
      (set_CyclesGlobalClockCounter (u64 (CyclesGlobalClockCounter s + n)) s).
Proof.
  cbn [tick_events run step].
  destruct (FDC_InterruptHandler_Update _ _ _); reflexivity.
Qed.

(** The round of Restore that enters the stepping loop *)
Lemma round_Restore_entry c0 s st tr0 cr str0 en h :
  typeI_view s = (FDCEMU_CMD_RESTORE, st, tr0, cr, str0, en, h) ->
  st = FDCEMU_RUN_RESTORE_SEEKTOTRACKZERO_LOOP
  \/ st = FDCEMU_RUN_RESTORE_SEEKTOTRACKZERO_MOTOR_ON ->
  exists s1,
    FDC_Update_round c0 s = Restore_LOOP s1
    /\ typeI_view s1
       = (FDCEMU_CMD_RESTORE, FDCEMU_RUN_RESTORE_SEEKTOTRACKZERO_LOOP,
          match st with FDCEMU_RUN_RESTORE_SEEKTOTRACKZERO_MOTOR_ON => 0xff | _ => tr0 end,
          cr,
          match st with
          | FDCEMU_RUN_RESTORE_SEEKTOTRACKZERO_MOTOR_ON =>
              STR_update 0 FDC_STR_BIT_SPIN_UP str0
          | _ => str0
          end, en, h).
Proof.
  intros Hv Hst. rewrite <- (view_UpdateAll s) in Hv.
  unfold FDC_Update_round. set (s0 := FDC_UpdateAll s) in *. clearbody s0.
  destruct (view_inv _ _ _ _ _ _ _ _ Hv) as (H1 & H2 & H3 & H4 & H5 & H6 & H7).
  unfold FDC_Update_dispatch. rewrite H1. unfold FDC_UpdateRestoreCmd. rewrite H2.
  destruct Hst as [-> | ->].
  - exists s0. split; [reflexivity | exact Hv].
  - unfold Restore_MOTOR_ON. cbv zeta. eexists. split; [reflexivity|].
    unfold typeI_view in *. unfold_prims. cbn.
    injection Hv as <- _ _ <- <- <- <-. reflexivity.
Qed.




Lemma IRQ_SetIRQ s : FDC_IRQ_asserted (FDC_SetIRQ s) = true.
Proof.
  unfold FDC_IRQ_asserted, FDC_SetIRQ. cbn.
  rewrite u8_bit by lia. rewrite Z.land_spec. const_bits. rewrite andb_false_r. reflexivity.
Qed.



(** ** Ticks of Restore *)






(** ** Runs of Restore *)

Lemma timer_events_app l1 l2 : timer_events (l1 ++ l2) = timer_events l1 ++ timer_events l2.
Proof. unfold timer_events. apply flat_map_app. Qed.

Lemma run_ticks_app l1 l2 s :
  run (timer_events (l1 ++ l2)) s
  = match run (timer_events l1) s with
    | Some s' => run (timer_events l2) s'
    | None => None
    end.
Proof. rewrite timer_events_app. apply run_app. Qed.









Lemma firstn_skipn_ticks (n : nat) (ticks : list Tick) :
  ticks = firstn n ticks ++ skipn n ticks.
Proof. symmetry. apply firstn_skipn. Qed.

(** ** Read Sector with the sector counter at 0 (C3) *)

Lemma seldrive_field {B} (g : FDC_DRIVE_STRUCT -> B) s s' :
  map g (FDC_DRIVES s') = map g (FDC_DRIVES s) ->
  DriveSelSignal (FDC s') = DriveSelSignal (FDC s) ->
  g (seldrive s') = g (seldrive s).
Proof.
  intros A1 A3. unfold seldrive, drive. rewrite A3.
  rewrite <- (rd_map g no_drive (FDC_DRIVES s')), A1. apply rd_map.
Qed.

Lemma density_UpdateAll s : Density (seldrive (FDC_UpdateAll s)) = Density (seldrive s).
Proof.
  apply seldrive_field; unfold FDC_UpdateAll, FDC_IndexPulse_Update; unfold_prims; cbn; brks;
    rewrite ?map_wr_frame by reflexivity; reflexivity.
Qed.

Lemma view2_UpdateAll s : typeII_view (FDC_UpdateAll s) = typeII_view s.
Proof.
  unfold typeII_view. rewrite density_UpdateAll.
  unfold FDC_UpdateAll, FDC_IndexPulse_Update; unfold_prims; cbn; brks; reflexivity.
Qed.

Lemma sector_UpdateAll s : sector_under_head (FDC_UpdateAll s) = sector_under_head s.
Proof.
  unfold sector_under_head.
  rewrite (proj1 (same_heads_head _ _ (heads_UpdateAll s))).
  unfold FDC_UpdateAll, FDC_IndexPulse_Update; unfold_prims; cbn; brks; reflexivity.
Qed.

Lemma view2_timer t s : typeII_view (set_FDC_Timer t s) = typeII_view s.
Proof. reflexivity. Qed.

Lemma view2_inv s cmd st cr str dma ws m io dens :
  typeII_view s = (cmd, st, cr, str, dma, ws, m, io, dens) ->
  Command (FDC s) = cmd /\ CommandState (FDC s) = st /\ CR (FDC s) = cr /\ STR (FDC s) = str
  /\ FDC_DMA s = dma /\ DMADiskWorkSpace s = ws /\ STRam s = m
  /\ (IoMem_ff8609 s, IoMem_ff860b s, IoMem_ff860d s) = io /\ Density (seldrive s) = dens.
Proof.
  unfold typeII_view. intros H. injection H as <- <- <- <- <- <- <- <- <-. repeat split.
Qed.

Lemma TransferByte_nonzero n s :
  Density (seldrive s) = 1 \/ Density (seldrive s) = 2 \/ Density (seldrive s) = 4 ->
  n = 1 \/ n = 2 ->
  FDC_TransferByte_FdcCycles n s <> 0.
Proof.
  unfold FDC_TransferByte_FdcCycles.
  intros [-> | [-> | ->]] [-> | ->]; vm_compute; discriminate.
Qed.

(** The sector is copied to the work buffer and the transfer loop is
    set up *)
Lemma ReadSectors_TRANSFER_START_ok s bytes cmd st cr str dma ws m io dens :
  typeII_view s = (cmd, st, cr, str, dma, ws, m, io, dens) ->
  sector_under_head s = Some bytes ->
  typeII_view (fst (ReadSectors_TRANSFER_START s))
  = (cmd, FDCEMU_RUN_READSECTORS_READDATA_TRANSFER_LOOP, cr, str,
     set_PosInBuffer 0 (set_BytesToTransfer (Z.of_nat (length bytes)) dma),
     store_prefix bytes ws, m, io, dens)
  /\ snd (ReadSectors_TRANSFER_START s) = 0.
Proof.
  intros Hv Hs. unfold sector_under_head, seldrive in Hs.
  unfold ReadSectors_TRANSFER_START, FDC_ReadSectorFromFloppy. rewrite Hs.
  unfold typeII_view in *. injection Hv as <- <- <- <- <- <- <- <- <-.
  split; reflexivity.
Qed.

(** One byte of the work buffer goes to the DMA, which discards it *)
Lemma Read_TRANSFER_LOOP_push done f s cmd st cr str dma ws m io dens :
  typeII_view s = (cmd, st, cr, str, dma, ws, m, io, dens) ->
  SectorCount dma = 0 -> 0 < BytesToTransfer dma ->
  let r := Read_TRANSFER_LOOP done f s in
  let dma' := FDC_DMA (fst r) in
  typeII_view (fst r) = (cmd, st, cr, str, dma', ws, m, io, dens)
  /\ snd r = FDC_TransferByte_FdcCycles 1 s
  /\ SectorCount dma' = 0
  /\ BytesToTransfer dma' = BytesToTransfer dma - 1
  /\ PosInBuffer dma' = PosInBuffer dma + 1
  /\ FIFO dma' = FIFO dma /\ FIFO_Size dma' = FIFO_Size dma
  /\ BytesInSector dma' = BytesInSector dma
  /\ Z.testbit (Status dma') 0 = false
  /\ Z.land (ff8604_recent_val dma') 0xff = Z.land (rd 0 ws (PosInBuffer dma)) 0xff.
Proof.
  intros Hv Hc Hn. unfold typeII_view in Hv. injection Hv as <- <- <- <- <- <- <- <- <-.
  apply Z.ltb_lt in Hn.
  unfold Read_TRANSFER_LOOP, FDC_TransferByte_FdcCycles, WorkSpace_byte. cbn. rewrite Hn.
  cbv zeta. rewrite Push_count0_eq by exact Hc. cbn.
  repeat split; auto.
  - apply u16_clear_bit0.
  - apply low_byte_merge.
Qed.

(** The transfer loop has no byte left *)
Lemma Read_TRANSFER_LOOP_done done s cmd st cr str dma ws m io dens :
  typeII_view s = (cmd, st, cr, str, dma, ws, m, io, dens) ->
  BytesToTransfer dma <= 0 ->
  let r := Read_TRANSFER_LOOP done (FDC_TransferByte_FdcCycles 2) s in
  typeII_view (fst r)
  = (cmd, done, cr, str, set_BytesToTransfer (BytesToTransfer dma - 1) dma, ws, m, io, dens)
  /\ snd r = FDC_TransferByte_FdcCycles 2 s.
Proof.
  intros Hv Hn. unfold typeII_view in Hv. injection Hv as <- <- <- <- <- <- <- <- <-.
  assert (Hn' : (0 <? BytesToTransfer (FDC_DMA s)) = false) by (apply Z.ltb_ge; exact Hn).
  unfold Read_TRANSFER_LOOP. cbn. rewrite Hn'. cbv zeta. split; reflexivity.
Qed.

Lemma round_Read c0 s :
  Command (FDC s) = FDCEMU_CMD_READSECTORS ->
  FDC_Update_round c0 s = FDC_UpdateReadSectorsCmd (FDC_UpdateAll s).
Proof.
  intros Hc. unfold FDC_Update_round, FDC_Update_dispatch.
  pose proof (view2_UpdateAll s) as Hv. unfold typeII_view in Hv.
  injection Hv as -> _ _ _ _ _ _ _ _ _ _. rewrite Hc. reflexivity.
Qed.

Ltac read_round Hv s H1 H2 H3 H4 H5 H6 H7 H8 H9 :=
  rewrite <- (view2_UpdateAll s) in Hv;
  destruct (view2_inv _ _ _ _ _ _ _ _ _ _ Hv) as (H1 & H2 & H3 & H4 & H5 & H6 & H7 & H8 & H9);
  rewrite round_Read by (rewrite <- H1; symmetry;
                         exact (f_equal (fun v => fst (fst (fst (fst (fst (fst (fst (fst v))))))))
                                  (view2_UpdateAll s)));
  unfold FDC_UpdateReadSectorsCmd; rewrite H2.

Lemma round_Read_START c0 s bytes cr str dma ws m io dens :
  typeII_view s
  = (FDCEMU_CMD_READSECTORS, FDCEMU_RUN_READSECTORS_READDATA_TRANSFER_START,
     cr, str, dma, ws, m, io, dens) ->
  sector_under_head s = Some bytes ->
  let r := FDC_Update_round c0 s in
  typeII_view (fst r)
  = (FDCEMU_CMD_READSECTORS, FDCEMU_RUN_READSECTORS_READDATA_TRANSFER_LOOP, cr, str,
     set_PosInBuffer 0 (set_BytesToTransfer (Z.of_nat (length bytes)) dma),
     store_prefix bytes ws, m, io, dens)
  /\ snd r = 0.
Proof.
  intros Hv Hs. rewrite <- sector_UpdateAll in Hs.
  read_round Hv s H1 H2 H3 H4 H5 H6 H7 H8 H9.
  exact (ReadSectors_TRANSFER_START_ok _ _ _ _ _ _ _ _ _ _ _ Hv Hs).
Qed.

Lemma round_Read_push c0 s cr str dma ws m io dens :
  typeII_view s
  = (FDCEMU_CMD_READSECTORS, FDCEMU_RUN_READSECTORS_READDATA_TRANSFER_LOOP,
     cr, str, dma, ws, m, io, dens) ->
  SectorCount dma = 0 -> 0 < BytesToTransfer dma ->
  dens = 1 \/ dens = 2 \/ dens = 4 ->
  let r := FDC_Update_round c0 s in
  let dma' := FDC_DMA (fst r) in
  typeII_view (fst r)
  = (FDCEMU_CMD_READSECTORS, FDCEMU_RUN_READSECTORS_READDATA_TRANSFER_LOOP,
     cr, str, dma', ws, m, io, dens)
  /\ snd r <> 0
  /\ SectorCount dma' = 0
  /\ BytesToTransfer dma' = BytesToTransfer dma - 1
  /\ PosInBuffer dma' = PosInBuffer dma + 1
  /\ FIFO dma' = FIFO dma /\ FIFO_Size dma' = FIFO_Size dma
  /\ BytesInSector dma' = BytesInSector dma
  /\ Z.testbit (Status dma') 0 = false
  /\ Z.land (ff8604_recent_val dma') 0xff = Z.land (rd 0 ws (PosInBuffer dma)) 0xff.
Proof.
  intros Hv Hc Hn Hd.
  read_round Hv s H1 H2 H3 H4 H5 H6 H7 H8 H9.
  destruct (Read_TRANSFER_LOOP_push FDCEMU_RUN_READSECTORS_CRC (FDC_TransferByte_FdcCycles 2)
              _ _ _ _ _ _ _ _ _ _ Hv Hc Hn) as (G1 & G2 & G).
  cbv zeta. split; [exact G1|]. split; [|exact G].
  rewrite G2. apply TransferByte_nonzero; [rewrite H9; exact Hd | auto].
Qed.

Lemma round_Read_done c0 s cr str dma ws m io dens :
  typeII_view s
  = (FDCEMU_CMD_READSECTORS, FDCEMU_RUN_READSECTORS_READDATA_TRANSFER_LOOP,
     cr, str, dma, ws, m, io, dens) ->
  BytesToTransfer dma <= 0 ->
  dens = 1 \/ dens = 2 \/ dens = 4 ->
  let r := FDC_Update_round c0 s in
  typeII_view (fst r)
  = (FDCEMU_CMD_READSECTORS, FDCEMU_RUN_READSECTORS_CRC, cr, str,
     set_BytesToTransfer (BytesToTransfer dma - 1) dma, ws, m, io, dens)
  /\ snd r <> 0.
Proof.
  intros Hv Hn Hd.
  read_round Hv s H1 H2 H3 H4 H5 H6 H7 H8 H9.
  destruct (Read_TRANSFER_LOOP_done FDCEMU_RUN_READSECTORS_CRC _ _ _ _ _ _ _ _ _ _ Hv Hn)
    as (G1 & G2).
  cbv zeta. split; [exact G1|].
  rewrite G2. apply TransferByte_nonzero; [rewrite H9; exact Hd | auto].
Qed.

Lemma round_Read_CRC c0 s cr str dma ws m io dens :
  typeII_view s
  = (FDCEMU_CMD_READSECTORS, FDCEMU_RUN_READSECTORS_CRC, cr, str, dma, ws, m, io, dens) ->
  tst cr FDC_COMMAND_BIT_MULTIPLE_SECTOR = false ->
  let r := FDC_Update_round c0 s in
  typeII_view (fst r)
  = (FDCEMU_CMD_READSECTORS, FDCEMU_RUN_READSECTORS_COMPLETE, cr, str, dma, ws, m, io, dens)
  /\ snd r <> 0.
Proof.
  intros Hv Hm.
  read_round Hv s H1 H2 H3 H4 H5 H6 H7 H8 H9.
  unfold TypeII_CRC. rewrite H3, Hm. cbv zeta. split; [|discriminate].
  unfold typeII_view in *. cbn. injection Hv as <- _ <- <- <- <- <- <- <-. reflexivity.
Qed.

Lemma round_Read_COMPLETE c0 s cr str dma ws m io dens :
  typeII_view s
  = (FDCEMU_CMD_READSECTORS, FDCEMU_RUN_READSECTORS_COMPLETE, cr, str, dma, ws, m, io, dens) ->
  let r := FDC_Update_round c0 s in
  typeII_view (fst r)
  = (FDCEMU_CMD_MOTOR_STOP, FDCEMU_RUN_MOTOR_STOP, cr, STR_update FDC_STR_BIT_BUSY 0 str,
     dma, ws, m, io, dens)
  /\ snd r = 0
  /\ FDC_IRQ_asserted (fst r) = true.
Proof.
  intros Hv.
  read_round Hv s H1 H2 H3 H4 H5 H6 H7 H8 H9.
  cbv zeta. split; [|split].
  - unfold typeII_view in *. unfold_prims. cbn.
    injection Hv as _ _ <- <- <- <- <- <- <-. reflexivity.
  - reflexivity.
  - unfold FDC_CmdCompleteCommon. cbn [fst]. unfold FDC_IRQ_asserted. cbn.
    rewrite u8_bit by lia. rewrite Z.land_spec. const_bits. rewrite andb_false_r. reflexivity.
Qed.

Lemma round_MotorStop_start2 c0 s cr str dma ws m io dens :
  typeII_view s
  = (FDCEMU_CMD_MOTOR_STOP, FDCEMU_RUN_MOTOR_STOP, cr, str, dma, ws, m, io, dens) ->
  let r := FDC_Update_round c0 s in
  typeII_view (fst r)
  = (FDCEMU_CMD_MOTOR_STOP, FDCEMU_RUN_MOTOR_STOP_WAIT, cr, str, dma, ws, m, io, dens)
  /\ snd r <> 0
  /\ (FDC_IRQ_asserted s = true -> FDC_IRQ_asserted (fst r) = true).
Proof.
  intros Hv. rewrite <- (view2_UpdateAll s) in Hv.
  unfold FDC_Update_round.
  assert (Hi := IRQ_UpdateAll s).
  set (s0 := FDC_UpdateAll s) in *. clearbody s0.
  destruct (view2_inv _ _ _ _ _ _ _ _ _ _ Hv) as (H1 & H2 & H3 & H4 & H5 & H6 & H7 & H8 & H9).
  unfold FDC_Update_dispatch. rewrite H1. unfold FDC_UpdateMotorStop. rewrite H2.
  unfold MotorStop_WAIT. unfold_prims. cbn. const_tests. cbn.
  split; [|split].
  - unfold typeII_view in *. unfold_prims. cbn.
    injection Hv as _ _ <- <- <- <- <- <- <-. rewrite H1. reflexivity.
  - discriminate.
  - exact Hi.
Qed.

(** ** Ticks of Read Sector *)

(** A handler call of one round *)
Lemma tick_round1 n fuel p s :
  let s0 := set_FDC_Timer None
              (set_CyclesGlobalClockCounter (u64 (CyclesGlobalClockCounter s + n)) s) in
  let r := FDC_Update_round 0 s0 in
  snd r <> 0 -> (1 <= fuel)%nat ->
  exists s', run (tick_events (n, fuel, p)) s = Some s'
             /\ set_FDC_Timer None s' = set_FDC_Timer None (fst r).
Proof.
  cbv zeta. intros Hc Hf. rewrite run_tick.
  destruct fuel as [|fuel]; [lia|].
  eapply handler_of_loop. rewrite Update_loop_exit by (apply loop_exit_nonzero, Hc).
  apply f_equal, surjective_pairing.
Qed.

(** A handler call of two rounds *)
Lemma tick_round2 n fuel p s :
  let s0 := set_FDC_Timer None
              (set_CyclesGlobalClockCounter (u64 (CyclesGlobalClockCounter s + n)) s) in
  let r1 := FDC_Update_round 0 s0 in
  let r2 := FDC_Update_round 0 (fst r1) in
  snd r1 = 0 -> cmd_is_null (Command (FDC (fst r1))) = false ->
  snd r2 <> 0 -> (2 <= fuel)%nat ->
  exists s', run (tick_events (n, fuel, p)) s = Some s'
             /\ set_FDC_Timer None s' = set_FDC_Timer None (fst r2).
Proof.
  cbv zeta. intros Hc1 Hn Hc2 Hf. rewrite run_tick.
  destruct fuel as [|[|fuel]]; try lia.
  eapply handler_of_loop. rewrite Update_loop_again by (rewrite Hc1, Hn; reflexivity).
  rewrite Hc1. rewrite Update_loop_exit by (apply loop_exit_nonzero, Hc2).
  apply f_equal, surjective_pairing.
Qed.

Lemma view2_not_null s cmd st cr str dma ws m io dens :
  typeII_view s = (cmd, st, cr, str, dma, ws, m, io, dens) -> cmd <> FDCEMU_CMD_NULL ->
  cmd_is_null (Command (FDC s)) = false.
Proof.
  intros Hv Hc. destruct (view2_inv _ _ _ _ _ _ _ _ _ _ Hv) as (H1 & _). rewrite H1.
  destruct cmd; try reflexivity. congruence.
Qed.

(** What the pushes so far have left in the DMA engine: the error flag
    (bit 0 of the status clear) and the last byte in the low half of the
    shadow *)
Lemma tick_Read_first t s bytes cr str dma ws m io dens :
  typeII_view s
  = (FDCEMU_CMD_READSECTORS, FDCEMU_RUN_READSECTORS_READDATA_TRANSFER_START,
     cr, str, dma, ws, m, io, dens) ->
  sector_under_head s = Some bytes ->
  SectorCount dma = 0 -> (0 < length bytes)%nat ->
  dens = 1 \/ dens = 2 \/ dens = 4 ->
  (2 <= tick_fuel t)%nat ->
  exists s' dma',
    run (tick_events t) s = Some s'
    /\ typeII_view s'
       = (FDCEMU_CMD_READSECTORS, FDCEMU_RUN_READSECTORS_READDATA_TRANSFER_LOOP,
          cr, str, dma', store_prefix bytes ws, m, io, dens)
    /\ SectorCount dma' = 0
    /\ BytesToTransfer dma' = Z.of_nat (length bytes) - 1
    /\ PosInBuffer dma' = 1
    /\ FIFO dma' = FIFO dma /\ FIFO_Size dma' = FIFO_Size dma
    /\ BytesInSector dma' = BytesInSector dma
    /\ Z.testbit (Status dma') 0 = false
    /\ Z.land (ff8604_recent_val dma') 0xff
       = Z.land (rd 0 (store_prefix bytes ws) (PosInBuffer dma' - 1)) 0xff.
Proof.
  intros Hv Hs Hc Hl Hd Hf. destruct t as [[n fuel] p]. unfold tick_fuel in Hf.
  cbn [fst snd] in Hf.
  set (s0 := set_FDC_Timer None
               (set_CyclesGlobalClockCounter (u64 (CyclesGlobalClockCounter s + n)) s)).
  assert (Hv0 : typeII_view s0 = typeII_view s) by reflexivity. rewrite <- Hv0 in Hv.
  assert (Hs0 : sector_under_head s0 = Some bytes) by exact Hs.
  destruct (round_Read_START 0 s0 bytes _ _ _ _ _ _ _ Hv Hs0) as (Hv1 & Hc1).
  destruct (round_Read_push 0 _ _ _ _ _ _ _ _ Hv1) as (Hv2 & Hc2 & G1 & G2 & G3 & G4 & G5 & G6 & G7 & G8);
    [exact Hc | cbn; lia | exact Hd |].
  destruct (tick_round2 n fuel p s Hc1) as (s' & Hrun & He); auto.
  { eapply view2_not_null; [exact Hv1 | discriminate]. }
  unfold s0 in *. exists s', (FDC_DMA s'). split; [exact Hrun|].
  rewrite (up_to_timer typeII_view _ _ view2_timer He).
  rewrite (up_to_timer FDC_DMA _ _ (fun _ _ => eq_refl) He).
  split; [exact Hv2|].
  change (PosInBuffer (set_PosInBuffer 0 (set_BytesToTransfer (Z.of_nat (length bytes)) dma)))
    with 0 in G3, G8.
  rewrite G3. change (0 + 1 - 1) with 0.
  repeat split; auto.
Qed.

Lemma tick_Read_push t s cr str dma ws m io dens :
  typeII_view s
  = (FDCEMU_CMD_READSECTORS, FDCEMU_RUN_READSECTORS_READDATA_TRANSFER_LOOP,
     cr, str, dma, ws, m, io, dens) ->
  SectorCount dma = 0 -> 0 < BytesToTransfer dma ->
  dens = 1 \/ dens = 2 \/ dens = 4 ->
  (1 <= tick_fuel t)%nat ->
  exists s' dma',
    run (tick_events t) s = Some s'
    /\ typeII_view s'
       = (FDCEMU_CMD_READSECTORS, FDCEMU_RUN_READSECTORS_READDATA_TRANSFER_LOOP,
          cr, str, dma', ws, m, io, dens)
    /\ SectorCount dma' = 0
    /\ BytesToTransfer dma' = BytesToTransfer dma - 1
    /\ PosInBuffer dma' = PosInBuffer dma + 1
    /\ FIFO dma' = FIFO dma /\ FIFO_Size dma' = FIFO_Size dma
    /\ BytesInSector dma' = BytesInSector dma
    /\ Z.testbit (Status dma') 0 = false
    /\ Z.land (ff8604_recent_val dma') 0xff = Z.land (rd 0 ws (PosInBuffer dma' - 1)) 0xff.
Proof.
  intros Hv Hc Hn Hd Hf. destruct t as [[n fuel] p]. unfold tick_fuel in Hf.
  cbn [fst snd] in Hf.
  set (s0 := set_FDC_Timer None
               (set_CyclesGlobalClockCounter (u64 (CyclesGlobalClockCounter s + n)) s)).
  assert (Hv0 : typeII_view s0 = typeII_view s) by reflexivity. rewrite <- Hv0 in Hv.
  destruct (round_Read_push 0 _ _ _ _ _ _ _ _ Hv Hc Hn Hd)
    as (Hv2 & Hc2 & G1 & G2 & G3 & G4 & G5 & G6 & G7 & G8).
  destruct (tick_round1 n fuel p s Hc2 Hf) as (s' & Hrun & He).
  unfold s0 in *. exists s', (FDC_DMA s'). split; [exact Hrun|].
  rewrite (up_to_timer typeII_view _ _ view2_timer He).
  rewrite (up_to_timer FDC_DMA _ _ (fun _ _ => eq_refl) He).
  split; [exact Hv2|]. rewrite G3.
  replace (PosInBuffer dma + 1 - 1) with (PosInBuffer dma) by lia.
  repeat split; auto.
Qed.

Lemma tick_Read_done t s cr str dma ws m io dens :
  typeII_view s
  = (FDCEMU_CMD_READSECTORS, FDCEMU_RUN_READSECTORS_READDATA_TRANSFER_LOOP,
     cr, str, dma, ws, m, io, dens) ->
  BytesToTransfer dma <= 0 ->
  dens = 1 \/ dens = 2 \/ dens = 4 ->
  (1 <= tick_fuel t)%nat ->
  exists s',
    run (tick_events t) s = Some s'
    /\ typeII_view s'
       = (FDCEMU_CMD_READSECTORS, FDCEMU_RUN_READSECTORS_CRC, cr, str,
          set_BytesToTransfer (BytesToTransfer dma - 1) dma, ws, m, io, dens).
Proof.
  intros Hv Hn Hd Hf. destruct t as [[n fuel] p]. unfold tick_fuel in Hf.
  cbn [fst snd] in Hf.
  set (s0 := set_FDC_Timer None
               (set_CyclesGlobalClockCounter (u64 (CyclesGlobalClockCounter s + n)) s)).
  assert (Hv0 : typeII_view s0 = typeII_view s) by reflexivity. rewrite <- Hv0 in Hv.
  destruct (round_Read_done 0 _ _ _ _ _ _ _ _ Hv Hn Hd) as (Hv2 & Hc2).
  destruct (tick_round1 n fuel p s Hc2 Hf) as (s' & Hrun & He).
  exists s'. split; [exact Hrun|].
  rewrite (up_to_timer typeII_view _ _ view2_timer He). exact Hv2.
Qed.

Lemma tick_Read_CRC t s cr str dma ws m io dens :
  typeII_view s
  = (FDCEMU_CMD_READSECTORS, FDCEMU_RUN_READSECTORS_CRC, cr, str, dma, ws, m, io, dens) ->
  tst cr FDC_COMMAND_BIT_MULTIPLE_SECTOR = false ->
  (1 <= tick_fuel t)%nat ->
  exists s',
    run (tick_events t) s = Some s'
    /\ typeII_view s'
       = (FDCEMU_CMD_READSECTORS, FDCEMU_RUN_READSECTORS_COMPLETE, cr, str, dma, ws, m, io, dens).
Proof.
  intros Hv Hm Hf. destruct t as [[n fuel] p]. unfold tick_fuel in Hf.
  cbn [fst snd] in Hf.
  set (s0 := set_FDC_Timer None
               (set_CyclesGlobalClockCounter (u64 (CyclesGlobalClockCounter s + n)) s)).
  assert (Hv0 : typeII_view s0 = typeII_view s) by reflexivity. rewrite <- Hv0 in Hv.
  destruct (round_Read_CRC 0 _ _ _ _ _ _ _ _ Hv Hm) as (Hv2 & Hc2).
  destruct (tick_round1 n fuel p s Hc2 Hf) as (s' & Hrun & He).
  exists s'. split; [exact Hrun|].
  rewrite (up_to_timer typeII_view _ _ view2_timer He). exact Hv2.
Qed.

Lemma tick_Read_complete t s cr str dma ws m io dens :
  typeII_view s
  = (FDCEMU_CMD_READSECTORS, FDCEMU_RUN_READSECTORS_COMPLETE, cr, str, dma, ws, m, io, dens) ->
  (2 <= tick_fuel t)%nat ->
  exists s',
    run (tick_events t) s = Some s'
    /\ typeII_view s'
       = (FDCEMU_CMD_MOTOR_STOP, FDCEMU_RUN_MOTOR_STOP_WAIT, cr,
          STR_update FDC_STR_BIT_BUSY 0 str, dma, ws, m, io, dens)
    /\ FDC_IRQ_asserted s' = true.
Proof.
  intros Hv Hf. destruct t as [[n fuel] p]. unfold tick_fuel in Hf.
  cbn [fst snd] in Hf.
  set (s0 := set_FDC_Timer None
               (set_CyclesGlobalClockCounter (u64 (CyclesGlobalClockCounter s + n)) s)).
  assert (Hv0 : typeII_view s0 = typeII_view s) by reflexivity. rewrite <- Hv0 in Hv.
  destruct (round_Read_COMPLETE 0 _ _ _ _ _ _ _ _ Hv) as (Hv1 & Hc1 & Hi1).
  destruct (round_MotorStop_start2 0 _ _ _ _ _ _ _ _ Hv1) as (Hv2 & Hc2 & Hi2).
  destruct (tick_round2 n fuel p s Hc1) as (s' & Hrun & He); auto.
  { eapply view2_not_null; [exact Hv1 | discriminate]. }
  exists s'. split; [exact Hrun|].
  rewrite (up_to_timer typeII_view _ _ view2_timer He).
  rewrite (up_to_timer FDC_IRQ_asserted _ _ (fun _ _ => eq_refl) He). auto.
Qed.

(** ** The run of Read Sector *)

(** [k] bytes are left: [k] ticks push them *)
Lemma run_Read_pushes (k : nat) :
  forall ticks s cr str dma ws m io dens,
    typeII_view s
    = (FDCEMU_CMD_READSECTORS, FDCEMU_RUN_READSECTORS_READDATA_TRANSFER_LOOP,
       cr, str, dma, ws, m, io, dens) ->
    SectorCount dma = 0 -> BytesToTransfer dma = Z.of_nat k ->
    Z.testbit (Status dma) 0 = false ->
    Z.land (ff8604_recent_val dma) 0xff = Z.land (rd 0 ws (PosInBuffer dma - 1)) 0xff ->
    dens = 1 \/ dens = 2 \/ dens = 4 ->
    length ticks = k ->
    Forall (fun t => (1 <= tick_fuel t)%nat) ticks ->
    exists s' dma',
      run (timer_events ticks) s = Some s'
      /\ typeII_view s'
         = (FDCEMU_CMD_READSECTORS, FDCEMU_RUN_READSECTORS_READDATA_TRANSFER_LOOP,
            cr, str, dma', ws, m, io, dens)
      /\ SectorCount dma' = 0
      /\ BytesToTransfer dma' = 0
      /\ PosInBuffer dma' = PosInBuffer dma + Z.of_nat k
      /\ FIFO dma' = FIFO dma /\ FIFO_Size dma' = FIFO_Size dma
      /\ BytesInSector dma' = BytesInSector dma
      /\ Z.testbit (Status dma') 0 = false
      /\ Z.land (ff8604_recent_val dma') 0xff = Z.land (rd 0 ws (PosInBuffer dma' - 1)) 0xff.
Proof.
  induction k as [|k IH]; intros ticks s cr str dma ws m io dens Hv Hc Hn Hst Hsh Hd Hlen Hfuel.
  - destruct ticks; [|discriminate]. exists s, dma.
    rewrite Z.add_0_r. repeat split; auto.
  - destruct ticks as [|t ticks]; [discriminate|].
    inversion Hfuel as [|? ? Hf Hfuel']; subst.
    destruct (tick_Read_push t s _ _ _ _ _ _ _ Hv Hc) as
      (s1 & dma1 & Hrun & Hv1 & G1 & G2 & G3 & G4 & G5 & G6 & G7 & G8); auto; [lia|].
    destruct (IH ticks s1 _ _ _ _ _ _ _ Hv1 G1) as
      (s' & dma' & Hrun' & Hv' & K1 & K2 & K3 & K4 & K5 & K6 & K7 & K8); auto; [lia|].
    exists s', dma'. rewrite run_ticks_cons, Hrun.
    split; [exact Hrun'|]. split; [exact Hv'|].
    repeat split; auto; try congruence. lia.
Qed.

Lemma skipn_3 {A} (l : list A) n :
  length l = (n + 3)%nat -> exists a b c, skipn n l = [a; b; c].
Proof.
  intros H. assert (Hl : length (skipn n l) = 3%nat) by (rewrite length_skipn; lia).
  destruct (skipn n l) as [|a [|b [|c [|? ?]]]]; try discriminate. eauto.
Qed.

(** C3. A push to the DMA FIFO while the DMA sector counter is 0 sets
    the DMA error flag (bit 0 of the DMA status is cleared) and leaves
    the FIFO, its size, the bytes-in-sector and sector counters, the DMA
    address and the memory as they were. A Read Sector command whose sector has been
    found (state [FDCEMU_RUN_READSECTORS_READDATA_TRANSFER_START]) with
    the sector counter at 0, a 512-byte sector under the head and the
    multiple-sector bit clear goes through its 512 bytes in 515 timer
    calls (every handler call having fuel for two rounds, nothing but
    the timer acting on the controller): the sector is in the work
    buffer and all 512 positions have been pushed, the last one being in
    the low half of the shadow; the command has completed: the
    motor-stop pseudo command runs, BUSY is clear, the interrupt line is
    asserted and Record Not Found is as the start of the command has
    left it, which is clear; the memory, the DMA address, the FIFO and
    the sector counter are as before and the DMA error flag is set. *)
Theorem C3_sector_count_zero :
  (forall b s,
     SectorCount (FDC_DMA s) = 0 ->
     let s' := FDC_DMA_FIFO_Push b s in
     Z.testbit (Status (FDC_DMA s')) 0 = false
     /\ FIFO (FDC_DMA s') = FIFO (FDC_DMA s)
     /\ FIFO_Size (FDC_DMA s') = FIFO_Size (FDC_DMA s)
     /\ BytesInSector (FDC_DMA s') = BytesInSector (FDC_DMA s)
     /\ SectorCount (FDC_DMA s') = SectorCount (FDC_DMA s)
     /\ FDC_GetDMAAddress s' = FDC_GetDMAAddress s
     /\ STRam s' = STRam s)
  /\ (forall s, STR_bit FDC_STR_BIT_RNF (fst (FDC_TypeII_ReadSector s)) = false)
  /\ (forall s bytes ticks,
        Command (FDC s) = FDCEMU_CMD_READSECTORS ->
        CommandState (FDC s) = FDCEMU_RUN_READSECTORS_READDATA_TRANSFER_START ->
        SectorCount (FDC_DMA s) = 0 ->
        sector_under_head s = Some bytes ->
        length bytes = 512%nat ->
        tst (CR (FDC s)) FDC_COMMAND_BIT_MULTIPLE_SECTOR = false ->
        Density (seldrive s) = 1 \/ Density (seldrive s) = 2 \/ Density (seldrive s) = 4 ->
        length ticks = 515%nat ->
        Forall (fun t => (2 <= tick_fuel t)%nat) ticks ->
        exists s',
          run (timer_events ticks) s = Some s'
          /\ Command (FDC s') = FDCEMU_CMD_MOTOR_STOP
          /\ STR_bit FDC_STR_BIT_BUSY s' = false
          /\ STR_bit FDC_STR_BIT_RNF s' = STR_bit FDC_STR_BIT_RNF s
          /\ FDC_IRQ_asserted s' = true
          /\ DMADiskWorkSpace s' = store_prefix bytes (DMADiskWorkSpace s)
          /\ PosInBuffer (FDC_DMA s') = 512
          /\ Z.land (ff8604_recent_val (FDC_DMA s')) 0xff = Z.land (WorkSpace_byte 511 s') 0xff
          /\ Z.testbit (Status (FDC_DMA s')) 0 = false
          /\ SectorCount (FDC_DMA s') = 0
          /\ FIFO (FDC_DMA s') = FIFO (FDC_DMA s)
          /\ FIFO_Size (FDC_DMA s') = FIFO_Size (FDC_DMA s)
          /\ BytesInSector (FDC_DMA s') = BytesInSector (FDC_DMA s)
          /\ FDC_GetDMAAddress s' = FDC_GetDMAAddress s
          /\ STRam s' = STRam s).
Proof.
  split; [|split].
  - intros b s Hc. destruct (Push_count0 b s Hc) as (A1 & A2 & A3 & A4 & A5 & A6 & A7).
    cbv zeta. repeat split; auto; try congruence.
    unfold FDC_GetDMAAddress. injection A6 as -> -> ->. reflexivity.
  - intros s. unfold FDC_TypeII_ReadSector, STR_bit. unfold_prims. cbn.
    rewrite (tst_bit _ FDC_STR_BIT_RNF 4) by first [reflexivity | lia].
    str_bits. reflexivity.
  - intros s bytes ticks Hcmd Hst Hc Hsec Hlen Hm Hd Hticks Hfuel.
    assert (Hfuel1 : Forall (fun t => (1 <= tick_fuel t)%nat) ticks).
    { eapply Forall_impl; [|exact Hfuel]. cbn. intros; lia. }
    assert (Hv : typeII_view s
                 = (FDCEMU_CMD_READSECTORS, FDCEMU_RUN_READSECTORS_READDATA_TRANSFER_START,
                    CR (FDC s), STR (FDC s), FDC_DMA s, DMADiskWorkSpace s, STRam s,
                    (IoMem_ff8609 s, IoMem_ff860b s, IoMem_ff860d s), Density (seldrive s))).
    { unfold typeII_view. rewrite Hcmd, Hst. reflexivity. }
    destruct ticks as [|t1 ticks]; [discriminate|].
    inversion Hfuel as [|? ? Hf1 Hfuel']; subst.
    inversion Hfuel1 as [|? ? _ Hfuel1']; subst.
    destruct (tick_Read_first t1 s bytes _ _ _ _ _ _ _ Hv Hsec Hc) as
      (s1 & dma1 & Hrun1 & Hv1 & G1 & G2 & G3 & G4 & G5 & G6 & G7 & G8); auto; [lia|].
    rewrite (firstn_skipn_ticks 511 ticks) in Hfuel1', Hfuel' |- *.
    apply Forall_app in Hfuel1'. destruct Hfuel1' as [Hfa Hfb].
    destruct (run_Read_pushes 511 (firstn 511 ticks) s1 _ _ _ _ _ _ _ Hv1 G1) as
      (s2 & dma2 & Hrun2 & Hv2 & K1 & K2 & K3 & K4 & K5 & K6 & K7 & K8); auto.
    { lia. }
    { rewrite length_firstn. cbn in Hticks. lia. }
    destruct (skipn_3 ticks 511) as (ta & tb & tc & Hsk); [cbn in Hticks; lia|].
    rewrite Hsk in *.
    inversion Hfb as [|? ? Hfta Hfb1]; subst. inversion Hfb1 as [|? ? Hftb Hfb2]; subst.
    apply Forall_app in Hfuel'. destruct Hfuel' as [_ Hfc].
    inversion Hfc as [|? ? _ Hfc1]; subst. inversion Hfc1 as [|? ? _ Hfc2]; subst.
    inversion Hfc2 as [|? ? Hftc _]; subst.
    destruct (tick_Read_done ta s2 _ _ _ _ _ _ _ Hv2) as (s3 & Hrun3 & Hv3); auto; [lia|].
    destruct (tick_Read_CRC tb s3 _ _ _ _ _ _ _ Hv3 Hm Hftb) as (s4 & Hrun4 & Hv4).
    destruct (tick_Read_complete tc s4 _ _ _ _ _ _ _ Hv4 Hftc) as (s5 & Hrun5 & Hv5 & Hi).
    exists s5. split.
    { rewrite run_ticks_cons, Hrun1, run_ticks_app, Hrun2.
      rewrite run_ticks_cons, Hrun3, run_ticks_cons, Hrun4, run_ticks_cons, Hrun5.
      reflexivity. }
    destruct (view2_inv _ _ _ _ _ _ _ _ _ _ Hv5) as (H1 & H2 & H3 & H4 & H5 & H6 & H7 & H8 & H9).
    unfold STR_bit, WorkSpace_byte, FDC_GetDMAAddress.
    rewrite !(tst_bit _ FDC_STR_BIT_BUSY 0), !(tst_bit _ FDC_STR_BIT_RNF 4)
      by first [reflexivity | lia].
    rewrite H1, H4, H5, H6, H7. injection H8 as -> -> ->. cbn.
    str_bits. cbn.
    replace 511 with (PosInBuffer dma2 - 1) by lia.
    repeat split; auto; try congruence; lia.
Qed.


(** ** Restore from the command write (C4) *)







(** ** A state Restore should not reach

    The first [if] of the stepping loop of Restore has no [break]. The
    Track Register is the attempt counter and the program can write it:
    when it holds 0 while an enabled drive has its head at track 0, the
    command is completed with Record Not Found and then the second [if]
    sets the state to [FDCEMU_RUN_RESTORE_VERIFY] and asks for no delay.
    [FDC_UpdateMotorStop] has no case for that state and asks for no
    delay either: the [do ... while] loop of the handler does not end. *)
Lemma Restore_LOOP_stray s cmd st cr str :
  typeI_view s = (cmd, st, 0, cr, str, true, 0) ->
  Command (FDC (fst (Restore_LOOP s))) = FDCEMU_CMD_MOTOR_STOP
  /\ CommandState (FDC (fst (Restore_LOOP s))) = FDCEMU_RUN_RESTORE_VERIFY
  /\ snd (Restore_LOOP s) = 0.
Proof.
  intros Hv. unfold typeI_view in Hv. injection Hv as _ _ Ht _ _ He Hh.
  apply Z.eqb_eq in Ht.
  unfold Restore_LOOP in *. unfold_prims. cbn. rewrite Ht in *. cbn.
  brks. all: repeat split; leaf.
Qed.

Lemma MotorStop_stray_loops fuel :
  forall c s,
    Command (FDC s) = FDCEMU_CMD_MOTOR_STOP ->
    CommandState (FDC s) = FDCEMU_RUN_RESTORE_VERIFY ->
    FDC_Update_loop fuel c s = None.
Proof.
  induction fuel as [|fuel IH]; intros c s Hc Hs; [reflexivity|].
  cbn [FDC_Update_loop]. unfold FDC_Update_round, FDC_Update_dispatch.
  pose proof (view_UpdateAll s) as Hv. unfold typeI_view in Hv.
  injection Hv as Hc' Hs' _ _ _ _ _. rewrite Hc in Hc'. rewrite Hs in Hs'.
  rewrite Hc'. unfold FDC_UpdateMotorStop. rewrite Hs', Hc'. cbn.
  apply IH; assumption.
Qed.

(** X18. When the timer fires while Restore is in its stepping loop with
    the Track Register at 0 and the head of the selected, enabled drive
    at track 0, the handler does not come back: its loop goes on
    whatever number of rounds it is given. *)
Theorem X18_restore_stray_no_return fuel p s :
  Command (FDC s) = FDCEMU_CMD_RESTORE ->
  CommandState (FDC s) = FDCEMU_RUN_RESTORE_SEEKTOTRACKZERO_LOOP ->
  TR (FDC s) = 0 -> drive_enabled s = true -> HeadTrack (seldrive s) = 0 ->
  FDC_InterruptHandler_Update fuel p s = None.
Proof.
  intros Hc Hs Ht He Hh. unfold FDC_InterruptHandler_Update. cbv zeta.
  assert (Hv : typeI_view (set_FDC_Timer None s)
               = (FDCEMU_CMD_RESTORE, FDCEMU_RUN_RESTORE_SEEKTOTRACKZERO_LOOP, 0,
                  CR (FDC s), STR (FDC s), true, 0)).
  { unfold typeI_view. cbn. unfold typeI_view, drive_enabled, seldrive, drive in *. cbn.
    rewrite Hc, Hs, Ht, He, Hh. reflexivity. }
  destruct (round_Restore_entry 0 _ _ _ _ _ _ _ Hv (or_introl eq_refl)) as (s1 & Hr & Hv1).
  destruct (Restore_LOOP_stray s1 _ _ _ _ Hv1) as (G1 & G2 & G3).
  destruct fuel as [|fuel]; [reflexivity|].
  rewrite Update_loop_again by (rewrite Hr, G1, G3; reflexivity).
  rewrite Hr, (MotorStop_stray_loops fuel _ _ G1 G2). reflexivity.
Qed.

(** * More of the code *)

(** ** The DMA address, written and read back *)

Lemma testbit_range_mask lo len n :
  0 <= lo -> 0 <= len -> 0 <= n ->
  Z.testbit (Z.shiftl (Z.ones len) lo) n = (lo <=? n) && (n <? lo + len).
Proof.
  intros Hlo Hlen Hn. rewrite Z.shiftl_spec by lia.
  destruct (Z.leb_spec lo n) as [H|H]; cbn.
  - destruct (Z.ltb_spec n (lo + len)) as [H'|H'].
    + apply Z.ones_spec_low. lia.
    + apply Z.ones_spec_high. lia.
  - apply Z.testbit_neg_r. lia.
Qed.

Lemma u8_testbit x n : 0 <= n -> Z.testbit (u8 x) n = (n <? 8) && Z.testbit x n.
Proof.
  intros Hn. unfold u8. change 256 with (2 ^ 8).
  destruct (Z.ltb_spec n 8) as [H|H]; cbn [andb].
  - apply Z.mod_pow2_bits_low. lia.
  - apply Z.mod_pow2_bits_high. lia.
Qed.

Lemma u32_testbit x n : 0 <= n -> Z.testbit (u32 x) n = (n <? 32) && Z.testbit x n.
Proof.
  intros Hn. unfold u32. change 4294967296 with (2 ^ 32).
  destruct (Z.ltb_spec n 32) as [H|H]; cbn [andb].
  - apply Z.mod_pow2_bits_low. lia.
  - apply Z.mod_pow2_bits_high. lia.
Qed.

Lemma GetDMAAddress_bit s n :
  0 <= n ->
  Z.testbit (FDC_GetDMAAddress s) n
  = Z.testbit (IoMem_ff8609 s) (n - 16) || Z.testbit (IoMem_ff860b s) (n - 8)
    || Z.testbit (IoMem_ff860d s) n.
Proof.
  intros Hn. unfold FDC_GetDMAAddress.
  rewrite !Z.lor_spec, !Z.shiftl_spec by lia. reflexivity.
Qed.

Lemma GetDMAAddress_WriteDMAAddress (A : Z) (s : State) :
  FDC_GetDMAAddress (FDC_WriteDMAAddress A s)
  = Z.land A (if machine_limited_4MB nMachineType then 0x3ffffe else 0xfffffe).
Proof.
  apply Z.bits_inj'. intros n Hn. rewrite GetDMAAddress_bit by lia.
  unfold FDC_WriteDMAAddress. cbn.
  change 0xfffffffe with (Z.shiftl (Z.ones 31) 1).
  change 0x3fffff with (Z.shiftl (Z.ones 22) 0).
  replace (if machine_limited_4MB nMachineType then 0x3ffffe else 0xfffffe)
    with (Z.shiftl (Z.ones (if machine_limited_4MB nMachineType then 21 else 23)) 1)
    by (destruct (machine_limited_4MB nMachineType); reflexivity).
  rewrite Z.land_spec, testbit_range_mask by (try destruct (machine_limited_4MB nMachineType); lia).
  destruct (Z.ltb_spec n 8) as [H8|H8].
  - rewrite (Z.testbit_neg_r _ (n - 16)), (Z.testbit_neg_r _ (n - 8)) by lia.
    rewrite u8_testbit by lia. cbn.
    destruct (machine_limited_4MB nMachineType).
    all: rewrite ?Z.land_spec, ?testbit_range_mask, ?u32_testbit by lia.
    all: destruct (Z.testbit A n); cbn; rewrite ?andb_true_r, ?andb_false_r; try reflexivity.
    all: repeat match goal with |- context [?a <=? ?b] => destruct (Z.leb_spec a b) end;
         repeat match goal with |- context [?a <? ?b] => destruct (Z.ltb_spec a b) end;
         cbn; try reflexivity; lia.
  - destruct (Z.ltb_spec n 16) as [H16|H16].
    + rewrite (Z.testbit_neg_r _ (n - 16)) by lia.
      rewrite !u8_testbit by lia. rewrite Z.shiftr_spec by lia.
      replace (n - 8 + 8) with n by lia.
      destruct (machine_limited_4MB nMachineType).
      all: rewrite ?Z.land_spec, ?testbit_range_mask, ?u32_testbit by lia.
      all: destruct (Z.testbit A n); cbn; rewrite ?andb_true_r, ?andb_false_r; try reflexivity.
      all: repeat match goal with |- context [?a <=? ?b] => destruct (Z.leb_spec a b) end;
           repeat match goal with |- context [?a <? ?b] => destruct (Z.ltb_spec a b) end;
           cbn; try reflexivity; lia.
    + rewrite !u8_testbit by lia. rewrite !Z.shiftr_spec by lia.
      replace (n - 16 + 16) with n by lia. replace (n - 8 + 8) with n by lia.
      destruct (machine_limited_4MB nMachineType).
      all: rewrite ?Z.land_spec, ?testbit_range_mask, ?u32_testbit by lia.
      all: destruct (Z.testbit A n); cbn; rewrite ?andb_true_r, ?andb_false_r; try reflexivity.
      all: repeat match goal with |- context [?a <=? ?b] => destruct (Z.leb_spec a b) end;
           repeat match goal with |- context [?a <? ?b] => destruct (Z.ltb_spec a b) end;
           cbn; try reflexivity; lia.
Qed.

(** ** Blocks of the DMA FIFO *)

Lemma upd_nat_app {A} (pre : list A) x post v :
  upd_nat (pre ++ x :: post) (length pre) v = pre ++ v :: post.
Proof. induction pre; simpl; congruence. Qed.

Lemma wr_fill {A} (F l : list A) (n : nat) v :
  (n + length l < length F)%nat ->
  wr (firstn n F ++ l ++ skipn (n + length l) F) (Z.of_nat (n + length l)) v
  = firstn n F ++ (l ++ [v]) ++ skipn (n + length (l ++ [v])) F.
Proof.
  intros H. unfold wr.
  destruct (Z.ltb_spec (Z.of_nat (n + length l)) 0) as [H0|H0]; [lia|].
  rewrite Nat2Z.id.
  destruct (skipn (n + length l) F) as [|x post] eqn:E.
  { apply (f_equal (@length A)) in E. rewrite length_skipn in E. simpl in E. lia. }
  assert (E' : skipn (n + length (l ++ [v])) F = post).
  { rewrite length_app. simpl. replace (n + (length l + 1))%nat with (1 + (n + length l))%nat by lia.
    rewrite <- skipn_skipn, E. reflexivity. }
  rewrite E'. rewrite app_assoc.
  replace (n + length l)%nat with (length (firstn n F ++ l)).
  2:{ rewrite length_app, length_firstn. lia. }
  rewrite upd_nat_app. rewrite <- !app_assoc. reflexivity.
Qed.

Lemma Push_fill b s :
  SectorCount (FDC_DMA s) <> 0 -> FIFO_Size (FDC_DMA s) + 1 < FDC_DMA_FIFO_SIZE ->
  let s' := FDC_DMA_FIFO_Push b s in
  FIFO (FDC_DMA s') = wr (FIFO (FDC_DMA s)) (FIFO_Size (FDC_DMA s)) b
  /\ FIFO_Size (FDC_DMA s') = FIFO_Size (FDC_DMA s) + 1
  /\ SectorCount (FDC_DMA s') = SectorCount (FDC_DMA s)
  /\ BytesInSector (FDC_DMA s') = BytesInSector (FDC_DMA s)
  /\ STRam s' = STRam s
  /\ (IoMem_ff8609 s', IoMem_ff860b s', IoMem_ff860d s')
     = (IoMem_ff8609 s, IoMem_ff860b s, IoMem_ff860d s).
Proof.
  intros Hc Hn. apply Z.eqb_neq in Hc. apply Z.ltb_lt in Hn.
  unfold FDC_DMA_FIFO_Push. unfold_prims. cbn. rewrite Hc. cbn. rewrite Hn. cbn.
  repeat split.
Qed.

Lemma Push_list_fill l : forall s n,
  SectorCount (FDC_DMA s) <> 0 -> FIFO_Size (FDC_DMA s) = Z.of_nat n ->
  (n + length l < length (FIFO (FDC_DMA s)))%nat ->
  length (FIFO (FDC_DMA s)) = Z.to_nat FDC_DMA_FIFO_SIZE ->
  let s' := FDC_DMA_FIFO_Push_list l s in
  FIFO (FDC_DMA s') = firstn n (FIFO (FDC_DMA s)) ++ l ++ skipn (n + length l) (FIFO (FDC_DMA s))
  /\ FIFO_Size (FDC_DMA s') = Z.of_nat (n + length l)
  /\ SectorCount (FDC_DMA s') = SectorCount (FDC_DMA s)
  /\ BytesInSector (FDC_DMA s') = BytesInSector (FDC_DMA s)
  /\ STRam s' = STRam s
  /\ (IoMem_ff8609 s', IoMem_ff860b s', IoMem_ff860d s')
     = (IoMem_ff8609 s, IoMem_ff860b s, IoMem_ff860d s).
Proof.
  induction l as [|b l IH] using rev_ind; intros s n Hc Hn Hlen HF; cbv zeta.
  - unfold FDC_DMA_FIFO_Push_list. simpl. rewrite Nat.add_0_r, firstn_skipn.
    repeat split; auto.
  - unfold FDC_DMA_FIFO_Push_list in *. rewrite fold_left_app. simpl.
    rewrite length_app in Hlen. simpl in Hlen.
    destruct (IH s n Hc Hn ltac:(lia) HF) as (G1 & G2 & G3 & G4 & G5 & G6).
    set (s1 := fold_left _ l s) in *.
    assert (Hc1 : SectorCount (FDC_DMA s1) <> 0) by congruence.
    assert (Hn1 : FIFO_Size (FDC_DMA s1) + 1 < FDC_DMA_FIFO_SIZE).
    { rewrite G2. rewrite HF in Hlen. unfold FDC_DMA_FIFO_SIZE in *. lia. }
    destruct (Push_fill b s1 Hc1 Hn1) as (K1 & K2 & K3 & K4 & K5 & K6).
    rewrite K1, K2, K3, K4, K5, K6, G1, G2, G3, G4, G5, G6.
    rewrite wr_fill by lia. rewrite length_app. simpl.
    repeat split; auto. lia.
Qed.

Lemma GetDMAAddress_frame s s' :
  (IoMem_ff8609 s', IoMem_ff860b s', IoMem_ff860d s')
  = (IoMem_ff8609 s, IoMem_ff860b s, IoMem_ff860d s) ->
  FDC_GetDMAAddress s' = FDC_GetDMAAddress s.
Proof. intros H. injection H as H1 H2 H3. unfold FDC_GetDMAAddress. congruence. Qed.

Lemma Push_flush b s :
  SectorCount (FDC_DMA s) <> 0 -> FIFO_Size (FDC_DMA s) = FDC_DMA_FIFO_SIZE - 1 ->
  let s' := FDC_DMA_FIFO_Push b s in
  let fifo := wr (FIFO (FDC_DMA s)) (FDC_DMA_FIFO_SIZE - 1) b in
  let left := u16 (BytesInSector (FDC_DMA s) - FDC_DMA_FIFO_SIZE) in
  STRam s' = STMemory_SafeCopy (STRam s) (FDC_GetDMAAddress s) fifo
  /\ FDC_GetDMAAddress s' = Z.land (FDC_GetDMAAddress s + FDC_DMA_FIFO_SIZE) DMA_address_mask
  /\ FIFO (FDC_DMA s') = fifo
  /\ FIFO_Size (FDC_DMA s') = 0
  /\ Z.testbit (Status (FDC_DMA s')) 0 = true
  /\ ff8604_recent_val (FDC_DMA s')
     = u16 (Z.lor (Z.shiftl (rd 0 fifo 14) 8) (rd 0 fifo 15))
  /\ BytesInSector (FDC_DMA s') = (if left <=? 0 then FDC_DMA_SECTOR_SIZE else left)
  /\ SectorCount (FDC_DMA s')
     = (if left <=? 0 then u16 (SectorCount (FDC_DMA s) - 1) else SectorCount (FDC_DMA s)).
Proof.
  intros Hc Hn. apply Z.eqb_neq in Hc.
  cbv zeta.
  assert (HA : FDC_GetDMAAddress (FDC_DMA_FIFO_Push b s)
               = FDC_GetDMAAddress (FDC_WriteDMAAddress (FDC_GetDMAAddress s + FDC_DMA_FIFO_SIZE) s)).
  { apply GetDMAAddress_frame.
    unfold FDC_DMA_FIFO_Push. unfold_prims. cbn. rewrite Hc. cbn. rewrite Hn.
    const_tests. cbn. brks; reflexivity. }
  rewrite HA, GetDMAAddress_WriteDMAAddress.
  unfold FDC_DMA_FIFO_Push. unfold_prims. cbn. rewrite Hc. cbn. rewrite Hn.
  const_tests. cbn.
  destruct (u16 (BytesInSector (FDC_DMA s) - FDC_DMA_FIFO_SIZE) <=? 0) eqn:E; cbn.
  all: repeat split; rewrite ?Hn; try reflexivity.
  all: rewrite u16_bit, Z.lor_spec by lia; apply orb_true_r.
Qed.

Lemma land_address_mask y :
  Z.land y DMA_address_mask
  = 2 * ((y / 2) mod (if machine_limited_4MB nMachineType then 2 ^ 21 else 2 ^ 23)).
Proof.
  unfold DMA_address_mask.
  replace (if machine_limited_4MB nMachineType then 0x3ffffe else 0xfffffe)
    with (Z.shiftl (Z.ones (if machine_limited_4MB nMachineType then 21 else 23)) 1)
    by (destruct (machine_limited_4MB nMachineType); reflexivity).
  replace (if machine_limited_4MB nMachineType then 2 ^ 21 else 2 ^ 23)
    with (2 ^ (if machine_limited_4MB nMachineType then 21 else 23))
    by (destruct (machine_limited_4MB nMachineType); reflexivity).
  set (k := if machine_limited_4MB nMachineType then 21 else 23).
  assert (Hk : 0 <= k) by (unfold k; destruct (machine_limited_4MB nMachineType); lia).
  rewrite <- Z.land_ones by lia.
  change (y / 2) with (y / 2 ^ 1). rewrite <- (Z.shiftr_div_pow2 y 1) by lia.
  rewrite (Z.mul_comm 2). change 2 with (2 ^ 1). rewrite <- Z.shiftl_mul_pow2 by lia.
  apply Z.bits_inj'. intros n Hn.
  rewrite Z.land_spec, !Z.shiftl_spec by lia.
  destruct (Z.eq_dec n 0) as [->|H0].
  - rewrite !(Z.testbit_neg_r _ (0 - 1)) by lia. apply andb_false_r.
  - rewrite Z.land_spec, Z.shiftr_spec by lia. replace (n - 1 + 1) with n by lia. reflexivity.
Qed.

Lemma address_mask_step x :
  Z.land (Z.land x DMA_address_mask + 16) DMA_address_mask = Z.land (x + 16) DMA_address_mask.
Proof.
  rewrite !land_address_mask.
  set (K := if machine_limited_4MB nMachineType then 2 ^ 21 else 2 ^ 23).
  assert (HK : 0 < K) by (unfold K; destruct (machine_limited_4MB nMachineType); lia).
  f_equal.
  replace (2 * ((x / 2) mod K) + 16) with (((x / 2) mod K + 8) * 2) by lia.
  rewrite Z.div_mul by lia.
  replace (x + 16) with (x + 8 * 2) by lia. rewrite Z.div_add by lia.
  apply Zplus_mod_idemp_l.
Qed.

Lemma Push_list_flush (bytes : list Z) (s : State) :
  FIFO_Size (FDC_DMA s) = 0 ->
  length (FIFO (FDC_DMA s)) = Z.to_nat FDC_DMA_FIFO_SIZE ->
  SectorCount (FDC_DMA s) <> 0 ->
  length bytes = Z.to_nat FDC_DMA_FIFO_SIZE ->
  let s' := FDC_DMA_FIFO_Push_list bytes s in
  let left := u16 (BytesInSector (FDC_DMA s) - FDC_DMA_FIFO_SIZE) in
  STRam s' = STMemory_SafeCopy (STRam s) (FDC_GetDMAAddress s) bytes
  /\ FDC_GetDMAAddress s' = Z.land (FDC_GetDMAAddress s + FDC_DMA_FIFO_SIZE) DMA_address_mask
  /\ FIFO (FDC_DMA s') = bytes
  /\ FIFO_Size (FDC_DMA s') = 0
  /\ Z.testbit (Status (FDC_DMA s')) 0 = true
  /\ BytesInSector (FDC_DMA s') = (if left <=? 0 then FDC_DMA_SECTOR_SIZE else left)
  /\ SectorCount (FDC_DMA s')
     = (if left <=? 0 then u16 (SectorCount (FDC_DMA s) - 1) else SectorCount (FDC_DMA s)).
Proof.
  intros Hn HF Hc Hlen. cbv zeta.
  destruct (exists_last (l := bytes)) as (l & b & ->).
  { intros ->. discriminate Hlen. }
  rewrite length_app in Hlen. simpl in Hlen.
  unfold FDC_DMA_FIFO_Push_list. rewrite fold_left_app. simpl.
  destruct (Push_list_fill l s 0 Hc Hn ltac:(simpl; lia) HF) as (G1 & G2 & G3 & G4 & G5 & G6).
  unfold FDC_DMA_FIFO_Push_list in *. set (s1 := fold_left _ l s) in *.
  simpl in G1, G2.
  assert (Hl : length l = 15%nat) by (change (Z.to_nat FDC_DMA_FIFO_SIZE) with 16%nat in Hlen; lia).
  assert (Hc1 : SectorCount (FDC_DMA s1) <> 0) by congruence.
  assert (Hn1 : FIFO_Size (FDC_DMA s1) = FDC_DMA_FIFO_SIZE - 1) by (rewrite G2, Hl; reflexivity).
  destruct (Push_flush b s1 Hc1 Hn1) as (K1 & K2 & K3 & K4 & K5 & K6 & K7 & K8).
  rewrite K1, K2, K3, K4, K5, K7, K8, G3, G4, G5, (GetDMAAddress_frame _ _ G6).
  assert (E : wr (FIFO (FDC_DMA s1)) (FDC_DMA_FIFO_SIZE - 1) b = l ++ [b]).
  { rewrite G1. change (FDC_DMA_FIFO_SIZE - 1) with (Z.of_nat 15). rewrite <- Hl.
    pose proof (wr_fill (FIFO (FDC_DMA s)) l 0 b) as W. simpl firstn in W. simpl app in W at 1.
    simpl in W. rewrite W.
    - rewrite skipn_all2; [apply app_nil_r|]. rewrite length_app, HF. simpl.
      change (Z.to_nat FDC_DMA_FIFO_SIZE) with 16%nat. lia.
    - rewrite HF. change (Z.to_nat FDC_DMA_FIFO_SIZE) with 16%nat. lia. }
  rewrite E. repeat split; auto.
Qed.

Lemma Push_list_app l1 l2 s :
  FDC_DMA_FIFO_Push_list (l1 ++ l2) s = FDC_DMA_FIFO_Push_list l2 (FDC_DMA_FIFO_Push_list l1 s).
Proof. apply fold_left_app. Qed.

Lemma Push_list_blocks (k : nat) : forall (bytes : list Z) (s : State),
  length bytes = (16 * S k)%nat ->
  FIFO_Size (FDC_DMA s) = 0 ->
  length (FIFO (FDC_DMA s)) = Z.to_nat FDC_DMA_FIFO_SIZE ->
  SectorCount (FDC_DMA s) <> 0 ->
  16 * Z.of_nat (S k) < BytesInSector (FDC_DMA s) < 65536 ->
  let s' := FDC_DMA_FIFO_Push_list bytes s in
  FDC_GetDMAAddress s' = Z.land (FDC_GetDMAAddress s + 16 * Z.of_nat (S k)) DMA_address_mask
  /\ FIFO_Size (FDC_DMA s') = 0
  /\ length (FIFO (FDC_DMA s')) = Z.to_nat FDC_DMA_FIFO_SIZE
  /\ Z.testbit (Status (FDC_DMA s')) 0 = true
  /\ BytesInSector (FDC_DMA s') = BytesInSector (FDC_DMA s) - 16 * Z.of_nat (S k)
  /\ SectorCount (FDC_DMA s') = SectorCount (FDC_DMA s).
Proof.
  induction k as [|k IH]; intros bytes s Hlen Hn HF Hc HB; cbv zeta.
  - destruct (Push_list_flush bytes s Hn HF Hc Hlen) as (G1 & G2 & G3 & G4 & G5 & G6 & G7).
    assert (E : (u16 (BytesInSector (FDC_DMA s) - FDC_DMA_FIFO_SIZE) <=? 0) = false).
    { apply Z.leb_gt. unfold u16, FDC_DMA_FIFO_SIZE. rewrite Z.mod_small; lia. }
    rewrite E in G6, G7. rewrite G2, G3, G4, G5, G6, G7.
    unfold u16, FDC_DMA_FIFO_SIZE. rewrite Z.mod_small by lia.
    repeat split; auto.
  - rewrite <- (firstn_skipn (16 * S k) bytes), Push_list_app.
    assert (H1 : length (firstn (16 * S k) bytes) = (16 * S k)%nat) by (rewrite length_firstn; lia).
    assert (H2 : length (skipn (16 * S k) bytes) = Z.to_nat FDC_DMA_FIFO_SIZE).
    { rewrite length_skipn, Hlen. change (Z.to_nat FDC_DMA_FIFO_SIZE) with 16%nat. lia. }
    destruct (IH _ s H1 Hn HF Hc ltac:(lia)) as (G1 & G2 & G3 & G4 & G5 & G6).
    set (s1 := FDC_DMA_FIFO_Push_list (firstn (16 * S k) bytes) s) in *.
    assert (Hc1 : SectorCount (FDC_DMA s1) <> 0) by congruence.
    destruct (Push_list_flush _ s1 G2 G3 Hc1 H2) as (K1 & K2 & K3 & K4 & K5 & K6 & K7).
    assert (E : (u16 (BytesInSector (FDC_DMA s1) - FDC_DMA_FIFO_SIZE) <=? 0) = false).
    { apply Z.leb_gt. rewrite G5. unfold u16, FDC_DMA_FIFO_SIZE. rewrite Z.mod_small; lia. }
    rewrite E in K6, K7. rewrite K2, K3, K4, K5, K6, K7, G1, G5, G6.
    unfold u16, FDC_DMA_FIFO_SIZE. rewrite Z.mod_small by lia.
    rewrite address_mask_step.
    repeat split; auto; try lia; try (f_equal; lia).
Qed.

Lemma Push_list_sector (bytes : list Z) (s : State) :
  length bytes = Z.to_nat FDC_DMA_SECTOR_SIZE ->
  FIFO_Size (FDC_DMA s) = 0 ->
  length (FIFO (FDC_DMA s)) = Z.to_nat FDC_DMA_FIFO_SIZE ->
  BytesInSector (FDC_DMA s) = FDC_DMA_SECTOR_SIZE ->
  0 < SectorCount (FDC_DMA s) < 65536 ->
  let s' := FDC_DMA_FIFO_Push_list bytes s in
  SectorCount (FDC_DMA s') = SectorCount (FDC_DMA s) - 1
  /\ BytesInSector (FDC_DMA s') = FDC_DMA_SECTOR_SIZE
  /\ FIFO_Size (FDC_DMA s') = 0
  /\ FDC_GetDMAAddress s'
     = Z.land (FDC_GetDMAAddress s + FDC_DMA_SECTOR_SIZE) DMA_address_mask
  /\ Z.testbit (Status (FDC_DMA s')) 0 = true.
Proof.
  intros Hlen Hn HF HB Hc. cbv zeta.
  change (Z.to_nat FDC_DMA_SECTOR_SIZE) with 512%nat in Hlen.
  rewrite <- (firstn_skipn (16 * 31) bytes), Push_list_app.
  assert (H1 : length (firstn (16 * 31) bytes) = (16 * 31)%nat) by (rewrite length_firstn; lia).
  assert (H2 : length (skipn (16 * 31) bytes) = Z.to_nat FDC_DMA_FIFO_SIZE).
  { rewrite length_skipn, Hlen. reflexivity. }
  destruct (Push_list_blocks 30 _ s H1 Hn HF ltac:(lia)
              ltac:(rewrite HB; unfold FDC_DMA_SECTOR_SIZE; lia)) as (G1 & G2 & G3 & G4 & G5 & G6).
  set (s1 := FDC_DMA_FIFO_Push_list (firstn (16 * 31) bytes) s) in *.
  assert (Hc1 : SectorCount (FDC_DMA s1) <> 0) by (rewrite G6; lia).
  destruct (Push_list_flush _ s1 G2 G3 Hc1 H2) as (K1 & K2 & K3 & K4 & K5 & K6 & K7).
  rewrite G5, HB in K6, K7.
  change (u16 (FDC_DMA_SECTOR_SIZE - 16 * Z.of_nat 31 - FDC_DMA_FIFO_SIZE) <=? 0) with true in K6, K7.
  rewrite K2, K4, K5, K6, K7, G1, G6.
  change FDC_DMA_FIFO_SIZE with 16. rewrite address_mask_step.
  unfold u16. rewrite Z.mod_small by lia.
  repeat split; auto. f_equal. unfold FDC_DMA_SECTOR_SIZE. lia.
Qed.

(** X3. Pushing the 512 bytes of a sector, from an empty FIFO and a fresh
    sector countdown, while the sector counter is n > 0: the counter
    ends at n - 1, the countdown is back at 512, the FIFO is empty, no
    DMA error is flagged and the DMA address has advanced by 512 under
    the address mask of the machine. *)
Theorem X3_push_sector (bytes : list Z) (s : State) :
  length bytes = Z.to_nat FDC_DMA_SECTOR_SIZE ->
  FIFO_Size (FDC_DMA s) = 0 ->
  length (FIFO (FDC_DMA s)) = Z.to_nat FDC_DMA_FIFO_SIZE ->
  BytesInSector (FDC_DMA s) = FDC_DMA_SECTOR_SIZE ->
  0 < SectorCount (FDC_DMA s) < 65536 ->
  let s' := FDC_DMA_FIFO_Push_list bytes s in
  SectorCount (FDC_DMA s') = SectorCount (FDC_DMA s) - 1
  /\ BytesInSector (FDC_DMA s') = FDC_DMA_SECTOR_SIZE
  /\ FIFO_Size (FDC_DMA s') = 0
  /\ FDC_GetDMAAddress s'
     = Z.land (FDC_GetDMAAddress s + FDC_DMA_SECTOR_SIZE) DMA_address_mask
  /\ Z.testbit (Status (FDC_DMA s')) 0 = true.
Proof.
  intros Hlen Hn HF HB Hc. cbv zeta.
  change (Z.to_nat FDC_DMA_SECTOR_SIZE) with 512%nat in Hlen.
  rewrite <- (firstn_skipn (16 * 31) bytes), Push_list_app.
  assert (H1 : length (firstn (16 * 31) bytes) = (16 * 31)%nat) by (rewrite length_firstn; lia).
  assert (H2 : length (skipn (16 * 31) bytes) = Z.to_nat FDC_DMA_FIFO_SIZE).
  { rewrite length_skipn, Hlen. reflexivity. }
  destruct (Push_list_blocks 30 _ s H1 Hn HF ltac:(lia)
              ltac:(rewrite HB; unfold FDC_DMA_SECTOR_SIZE; lia)) as (G1 & G2 & G3 & G4 & G5 & G6).
  set (s1 := FDC_DMA_FIFO_Push_list (firstn (16 * 31) bytes) s) in *.
  assert (Hc1 : SectorCount (FDC_DMA s1) <> 0) by (rewrite G6; lia).
  destruct (Push_list_flush _ s1 G2 G3 Hc1 H2) as (K1 & K2 & K3 & K4 & K5 & K6 & K7).
  rewrite G5, HB in K6, K7.
  change (u16 (FDC_DMA_SECTOR_SIZE - 16 * Z.of_nat 31 - FDC_DMA_FIFO_SIZE) <=? 0) with true in K6, K7.
  rewrite K2, K4, K5, K6, K7, G1, G6.
  change FDC_DMA_FIFO_SIZE with 16. rewrite address_mask_step.
  unfold u16. rewrite Z.mod_small by lia.
  repeat split; auto. f_equal. unfold FDC_DMA_SECTOR_SIZE. lia.
Qed.

(** X2. Bytes pushed into the empty FIFO while the sector counter is not
    0 stay in the FIFO until there are 16 of them: fewer than 16 leave the
    memory and the DMA address alone; the 16th makes the DMA copy the 16
    bytes, in the order they were pushed, to the memory at the DMA
    address, advance the address by 16 (under the address mask of the
    machine), empty the FIFO, flag no error, and count the block: 16
    bytes less to go in the sector, or the next sector with one sector
    less to go. *)
Theorem X2_push_block (bytes : list Z) (s : State) :
  FIFO_Size (FDC_DMA s) = 0 ->
  length (FIFO (FDC_DMA s)) = Z.to_nat FDC_DMA_FIFO_SIZE ->
  SectorCount (FDC_DMA s) <> 0 ->
  let s' := FDC_DMA_FIFO_Push_list bytes s in
  ((length bytes < Z.to_nat FDC_DMA_FIFO_SIZE)%nat ->
   STRam s' = STRam s
   /\ FDC_GetDMAAddress s' = FDC_GetDMAAddress s
   /\ FIFO_Size (FDC_DMA s') = Z.of_nat (length bytes)
   /\ firstn (length bytes) (FIFO (FDC_DMA s')) = bytes
   /\ SectorCount (FDC_DMA s') = SectorCount (FDC_DMA s)
   /\ BytesInSector (FDC_DMA s') = BytesInSector (FDC_DMA s))
  /\ (length bytes = Z.to_nat FDC_DMA_FIFO_SIZE ->
      let left := u16 (BytesInSector (FDC_DMA s) - FDC_DMA_FIFO_SIZE) in
      STRam s' = STMemory_SafeCopy (STRam s) (FDC_GetDMAAddress s) bytes
      /\ FDC_GetDMAAddress s'
         = Z.land (FDC_GetDMAAddress s + FDC_DMA_FIFO_SIZE) DMA_address_mask
      /\ FIFO_Size (FDC_DMA s') = 0
      /\ Z.testbit (Status (FDC_DMA s')) 0 = true
      /\ BytesInSector (FDC_DMA s') = (if left <=? 0 then FDC_DMA_SECTOR_SIZE else left)
      /\ SectorCount (FDC_DMA s')
         = (if left <=? 0 then u16 (SectorCount (FDC_DMA s) - 1) else SectorCount (FDC_DMA s))).
Proof.
  intros Hn HF Hc. cbv zeta. split.
  - intros Hlen.
    destruct (Push_list_fill bytes s 0 Hc Hn ltac:(simpl; lia) HF) as (G1 & G2 & G3 & G4 & G5 & G6).
    simpl in G1, G2. rewrite G2, G3, G4, G5, G1.
    rewrite (GetDMAAddress_frame _ _ G6).
    repeat split; auto.
    rewrite firstn_app, firstn_all, Nat.sub_diag. simpl. apply app_nil_r.
  - intros Hlen.
    destruct (Push_list_flush bytes s Hn HF Hc Hlen) as (K1 & K2 & K3 & K4 & K5 & K6 & K7).
    cbv zeta in *. repeat split; assumption.
Qed.

Lemma Pull_load s :
  SectorCount (FDC_DMA s) <> 0 -> FIFO_Size (FDC_DMA s) = 0 ->
  let s' := fst (FDC_DMA_FIFO_Pull s) in
  let left := u16 (BytesInSector (FDC_DMA s) - FDC_DMA_FIFO_SIZE) in
  snd (FDC_DMA_FIFO_Pull s) = rd 0 (STRam_block (STRam s) (FDC_GetDMAAddress s)) 0
  /\ FIFO (FDC_DMA s') = STRam_block (STRam s) (FDC_GetDMAAddress s)
  /\ FIFO_Size (FDC_DMA s') = FDC_DMA_FIFO_SIZE - 1
  /\ FDC_GetDMAAddress s' = Z.land (FDC_GetDMAAddress s + FDC_DMA_FIFO_SIZE) DMA_address_mask
  /\ Z.testbit (Status (FDC_DMA s')) 0 = true
  /\ BytesInSector (FDC_DMA s') = (if left <=? 0 then FDC_DMA_SECTOR_SIZE else left)
  /\ SectorCount (FDC_DMA s')
     = (if left <=? 0 then u16 (SectorCount (FDC_DMA s) - 1) else SectorCount (FDC_DMA s))
  /\ STRam s' = STRam s.
Proof.
  intros Hc Hn. apply Z.eqb_neq in Hc. cbv zeta.
  assert (HA : FDC_GetDMAAddress (fst (FDC_DMA_FIFO_Pull s))
               = FDC_GetDMAAddress (FDC_WriteDMAAddress (FDC_GetDMAAddress s + FDC_DMA_FIFO_SIZE) s)).
  { apply GetDMAAddress_frame.
    unfold FDC_DMA_FIFO_Pull. unfold_prims. cbn. rewrite Hc. cbn. rewrite Hn.
    const_tests. cbn. brks; reflexivity. }
  rewrite HA, GetDMAAddress_WriteDMAAddress.
  unfold FDC_DMA_FIFO_Pull. unfold_prims. cbn. rewrite Hc. cbn. rewrite Hn.
  const_tests. cbn.
  destruct (u16 (BytesInSector (FDC_DMA s) - FDC_DMA_FIFO_SIZE) <=? 0) eqn:E; cbn.
  all: repeat split; rewrite ?Hn; try reflexivity.
  all: rewrite u16_bit, Z.lor_spec by lia; apply orb_true_r.
Qed.

Lemma Pull_take s :
  SectorCount (FDC_DMA s) <> 0 -> 0 < FIFO_Size (FDC_DMA s) ->
  let s' := fst (FDC_DMA_FIFO_Pull s) in
  snd (FDC_DMA_FIFO_Pull s) = rd 0 (FIFO (FDC_DMA s)) (FDC_DMA_FIFO_SIZE - FIFO_Size (FDC_DMA s))
  /\ FIFO (FDC_DMA s') = FIFO (FDC_DMA s)
  /\ FIFO_Size (FDC_DMA s') = FIFO_Size (FDC_DMA s) - 1
  /\ FDC_GetDMAAddress s' = FDC_GetDMAAddress s
  /\ Z.testbit (Status (FDC_DMA s')) 0 = true
  /\ BytesInSector (FDC_DMA s') = BytesInSector (FDC_DMA s)
  /\ SectorCount (FDC_DMA s') = SectorCount (FDC_DMA s)
  /\ STRam s' = STRam s.
Proof.
  intros Hc Hn. apply Z.eqb_neq in Hc. apply Z.ltb_lt in Hn. cbv zeta.
  unfold FDC_DMA_FIFO_Pull, FDC_GetDMAAddress. unfold_prims. cbn. rewrite Hc. cbn. rewrite Hn. cbn.
  repeat split.
  rewrite u16_bit, Z.lor_spec by lia; apply orb_true_r.
Qed.

Lemma Pull_off s :
  SectorCount (FDC_DMA s) = 0 ->
  let s' := fst (FDC_DMA_FIFO_Pull s) in
  snd (FDC_DMA_FIFO_Pull s) = 0
  /\ FIFO (FDC_DMA s') = FIFO (FDC_DMA s)
  /\ FIFO_Size (FDC_DMA s') = FIFO_Size (FDC_DMA s)
  /\ FDC_GetDMAAddress s' = FDC_GetDMAAddress s
  /\ Z.testbit (Status (FDC_DMA s')) 0 = false
  /\ BytesInSector (FDC_DMA s') = BytesInSector (FDC_DMA s)
  /\ SectorCount (FDC_DMA s') = 0
  /\ STRam s' = STRam s.
Proof.
  intros Hc. cbv zeta.
  unfold FDC_DMA_FIFO_Pull, FDC_GetDMAAddress. unfold_prims. cbn. rewrite Hc. cbn.
  repeat split; auto.
  apply u16_clear_bit0.
Qed.

Lemma Pull_n_eq n s :
  FDC_DMA_FIFO_Pull_n (S n) s
  = (fst (FDC_DMA_FIFO_Pull_n n (fst (FDC_DMA_FIFO_Pull s))),
     snd (FDC_DMA_FIFO_Pull s) :: snd (FDC_DMA_FIFO_Pull_n n (fst (FDC_DMA_FIFO_Pull s)))).
Proof.
  simpl. destruct (FDC_DMA_FIFO_Pull s) as [s1 b]. simpl.
  destruct (FDC_DMA_FIFO_Pull_n n s1). reflexivity.
Qed.

Lemma skipn_cons_nth {A} (l : list A) n d :
  (n < length l)%nat -> skipn n l = nth n l d :: skipn (S n) l.
Proof.
  revert n. induction l as [|a l IH]; intros [|n] H; simpl in *; try lia; auto.
  apply IH. lia.
Qed.

Lemma Pull_n_take k : forall s n,
  SectorCount (FDC_DMA s) <> 0 -> FIFO_Size (FDC_DMA s) = Z.of_nat n ->
  (1 <= k <= n)%nat -> (n <= 16)%nat -> length (FIFO (FDC_DMA s)) = Z.to_nat FDC_DMA_FIFO_SIZE ->
  let s' := fst (FDC_DMA_FIFO_Pull_n k s) in
  snd (FDC_DMA_FIFO_Pull_n k s) = firstn k (skipn (16 - n) (FIFO (FDC_DMA s)))
  /\ FIFO_Size (FDC_DMA s') = Z.of_nat (n - k)
  /\ FDC_GetDMAAddress s' = FDC_GetDMAAddress s
  /\ Z.testbit (Status (FDC_DMA s')) 0 = true
  /\ BytesInSector (FDC_DMA s') = BytesInSector (FDC_DMA s)
  /\ SectorCount (FDC_DMA s') = SectorCount (FDC_DMA s)
  /\ STRam s' = STRam s.
Proof.
  induction k as [|k IH]; intros s n Hc Hn Hk Hn16 HF; cbv zeta; [lia|].
  rewrite Pull_n_eq. cbn [fst snd].
  destruct (Pull_take s Hc ltac:(lia)) as (G1 & G2 & G3 & G4 & G5 & G6 & G7 & G8).
  set (s1 := fst (FDC_DMA_FIFO_Pull s)) in *.
  assert (Hb : snd (FDC_DMA_FIFO_Pull s) = nth (16 - n) (FIFO (FDC_DMA s)) 0).
  { rewrite G1, Hn. unfold rd, FDC_DMA_FIFO_SIZE.
    destruct (Z.ltb_spec (16 - Z.of_nat n) 0); [lia|]. f_equal. lia. }
  change (Z.to_nat FDC_DMA_FIFO_SIZE) with 16%nat in HF.
  rewrite (skipn_cons_nth _ (16 - n) 0) by lia. cbn [firstn]. rewrite <- Hb.
  destruct k as [|k].
  - simpl. rewrite G3, G4, G5, G6, G7, G8, Hn. repeat split; auto. f_equal. lia.
  - destruct (IH s1 (n - 1)%nat) as (K1 & K2 & K3 & K4 & K5 & K6 & K7); try lia.
    + rewrite G2. exact HF.
    + rewrite K1, K2, K3, K4, K5, K6, K7, G2, G4, G6, G7, G8.
      replace (16 - (n - 1))%nat with (S (16 - n)) by lia.
      repeat split; auto. f_equal. lia.
Qed.

Lemma Pull_n_off k : forall s,
  SectorCount (FDC_DMA s) = 0 -> (1 <= k)%nat ->
  let s' := fst (FDC_DMA_FIFO_Pull_n k s) in
  snd (FDC_DMA_FIFO_Pull_n k s) = repeat 0 k
  /\ FIFO_Size (FDC_DMA s') = FIFO_Size (FDC_DMA s)
  /\ FDC_GetDMAAddress s' = FDC_GetDMAAddress s
  /\ Z.testbit (Status (FDC_DMA s')) 0 = false
  /\ BytesInSector (FDC_DMA s') = BytesInSector (FDC_DMA s)
  /\ SectorCount (FDC_DMA s') = 0
  /\ STRam s' = STRam s.
Proof.
  induction k as [|k IH]; intros s Hc Hk; cbv zeta; [lia|].
  rewrite Pull_n_eq. cbn [fst snd].
  destruct (Pull_off s Hc) as (G1 & G2 & G3 & G4 & G5 & G6 & G7 & G8).
  set (s1 := fst (FDC_DMA_FIFO_Pull s)) in *. rewrite G1.
  destruct k as [|k].
  - simpl. repeat split; auto.
  - destruct (IH s1 G7 ltac:(lia)) as (K1 & K2 & K3 & K4 & K5 & K6 & K7).
    rewrite K1, K2, K3, K4, K5, K6, K7, G3, G4, G6, G8. repeat split; auto.
Qed.

Lemma length_STRam_block m a : length (STRam_block m a) = Z.to_nat FDC_DMA_FIFO_SIZE.
Proof. unfold STRam_block. rewrite length_map, length_seq. reflexivity. Qed.

Lemma Pull_block (s : State) :
  FIFO_Size (FDC_DMA s) = 0 -> SectorCount (FDC_DMA s) <> 0 ->
  let s' := fst (FDC_DMA_FIFO_Pull_n 16 s) in
  let pulled := snd (FDC_DMA_FIFO_Pull_n 16 s) in
  let block := STRam_block (STRam s) (FDC_GetDMAAddress s) in
  let left := u16 (BytesInSector (FDC_DMA s) - FDC_DMA_FIFO_SIZE) in
  let count' := if left <=? 0 then u16 (SectorCount (FDC_DMA s) - 1)
                else SectorCount (FDC_DMA s) in
  FDC_GetDMAAddress s' = Z.land (FDC_GetDMAAddress s + FDC_DMA_FIFO_SIZE) DMA_address_mask
  /\ SectorCount (FDC_DMA s') = count'
  /\ BytesInSector (FDC_DMA s') = (if left <=? 0 then FDC_DMA_SECTOR_SIZE else left)
  /\ STRam s' = STRam s
  /\ (count' <> 0 ->
      pulled = block /\ FIFO_Size (FDC_DMA s') = 0 /\ Z.testbit (Status (FDC_DMA s')) 0 = true)
  /\ (count' = 0 ->
      pulled = firstn 1 block ++ repeat 0 15
      /\ FIFO_Size (FDC_DMA s') = FDC_DMA_FIFO_SIZE - 1
      /\ Z.testbit (Status (FDC_DMA s')) 0 = false).
Proof.
  intros Hn Hc. cbv zeta.
  rewrite Pull_n_eq. cbn [fst snd].
  destruct (Pull_load s Hc Hn) as (G1 & G2 & G3 & G4 & G5 & G6 & G7 & G8).
  set (s1 := fst (FDC_DMA_FIFO_Pull s)) in *.
  set (block := STRam_block (STRam s) (FDC_GetDMAAddress s)) in *.
  assert (Hb : length block = 16%nat) by apply length_STRam_block.
  assert (Hh : block = rd 0 block 0 :: skipn 1 block).
  { destruct block as [|x t]; [discriminate Hb | reflexivity]. }
  set (count' := if u16 (BytesInSector (FDC_DMA s) - FDC_DMA_FIFO_SIZE) <=? 0
                 then u16 (SectorCount (FDC_DMA s) - 1) else SectorCount (FDC_DMA s)) in *.
  destruct (Z.eq_dec count' 0) as [E|E].
  - destruct (Pull_n_off 15 s1 ltac:(congruence) ltac:(lia)) as (K1 & K2 & K3 & K4 & K5 & K6 & K7).
    rewrite K1, K2, K3, K4, K5, K6, K7, G1, G3, G4, G6, G8.
    repeat split; auto; try congruence.
  - destruct (Pull_n_take 15 s1 15 ltac:(congruence) G3 ltac:(lia) ltac:(lia))
      as (K1 & K2 & K3 & K4 & K5 & K6 & K7).
    { rewrite G2. apply length_STRam_block. }
    rewrite K1, K2, K3, K4, K5, K6, K7, G1, G2, G4, G6, G7, G8.
    repeat split; auto; try congruence.
Qed.

(** X4. Sixteen pulls from the empty FIFO while the sector counter is
    not 0: the first one loads the 16 bytes of memory at the DMA address
    into the FIFO, advances the address by 16 and counts the block.
    When the sector counter is still not 0 after that, the 16 pulls
    return the 16 bytes in memory order, the FIFO is empty again and no
    error is flagged.  When the block was the last one of the last
    sector, the counter is 0: only the first byte is delivered, the 15
    pulls that follow return 0, leave the 15 bytes in the FIFO and flag
    the DMA error. *)
Theorem X4_pull_block (s : State) :
  FIFO_Size (FDC_DMA s) = 0 -> SectorCount (FDC_DMA s) <> 0 ->
  let s' := fst (FDC_DMA_FIFO_Pull_n 16 s) in
  let pulled := snd (FDC_DMA_FIFO_Pull_n 16 s) in
  let block := STRam_block (STRam s) (FDC_GetDMAAddress s) in
  let left := u16 (BytesInSector (FDC_DMA s) - FDC_DMA_FIFO_SIZE) in
  let count' := if left <=? 0 then u16 (SectorCount (FDC_DMA s) - 1)
                else SectorCount (FDC_DMA s) in
  FDC_GetDMAAddress s' = Z.land (FDC_GetDMAAddress s + FDC_DMA_FIFO_SIZE) DMA_address_mask
  /\ SectorCount (FDC_DMA s') = count'
  /\ BytesInSector (FDC_DMA s') = (if left <=? 0 then FDC_DMA_SECTOR_SIZE else left)
  /\ STRam s' = STRam s
  /\ (count' <> 0 ->
      pulled = block /\ FIFO_Size (FDC_DMA s') = 0 /\ Z.testbit (Status (FDC_DMA s')) 0 = true)
  /\ (count' = 0 ->
      pulled = firstn 1 block ++ repeat 0 15
      /\ FIFO_Size (FDC_DMA s') = FDC_DMA_FIFO_SIZE - 1
      /\ Z.testbit (Status (FDC_DMA s')) 0 = false).
Proof.
  intros Hn Hc. cbv zeta.
  rewrite Pull_n_eq. cbn [fst snd].
  destruct (Pull_load s Hc Hn) as (G1 & G2 & G3 & G4 & G5 & G6 & G7 & G8).
  set (s1 := fst (FDC_DMA_FIFO_Pull s)) in *.
  set (block := STRam_block (STRam s) (FDC_GetDMAAddress s)) in *.
  assert (Hb : length block = 16%nat) by apply length_STRam_block.
  assert (Hh : block = rd 0 block 0 :: skipn 1 block).
  { destruct block as [|x t]; [discriminate Hb | reflexivity]. }
  set (count' := if u16 (BytesInSector (FDC_DMA s) - FDC_DMA_FIFO_SIZE) <=? 0
                 then u16 (SectorCount (FDC_DMA s) - 1) else SectorCount (FDC_DMA s)) in *.
  destruct (Z.eq_dec count' 0) as [E|E].
  - destruct (Pull_n_off 15 s1 ltac:(congruence) ltac:(lia)) as (K1 & K2 & K3 & K4 & K5 & K6 & K7).
    rewrite K1, K2, K3, K4, K5, K6, K7, G1, G3, G4, G6, G8.
    repeat split; auto; try congruence.
  - destruct (Pull_n_take 15 s1 15 ltac:(congruence) G3 ltac:(lia) ltac:(lia))
      as (K1 & K2 & K3 & K4 & K5 & K6 & K7).
    { rewrite G2. apply length_STRam_block. }
    rewrite K1, K2, K3, K4, K5, K6, K7, G1, G2, G4, G6, G7, G8.
    repeat split; auto; try congruence.
Qed.

Lemma DmaAddress_bput_high v s :
  let s' := DmaAddress_bput 0xff8609 v s in
  IoMem_ff8609 s' = (if machine_limited_4MB nMachineType then Z.land (u8 v) 0x3f else u8 v)
  /\ IoMem_ff860b s' = IoMem_ff860b s /\ IoMem_ff860d s' = IoMem_ff860d s.
Proof.
  cbv zeta. unfold DmaAddress_bput, FDC_DmaAddress_WriteByte, IoMem_WriteByte.
  change (0xff8609 =? 0xff8609) with true. change (0xff8609 =? 0xff860d) with false.
  cbn. destruct (machine_limited_4MB nMachineType); cbn; repeat split.
Qed.

Lemma DmaAddress_bput_mid v s :
  let s' := DmaAddress_bput 0xff860b v s in
  IoMem_ff8609 s' = IoMem_ff8609 s
  /\ IoMem_ff860b s' = u8 v /\ IoMem_ff860d s' = IoMem_ff860d s.
Proof.
  cbv zeta. unfold DmaAddress_bput, FDC_DmaAddress_WriteByte, IoMem_WriteByte.
  change (0xff860b =? 0xff8609) with false. change (0xff860b =? 0xff860b) with true.
  change (0xff860b =? 0xff860d) with false.
  cbn. repeat split.
Qed.

Lemma DmaAddress_bput_low v s :
  let s' := DmaAddress_bput 0xff860d v s in
  IoMem_ff8609 s' = IoMem_ff8609 s
  /\ IoMem_ff860b s' = IoMem_ff860b s /\ IoMem_ff860d s' = Z.land (u8 v) 0xfe.
Proof.
  cbv zeta. unfold DmaAddress_bput, FDC_DmaAddress_WriteByte, IoMem_WriteByte.
  change (0xff860d =? 0xff8609) with false. change (0xff860d =? 0xff860b) with false.
  change (0xff860d =? 0xff860d) with true.
  cbn. repeat split.
Qed.

Lemma DmaAddress_bput_bytes h m l s :
  let s' := DmaAddress_bput 0xff860d l (DmaAddress_bput 0xff860b m (DmaAddress_bput 0xff8609 h s)) in
  IoMem_ff8609 s' = (if machine_limited_4MB nMachineType then Z.land (u8 h) 0x3f else u8 h)
  /\ IoMem_ff860b s' = u8 m
  /\ IoMem_ff860d s' = Z.land (u8 l) 0xfe.
Proof.
  cbv zeta.
  destruct (DmaAddress_bput_high h s) as (A1 & A2 & A3).
  destruct (DmaAddress_bput_mid m (DmaAddress_bput 0xff8609 h s)) as (B1 & B2 & B3).
  destruct (DmaAddress_bput_low l (DmaAddress_bput 0xff860b m (DmaAddress_bput 0xff8609 h s)))
    as (C1 & C2 & C3).
  cbv zeta in *. rewrite C1, C2, C3, B1, B2, A1. repeat split.
Qed.

Ltac bool_cases :=
  repeat match goal with |- context [?a <=? ?b] => destruct (Z.leb_spec a b) end;
  repeat match goal with |- context [?a <? ?b] => destruct (Z.ltb_spec a b) end;
  cbn; try reflexivity; try lia.

(** X1. The DMA address read back after [FDC_WriteDMAAddress A] is A
    with bit 0 cleared, kept to 24 bits, and to 22 bits on ST, STE and
    MegaSTE; the CPU writing the three bytes of A to ff8609, ff860b and
    ff860d gives the same address. *)
Theorem X1_dma_address_round_trip :
  (forall (A : Z) (s : State),
      FDC_GetDMAAddress (FDC_WriteDMAAddress A s) = Z.land A DMA_address_mask)
  /\ (forall (A : Z) (s : State),
      FDC_GetDMAAddress
        (DmaAddress_bput 0xff860d A
           (DmaAddress_bput 0xff860b (Z.shiftr A 8)
              (DmaAddress_bput 0xff8609 (Z.shiftr A 16) s)))
      = Z.land A DMA_address_mask).
Proof.
  split; [exact GetDMAAddress_WriteDMAAddress|].
  intros A s.
  destruct (DmaAddress_bput_bytes (Z.shiftr A 16) (Z.shiftr A 8) A s) as (H1 & H2 & H3).
  cbv zeta in *.
  apply Z.bits_inj'. intros n Hn. rewrite GetDMAAddress_bit by lia.
  rewrite H1, H2, H3. unfold DMA_address_mask.
  change 0xfe with (Z.shiftl (Z.ones 7) 1). change 0x3f with (Z.shiftl (Z.ones 6) 0).
  change 0x3ffffe with (Z.shiftl (Z.ones 21) 1). change 0xfffffe with (Z.shiftl (Z.ones 23) 1).
  destruct (machine_limited_4MB nMachineType).
  all: destruct (Z.ltb_spec n 8) as [H8|H8]; [|destruct (Z.ltb_spec n 16) as [H16|H16]].
  all: rewrite ?(Z.testbit_neg_r _ (n - 16)), ?(Z.testbit_neg_r _ (n - 8)) by lia.
  all: rewrite ?Z.land_spec.
  all: rewrite ?testbit_range_mask by lia.
  all: rewrite ?u8_testbit by lia.
  all: rewrite ?Z.shiftr_spec by lia.
  all: replace (n - 16 + 16) with n by lia; replace (n - 8 + 8) with n by lia.
  all: destruct (Z.testbit A n); cbn; rewrite ?andb_true_r, ?andb_false_r; try reflexivity.
  all: bool_cases.
Qed.

(** ** The DMA mode and status words *)

(** X5. A word written to the DMA mode register is stored; when its bit
    8 differs from bit 8 of the mode before, the DMA is reset (FIFO
    empty, sector counter 0, countdown 512), otherwise these are kept.
    In both cases the DMA status (its error flag), the latest-ff8604
    shadow, the DMA address and the controller registers are left as
    they were. *)
Theorem X5_dma_mode_toggle (w : Z) (s : State) :
  let s' := FDC_DmaModeControl_WriteWord false w s in
  Mode (FDC_DMA s') = u16 w
  /\ Status (FDC_DMA s') = Status (FDC_DMA s)
  /\ ff8604_recent_val (FDC_DMA s') = ff8604_recent_val (FDC_DMA s)
  /\ FDC s' = FDC s
  /\ FDC_GetDMAAddress s' = FDC_GetDMAAddress s
  /\ (Z.testbit w 8 <> Z.testbit (Mode (FDC_DMA s)) 8 ->
      FIFO_Size (FDC_DMA s') = 0
      /\ SectorCount (FDC_DMA s') = 0
      /\ BytesInSector (FDC_DMA s') = FDC_DMA_SECTOR_SIZE)
  /\ (Z.testbit w 8 = Z.testbit (Mode (FDC_DMA s)) 8 ->
      FIFO_Size (FDC_DMA s') = FIFO_Size (FDC_DMA s)
      /\ SectorCount (FDC_DMA s') = SectorCount (FDC_DMA s)
      /\ BytesInSector (FDC_DMA s') = BytesInSector (FDC_DMA s)).
Proof.
  cbv zeta. unfold FDC_DmaModeControl_WriteWord, FDC_ResetDMA, FDC_GetDMAAddress. cbn.
  rewrite (tst_bit _ 0x0100 8) by first [reflexivity | lia].
  rewrite Z.lxor_spec, u16_bit by lia.
  destruct (Z.testbit (Mode (FDC_DMA s)) 8), (Z.testbit w 8); cbn.
  all: repeat split; intros; try congruence; try reflexivity.
  all: destruct s as [f d]; destruct f; reflexivity.
Qed.

Lemma testbit_2 k : 0 <= k -> k <> 1 -> Z.testbit 2 k = false.
Proof.
  intros H0 H1. change 2 with (2 ^ 1). rewrite Z.pow2_bits_eqb by lia.
  destruct (Z.eqb_spec 1 k); [lia | reflexivity].
Qed.

Lemma DmaStatus_word_bits s v :
  snd (FDC_DmaStatus_ReadWord false s) = Some v ->
  Z.testbit v 1 = negb (SectorCount (FDC_DMA s) =? 0)
  /\ (forall k, 0 <= k < 16 -> k <> 1 ->
        Z.testbit v k = Z.testbit (Status (FDC_DMA s)) k
                        || (3 <=? k) && Z.testbit (ff8604_recent_val (FDC_DMA s)) k).
Proof.
  unfold FDC_DmaStatus_ReadWord.
  destruct (SectorCount (FDC_DMA s) =? 0); cbn; intros H; injection H as <-.
  all: split; [|intros k Hk Hk1].
  all: rewrite Z.lor_spec, Z.land_spec, u16_bit by lia.
  all: rewrite ?Z.lor_spec, ?Z.land_spec.
  all: change 0xfff8 with (Z.shiftl (Z.ones 13) 3); rewrite testbit_range_mask by lia.
  all: const_bits; cbn; rewrite ?orb_false_r, ?andb_true_r, ?andb_false_r, ?orb_true_r;
       try reflexivity.
  all: destruct (Z.ltb_spec k (3 + 13)); [|lia]; cbn; rewrite ?andb_true_r.
  all: rewrite ?Z.lnot_spec, ?testbit_2 by lia; cbn; rewrite ?andb_true_r, ?orb_false_r.
  all: try reflexivity.
  all: f_equal; apply andb_comm.
Qed.

(** ** The register window at 8604 *)

Lemma regs_UpdateAll s :
  let s' := FDC_UpdateAll s in
  (DR (FDC s'), TR (FDC s'), SR (FDC s'), CR (FDC s'), STR (FDC s'))
  = (DR (FDC s), TR (FDC s), SR (FDC s), CR (FDC s), STR (FDC s))
  /\ (InterruptCond (FDC s'), StatusTypeI (FDC s'), CommandType (FDC s'),
      ReplaceCommandPossible (FDC s'), Command (FDC s'), CommandState (FDC s'))
     = (InterruptCond (FDC s), StatusTypeI (FDC s), CommandType (FDC s),
        ReplaceCommandPossible (FDC s), Command (FDC s), CommandState (FDC s))
  /\ FDC_DMA s' = FDC_DMA s /\ Disks s' = Disks s /\ FDC_Timer s' = FDC_Timer s
  /\ STRam s' = STRam s
  /\ (IoMem_ff8609 s', IoMem_ff860b s', IoMem_ff860d s')
     = (IoMem_ff8609 s, IoMem_ff860b s, IoMem_ff860d s).
Proof.
  cbv zeta. unfold FDC_UpdateAll, FDC_IndexPulse_Update. unfold_prims. cbn. brks.
  all: repeat split.
Qed.

Lemma GetEmulationMode_frame io s s' :
  Disks s' = Disks s -> FDC_GetEmulationMode io s' = FDC_GetEmulationMode io s.
Proof. intros H. unfold FDC_GetEmulationMode. rewrite H. reflexivity. Qed.

(** The FDC register the DMA mode selects *)
Lemma WriteWord_fdc_register io_porta w s :
  tst (Mode (FDC_DMA s)) 0x10 = false ->
  Z.land (Mode (FDC_DMA s)) 0x0008 <> 0x0008 ->
  FDC_GetEmulationMode io_porta s = FDC_EMULATION_MODE_INTERNAL ->
  let b := Z.land w 0xff in
  let s0 := FDC_UpdateAll (updDMA (fun d => set_ff8604_recent_val
              (u16 (Z.lor (Z.land (ff8604_recent_val d) 0xff00) b)) d) s) in
  let FDC_reg := Z.shiftr (Z.land (Mode (FDC_DMA s)) 0x6) 1 in
  FDC_DiskController_WriteWord false io_porta w s
  = if FDC_reg =? 0 then FDC_WriteCommandRegister b s0
    else if FDC_reg =? 1 then FDC_WriteTrackRegister b s0
    else if FDC_reg =? 2 then FDC_WriteSectorRegister b s0
    else FDC_WriteDataRegister b s0.
Proof.
  intros H4 H3 Hm. apply Z.eqb_neq in H3. cbv zeta.
  unfold FDC_DiskController_WriteWord. rewrite H4. cbn.
  rewrite H3.
  rewrite (GetEmulationMode_frame io_porta s) by reflexivity. rewrite Hm. reflexivity.
Qed.

Lemma ReadWord_fdc_register io_porta ext s :
  tst (Mode (FDC_DMA s)) 0x10 = false ->
  Z.land (Mode (FDC_DMA s)) 0x0008 <> 0x0008 ->
  FDC_GetEmulationMode io_porta s = FDC_EMULATION_MODE_INTERNAL ->
  Z.shiftr (Z.land (Mode (FDC_DMA s)) 0x6) 1 <> 0 ->
  let FDC_reg := Z.shiftr (Z.land (Mode (FDC_DMA s)) 0x6) 1 in
  let v := if FDC_reg =? 1 then TR (FDC s) else if FDC_reg =? 2 then SR (FDC s) else DR (FDC s) in
  FDC_DiskControllerStatus_ReadWord false io_porta ext s
  = (updDMA (fun d => set_ff8604_recent_val
               (u16 (Z.lor (Z.land (ff8604_recent_val d) 0xff00) (Z.land v 0xff))) d)
       (FDC_UpdateAll s),
     Some v).
Proof.
  intros H4 H3 Hm Hr. apply Z.eqb_neq in H3, Hr. cbv zeta.
  destruct (regs_UpdateAll s) as (A1 & A2 & A3 & A4 & A5 & A6 & A7).
  injection A1 as A11 A12 A13 A14 A15.
  unfold FDC_DiskControllerStatus_ReadWord. rewrite H4, H3, Hm, Hr.
  rewrite <- A11, <- A12, <- A13.
  assert (H4' : (Z.land (Mode (FDC_DMA (FDC_UpdateAll s))) 0x10 =? 0) = true).
  { cbv zeta in A3. rewrite A3. unfold tst in H4. apply negb_false_iff in H4. exact H4. }
  destruct (_ =? 1); [|destruct (_ =? 2)].
  all: rewrite H4'; reflexivity.
Qed.

(** X7. With the window at ff8604 on the Track, Sector or Data Register of
    the internal controller, a word written and then read comes back as
    its low byte, which is also the low byte of the latest-ff8604
    shadow; the command, the Command and Status Registers and the DMA
    sector counter are left as they were. *)
Theorem X7_register_window_round_trip (io_porta w ext : Z) (s : State) :
  tst (Mode (FDC_DMA s)) 0x10 = false ->
  Z.land (Mode (FDC_DMA s)) 0x0008 <> 0x0008 ->
  FDC_GetEmulationMode io_porta s = FDC_EMULATION_MODE_INTERNAL ->
  Z.shiftr (Z.land (Mode (FDC_DMA s)) 0x6) 1 <> 0 ->
  let s1 := FDC_DiskController_WriteWord false io_porta w s in
  let r := FDC_DiskControllerStatus_ReadWord false io_porta ext s1 in
  snd r = Some (Z.land w 0xff)
  /\ Z.land (ff8604_recent_val (FDC_DMA (fst r))) 0xff = Z.land w 0xff
  /\ Command (FDC (fst r)) = Command (FDC s)
  /\ CR (FDC (fst r)) = CR (FDC s)
  /\ STR (FDC (fst r)) = STR (FDC s)
  /\ SectorCount (FDC_DMA (fst r)) = SectorCount (FDC_DMA s).
Proof.
  intros H4 H3 Hm Hr. cbv zeta.
  rewrite (WriteWord_fdc_register io_porta w s H4 H3 Hm). cbv zeta.
  set (b := Z.land w 0xff).
  set (sa := updDMA _ s).
  destruct (regs_UpdateAll sa) as (A1 & A2 & A3 & A4 & A5 & A6 & A7).
  set (s0 := FDC_UpdateAll sa) in *. cbv zeta in *.
  injection A1 as A11 A12 A13 A14 A15. injection A2 as A21 A22 A23 A24 A25 A26.
  set (reg := Z.shiftr (Z.land (Mode (FDC_DMA s)) 0x6) 1) in *.
  assert (Hs1 : exists g, (if reg =? 0 then FDC_WriteCommandRegister b s0
                   else if reg =? 1 then FDC_WriteTrackRegister b s0
                   else if reg =? 2 then FDC_WriteSectorRegister b s0
                   else FDC_WriteDataRegister b s0) = updFDC g s0
            /\ (if reg =? 1 then TR (g (FDC s0))
                else if reg =? 2 then SR (g (FDC s0)) else DR (g (FDC s0))) = b
            /\ Command (g (FDC s0)) = Command (FDC s0)
            /\ CR (g (FDC s0)) = CR (FDC s0) /\ STR (g (FDC s0)) = STR (FDC s0)).
  { apply Z.eqb_neq in Hr. rewrite Hr.
    destruct (reg =? 1); [|destruct (reg =? 2)].
    - exists (set_TR b). repeat split.
    - exists (set_SR b). repeat split.
    - exists (set_DR b). repeat split. }
  destruct Hs1 as (g & -> & Hv & Hc & Hcr & Hstr).
  set (s1 := updFDC g s0).
  assert (HM : Mode (FDC_DMA s1) = Mode (FDC_DMA s)) by (unfold s1; cbn; rewrite A3; reflexivity).
  assert (HD : Disks s1 = Disks s) by (unfold s1; cbn; rewrite A4; reflexivity).
  rewrite ReadWord_fdc_register; rewrite ?HM; auto.
  2:{ rewrite <- Hm. apply GetEmulationMode_frame. exact HD. }
  fold reg. cbv zeta. cbn [fst snd].
  destruct (regs_UpdateAll s1) as (B1 & B2 & B3 & B4 & B5 & B6 & B7).
  cbv zeta in *.
  injection B1 as B11 B12 B13 B14 B15. injection B2 as B21 B22 B23 B24 B25 B26.
  change (FDC s1) with (g (FDC s0)) in *.
  rewrite Hv. cbn. rewrite low_byte_merge.
  rewrite B25, B14, B15, B3, Hc, Hcr, Hstr, A25, A14, A15.
  unfold s1. cbn. rewrite A3. unfold b.
  repeat split; auto.
  rewrite !land_ff, !Z.mod_mod by lia. reflexivity.
Qed.

(** X8. With bit 4 of the DMA mode set, a write at ff8604 stores the low
    byte in the DMA sector counter and touches neither the controller nor
    the latest-ff8604 shadow; the counter cannot be read back: a read at
    ff8604 returns the shadow and changes nothing; bit 1 of the DMA
    status word then tells whether the counter is not 0. *)
Theorem X8_sector_count_register (io_porta w ext : Z) (s : State) :
  tst (Mode (FDC_DMA s)) 0x10 = true ->
  let s1 := FDC_DiskController_WriteWord false io_porta w s in
  SectorCount (FDC_DMA s1) = Z.land w 0xff
  /\ FDC s1 = FDC s
  /\ ff8604_recent_val (FDC_DMA s1) = ff8604_recent_val (FDC_DMA s)
  /\ FDC_DiskControllerStatus_ReadWord false io_porta ext s1
     = (s1, Some (ff8604_recent_val (FDC_DMA s)))
  /\ (exists v, snd (FDC_DmaStatus_ReadWord false s1) = Some v
                /\ Z.testbit v 1 = negb (Z.land w 0xff =? 0)).
Proof.
  intros H4. cbv zeta.
  assert (E : FDC_DiskController_WriteWord false io_porta w s
              = updDMA (set_SectorCount (Z.land w 0xff)) s).
  { unfold FDC_DiskController_WriteWord. rewrite H4. reflexivity. }
  rewrite E. repeat split.
  - unfold FDC_DiskControllerStatus_ReadWord. cbn. rewrite H4. cbn.
    unfold tst in H4. apply negb_true_iff in H4. rewrite H4. reflexivity.
  - destruct (snd (FDC_DmaStatus_ReadWord false (updDMA (set_SectorCount (Z.land w 0xff)) s)))
      as [v|] eqn:Ev; [|discriminate Ev].
    exists v. split; [reflexivity|].
    apply (DmaStatus_word_bits _ _ Ev).
Qed.

Lemma refresh_spec s :
  let s' := FDC_Status_TypeI_refresh s in
  MFP_GPIP s' = MFP_GPIP s
  /\ InterruptCond (FDC s') = InterruptCond (FDC s)
  /\ FDC_DMA s' = FDC_DMA s
  /\ (forall i, 0 <= i < 8 -> i <> 1 -> i <> 2 -> i <> 6 ->
        Z.testbit (STR (FDC s')) i = Z.testbit (STR (FDC s)) i)
  /\ (drive_enabled s = false ->
      Z.testbit (STR (FDC s')) 1 = false /\ Z.testbit (STR (FDC s')) 2 = false
      /\ Z.testbit (STR (FDC s')) 6 = false)
  /\ (drive_enabled s = true ->
      Z.testbit (STR (FDC s')) 2 = (HeadTrack (seldrive s) =? 0)).
Proof.
  cbv zeta. unfold FDC_Status_TypeI_refresh, drive_enabled.
  unfold_prims. cbn.
  destruct (DriveSelSignal (FDC s) <? 0) eqn:E1; cbn.
  { destruct (0 <=? DriveSelSignal (FDC s)) eqn:E2; [b2p; lia|]. cbn.
    repeat split; try discriminate.
    2-4: str_bits; reflexivity.
    intros i Hi H1 H2 H6.
    assert (i = 0 \/ i = 3 \/ i = 4 \/ i = 5 \/ i = 7) as [->|[->|[->|[->| ->]]]] by lia.
    all: str_bits; reflexivity. }
  destruct (0 <=? DriveSelSignal (FDC s)) eqn:E2; [|b2p; lia]. cbn.
  destruct (Enabled (rd no_drive (FDC_DRIVES s) (DriveSelSignal (FDC s)))) eqn:E3; cbn.
  2:{ repeat split; try discriminate.
      2-4: str_bits; reflexivity.
      intros i Hi H1 H2 H6.
      assert (i = 0 \/ i = 3 \/ i = 4 \/ i = 5 \/ i = 7) as [->|[->|[->|[->| ->]]]] by lia.
      all: str_bits; reflexivity. }
  brks.
  all: repeat split; try discriminate.
  all: try (intros i Hi H1 H2 H6;
         assert (i = 0 \/ i = 3 \/ i = 4 \/ i = 5 \/ i = 7) as [->|[->|[->|[->| ->]]]] by lia).
  all: try intros _.
  all: str_bits; cbn; rewrite ?orb_false_r, ?andb_true_r; reflexivity.
Qed.

Lemma ReadWord_status io_porta ext s :
  tst (Mode (FDC_DMA s)) 0x10 = false ->
  Z.land (Mode (FDC_DMA s)) 0x0008 <> 0x0008 ->
  FDC_GetEmulationMode io_porta s = FDC_EMULATION_MODE_INTERNAL ->
  Z.shiftr (Z.land (Mode (FDC_DMA s)) 0x6) 1 = 0 ->
  let s1 := FDC_UpdateAll s in
  let s2 := if StatusTypeI (FDC s1) then FDC_Status_TypeI_refresh s1 else s1 in
  FDC_DiskControllerStatus_ReadWord false io_porta ext s
  = (updDMA (fun d => set_ff8604_recent_val
               (u16 (Z.lor (Z.land (ff8604_recent_val d) 0xff00)
                           (Z.land (STR (FDC s2)) 0xff))) d)
       (FDC_ClearIRQ s2),
     Some (STR (FDC s2))).
Proof.
  intros H4 H3 Hm Hr. apply Z.eqb_neq in H3. cbv zeta.
  destruct (regs_UpdateAll s) as (A1 & A2 & A3 & A4 & A5 & A6 & A7). cbv zeta in *.
  unfold FDC_DiskControllerStatus_ReadWord. rewrite H4, H3, Hm, Hr.
  change (0 =? 0) with true. cbv beta iota zeta.
  set (s2 := if StatusTypeI (FDC (FDC_UpdateAll s))
             then FDC_Status_TypeI_refresh (FDC_UpdateAll s) else FDC_UpdateAll s).
  assert (HD : FDC_DMA s2 = FDC_DMA s).
  { unfold s2. destruct (StatusTypeI _); [|exact A3].
    destruct (refresh_spec (FDC_UpdateAll s)) as (_ & _ & R & _). cbv zeta in R. congruence. }
  clearbody s2.
  assert (H4' : (Z.land (Mode (FDC_DMA (FDC_ClearIRQ s2))) 0x10 =? 0) = true).
  { unfold FDC_ClearIRQ.
    destruct (Z.land (InterruptCond (FDC s2)) FDC_INTERRUPT_COND_IMMEDIATE =? 0); cbn; rewrite HD;
      unfold tst in H4; apply negb_false_iff in H4; exact H4. }
  rewrite H4'. reflexivity.
Qed.

(** X9. Reading the Status Register of the internal controller through
    the window returns the status as it is stored after the read, and
    clears the interrupt request unless a Force Interrupt with the
    immediate condition is in force: then a pending request stays.  A
    status that is not of type I is returned as it was.  A type I status
    is refreshed: with no enabled drive selected the Index, Track 0 and
    Write Protect bits are 0, with one the Track 0 bit tells whether its
    head is at track 0; bits 0, 3, 4, 5 and 7 are as they were. *)
Theorem X9_status_read (io_porta ext : Z) (s : State) :
  tst (Mode (FDC_DMA s)) 0x10 = false ->
  Z.land (Mode (FDC_DMA s)) 0x0008 <> 0x0008 ->
  FDC_GetEmulationMode io_porta s = FDC_EMULATION_MODE_INTERNAL ->
  Z.shiftr (Z.land (Mode (FDC_DMA s)) 0x6) 1 = 0 ->
  let r := FDC_DiskControllerStatus_ReadWord false io_porta ext s in
  snd r = Some (STR (FDC (fst r)))
  /\ (tst (InterruptCond (FDC s)) FDC_INTERRUPT_COND_IMMEDIATE = false ->
      FDC_IRQ_asserted (fst r) = false)
  /\ (tst (InterruptCond (FDC s)) FDC_INTERRUPT_COND_IMMEDIATE = true ->
      FDC_IRQ_asserted s = true -> FDC_IRQ_asserted (fst r) = true)
  /\ (StatusTypeI (FDC s) = false -> STR (FDC (fst r)) = STR (FDC s))
  /\ (StatusTypeI (FDC s) = true ->
      (forall i, 0 <= i < 8 -> i <> 1 -> i <> 2 -> i <> 6 ->
         Z.testbit (STR (FDC (fst r))) i = Z.testbit (STR (FDC s)) i)
      /\ (drive_enabled s = false ->
          STR_bit FDC_STR_BIT_INDEX (fst r) = false /\ STR_bit FDC_STR_BIT_TR00 (fst r) = false
          /\ STR_bit FDC_STR_BIT_WPRT (fst r) = false)
      /\ (drive_enabled s = true ->
          STR_bit FDC_STR_BIT_TR00 (fst r) = (HeadTrack (seldrive s) =? 0))).
Proof.
  intros H4 H3 Hm Hr. cbv zeta.
  rewrite (ReadWord_status io_porta ext s H4 H3 Hm Hr). cbv zeta. cbn [fst snd].
  destruct (regs_UpdateAll s) as (A1 & A2 & A3 & A4 & A5 & A6 & A7). cbv zeta in *.
  injection A1 as A11 A12 A13 A14 A15. injection A2 as A21 A22 A23 A24 A25 A26.
  destruct (same_heads_head _ _ (heads_UpdateAll s)) as [Hh He].
  pose proof (IRQ_UpdateAll s) as HI.
  destruct (refresh_spec (FDC_UpdateAll s)) as (R1 & R2 & R3 & R4 & R5 & R6). cbv zeta in *.
  set (s1 := FDC_UpdateAll s) in *.
  set (s2 := if StatusTypeI (FDC s1) then FDC_Status_TypeI_refresh s1 else s1).
  assert (HG : MFP_GPIP s2 = MFP_GPIP s1) by (unfold s2; destruct (StatusTypeI _); auto).
  assert (HC : InterruptCond (FDC s2) = InterruptCond (FDC s))
    by (unfold s2; destruct (StatusTypeI _); congruence).
  assert (HS : STR (FDC (updDMA (fun d => set_ff8604_recent_val
                 (u16 (Z.lor (Z.land (ff8604_recent_val d) 0xff00)
                    (Z.land (STR (FDC s2)) 0xff))) d) (FDC_ClearIRQ s2))) = STR (FDC s2)).
  { unfold FDC_ClearIRQ.
    destruct (Z.land (InterruptCond (FDC s2)) FDC_INTERRUPT_COND_IMMEDIATE =? 0); reflexivity. }
  unfold STR_bit. rewrite HS.
  rewrite !(tst_bit _ FDC_STR_BIT_INDEX 1), !(tst_bit _ FDC_STR_BIT_TR00 2),
    !(tst_bit _ FDC_STR_BIT_WPRT 6) by first [reflexivity | lia].
  unfold FDC_IRQ_asserted, FDC_ClearIRQ in *. rewrite HC. unfold tst.
  split; [reflexivity|].
  split; [|split; [|split]].
  - intros Hc. apply negb_false_iff in Hc. rewrite Hc. cbn.
    rewrite u8_bit, Z.lor_spec by lia. const_bits. rewrite orb_true_r. reflexivity.
  - intros Hc. apply negb_true_iff in Hc. rewrite Hc. cbn. rewrite HG. exact HI.
  - intros Ht. unfold s2. rewrite A22, Ht. exact A15.
  - intros Ht. unfold s2. rewrite A22, Ht. rewrite He, Hh in *.
    repeat split; auto.
    + intros i Hi H1 H2 H6. rewrite R4 by auto. rewrite A15. reflexivity.
    + apply R5; auto.
    + apply R5; auto.
    + apply R5; auto.
Qed.

(** ** Commands as they are written *)

Lemma ForceInterrupt_type b : Z.land b 0xf0 = 0xd0 -> FDC_GetCmdType b = 4.
Proof.
  intros H. unfold FDC_GetCmdType.
  assert (H80 : Z.land b 0x80 = 0x80).
  { change 0x80 with (Z.land 0xf0 0x80) at 1. rewrite Z.land_assoc, H. reflexivity. }
  assert (H40 : Z.land b 0x40 = 0x40).
  { change 0x40 with (Z.land 0xf0 0x40) at 1. rewrite Z.land_assoc, H. reflexivity. }
  rewrite H80, H40, H. reflexivity.
Qed.

(** X10. A Force Interrupt command (0xD0 to 0xDF) is accepted whatever
    BUSY is: the byte is stored, BUSY is cleared and the other status
    bits are kept, the command tag becomes the motor-stop pseudo command,
    the interrupt condition is the low nibble, the interrupt request is
    set when bit 3 (immediate) is set and cleared when it is not, the
    status is of type I afterwards if it was or if the controller was
    idle, and the timer is armed. *)
Theorem X10_force_interrupt (b : Z) (s : State) :
  Z.land b 0xf0 = 0xd0 ->
  let s' := FDC_WriteCommandRegister b s in
  CR (FDC s') = b
  /\ STR_bit FDC_STR_BIT_BUSY s' = false
  /\ Command (FDC s') = FDCEMU_CMD_MOTOR_STOP
  /\ CommandState (FDC s') = FDCEMU_RUN_MOTOR_STOP
  /\ InterruptCond (FDC s') = Z.land b 0x0f
  /\ FDC_IRQ_asserted s' = tst b FDC_INTERRUPT_COND_IMMEDIATE
  /\ (forall i, 1 <= i < 8 -> Z.testbit (STR (FDC s')) i = Z.testbit (STR (FDC s)) i)
  /\ StatusTypeI (FDC s') = (StatusTypeI (FDC s) || negb (STR_bit FDC_STR_BIT_BUSY s))
  /\ (exists c, FDC_Timer s' = Some (c, 0)).
Proof.
  intros Hb s'. subst s'. pose proof (ForceInterrupt_type b Hb) as Ht.
  assert (H8 : Z.land (Z.land b 0x0f) FDC_INTERRUPT_COND_IMMEDIATE
               = Z.land b FDC_INTERRUPT_COND_IMMEDIATE).
  { rewrite <- Z.land_assoc. reflexivity. }
  assert (E : FDC_WriteCommandRegister b s = FDC_ExecuteCommand (updFDC (set_CR b) s)).
  { unfold FDC_WriteCommandRegister. rewrite Ht. cbn. destruct (tst _ _); reflexivity. }
  rewrite E. unfold STR_bit, FDC_IRQ_asserted. unfold_execute. cbn. rewrite Ht. const_tests. cbn.
  unfold tst.
  destruct (Z.land (STR (FDC s)) FDC_STR_BIT_BUSY =? 0) eqn:Eb; cbn; rewrite ?H8.
  all: destruct (Z.land b FDC_INTERRUPT_COND_IMMEDIATE =? 0) eqn:Ei; cbn; rewrite ?H8, ?Ei; cbn.
  all: repeat split; eauto.
  all: rewrite ?orb_true_r, ?orb_false_r; try reflexivity.
  all: try (intros i Hi; str_bits; rewrite Z.testbit_0_l, orb_false_r;
            change FDC_STR_BIT_BUSY with (2 ^ 0); rewrite Z.pow2_bits_eqb by lia;
            destruct (Z.eqb_spec 0 i); [lia | apply andb_true_r]).
  all: try (change (negb (Z.land (STR_update FDC_STR_BIT_BUSY 0 (STR (FDC s))) FDC_STR_BIT_BUSY =? 0))
              with (tst (STR_update FDC_STR_BIT_BUSY 0 (STR (FDC s))) FDC_STR_BIT_BUSY);
            rewrite (tst_bit _ FDC_STR_BIT_BUSY 0) by first [reflexivity | lia];
            str_bits; reflexivity).
  all: rewrite u8_bit, ?Z.lor_spec, ?Z.land_spec, ?Z.lnot_spec by lia; const_bits; cbn;
       rewrite ?orb_true_r, ?andb_false_r; reflexivity.
Qed.

Lemma land_hi_sub b m : Z.land 0xf0 m = m -> Z.land b m = Z.land (Z.land b 0xf0) m.
Proof. intros H. rewrite <- Z.land_assoc, H. reflexivity. Qed.

Lemma GetCmdType_hi b : FDC_GetCmdType b = FDC_GetCmdType (Z.land b 0xf0).
Proof.
  unfold FDC_GetCmdType.
  rewrite (land_hi_sub b 0x80), (land_hi_sub b 0x40), (land_hi_sub b 0xf0) by reflexivity.
  rewrite <- !Z.land_assoc. reflexivity.
Qed.

(** X11. Written while BUSY is clear, a command byte starts the command
    its high nibble names: 0 Restore, 1 Seek, 2 to 7 Step (4, 5 set the
    step direction to +1, 6, 7 to -1, 2, 3 keep it), 8, 9 Read Sector,
    A, B Write Sector, C Read Address, E Read Track.  The byte is stored,
    BUSY is set, CRC Error and Record Not Found are cleared, the status
    is of type I exactly for the nibbles below 8, and the interrupt
    request is cleared unless the immediate condition is in force. *)
Theorem X11_command_decode (b : Z) (s : State) (c : FDCEMU_CMD) (st : FDCEMU_RUN) :
  STR_bit FDC_STR_BIT_BUSY s = false ->
  In (Z.land b 0xf0, c, st)
     [ (0x00, FDCEMU_CMD_RESTORE, FDCEMU_RUN_RESTORE_SEEKTOTRACKZERO);
       (0x10, FDCEMU_CMD_SEEK, FDCEMU_RUN_SEEK_TOTRACK);
       (0x20, FDCEMU_CMD_STEP, FDCEMU_RUN_STEP_ONCE);
       (0x30, FDCEMU_CMD_STEP, FDCEMU_RUN_STEP_ONCE);
       (0x40, FDCEMU_CMD_STEP, FDCEMU_RUN_STEP_ONCE);
       (0x50, FDCEMU_CMD_STEP, FDCEMU_RUN_STEP_ONCE);
       (0x60, FDCEMU_CMD_STEP, FDCEMU_RUN_STEP_ONCE);
       (0x70, FDCEMU_CMD_STEP, FDCEMU_RUN_STEP_ONCE);
       (0x80, FDCEMU_CMD_READSECTORS, FDCEMU_RUN_READSECTORS_READDATA);
       (0x90, FDCEMU_CMD_READSECTORS, FDCEMU_RUN_READSECTORS_READDATA);
       (0xa0, FDCEMU_CMD_WRITESECTORS, FDCEMU_RUN_WRITESECTORS_WRITEDATA);
       (0xb0, FDCEMU_CMD_WRITESECTORS, FDCEMU_RUN_WRITESECTORS_WRITEDATA);
       (0xc0, FDCEMU_CMD_READADDRESS, FDCEMU_RUN_READADDRESS);
       (0xe0, FDCEMU_CMD_READTRACK, FDCEMU_RUN_READTRACK) ] ->
  let s' := FDC_WriteCommandRegister b s in
  Command (FDC s') = c /\ CommandState (FDC s') = st
  /\ CR (FDC s') = b
  /\ STR_bit FDC_STR_BIT_BUSY s' = true
  /\ STR_bit FDC_STR_BIT_CRC_ERROR s' = false
  /\ STR_bit FDC_STR_BIT_RNF s' = false
  /\ StatusTypeI (FDC s') = (Z.land b 0xf0 <? 0x80)
  /\ StepDirection (FDC s')
     = (if (Z.land b 0xf0 =? 0x40) || (Z.land b 0xf0 =? 0x50) then 1
        else if (Z.land b 0xf0 =? 0x60) || (Z.land b 0xf0 =? 0x70) then -1
        else StepDirection (FDC s))
  /\ (tst (InterruptCond (FDC s)) FDC_INTERRUPT_COND_IMMEDIATE = false ->
      FDC_IRQ_asserted s' = false).
Proof.
  intros Hbusy Hin s'. subst s'. unfold STR_bit in *.
  assert (E : FDC_WriteCommandRegister b s = FDC_ExecuteCommand (updFDC (set_CR b) s)).
  { unfold FDC_WriteCommandRegister. rewrite Hbusy. reflexivity. }
  rewrite E. clear E.
  unfold FDC_IRQ_asserted, tst at 4.
  cbn [In] in Hin.
  repeat (destruct Hin as [Hin|Hin]; [injection Hin as Hhi <- <-|]); try contradiction.
  all: pose proof (GetCmdType_hi b) as Ht; rewrite <- Hhi in Ht;
       match type of Ht with _ = ?r => let v := eval vm_compute in r in change r with v in Ht end.
  all: unfold_execute; cbn; rewrite Ht; const_tests; cbn.
  all: rewrite <- ?Hhi; const_tests; cbn.
  all: destruct (Z.land (InterruptCond (FDC s)) FDC_INTERRUPT_COND_IMMEDIATE =? 0); cbn;
       rewrite <- ?Hhi; const_tests; cbn.
  all: tst2bit; str_bits.
  all: repeat split; auto; try discriminate.
  all: try (intros _; rewrite u8_bit, Z.lor_spec by lia; const_bits; rewrite orb_true_r;
            reflexivity).
Qed.

(** ** Write Sector on a write protected disk *)

Lemma inserted_UpdateAll s :
  DiskInserted (seldrive (FDC_UpdateAll s)) = DiskInserted (seldrive s).
Proof.
  apply seldrive_field; unfold FDC_UpdateAll, FDC_IndexPulse_Update; unfold_prims; cbn; brks;
    rewrite ?map_wr_frame by reflexivity; reflexivity.
Qed.

Lemma store_UpdateAll s :
  DMADiskWorkSpace (FDC_UpdateAll s) = DMADiskWorkSpace s
  /\ DriveSelSignal (FDC (FDC_UpdateAll s)) = DriveSelSignal (FDC s)
  /\ SideSignal (FDC (FDC_UpdateAll s)) = SideSignal (FDC s).
Proof.
  unfold FDC_UpdateAll, FDC_IndexPulse_Update; unfold_prims; cbn; brks; repeat split.
Qed.

(** Write Sector on a write protected disk: one call *)
Lemma UpdateWriteSectorsCmd_protected s :
  drive_enabled s = true -> DiskInserted (seldrive s) = true ->
  Floppy_IsWriteProtected (Disks s) (DriveSelSignal (FDC s)) = true ->
  let r := FDC_UpdateWriteSectorsCmd s in
  snd r = 0
  /\ Command (FDC (fst r)) = FDCEMU_CMD_MOTOR_STOP
  /\ CommandState (FDC (fst r)) = FDCEMU_RUN_MOTOR_STOP
  /\ STR (FDC (fst r))
     = STR_update FDC_STR_BIT_BUSY 0 (STR_update 0 FDC_STR_BIT_WPRT (STR (FDC s)))
  /\ FDC_IRQ_asserted (fst r) = true
  /\ Disks (fst r) = Disks s /\ DMADiskWorkSpace (fst r) = DMADiskWorkSpace s
  /\ STRam (fst r) = STRam s /\ FDC_DMA (fst r) = FDC_DMA s.
Proof.
  intros He Hi Hp. cbv zeta. unfold drive_enabled in He.
  apply andb_true_iff in He. destruct He as [He1 He2].
  unfold FDC_UpdateWriteSectorsCmd. rewrite He1, He2, Hi, Hp. cbn [andb].
  unfold_prims. cbn.
  repeat split.
  unfold FDC_IRQ_asserted. cbn.
  rewrite u8_bit, Z.land_spec, Z.lnot_spec by lia. const_bits. rewrite andb_false_r. reflexivity.
Qed.

Lemma round_MotorStop_disks c0 s :
  Command (FDC s) = FDCEMU_CMD_MOTOR_STOP -> CommandState (FDC s) = FDCEMU_RUN_MOTOR_STOP ->
  Disks (fst (FDC_Update_round c0 s)) = Disks s.
Proof.
  intros Hc Hs.
  destruct (regs_UpdateAll s) as (A1 & A2 & A3 & A4 & A5 & A6 & A7). cbv zeta in *.
  injection A2 as A21 A22 A23 A24 A25 A26.
  unfold FDC_Update_round, FDC_Update_dispatch. rewrite A25, Hc.
  unfold FDC_UpdateMotorStop. rewrite A26, Hs.
  unfold MotorStop_WAIT. unfold_prims. cbn. const_tests. cbn. exact A4.
Qed.

(** X12. When the timer fires during a Write Sector command, in whatever
    state of it, while the selected, enabled drive holds a write
    protected disk, the command ends at once: Write Protect is set, BUSY
    is cleared, the interrupt is requested, the motor-stop pseudo command
    follows, and neither the disk, nor the memory, nor the DMA has
    changed. *)
Theorem X12_write_sector_write_protected (s : State) (n : Z) (fuel : nat) (p : Z) :
  Command (FDC s) = FDCEMU_CMD_WRITESECTORS ->
  drive_enabled s = true -> DiskInserted (seldrive s) = true ->
  Floppy_IsWriteProtected (Disks s) (DriveSelSignal (FDC s)) = true ->
  (2 <= fuel)%nat ->
  exists s', run (tick_events (n, fuel, p)) s = Some s'
    /\ Command (FDC s') = FDCEMU_CMD_MOTOR_STOP
    /\ STR_bit FDC_STR_BIT_BUSY s' = false
    /\ STR_bit FDC_STR_BIT_WPRT s' = true
    /\ FDC_IRQ_asserted s' = true
    /\ Disks s' = Disks s
    /\ STRam s' = STRam s
    /\ FDC_DMA s' = FDC_DMA s.
Proof.
  intros Hc He Hi Hp Hf.
  set (s0 := set_FDC_Timer None
               (set_CyclesGlobalClockCounter (u64 (CyclesGlobalClockCounter s + n)) s)).
  set (sU := FDC_UpdateAll s0).
  destruct (regs_UpdateAll s0) as (A1 & A2 & A3 & A4 & A5 & A6 & A7). cbv zeta in *.
  injection A1 as A11 A12 A13 A14 A15. injection A2 as A21 A22 A23 A24 A25 A26.
  destruct (store_UpdateAll s0) as (B1 & B2 & B3).
  destruct (same_heads_head _ _ (heads_UpdateAll s0)) as [Hh HeU].
  pose proof (inserted_UpdateAll s0) as HiU.
  fold sU in A11, A12, A13, A14, A15, A21, A22, A23, A24, A25, A26, A3, A4, A5, A6, A7,
    B1, B2, B3, Hh, HeU, HiU.
  assert (He' : drive_enabled sU = true) by (rewrite HeU; exact He).
  assert (Hi' : DiskInserted (seldrive sU) = true) by (rewrite HiU; exact Hi).
  assert (Hp' : Floppy_IsWriteProtected (Disks sU) (DriveSelSignal (FDC sU)) = true)
    by (rewrite A4, B2; exact Hp).
  destruct (UpdateWriteSectorsCmd_protected sU He' Hi' Hp')
    as (G1 & G2 & G3 & G4 & G5 & G6 & G7 & G8 & G9). cbv zeta in *.
  assert (Hr1 : FDC_Update_round 0 s0 = FDC_UpdateWriteSectorsCmd sU).
  { unfold FDC_Update_round, FDC_Update_dispatch. fold sU. rewrite A25.
    change (Command (FDC s0)) with (Command (FDC s)). rewrite Hc. reflexivity. }
  set (s1 := fst (FDC_UpdateWriteSectorsCmd sU)) in *.
  assert (Hv : typeII_view s1
               = (FDCEMU_CMD_MOTOR_STOP, FDCEMU_RUN_MOTOR_STOP, CR (FDC s1), STR (FDC s1),
                  FDC_DMA s1, DMADiskWorkSpace s1, STRam s1,
                  (IoMem_ff8609 s1, IoMem_ff860b s1, IoMem_ff860d s1), Density (seldrive s1))).
  { unfold typeII_view. rewrite G2, G3. reflexivity. }
  destruct (round_MotorStop_start2 0 s1 _ _ _ _ _ _ _ Hv) as (K1 & K2 & K3).
  pose proof (round_MotorStop_disks 0 s1 G2 G3) as K4.
  destruct (tick_round2 n fuel p s) as (s' & Hrun & Hs'); fold s0; rewrite ?Hr1; auto.
  { fold s1. rewrite G2. reflexivity. }
  fold s0 in Hs'. rewrite Hr1 in Hs'. fold s1 in Hs'.
  set (s2 := fst (FDC_Update_round 0 s1)) in *.
  destruct (view2_inv _ _ _ _ _ _ _ _ _ _ K1) as (V1 & V2 & V3 & V4 & V5 & V6 & V7 & V8 & V9).
  exists s'. split; [exact Hrun|].
  unfold STR_bit, FDC_IRQ_asserted.
  rewrite (up_to_timer (fun x => Command (FDC x)) _ _ ltac:(reflexivity) Hs').
  rewrite (up_to_timer (fun x => STR (FDC x)) _ _ ltac:(reflexivity) Hs').
  rewrite (up_to_timer MFP_GPIP _ _ ltac:(reflexivity) Hs').
  rewrite (up_to_timer Disks _ _ ltac:(reflexivity) Hs').
  rewrite (up_to_timer STRam _ _ ltac:(reflexivity) Hs').
  rewrite (up_to_timer FDC_DMA _ _ ltac:(reflexivity) Hs').
  cbv beta. rewrite V1, V4, V5, V7, K4, G4, G6, G8, G9, A3, A4, A6.
  rewrite !(tst_bit _ FDC_STR_BIT_BUSY 0), !(tst_bit _ FDC_STR_BIT_WPRT 6)
    by first [reflexivity | lia].
  str_bits.
  repeat split; auto.
Qed.

(** ** More invariants of the reachable states *)

Lemma status_range_set st m : 0 <= st < 4 -> m = 1 \/ m = 2 -> 0 <= u16 (Z.lor st m) < 4.
Proof.
  intros H Hm. assert (st = 0 \/ st = 1 \/ st = 2 \/ st = 3) as [->|[->|[->| ->]]] by lia;
    destruct Hm as [-> | ->]; vm_compute; split; congruence.
Qed.

Lemma status_range_clear st m :
  0 <= st < 4 -> m = 1 \/ m = 2 -> 0 <= u16 (Z.land st (Z.lnot m)) < 4.
Proof.
  intros H Hm. assert (st = 0 \/ st = 1 \/ st = 2 \/ st = 3) as [->|[->|[->| ->]]] by lia;
    destruct Hm as [-> | ->]; vm_compute; split; congruence.
Qed.

Lemma land_1_range x : 0 <= Z.land x 1 <= 1.
Proof.
  assert (E : Z.land x 1 = x mod 2) by (apply (Z.land_ones x 1); lia).
  rewrite E. pose proof (Z.mod_pos_bound x 2). lia.
Qed.

Lemma GetDensity_cases Drive s :
  FDC_GetDensity Drive s = FDC_DENSITY_FACTOR_DD \/ FDC_GetDensity Drive s = FDC_DENSITY_FACTOR_HD
  \/ FDC_GetDensity Drive s = FDC_DENSITY_FACTOR_ED.
Proof. unfold FDC_GetDensity. brks; auto. Qed.

Lemma Forall_upd_nat_nth {A} (Q : A -> Prop) (g : A -> A) l n d :
  Forall Q l -> (forall x, Q x -> Q (g x)) -> Forall Q (upd_nat l n (g (nth n l d))).
Proof.
  intros Hl Hg. revert n. induction Hl as [|x l Hx Hl IH]; intros [|n]; simpl; auto.
Qed.

Lemma Forall_wr_rd {A} (Q : A -> Prop) (g : A -> A) l i d :
  Forall Q l -> (forall x, Q x -> Q (g x)) -> Forall Q (wr l i (g (rd d l i))).
Proof.
  intros Hl Hg. unfold wr, rd. destruct (i <? 0); auto using Forall_upd_nat_nth.
Qed.

Lemma density_ok_map (g : FDC_DRIVE_STRUCT -> FDC_DRIVE_STRUCT) l :
  (forall d, density_ok d -> density_ok (g d)) -> Forall density_ok l ->
  Forall density_ok (map g l).
Proof. intros Hg Hl. induction Hl; simpl; auto. Qed.

Lemma Forall_upd_nat_density l n v d :
  Forall density_ok l -> Density v = Density (nth n l d) -> Forall density_ok (upd_nat l n v).
Proof.
  intros Hl. revert n. induction Hl as [|x l Hx Hl IH]; intros [|n] Hv; simpl in *; auto.
  constructor; auto. unfold density_ok in *. rewrite Hv. exact Hx.
Qed.

Lemma Forall_wr_density l i v d :
  Forall density_ok l -> Density v = Density (rd d l i) -> Forall density_ok (wr l i v).
Proof.
  intros Hl. unfold wr, rd. destruct (i <? 0); auto. apply Forall_upd_nat_density. exact Hl.
Qed.

Ltac density_fin :=
  lazymatch goal with
  | |- Forall density_ok (wr ?l ?i ?v) =>
      first
        [ apply (Forall_wr_density l i v no_drive); [density_fin | reflexivity]
        | apply Forall_wr; [density_fin | unfold density_ok; cbn; apply GetDensity_cases] ]
  | |- Forall density_ok (map _ _) =>
      apply density_ok_map; [intros ? ?; assumption | density_fin]
  | |- Forall density_ok _ => assumption
  end.

Ltac inv2_solve :=
  first
    [ solve [auto]
    | solve [apply status_range_set; auto]
    | solve [apply status_range_clear; auto]
    | solve [apply land_1_range]
    | solve [unfold u16, FDC_DMA_SECTOR_SIZE, FDC_DMA_FIFO_SIZE in *; b2p;
             Z.to_euclidean_division_equations; lia]
    | solve [rewrite ?length_wr, ?length_map; auto]
    | solve [density_fin]
    | solve [b2p; lia] ].

Ltac inv2_fin := constructor; cbn; brks; inv2_solve.

Ltac inv2_start s H :=
  intros H; destruct H as [Hst Hby Hb16 Hsel Hside Hlen Hden].

Ltac inv2_crush s :=
  let H := fresh "H" in
  inv2_start s H; unfold_prims; cbn; brks; inv2_fin.

Create HintDb fdc_inv2 discriminated.

Lemma Inv2_UpdateAll s : Inv2 s -> Inv2 (FDC_UpdateAll s).
Proof. unfold FDC_UpdateAll, FDC_IndexPulse_Update. inv2_crush s. Qed.

Lemma Inv2_CmdCompleteCommon b s : Inv2 s -> Inv2 (fst (FDC_CmdCompleteCommon b s)).
Proof. inv2_crush s. Qed.

Lemma Inv2_Cmd_START a b s : Inv2 s -> Inv2 (fst (Cmd_START a b s)).
Proof. unfold Cmd_START. inv2_crush s. Qed.

Lemma Inv2_TypeI_VERIFY a b s : Inv2 s -> Inv2 (fst (TypeI_VERIFY a b s)).
Proof. unfold TypeI_VERIFY. inv2_crush s. Qed.

Lemma Inv2_TypeI_VERIFY_NEXT a b s :
  Inv2 s -> Inv2 (fst (TypeI_VERIFY_NEXT_SECTOR_HEADER a b s)).
Proof. unfold TypeI_VERIFY_NEXT_SECTOR_HEADER. inv2_crush s. Qed.

Lemma Inv2_TypeI_VERIFY_HEAD_OK a b s : Inv2 s -> Inv2 (fst (TypeI_VERIFY_HEAD_OK a b s)).
Proof. unfold TypeI_VERIFY_HEAD_OK, TypeI_VERIFY_NEXT_SECTOR_HEADER. inv2_crush s. Qed.

Lemma Inv2_TypeI_VERIFY_CHECK a b s :
  Inv2 s -> Inv2 (fst (TypeI_VERIFY_CHECK_SECTOR_HEADER a b s)).
Proof. unfold TypeI_VERIFY_CHECK_SECTOR_HEADER. inv2_crush s. Qed.

Lemma Inv2_Restore_LOOP s : Inv2 s -> Inv2 (fst (Restore_LOOP s)).
Proof. unfold Restore_LOOP. inv2_crush s. Qed.

Lemma Inv2_Restore_MOTOR_ON s : Inv2 s -> Inv2 (fst (Restore_MOTOR_ON s)).
Proof. unfold Restore_MOTOR_ON, Restore_LOOP. inv2_crush s. Qed.

Lemma Inv2_Restore_SPIN_UP s : Inv2 s -> Inv2 (fst (Restore_SPIN_UP s)).
Proof.
  intros H. unfold Restore_SPIN_UP. brks; auto using Inv2_Restore_MOTOR_ON.
Qed.

Lemma Inv2_Seek_MOTOR_ON s : Inv2 s -> Inv2 (fst (Seek_MOTOR_ON s)).
Proof. unfold Seek_MOTOR_ON, Seek_move_head. inv2_crush s. Qed.

Lemma Inv2_Seek_SPIN_UP s : Inv2 s -> Inv2 (fst (Seek_SPIN_UP s)).
Proof. intros H. unfold Seek_SPIN_UP. brks; auto using Inv2_Seek_MOTOR_ON. Qed.

Lemma Inv2_Step_MOTOR_ON s : Inv2 s -> Inv2 (fst (Step_MOTOR_ON s)).
Proof. unfold Step_MOTOR_ON, Step_move_head. inv2_crush s. Qed.

Lemma Inv2_Step_SPIN_UP s : Inv2 s -> Inv2 (fst (Step_SPIN_UP s)).
Proof. intros H. unfold Step_SPIN_UP. brks; auto using Inv2_Step_MOTOR_ON. Qed.

Lemma Inv2_Read_TRANSFER_LOOP a c s : Inv2 s -> Inv2 (fst (Read_TRANSFER_LOOP a c s)).
Proof. unfold Read_TRANSFER_LOOP. inv2_crush s. Qed.

Lemma Inv2_TypeII_NEXT a b s : Inv2 s -> Inv2 (fst (TypeII_NEXT_SECTOR_HEADER a b s)).
Proof. unfold TypeII_NEXT_SECTOR_HEADER. inv2_crush s. Qed.

Lemma Inv2_TypeII_MOTOR_ON a b s : Inv2 s -> Inv2 (fst (TypeII_MOTOR_ON a b s)).
Proof. unfold TypeII_MOTOR_ON, TypeII_NEXT_SECTOR_HEADER. inv2_crush s. Qed.

Lemma Inv2_TypeII_HEAD_LOAD m a b s : Inv2 s -> Inv2 (fst (TypeII_HEAD_LOAD m a b s)).
Proof.
  intros H. unfold TypeII_HEAD_LOAD. destruct (tst _ _); auto using Inv2_TypeII_MOTOR_ON.
  revert H. inv2_crush s.
Qed.

Lemma Inv2_TypeII_SPIN_UP m a b s : Inv2 s -> Inv2 (fst (TypeII_SPIN_UP m a b s)).
Proof. intros H. unfold TypeII_SPIN_UP. brks; auto using Inv2_TypeII_HEAD_LOAD. Qed.

Lemma Inv2_TypeII_CHECK a b s : Inv2 s -> Inv2 (fst (TypeII_CHECK_SECTOR_HEADER a b s)).
Proof. unfold TypeII_CHECK_SECTOR_HEADER. inv2_crush s. Qed.

Lemma Inv2_TypeII_CRC a b s : Inv2 s -> Inv2 (fst (TypeII_CRC a b s)).
Proof. unfold TypeII_CRC. inv2_crush s. Qed.

Lemma Inv2_TypeII_RNF s : Inv2 s -> Inv2 (fst (TypeII_RNF s)).
Proof. unfold TypeII_RNF. inv2_crush s. Qed.

Lemma Inv2_ReadSectors_TRANSFER_START s : Inv2 s -> Inv2 (fst (ReadSectors_TRANSFER_START s)).
Proof. unfold ReadSectors_TRANSFER_START. inv2_crush s. Qed.

Lemma Inv2_WriteSectors_TRANSFER_START s : Inv2 s -> Inv2 (fst (WriteSectors_TRANSFER_START s)).
Proof. unfold WriteSectors_TRANSFER_START. inv2_crush s. Qed.

Lemma Inv2_WriteSectors_TRANSFER_LOOP s : Inv2 s -> Inv2 (fst (WriteSectors_TRANSFER_LOOP s)).
Proof. unfold WriteSectors_TRANSFER_LOOP. inv2_crush s. Qed.

Lemma Inv2_ReadAddress_MOTOR_ON s : Inv2 s -> Inv2 (fst (ReadAddress_MOTOR_ON s)).
Proof. unfold ReadAddress_MOTOR_ON. inv2_crush s. Qed.

Lemma Inv2_ReadAddress_HEAD_LOAD s : Inv2 s -> Inv2 (fst (ReadAddress_HEAD_LOAD s)).
Proof. unfold ReadAddress_HEAD_LOAD, ReadAddress_MOTOR_ON. inv2_crush s. Qed.

Lemma Inv2_ReadAddress_SPIN_UP s : Inv2 s -> Inv2 (fst (ReadAddress_SPIN_UP s)).
Proof. intros H. unfold ReadAddress_SPIN_UP. brks; auto using Inv2_ReadAddress_HEAD_LOAD. Qed.

Lemma Inv2_ReadAddress_TRANSFER_START s : Inv2 s -> Inv2 (fst (ReadAddress_TRANSFER_START s)).
Proof. unfold ReadAddress_TRANSFER_START. inv2_crush s. Qed.

Lemma Inv2_ReadTrack_MOTOR_ON s : Inv2 s -> Inv2 (fst (ReadTrack_MOTOR_ON s)).
Proof. unfold ReadTrack_MOTOR_ON. inv2_crush s. Qed.

Lemma Inv2_ReadTrack_HEAD_LOAD s : Inv2 s -> Inv2 (fst (ReadTrack_HEAD_LOAD s)).
Proof. unfold ReadTrack_HEAD_LOAD, ReadTrack_MOTOR_ON. inv2_crush s. Qed.

Lemma Inv2_ReadTrack_SPIN_UP s : Inv2 s -> Inv2 (fst (ReadTrack_SPIN_UP s)).
Proof. intros H. unfold ReadTrack_SPIN_UP. brks; auto using Inv2_ReadTrack_HEAD_LOAD. Qed.

Lemma Inv2_ReadTrack_INDEX s : Inv2 s -> Inv2 (fst (ReadTrack_INDEX s)).
Proof. unfold ReadTrack_INDEX. inv2_crush s. Qed.

Hint Resolve Inv2_UpdateAll Inv2_CmdCompleteCommon Inv2_Cmd_START Inv2_TypeI_VERIFY
  Inv2_TypeI_VERIFY_NEXT Inv2_TypeI_VERIFY_HEAD_OK Inv2_TypeI_VERIFY_CHECK
  Inv2_Restore_LOOP Inv2_Restore_MOTOR_ON Inv2_Restore_SPIN_UP
  Inv2_Seek_MOTOR_ON Inv2_Seek_SPIN_UP Inv2_Step_MOTOR_ON Inv2_Step_SPIN_UP
  Inv2_Read_TRANSFER_LOOP Inv2_TypeII_NEXT Inv2_TypeII_MOTOR_ON Inv2_TypeII_HEAD_LOAD
  Inv2_TypeII_SPIN_UP Inv2_TypeII_CHECK Inv2_TypeII_CRC Inv2_TypeII_RNF
  Inv2_ReadSectors_TRANSFER_START Inv2_WriteSectors_TRANSFER_START
  Inv2_WriteSectors_TRANSFER_LOOP Inv2_ReadAddress_MOTOR_ON Inv2_ReadAddress_HEAD_LOAD
  Inv2_ReadAddress_SPIN_UP Inv2_ReadAddress_TRANSFER_START Inv2_ReadTrack_MOTOR_ON
  Inv2_ReadTrack_HEAD_LOAD Inv2_ReadTrack_SPIN_UP Inv2_ReadTrack_INDEX : fdc_inv2.

Lemma Inv2_UpdateRestoreCmd s : Inv2 s -> Inv2 (fst (FDC_UpdateRestoreCmd s)).
Proof. intros H. unfold FDC_UpdateRestoreCmd. destruct (CommandState (FDC s)); auto with fdc_inv2. Qed.

Lemma Inv2_UpdateSeekCmd s : Inv2 s -> Inv2 (fst (FDC_UpdateSeekCmd s)).
Proof. intros H. unfold FDC_UpdateSeekCmd. destruct (CommandState (FDC s)); auto with fdc_inv2. Qed.

Lemma Inv2_UpdateStepCmd s : Inv2 s -> Inv2 (fst (FDC_UpdateStepCmd s)).
Proof. intros H. unfold FDC_UpdateStepCmd. destruct (CommandState (FDC s)); auto with fdc_inv2. Qed.

Lemma Inv2_UpdateReadSectorsCmd s : Inv2 s -> Inv2 (fst (FDC_UpdateReadSectorsCmd s)).
Proof.
  intros H. unfold FDC_UpdateReadSectorsCmd. destruct (CommandState (FDC s)); auto with fdc_inv2.
Qed.

Lemma Inv2_UpdateReadAddressCmd s : Inv2 s -> Inv2 (fst (FDC_UpdateReadAddressCmd s)).
Proof.
  intros H. unfold FDC_UpdateReadAddressCmd. destruct (CommandState (FDC s)); auto with fdc_inv2.
Qed.

Lemma Inv2_UpdateReadTrackCmd s : Inv2 s -> Inv2 (fst (FDC_UpdateReadTrackCmd s)).
Proof.
  intros H. unfold FDC_UpdateReadTrackCmd. destruct (CommandState (FDC s)); auto with fdc_inv2.
Qed.

Lemma Inv2_Update_STR d e s : Inv2 s -> Inv2 (FDC_Update_STR d e s).
Proof. intros [Hst Hby Hb16 Hsel Hside Hlen Hden]. constructor; cbn; auto. Qed.

Lemma Inv2_UpdateWriteSectorsCmd s : Inv2 s -> Inv2 (fst (FDC_UpdateWriteSectorsCmd s)).
Proof.
  intros H. unfold FDC_UpdateWriteSectorsCmd.
  destruct (_ && Floppy_IsWriteProtected _ _).
  - cbn.
    exact (Inv2_CmdCompleteCommon true (FDC_Update_STR 0 FDC_STR_BIT_WPRT s)
             (Inv2_Update_STR 0 FDC_STR_BIT_WPRT s H)).
  - assert (H1 : Inv2 (FDC_Update_STR FDC_STR_BIT_WPRT 0 s)) by now apply Inv2_Update_STR.
    revert H1. generalize (FDC_Update_STR FDC_STR_BIT_WPRT 0 s). intros s1 H1.
    destruct (CommandState (FDC s1)); auto with fdc_inv2.
Qed.

Lemma Inv2_UpdateMotorStop s : Inv2 s -> Inv2 (fst (FDC_UpdateMotorStop s)).
Proof.
  intros H. unfold FDC_UpdateMotorStop, MotorStop_WAIT, MotorStop_COMPLETE.
  destruct (CommandState (FDC s)); try exact H.
  all: revert H; inv2_crush s.
Qed.

Lemma Inv2_Update_dispatch c s : Inv2 s -> Inv2 (fst (FDC_Update_dispatch c s)).
Proof.
  intros H. unfold FDC_Update_dispatch.
  destruct (Command (FDC s)) eqn:Hc;
    auto using Inv2_UpdateRestoreCmd, Inv2_UpdateSeekCmd, Inv2_UpdateStepCmd,
      Inv2_UpdateReadSectorsCmd, Inv2_UpdateWriteSectorsCmd, Inv2_UpdateReadAddressCmd,
      Inv2_UpdateReadTrackCmd, Inv2_UpdateMotorStop.
Qed.

Lemma Inv2_Update_round c s : Inv2 s -> Inv2 (fst (FDC_Update_round c s)).
Proof. intros H. unfold FDC_Update_round. auto using Inv2_Update_dispatch, Inv2_UpdateAll. Qed.

Lemma Inv2_Update_loop fuel : forall c s s' c',
  Inv2 s -> FDC_Update_loop fuel c s = Some (s', c') -> Inv2 s'.
Proof.
  induction fuel as [|fuel IH]; intros c s s' c' H E; [discriminate|].
  cbn in E. pose proof (Inv2_Update_round c s H) as H1.
  destruct (FDC_Update_round c s) as [s1 c1]. cbn in H1.
  destruct (negb (cmd_is_null (Command (FDC s1))) && (c1 =? 0)).
  - eapply IH; eauto.
  - now inversion E; subst.
Qed.

Lemma Inv2_set_FDC_Timer t s : Inv2 s -> Inv2 (set_FDC_Timer t s).
Proof. intros [Hst Hby Hb16 Hsel Hside Hlen Hden]. constructor; auto. Qed.

Lemma Inv2_StartTimer c o s : Inv2 s -> Inv2 (FDC_StartTimer_FdcCycles c o s).
Proof. intros H. unfold FDC_StartTimer_FdcCycles. now apply Inv2_set_FDC_Timer. Qed.

Lemma Inv2_InterruptHandler fuel p s s' :
  Inv2 s -> FDC_InterruptHandler_Update fuel p s = Some s' -> Inv2 s'.
Proof.
  intros H E. unfold FDC_InterruptHandler_Update in E.
  destruct (FDC_Update_loop fuel 0 (set_FDC_Timer None s)) as [[s1 c1]|] eqn:El; [|discriminate].
  apply Inv2_Update_loop in El; [|now apply Inv2_set_FDC_Timer].
  inversion E; subst. destruct (negb _); auto using Inv2_StartTimer.
Qed.

Lemma Inv2_ExecuteCommand s : Inv2 s -> Inv2 (FDC_ExecuteCommand s).
Proof.
  inv2_start s H.
  destruct (GetCmdType_cases (CR (FDC s))) as [E|[E|[E|E]]];
    unfold_execute; rewrite E in *; cbn; brks; inv2_fin.
Qed.

Lemma Inv2_set_CR b s : Inv2 s -> Inv2 (updFDC (set_CR b) s).
Proof. intros [Hst Hby Hb16 Hsel Hside Hlen Hden]. constructor; auto. Qed.

Lemma Inv2_WriteCommandRegister b s : Inv2 s -> Inv2 (FDC_WriteCommandRegister b s).
Proof.
  intros H. unfold FDC_WriteCommandRegister.
  pose proof (Inv2_ExecuteCommand _ (Inv2_set_CR b s H)) as Hx.
  brks; auto.
Qed.

Lemma Inv2_DiskController_WriteWord ba io w s :
  Inv2 s -> Inv2 (FDC_DiskController_WriteWord ba io w s).
Proof.
  intros H. unfold FDC_DiskController_WriteWord.
  destruct ba; [exact H|].
  destruct (tst (Mode (FDC_DMA s)) 16).
  { destruct H as [Hst Hby Hb16 Hsel Hside Hlen Hden]. constructor; auto. }
  match goal with |- context [updDMA ?g s] => set (s1 := updDMA g s) end.
  assert (H1 : Inv2 s1) by (destruct H as [Hst Hby Hb16 Hsel Hside Hlen Hden]; constructor; auto).
  clearbody s1.
  destruct (Z.land (Mode (FDC_DMA s1)) 8 =? 8); [exact H1|].
  destruct (FDC_GetEmulationMode io s1); [|exact H1].
  pose proof (Inv2_UpdateAll s1 H1) as H2. cbv zeta.
  destruct (_ =? 0); [now apply Inv2_WriteCommandRegister|].
  destruct (_ =? 1); [|destruct (_ =? 2)].
  all: destruct H2 as [Hst Hby Hb16 Hsel Hside Hlen Hden]; constructor; auto.
Qed.

Lemma Inv2_DiskControllerStatus_ReadWord ba io ext s :
  Inv2 s -> Inv2 (fst (FDC_DiskControllerStatus_ReadWord ba io ext s)).
Proof.
  intros H. unfold FDC_DiskControllerStatus_ReadWord.
  destruct ba; [exact H|].
  assert (Hsh : forall (t : State) v, Inv2 t ->
            Inv2 (if Z.land (Mode (FDC_DMA t)) 16 =? 0
                 then updDMA (fun d => set_ff8604_recent_val
                        (u16 (Z.lor (Z.land (ff8604_recent_val d) 65280) (Z.land v 255))) d) t
                 else t)).
  { intros t v [Hst Hby Hb16 Hsel Hside Hlen Hden]. destruct (_ =? 0); constructor; auto. }
  destruct (tst (Mode (FDC_DMA s)) 16); [cbn; now apply Hsh|].
  destruct (Z.land (Mode (FDC_DMA s)) 8 =? 8); [cbn; now apply Hsh|].
  destruct (FDC_GetEmulationMode io s).
  - pose proof (Inv2_UpdateAll s H) as H1. cbv zeta.
    revert H1. generalize (FDC_UpdateAll s). clear H. intros s1.
    destruct (_ =? 0).
    + intros H1.
      assert (H2 : Inv2 (FDC_ClearIRQ
                (if StatusTypeI (FDC s1) then FDC_Status_TypeI_refresh s1 else s1))).
      { revert H1. unfold FDC_Status_TypeI_refresh. inv2_crush s1. }
      cbn. now apply Hsh.
    + intros H1. destruct (_ =? 1); [|destruct (_ =? 2)]; cbn; now apply Hsh.
  - cbv zeta. destruct (_ && _); [|cbn; now apply Hsh].
    destruct (Floppy_DriveTransitionUpdateState _ _) as [disks f].
    apply (Hsh (set_Disks disks s)). destruct H as [Hst Hby Hb16 Hsel Hside Hlen Hden]. constructor; auto.
Qed.

Lemma Inv2_ResetDMA s : Inv2 s -> Inv2 (FDC_ResetDMA s).
Proof.
  intros [Hst Hby Hb16 Hsel Hside Hlen Hden]. constructor; cbn; auto.
  unfold FDC_DMA_SECTOR_SIZE. lia.
Qed.

Lemma Inv2_DmaModeControl ba w s : Inv2 s -> Inv2 (FDC_DmaModeControl_WriteWord ba w s).
Proof.
  intros H. unfold FDC_DmaModeControl_WriteWord. destruct ba; [exact H|].
  assert (H1 : Inv2 (updDMA (set_Mode (u16 w)) s))
    by (destruct H as [Hst Hby Hb16 Hsel Hside Hlen Hden]; constructor; auto).
  cbv zeta. destruct (tst _ _); auto using Inv2_ResetDMA.
Qed.

Lemma Inv2_DmaStatus ba s : Inv2 s -> Inv2 (fst (FDC_DmaStatus_ReadWord ba s)).
Proof.
  intros H. unfold FDC_DmaStatus_ReadWord. destruct ba; [exact H|].
  destruct H as [Hst Hby Hb16 Hsel Hside Hlen Hden]. destruct (negb _); constructor; cbn; auto.
  - apply status_range_set; auto.
  - apply status_range_clear; auto.
Qed.

Lemma Inv2_DmaAddress_bput addr v s : Inv2 s -> Inv2 (DmaAddress_bput addr v s).
Proof.
  unfold DmaAddress_bput, FDC_DmaAddress_WriteByte, IoMem_WriteByte.
  intros [Hst Hby Hb16 Hsel Hside Hlen Hden].
  brks; constructor; auto.
Qed.

Lemma Inv2_EnableDrive d v s : Inv2 s -> Inv2 (FDC_EnableDrive d v s).
Proof. unfold FDC_EnableDrive. inv2_crush s. Qed.

Lemma Inv2_InsertFloppy d s : Inv2 s -> Inv2 (FDC_InsertFloppy d s).
Proof. unfold FDC_InsertFloppy. inv2_crush s. Qed.

Lemma Inv2_EjectFloppy d s : Inv2 s -> Inv2 (FDC_EjectFloppy d s).
Proof. unfold FDC_EjectFloppy. inv2_crush s. Qed.

Lemma Inv2_SetDriveSide o n s : Inv2 s -> Inv2 (FDC_SetDriveSide o n s).
Proof. unfold FDC_SetDriveSide. inv2_crush s. Qed.

Lemma Inv2_Reset bCold s :
  -1 <= DriveSelSignal (FDC s) <= 1 -> 0 <= SideSignal (FDC s) <= 1 ->
  length (FDC_DRIVES s) = Z.to_nat MAX_FLOPPYDRIVES -> Forall density_ok (FDC_DRIVES s) ->
  Inv2 (FDC_Reset bCold s).
Proof.
  intros Hsel Hside Hlen Hden. unfold FDC_Reset, FDC_ResetDMA.
  destruct bCold; constructor; cbn; auto; try reflexivity; try lia.
  all: try (rewrite length_map; assumption).
  all: try (apply density_ok_map; [intros d Hd0; exact Hd0|assumption]).
  all: unfold FDC_DMA_SECTOR_SIZE; lia.
Qed.

Lemma Inv2_power_on m gpip disks : Inv2 (power_on m gpip disks).
Proof.
  unfold power_on. apply Inv2_Reset; cbn; try reflexivity; try lia.
  repeat constructor.
Qed.

Lemma Inv2_step e s s' : Inv2 s -> step e s = Some s' -> Inv2 s'.
Proof.
  intros H E. destruct e; cbn in E; try (inversion E; subst; clear E).
  - destruct H. now apply Inv2_Reset.
  - now apply Inv2_DiskController_WriteWord.
  - now apply Inv2_DiskControllerStatus_ReadWord.
  - now apply Inv2_DmaModeControl.
  - now apply Inv2_DmaStatus.
  - now apply Inv2_DmaAddress_bput.
  - now apply Inv2_EnableDrive.
  - now apply Inv2_InsertFloppy.
  - now apply Inv2_EjectFloppy.
  - now apply Inv2_SetDriveSide.
  - eapply Inv2_InterruptHandler; eauto.
  - destruct H as [Hst Hby Hb16 Hsel Hside Hlen Hden]. constructor; auto.
Qed.

Lemma reachable_Inv2 s : reachable s -> Inv2 s.
Proof. induction 1; eauto using Inv2_power_on, Inv2_step. Qed.

Lemma Inv2_run es : forall s s', Inv2 s -> run es s = Some s' -> Inv2 s'.
Proof.
  induction es as [|e es IH]; intros s s' H E; cbn in E.
  - now inversion E; subst.
  - destruct (step e s) as [s1|] eqn:E1; [|discriminate]. eauto using Inv2_step.
Qed.

Lemma testbit_small x k : 0 <= x < 4 -> 2 <= k -> Z.testbit x k = false.
Proof.
  intros Hx Hk. assert (x = 0 \/ x = 1 \/ x = 2 \/ x = 3) as [->|[->|[->| ->]]] by lia.
  - apply Z.testbit_0_l.
  - change 1 with (Z.ones 1). apply Z.ones_spec_high. lia.
  - change 2 with (2 ^ 1). rewrite Z.pow2_bits_eqb by lia. destruct (Z.eqb_spec 1 k); [lia|reflexivity].
  - change 3 with (Z.ones 2). apply Z.ones_spec_high. lia.
Qed.

(** X6. In every reachable state a read of the DMA status gives a word:
    bit 0 is the error flag as stored (1 = no error), bit 1 tells
    whether the sector counter is not 0, bit 2 (data request) is 0, and
    bits 3 to 15 are those of the latest-ff8604 shadow. *)
Theorem X6_dma_status_word (s : State) :
  reachable s ->
  exists v, snd (FDC_DmaStatus_ReadWord false s) = Some v
    /\ Z.testbit v 0 = Z.testbit (Status (FDC_DMA s)) 0
    /\ Z.testbit v 1 = negb (SectorCount (FDC_DMA s) =? 0)
    /\ Z.testbit v 2 = false
    /\ (forall k, 3 <= k < 16 -> Z.testbit v k = Z.testbit (ff8604_recent_val (FDC_DMA s)) k).
Proof.
  intros Hr. pose proof (inv2_status s (reachable_Inv2 s Hr)) as Hst.
  destruct (snd (FDC_DmaStatus_ReadWord false s)) as [v|] eqn:Ev.
  2:{ unfold FDC_DmaStatus_ReadWord in Ev. discriminate Ev. }
  exists v. split; [reflexivity|].
  destruct (DmaStatus_word_bits s v Ev) as [H1 Hk].
  split; [|split; [exact H1|split]].
  - rewrite Hk by lia. cbn. apply orb_false_r.
  - rewrite Hk by lia. cbn. rewrite orb_false_r. apply testbit_small; auto; lia.
  - intros k Hk3. rewrite Hk by lia. rewrite (testbit_small _ k Hst) by lia.
    destruct (Z.leb_spec 3 k); [reflexivity | lia].
Qed.

(** X13. In every reachable state the countdown of the bytes left in the
    current DMA sector is a multiple of 16 from 16 to 512, the FIFO holds
    16 bytes and its fill level is from 0 to 15. *)
Theorem X13_dma_counters (s : State) :
  reachable s ->
  0 < BytesInSector (FDC_DMA s) <= FDC_DMA_SECTOR_SIZE
  /\ BytesInSector (FDC_DMA s) mod FDC_DMA_FIFO_SIZE = 0
  /\ 0 <= FIFO_Size (FDC_DMA s) < FDC_DMA_FIFO_SIZE
  /\ length (FIFO (FDC_DMA s)) = Z.to_nat FDC_DMA_FIFO_SIZE.
Proof.
  intros Hr. pose proof (reachable_Inv2 s Hr) as H2. pose proof (reachable_Inv s Hr) as H1.
  destruct H1, H2. auto.
Qed.

(** X14. In every reachable state there are two drives, the drive select
    signal is -1 (none), 0 or 1, the side signal is 0 or 1; when a drive
    is selected it is one of the two, its density factor is 1, 2 or 4,
    and the delay to transfer one byte or more is not 0. *)
Theorem X14_selected_drive (s : State) :
  reachable s ->
  length (FDC_DRIVES s) = Z.to_nat MAX_FLOPPYDRIVES
  /\ -1 <= DriveSelSignal (FDC s) < MAX_FLOPPYDRIVES
  /\ 0 <= SideSignal (FDC s) <= 1
  /\ (0 <= DriveSelSignal (FDC s) ->
      In (seldrive s) (FDC_DRIVES s)
      /\ (Density (seldrive s) = 1 \/ Density (seldrive s) = 2 \/ Density (seldrive s) = 4)
      /\ (forall n, 1 <= n -> 0 < FDC_TransferByte_FdcCycles n s)).
Proof.
  intros Hr. destruct (reachable_Inv2 s Hr) as [Hst Hby Hb16 Hsel Hside Hlen Hden].
  unfold MAX_FLOPPYDRIVES in *.
  split; [exact Hlen|]. split; [lia|]. split; [exact Hside|].
  intros H0.
  assert (Hin : In (seldrive s) (FDC_DRIVES s)).
  { unfold seldrive, drive, rd. destruct (Z.ltb_spec (DriveSelSignal (FDC s)) 0); [lia|].
    apply nth_In. rewrite Hlen. lia. }
  pose proof (proj1 (Forall_forall _ _) Hden _ Hin) as Hd. unfold density_ok in Hd.
  split; [exact Hin|]. split; [exact Hd|].
  intros n Hn. unfold FDC_TransferByte_FdcCycles, FDC_DELAY_CYCLE_MFM_BYTE.
  destruct Hd as [-> | [-> | ->]].
  all: unfold FDC_DENSITY_FACTOR_DD, FDC_DENSITY_FACTOR_HD, FDC_DENSITY_FACTOR_ED.
  all: apply Z.quot_str_pos; lia.
Qed.

(** ** A command in flight has its timer *)

Lemma timer_armed_frame s s' :
  Command (FDC s') = Command (FDC s) -> FDC_Timer s' = FDC_Timer s ->
  timer_armed s -> timer_armed s'.
Proof. unfold timer_armed. intros -> ->. auto. Qed.

Lemma timer_armed_started s : (exists c o, FDC_Timer s = Some (c, o)) -> timer_armed s.
Proof. unfold timer_armed. auto. Qed.

Lemma refresh_ct s :
  Command (FDC (FDC_Status_TypeI_refresh s)) = Command (FDC s)
  /\ FDC_Timer (FDC_Status_TypeI_refresh s) = FDC_Timer s.
Proof.
  unfold FDC_Status_TypeI_refresh. unfold_prims. cbn. brks. all: split; reflexivity.
Qed.

Lemma timer_armed_WriteCommandRegister b s :
  timer_armed s -> timer_armed (FDC_WriteCommandRegister b s).
Proof.
  intros H. unfold FDC_WriteCommandRegister.
  assert (Hx : timer_armed (FDC_ExecuteCommand (updFDC (set_CR b) s))).
  { apply timer_armed_started. apply ExecuteCommand_started. }
  brks; auto.
Qed.

Lemma timer_armed_WriteWord ba io w s :
  timer_armed s -> timer_armed (FDC_DiskController_WriteWord ba io w s).
Proof.
  intros H. unfold FDC_DiskController_WriteWord.
  destruct ba; [exact H|].
  destruct (tst (Mode (FDC_DMA s)) 16); [exact H|].
  match goal with |- context [updDMA ?g s] => set (s1 := updDMA g s) end.
  assert (H1 : timer_armed s1) by exact H. clearbody s1. cbv zeta.
  destruct (Z.land (Mode (FDC_DMA s1)) 8 =? 8); [exact H1|].
  destruct (FDC_GetEmulationMode io s1); [|exact H1].
  destruct (regs_UpdateAll s1) as (A1 & A2 & A3 & A4 & A5 & A6 & A7). cbv zeta in *.
  injection A2 as A21 A22 A23 A24 A25 A26.
  assert (H2 : timer_armed (FDC_UpdateAll s1)) by (apply (timer_armed_frame s1); auto).
  destruct (_ =? 0); [now apply timer_armed_WriteCommandRegister|].
  destruct (_ =? 1); [|destruct (_ =? 2)]; exact H2.
Qed.

Lemma timer_armed_ReadWord ba io ext s :
  timer_armed s -> timer_armed (fst (FDC_DiskControllerStatus_ReadWord ba io ext s)).
Proof.
  intros H. unfold FDC_DiskControllerStatus_ReadWord.
  destruct ba; [exact H|].
  assert (Hsh : forall (t : State) v, timer_armed t ->
            timer_armed (if Z.land (Mode (FDC_DMA t)) 16 =? 0
                 then updDMA (fun d => set_ff8604_recent_val
                        (u16 (Z.lor (Z.land (ff8604_recent_val d) 65280) (Z.land v 255))) d) t
                 else t)).
  { intros t v Ht. destruct (_ =? 0); exact Ht. }
  destruct (tst (Mode (FDC_DMA s)) 16); [cbn; now apply Hsh|].
  destruct (Z.land (Mode (FDC_DMA s)) 8 =? 8); [cbn; now apply Hsh|].
  destruct (FDC_GetEmulationMode io s).
  - destruct (regs_UpdateAll s) as (A1 & A2 & A3 & A4 & A5 & A6 & A7). cbv zeta in *.
    injection A2 as A21 A22 A23 A24 A25 A26.
    assert (H1 : timer_armed (FDC_UpdateAll s)) by (apply (timer_armed_frame s); auto).
    revert H1. generalize (FDC_UpdateAll s). intros s1 H1.
    destruct (_ =? 0).
    + assert (H2 : timer_armed (FDC_ClearIRQ
                (if StatusTypeI (FDC s1) then FDC_Status_TypeI_refresh s1 else s1))).
      { destruct (refresh_ct s1) as [R1 R2].
        assert (Hs2 : Command (FDC (if StatusTypeI (FDC s1)
                                       then FDC_Status_TypeI_refresh s1 else s1))
                      = Command (FDC s1)
                      /\ FDC_Timer (if StatusTypeI (FDC s1)
                                    then FDC_Status_TypeI_refresh s1 else s1)
                         = FDC_Timer s1)
          by (destruct (StatusTypeI (FDC s1)); auto).
        destruct Hs2 as [S1 S2].
        apply (timer_armed_frame s1); auto.
        all: unfold FDC_ClearIRQ.
        all: destruct (Z.land _ FDC_INTERRUPT_COND_IMMEDIATE =? 0); cbn; auto. }
      cbn. now apply Hsh.
    + destruct (_ =? 1); [|destruct (_ =? 2)]; cbn; now apply Hsh.
  - cbv zeta. destruct (_ && _); [|cbn; now apply Hsh].
    destruct (Floppy_DriveTransitionUpdateState _ _) as [disks f].
    apply (Hsh (set_Disks disks s)). exact H.
Qed.

Lemma timer_armed_handler fuel p s s' :
  FDC_InterruptHandler_Update fuel p s = Some s' -> timer_armed s'.
Proof.
  unfold FDC_InterruptHandler_Update. cbv zeta.
  destruct (FDC_Update_loop fuel 0 (set_FDC_Timer None s)) as [[s1 c1]|]; [|discriminate].
  intros E. inversion E; subst. clear E.
  unfold timer_armed. destruct (Command (FDC s1)) eqn:Ec; cbn.
  all: unfold FDC_StartTimer_FdcCycles; cbn; rewrite ?Ec; intros Hn; eauto.
  congruence.
Qed.

Lemma timer_armed_step e s s' : timer_armed s -> step e s = Some s' -> timer_armed s'.
Proof.
  intros H E. destruct e; cbn in E; try (inversion E; subst; clear E).
  - unfold timer_armed, FDC_Reset, FDC_ResetDMA. destruct bCold; cbn; congruence.
  - now apply timer_armed_WriteWord.
  - now apply timer_armed_ReadWord.
  - revert H. apply timer_armed_frame;
      unfold FDC_DmaModeControl_WriteWord, FDC_ResetDMA; brks; reflexivity.
  - revert H. apply timer_armed_frame; unfold FDC_DmaStatus_ReadWord; brks; reflexivity.
  - revert H. apply timer_armed_frame;
      unfold DmaAddress_bput, FDC_DmaAddress_WriteByte, IoMem_WriteByte; brks; reflexivity.
  - revert H. apply timer_armed_frame; unfold FDC_EnableDrive; unfold_prims; brks; reflexivity.
  - revert H. apply timer_armed_frame; unfold FDC_InsertFloppy; unfold_prims; brks; reflexivity.
  - revert H. apply timer_armed_frame; unfold FDC_EjectFloppy; unfold_prims; brks; reflexivity.
  - revert H. apply timer_armed_frame; unfold FDC_SetDriveSide; unfold_prims; brks; reflexivity.
  - eapply timer_armed_handler; eauto.
  - exact H.
Qed.

(** X15. In every reachable state where the command tag is not Null (a
    command or the motor-stop pseudo command is active) the timer of the
    controller is armed. *)
Theorem X15_command_has_timer (s : State) :
  reachable s -> Command (FDC s) <> FDCEMU_CMD_NULL ->
  exists c o, FDC_Timer s = Some (c, o).
Proof.
  intros Hr. change (timer_armed s).
  induction Hr as [m gpip disks | e s s' Hr IH E].
  - unfold timer_armed, power_on, FDC_Reset, FDC_ResetDMA. cbn. congruence.
  - eapply timer_armed_step; eauto.
Qed.

(** ** Drive selection and drive events *)

(** X16. An unchanged port A changes nothing.  Otherwise the side is 1
    when bit 0 is 0; drive 0 is selected when bit 1 is 0, whatever bit 2
    is, drive 1 when only bit 2 is 0, no drive when both are 1; the
    heads, the enabled and inserted flags of the drives, the command and
    the Status Register are left as they were. *)
Theorem X16_set_drive_side (io_porta_old io_porta_new : Z) (s : State) :
  let s' := FDC_SetDriveSide io_porta_old io_porta_new s in
  (io_porta_old = io_porta_new -> s' = s)
  /\ (io_porta_old <> io_porta_new ->
      SideSignal (FDC s') = (if Z.testbit io_porta_new 0 then 0 else 1)
      /\ DriveSelSignal (FDC s')
         = (if negb (Z.testbit io_porta_new 1) then 0
            else if negb (Z.testbit io_porta_new 2) then 1 else -1)
      /\ map HeadTrack (FDC_DRIVES s') = map HeadTrack (FDC_DRIVES s)
      /\ map Enabled (FDC_DRIVES s') = map Enabled (FDC_DRIVES s)
      /\ map DiskInserted (FDC_DRIVES s') = map DiskInserted (FDC_DRIVES s)
      /\ Command (FDC s') = Command (FDC s)
      /\ STR (FDC s') = STR (FDC s)).
Proof.
  cbv zeta. unfold FDC_SetDriveSide. split.
  - intros ->. rewrite Z.eqb_refl. reflexivity.
  - intros Hn. apply Z.eqb_neq in Hn. rewrite Hn.
    assert (H0 : Z.land (Z.lnot io_porta_new) 1 = if Z.testbit io_porta_new 0 then 0 else 1).
    { rewrite (land_pow2 _ 0) by lia. rewrite Z.lnot_spec by lia.
      destruct (Z.testbit io_porta_new 0); reflexivity. }
    assert (H1 : (Z.land io_porta_new 2 =? 0) = negb (Z.testbit io_porta_new 1)).
    { rewrite (land_pow2 _ 1) by lia. destruct (Z.testbit io_porta_new 1); reflexivity. }
    assert (H2 : (Z.land io_porta_new 4 =? 0) = negb (Z.testbit io_porta_new 2)).
    { rewrite (land_pow2 _ 2) by lia. destruct (Z.testbit io_porta_new 2); reflexivity. }
    rewrite H0, H1, H2.
    unfold_prims. cbn.
    destruct (Z.testbit io_porta_new 1), (Z.testbit io_porta_new 2); cbn; brks.
    all: rewrite ?map_wr_frame by reflexivity; repeat split.
Qed.

(** X17. Enabling, inserting and ejecting with a drive number other than
    0 or 1 change nothing.  With drive 0 or 1: inserting sets the
    inserted flag and the density of the inserted image; ejecting clears
    the flag and forgets the index pulse position; the head and the
    enabled flag of the drive, the other drive, the controller, the DMA
    and the disk images are left as they were; enabling stores the
    flag. *)
Theorem X17_drive_events (Drive : Z) (s : State) :
  length (FDC_DRIVES s) = Z.to_nat MAX_FLOPPYDRIVES ->
  (valid_drive_nr Drive = false ->
   forall v, FDC_EnableDrive Drive v s = s /\ FDC_InsertFloppy Drive s = s
             /\ FDC_EjectFloppy Drive s = s)
  /\ (valid_drive_nr Drive = true ->
      let s1 := FDC_InsertFloppy Drive s in
      let s2 := FDC_EjectFloppy Drive s1 in
      DiskInserted (drive Drive s1) = true
      /\ Density (drive Drive s1) = FDC_GetDensity Drive s1
      /\ DiskInserted (drive Drive s2) = false
      /\ IndexPulse_Time (drive Drive s2) = 0
      /\ HeadTrack (drive Drive s2) = HeadTrack (drive Drive s)
      /\ Enabled (drive Drive s2) = Enabled (drive Drive s)
      /\ (forall v, Enabled (drive Drive (FDC_EnableDrive Drive v s)) = v)
      /\ (forall i, i <> Drive -> drive i s2 = drive i s)
      /\ FDC s2 = FDC s /\ FDC_DMA s2 = FDC_DMA s /\ Disks s2 = Disks s).
Proof.
  intros Hlen. change (Z.to_nat MAX_FLOPPYDRIVES) with 2%nat in Hlen.
  unfold FDC_EnableDrive, FDC_InsertFloppy, FDC_EjectFloppy. split; intros Hv.
  - rewrite Hv. auto.
  - rewrite Hv. unfold valid_drive_nr, MAX_FLOPPYDRIVES in Hv. b2p.
    assert (Hr : forall l : list FDC_DRIVE_STRUCT, length l = length (FDC_DRIVES s) ->
                 0 <= Drive < Z.of_nat (length l)) by (intros l ->; rewrite Hlen; lia).
    cbv zeta. unfold FDC_GetDensity, FDC_GetSectorsPerTrack. unfold_prims. cbn.
    destruct (Z.land (STR (FDC s)) FDC_STR_BIT_MOTOR_ON =? 0); cbn.
    all: rewrite ?rd_wr_same by (apply Hr; rewrite ?length_wr; reflexivity); cbn.
    all: repeat split.
    all: try (intros i Hi; rewrite ?rd_wr_other by congruence; reflexivity).
    all: intros v; rewrite rd_wr_same by (apply Hr; reflexivity); reflexivity.
Qed.

(** ** The sector transfers of Read Sector and Write Sector *)

(** The DMA engine reads and writes nothing but its view *)
Lemma Push_dma_view b s t :
  dma_view s = dma_view t ->
  dma_view (FDC_DMA_FIFO_Push b s) = dma_view (FDC_DMA_FIFO_Push b t).
Proof.
  unfold dma_view. intros H. injection H as H1 H2 H3 H4 H5 H6 H7 H8 H9 H10 H11.
  unfold FDC_DMA_FIFO_Push, FDC_SetDMAStatus, FDC_GetDMAAddress, FDC_WriteDMAAddress,
    FDC_DMA_block_done. cbn.
  rewrite H3, H6.
  destruct (SectorCount (FDC_DMA t) =? 0); [cbn; rewrite ?H1, ?H2, ?H3, ?H4, ?H5, ?H6, ?H7, ?H8, ?H9, ?H10, ?H11; reflexivity|].
  destruct (FIFO_Size (FDC_DMA t) + 1 <? FDC_DMA_FIFO_SIZE);
    [cbn; rewrite ?H1, ?H2, ?H3, ?H4, ?H5, ?H6, ?H7, ?H8, ?H9, ?H10, ?H11; reflexivity|].
  cbn. rewrite ?H1, ?H2, ?H3, ?H4, ?H5, ?H6, ?H7, ?H8, ?H9, ?H10, ?H11.
  destruct (u16 (BytesInSector (FDC_DMA t) - FDC_DMA_FIFO_SIZE) <=? 0);
    cbn; rewrite ?H1, ?H2, ?H3, ?H4, ?H5, ?H6, ?H7, ?H8, ?H9, ?H10, ?H11; reflexivity.
Qed.

Lemma Push_list_dma_view l : forall s t,
  dma_view s = dma_view t ->
  dma_view (FDC_DMA_FIFO_Push_list l s) = dma_view (FDC_DMA_FIFO_Push_list l t).
Proof.
  induction l as [|b l IH]; intros s t H; [exact H|].
  apply (IH _ _ (Push_dma_view b s t H)).
Qed.

Lemma Push_frame b s :
  let s' := FDC_DMA_FIFO_Push b s in
  FDC s' = FDC s /\ FDC_DRIVES s' = FDC_DRIVES s /\ DMADiskWorkSpace s' = DMADiskWorkSpace s
  /\ PosInBuffer (FDC_DMA s') = PosInBuffer (FDC_DMA s)
  /\ BytesToTransfer (FDC_DMA s') = BytesToTransfer (FDC_DMA s).
Proof.
  unfold FDC_DMA_FIFO_Push, FDC_SetDMAStatus, FDC_WriteDMAAddress, FDC_DMA_block_done.
  cbn. brks; repeat split; reflexivity.
Qed.

Lemma view2_dma_view s t : typeII_view s = typeII_view t -> dma_view s = dma_view t.
Proof.
  unfold typeII_view, dma_view. intros H. injection H as _ _ _ _ -> _ -> -> -> -> _.
  reflexivity.
Qed.

(** One byte of the work buffer goes to the DMA *)
Lemma Read_TRANSFER_LOOP_push_any done f s cmd st cr str dma ws m io dens :
  typeII_view s = (cmd, st, cr, str, dma, ws, m, io, dens) ->
  0 < BytesToTransfer dma ->
  let r := Read_TRANSFER_LOOP done f s in
  typeII_view (fst r)
  = (cmd, st, cr, str, FDC_DMA (fst r), ws, STRam (fst r),
     (IoMem_ff8609 (fst r), IoMem_ff860b (fst r), IoMem_ff860d (fst r)), dens)
  /\ snd r = FDC_TransferByte_FdcCycles 1 s
  /\ dma_view (fst r) = dma_view (FDC_DMA_FIFO_Push (rd 0 ws (PosInBuffer dma)) s)
  /\ BytesToTransfer (FDC_DMA (fst r)) = BytesToTransfer dma - 1
  /\ PosInBuffer (FDC_DMA (fst r)) = PosInBuffer dma + 1.
Proof.
  intros Hv Hn. unfold typeII_view in Hv. injection Hv as <- <- <- <- <- <- <- <- <-.
  apply Z.ltb_lt in Hn.
  unfold Read_TRANSFER_LOOP, WorkSpace_byte. cbn. rewrite Hn. cbv zeta. cbn [fst snd].
  match goal with |- context [FDC_DMA_FIFO_Push ?b ?x] =>
    destruct (Push_frame b x) as (F1 & F2 & F3 & F4 & F5);
    pose proof (Push_dma_view b x s eq_refl) as F6
  end.
  cbv zeta in *.
  unfold typeII_view, FDC_TransferByte_FdcCycles, seldrive, drive.
  rewrite F1, F2, F3, F4, F5, F6. cbn. repeat split.
Qed.

Lemma round_Read_push_any c0 s cr str dma ws m io dens :
  typeII_view s
  = (FDCEMU_CMD_READSECTORS, FDCEMU_RUN_READSECTORS_READDATA_TRANSFER_LOOP,
     cr, str, dma, ws, m, io, dens) ->
  0 < BytesToTransfer dma ->
  dens = 1 \/ dens = 2 \/ dens = 4 ->
  let r := FDC_Update_round c0 s in
  typeII_view (fst r)
  = (FDCEMU_CMD_READSECTORS, FDCEMU_RUN_READSECTORS_READDATA_TRANSFER_LOOP,
     cr, str, FDC_DMA (fst r), ws, STRam (fst r),
     (IoMem_ff8609 (fst r), IoMem_ff860b (fst r), IoMem_ff860d (fst r)), dens)
  /\ snd r <> 0
  /\ dma_view (fst r) = dma_view (FDC_DMA_FIFO_Push (rd 0 ws (PosInBuffer dma)) s)
  /\ BytesToTransfer (FDC_DMA (fst r)) = BytesToTransfer dma - 1
  /\ PosInBuffer (FDC_DMA (fst r)) = PosInBuffer dma + 1.
Proof.
  intros Hv Hn Hd.
  pose proof (view2_dma_view _ _ (view2_UpdateAll s)) as Hu.
  read_round Hv s H1 H2 H3 H4 H5 H6 H7 H8 H9.
  destruct (Read_TRANSFER_LOOP_push_any FDCEMU_RUN_READSECTORS_CRC (FDC_TransferByte_FdcCycles 2)
              _ _ _ _ _ _ _ _ _ _ Hv Hn) as (G1 & G2 & G3 & G4 & G5).
  cbv zeta. split; [exact G1|]. split; [|split; [|split; [exact G4 | exact G5]]].
  - rewrite G2. apply TransferByte_nonzero; [rewrite H9; exact Hd | auto].
  - rewrite G3. apply Push_dma_view. exact Hu.
Qed.

Lemma tick_Read_push_any t s cr str dma ws m io dens :
  typeII_view s
  = (FDCEMU_CMD_READSECTORS, FDCEMU_RUN_READSECTORS_READDATA_TRANSFER_LOOP,
     cr, str, dma, ws, m, io, dens) ->
  0 < BytesToTransfer dma ->
  dens = 1 \/ dens = 2 \/ dens = 4 ->
  (1 <= tick_fuel t)%nat ->
  exists s',
    run (tick_events t) s = Some s'
    /\ typeII_view s'
       = (FDCEMU_CMD_READSECTORS, FDCEMU_RUN_READSECTORS_READDATA_TRANSFER_LOOP,
          cr, str, FDC_DMA s', ws, STRam s',
          (IoMem_ff8609 s', IoMem_ff860b s', IoMem_ff860d s'), dens)
    /\ dma_view s' = dma_view (FDC_DMA_FIFO_Push (rd 0 ws (PosInBuffer dma)) s)
    /\ BytesToTransfer (FDC_DMA s') = BytesToTransfer dma - 1
    /\ PosInBuffer (FDC_DMA s') = PosInBuffer dma + 1.
Proof.
  intros Hv Hn Hd Hf. destruct t as [[n fuel] p]. unfold tick_fuel in Hf.
  cbn [fst snd] in Hf.
  set (s0 := set_FDC_Timer None
               (set_CyclesGlobalClockCounter (u64 (CyclesGlobalClockCounter s + n)) s)).
  assert (Hv0 : typeII_view s0 = typeII_view s) by reflexivity. rewrite <- Hv0 in Hv.
  destruct (round_Read_push_any 0 _ _ _ _ _ _ _ _ Hv Hn Hd) as (Hv2 & Hc2 & G1 & G2 & G3).
  destruct (tick_round1 n fuel p s Hc2 Hf) as (s' & Hrun & He).
  exists s'. split; [exact Hrun|].
  rewrite (up_to_timer typeII_view _ _ view2_timer He).
  rewrite (up_to_timer FDC_DMA _ _ (fun _ _ => eq_refl) He).
  rewrite (up_to_timer STRam _ _ (fun _ _ => eq_refl) He).
  rewrite (up_to_timer IoMem_ff8609 _ _ (fun _ _ => eq_refl) He).
  rewrite (up_to_timer IoMem_ff860b _ _ (fun _ _ => eq_refl) He).
  rewrite (up_to_timer IoMem_ff860d _ _ (fun _ _ => eq_refl) He).
  rewrite (up_to_timer dma_view _ _ (fun _ _ => eq_refl) He).
  fold s0. split; [exact Hv2|]. split; [|split; [exact G2 | exact G3]].
  rewrite G1. apply Push_dma_view. reflexivity.
Qed.

Lemma dma_view_of_view s cmd st cr str dma ws m io dens :
  typeII_view s = (cmd, st, cr, str, dma, ws, m, io, dens) ->
  dma_view s
  = (Status dma, Mode dma, SectorCount dma, BytesInSector dma, FIFO dma, FIFO_Size dma,
     ff8604_recent_val dma, m, io).
Proof.
  unfold typeII_view, dma_view. intros H. injection H as _ _ _ _ <- _ <- <- _.
  reflexivity.
Qed.

(** The header has been found: the sector is read into the work buffer
    and its first byte goes to the DMA *)
Lemma tick_Read_first_any t s bytes cr str dma ws m io dens :
  typeII_view s
  = (FDCEMU_CMD_READSECTORS, FDCEMU_RUN_READSECTORS_READDATA_TRANSFER_START,
     cr, str, dma, ws, m, io, dens) ->
  sector_under_head s = Some bytes ->
  (0 < length bytes)%nat ->
  dens = 1 \/ dens = 2 \/ dens = 4 ->
  (2 <= tick_fuel t)%nat ->
  exists s',
    run (tick_events t) s = Some s'
    /\ typeII_view s'
       = (FDCEMU_CMD_READSECTORS, FDCEMU_RUN_READSECTORS_READDATA_TRANSFER_LOOP,
          cr, str, FDC_DMA s', store_prefix bytes ws, STRam s',
          (IoMem_ff8609 s', IoMem_ff860b s', IoMem_ff860d s'), dens)
    /\ dma_view s' = dma_view (FDC_DMA_FIFO_Push (rd 0 (store_prefix bytes ws) 0) s)
    /\ BytesToTransfer (FDC_DMA s') = Z.of_nat (length bytes) - 1
    /\ PosInBuffer (FDC_DMA s') = 1.
Proof.
  intros Hv Hs Hl Hd Hf. destruct t as [[n fuel] p]. unfold tick_fuel in Hf.
  cbn [fst snd] in Hf.
  set (s0 := set_FDC_Timer None
               (set_CyclesGlobalClockCounter (u64 (CyclesGlobalClockCounter s + n)) s)).
  assert (Hv0 : typeII_view s0 = typeII_view s) by reflexivity. rewrite <- Hv0 in Hv.
  assert (Hs0 : sector_under_head s0 = Some bytes) by exact Hs.
  destruct (round_Read_START 0 s0 bytes _ _ _ _ _ _ _ Hv Hs0) as (Hv1 & Hc1).
  destruct (round_Read_push_any 0 _ _ _ _ _ _ _ _ Hv1) as (Hv2 & Hc2 & G1 & G2 & G3);
    [cbn; lia | exact Hd |].
  destruct (tick_round2 n fuel p s Hc1) as (s' & Hrun & He); auto.
  { eapply view2_not_null; [exact Hv1 | discriminate]. }
  exists s'. split; [exact Hrun|].
  rewrite (up_to_timer typeII_view _ _ view2_timer He).
  rewrite (up_to_timer FDC_DMA _ _ (fun _ _ => eq_refl) He).
  rewrite (up_to_timer STRam _ _ (fun _ _ => eq_refl) He).
  rewrite (up_to_timer IoMem_ff8609 _ _ (fun _ _ => eq_refl) He).
  rewrite (up_to_timer IoMem_ff860b _ _ (fun _ _ => eq_refl) He).
  rewrite (up_to_timer IoMem_ff860d _ _ (fun _ _ => eq_refl) He).
  rewrite (up_to_timer dma_view _ _ (fun _ _ => eq_refl) He).
  fold s0. split; [exact Hv2|]. split; [|split; [exact G2 | exact G3]].
  rewrite G1. apply Push_dma_view.
  rewrite (dma_view_of_view _ _ _ _ _ _ _ _ _ _ Hv1).
  change (dma_view s) with (dma_view s0).
  rewrite (dma_view_of_view _ _ _ _ _ _ _ _ _ _ Hv). reflexivity.
Qed.

Lemma map_seq_shift {B} (f : nat -> B) (k : nat) :
  map f (seq 1 k) = map (fun i => f (S i)) (seq 0 k).
Proof. rewrite <- seq_shift, map_map. reflexivity. Qed.

(** [k] bytes are left: [k] ticks push them *)
Lemma run_Read_pushes_any (k : nat) :
  forall ticks s cr str dma ws m io dens,
    typeII_view s
    = (FDCEMU_CMD_READSECTORS, FDCEMU_RUN_READSECTORS_READDATA_TRANSFER_LOOP,
       cr, str, dma, ws, m, io, dens) ->
    BytesToTransfer dma = Z.of_nat k ->
    dens = 1 \/ dens = 2 \/ dens = 4 ->
    length ticks = k ->
    Forall (fun t => (1 <= tick_fuel t)%nat) ticks ->
    exists s',
      run (timer_events ticks) s = Some s'
      /\ typeII_view s'
         = (FDCEMU_CMD_READSECTORS, FDCEMU_RUN_READSECTORS_READDATA_TRANSFER_LOOP,
            cr, str, FDC_DMA s', ws, STRam s',
            (IoMem_ff8609 s', IoMem_ff860b s', IoMem_ff860d s'), dens)
      /\ dma_view s'
         = dma_view (FDC_DMA_FIFO_Push_list
                       (map (fun i => rd 0 ws (PosInBuffer dma + Z.of_nat i)) (seq 0 k)) s)
      /\ BytesToTransfer (FDC_DMA s') = 0
      /\ PosInBuffer (FDC_DMA s') = PosInBuffer dma + Z.of_nat k.
Proof.
  induction k as [|k IH]; intros ticks s cr str dma ws m io dens Hv Hn Hd Hlen Hfuel.
  - destruct ticks; [|discriminate]. exists s.
    destruct (view2_inv _ _ _ _ _ _ _ _ _ _ Hv) as (H1 & H2 & H3 & H4 & H5 & H6 & H7 & H8 & H9).
    split; [reflexivity|]. split.
    { rewrite Hv, H5, H7, H8. reflexivity. }
    rewrite H5, Z.add_0_r. repeat split; auto.
  - destruct ticks as [|t ticks]; [discriminate|].
    inversion Hfuel as [|? ? Hf Hfuel']; subst.
    destruct (tick_Read_push_any t s _ _ _ _ _ _ _ Hv) as (s1 & Hrun & Hv1 & G1 & G2 & G3);
      auto; [lia|].
    destruct (IH ticks s1 _ _ _ _ _ _ _ Hv1) as (s' & Hrun' & Hv' & K1 & K2 & K3); auto; [lia|].
    exists s'. rewrite run_ticks_cons, Hrun.
    split; [exact Hrun'|]. split; [exact Hv'|]. split; [|split; [exact K2 | lia]].
    rewrite K1, G3.
    rewrite (Push_list_dma_view _ _ _ G1).
    cbn [seq map]. rewrite map_seq_shift. rewrite Z.add_0_r.
    unfold FDC_DMA_FIFO_Push_list at 2. cbn [fold_left].
    f_equal. unfold FDC_DMA_FIFO_Push_list. f_equal.
    apply map_ext. intros i. f_equal. lia.
Qed.

Lemma store_prefix_read (bytes ws : list Z) :
  (length bytes <= length ws)%nat ->
  map (fun i => rd 0 (store_prefix bytes ws) (Z.of_nat i)) (seq 0 (length bytes)) = bytes.
Proof.
  intros H. apply (nth_ext _ _ 0 0).
  - rewrite length_map, length_seq. reflexivity.
  - intros n Hn. rewrite length_map, length_seq in Hn.
    rewrite (nth_indep _ 0 (rd 0 (store_prefix bytes ws) (Z.of_nat 0)))
      by (rewrite length_map, length_seq; exact Hn).
    rewrite (map_nth (fun i => rd 0 (store_prefix bytes ws) (Z.of_nat i))).
    rewrite seq_nth by exact Hn. cbn [Nat.add].
    unfold rd. destruct (Z.of_nat n <? 0) eqn:E; [apply Z.ltb_lt in E; lia|].
    rewrite Nat2Z.id. unfold store_prefix.
    rewrite nth_firstn.
    destruct (n <? length ws)%nat eqn:E2; [|apply Nat.ltb_ge in E2; lia].
    apply app_nth1. exact Hn.
Qed.

Lemma Push_list_cons b l s :
  FDC_DMA_FIFO_Push_list l (FDC_DMA_FIFO_Push b s) = FDC_DMA_FIFO_Push_list (b :: l) s.
Proof. reflexivity. Qed.

Lemma map_seq_S {B} (f : nat -> B) (n : nat) :
  map f (seq 0 (S n)) = f 0%nat :: map f (seq 1 n).
Proof. reflexivity. Qed.

(** X19. Read Sector with the DMA on.  From the state in which the
    header of the sector has been found, with a 512-byte sector under
    the head, the multiple-sector bit clear, the DMA sector counter at
    n > 0, the FIFO empty and a fresh sector countdown, 515 timer calls
    (every handler call having fuel for two rounds, nothing but the
    timer acting on the controller) complete the command: the
    motor-stop pseudo command runs, BUSY is clear, Record Not Found is
    as before and the interrupt line is asserted.  The sector is in the
    work buffer, and the memory is what pushing its 512 bytes through
    the DMA FIFO, in order, makes of it; the DMA address has advanced by
    512 under the address mask of the machine, the sector counter is
    n - 1, the countdown is back at 512, the FIFO is empty and no DMA
    error is flagged. *)
Theorem X19_read_sector_dma (s : State) (bytes : list Z) (ticks : list Tick) :
  Command (FDC s) = FDCEMU_CMD_READSECTORS ->
  CommandState (FDC s) = FDCEMU_RUN_READSECTORS_READDATA_TRANSFER_START ->
  sector_under_head s = Some bytes ->
  length bytes = 512%nat ->
  (512 <= length (DMADiskWorkSpace s))%nat ->
  tst (CR (FDC s)) FDC_COMMAND_BIT_MULTIPLE_SECTOR = false ->
  Density (seldrive s) = 1 \/ Density (seldrive s) = 2 \/ Density (seldrive s) = 4 ->
  0 < SectorCount (FDC_DMA s) < 65536 ->
  BytesInSector (FDC_DMA s) = FDC_DMA_SECTOR_SIZE ->
  FIFO_Size (FDC_DMA s) = 0 ->
  length (FIFO (FDC_DMA s)) = Z.to_nat FDC_DMA_FIFO_SIZE ->
  length ticks = 515%nat ->
  Forall (fun t => (2 <= tick_fuel t)%nat) ticks ->
  exists s',
    run (timer_events ticks) s = Some s'
    /\ Command (FDC s') = FDCEMU_CMD_MOTOR_STOP
    /\ STR_bit FDC_STR_BIT_BUSY s' = false
    /\ STR_bit FDC_STR_BIT_RNF s' = STR_bit FDC_STR_BIT_RNF s
    /\ FDC_IRQ_asserted s' = true
    /\ DMADiskWorkSpace s' = store_prefix bytes (DMADiskWorkSpace s)
    /\ STRam s' = STRam (FDC_DMA_FIFO_Push_list bytes s)
    /\ FDC_GetDMAAddress s'
       = Z.land (FDC_GetDMAAddress s + FDC_DMA_SECTOR_SIZE) DMA_address_mask
    /\ SectorCount (FDC_DMA s') = SectorCount (FDC_DMA s) - 1
    /\ BytesInSector (FDC_DMA s') = FDC_DMA_SECTOR_SIZE
    /\ FIFO_Size (FDC_DMA s') = 0
    /\ Z.testbit (Status (FDC_DMA s')) 0 = true.
Proof.
  intros Hcmd Hst Hsec Hlen Hws Hm Hd Hc HB Hn HF Hticks Hfuel.
  assert (Hfuel1 : Forall (fun t => (1 <= tick_fuel t)%nat) ticks).
  { eapply Forall_impl; [|exact Hfuel]. cbn. intros; lia. }
  assert (Hv : typeII_view s
               = (FDCEMU_CMD_READSECTORS, FDCEMU_RUN_READSECTORS_READDATA_TRANSFER_START,
                  CR (FDC s), STR (FDC s), FDC_DMA s, DMADiskWorkSpace s, STRam s,
                  (IoMem_ff8609 s, IoMem_ff860b s, IoMem_ff860d s), Density (seldrive s))).
  { unfold typeII_view. rewrite Hcmd, Hst. reflexivity. }
  destruct ticks as [|t1 ticks]; [discriminate|].
  inversion Hfuel as [|? ? Hf1 Hfuel']; subst.
  inversion Hfuel1 as [|? ? _ Hfuel1']; subst.
  destruct (tick_Read_first_any t1 s bytes _ _ _ _ _ _ _ Hv Hsec) as
    (s1 & Hrun1 & Hv1 & G1 & G2 & G3); auto; [lia|].
  rewrite (firstn_skipn_ticks 511 ticks) in Hfuel1', Hfuel' |- *.
  apply Forall_app in Hfuel1'. destruct Hfuel1' as [Hfa Hfb].
  destruct (run_Read_pushes_any 511 (firstn 511 ticks) s1 _ _ _ _ _ _ _ Hv1) as
    (s2 & Hrun2 & Hv2 & K1 & K2 & K3); auto.
  { lia. }
  { rewrite length_firstn. cbn in Hticks. lia. }
  destruct (skipn_3 ticks 511) as (ta & tb & tc & Hsk); [cbn in Hticks; lia|].
  rewrite Hsk in *.
  inversion Hfb as [|? ? Hfta Hfb1]; subst. inversion Hfb1 as [|? ? Hftb Hfb2]; subst.
  apply Forall_app in Hfuel'. destruct Hfuel' as [_ Hfc].
  inversion Hfc as [|? ? _ Hfc1]; subst. inversion Hfc1 as [|? ? _ Hfc2]; subst.
  inversion Hfc2 as [|? ? Hftc _]; subst.
  destruct (tick_Read_done ta s2 _ _ _ _ _ _ _ Hv2) as (s3 & Hrun3 & Hv3); auto; [lia|].
  destruct (tick_Read_CRC tb s3 _ _ _ _ _ _ _ Hv3 Hm Hftb) as (s4 & Hrun4 & Hv4).
  destruct (tick_Read_complete tc s4 _ _ _ _ _ _ _ Hv4 Hftc) as (s5 & Hrun5 & Hv5 & Hi).
  exists s5. split.
  { rewrite run_ticks_cons, Hrun1, run_ticks_app, Hrun2.
    rewrite run_ticks_cons, Hrun3, run_ticks_cons, Hrun4, run_ticks_cons, Hrun5.
    reflexivity. }
  (* the DMA has seen the 512 bytes of the sector *)
  assert (Hd5 : dma_view s5 = dma_view (FDC_DMA_FIFO_Push_list bytes s)).
  { rewrite (dma_view_of_view _ _ _ _ _ _ _ _ _ _ Hv5).
    change (dma_view s2 = dma_view (FDC_DMA_FIFO_Push_list bytes s)).
    rewrite K1, (Push_list_dma_view _ _ _ G1), G3.
    rewrite Push_list_cons.
    f_equal. f_equal.
    etransitivity; [|apply (store_prefix_read bytes (DMADiskWorkSpace s)); lia].
    rewrite Hlen, (map_seq_S _ 511), map_seq_shift.
    f_equal; try (apply map_ext; intros i; f_equal; lia). }
  destruct (Push_list_sector bytes s Hlen Hn HF HB Hc) as (P1 & P2 & P3 & P4 & P5).
  cbv zeta in *.
  destruct (view2_inv _ _ _ _ _ _ _ _ _ _ Hv5) as (V1 & V2 & V3 & V4 & V5 & V6 & V7 & V8 & V9).
  unfold dma_view in Hd5.
  injection Hd5 as D1 D2 D3 D4 D5 D6 D7 D8 D9 D10 D11.
  split; [exact V1|].
  unfold STR_bit.
  rewrite !(tst_bit _ FDC_STR_BIT_BUSY 0), !(tst_bit _ FDC_STR_BIT_RNF 4)
    by first [reflexivity | lia].
  rewrite V4. str_bits. cbn.
  split; [reflexivity|]. split; [reflexivity|].
  split; [exact Hi|]. split; [exact V6|]. split; [exact D8|].
  unfold FDC_GetDMAAddress in *. rewrite D1, D3, D4, D6, D9, D10, D11.
  repeat split; assumption.
Qed.

(** ** Pulls from the DMA *)

Lemma Pull_dma_view s t :
  dma_view s = dma_view t ->
  dma_view (fst (FDC_DMA_FIFO_Pull s)) = dma_view (fst (FDC_DMA_FIFO_Pull t))
  /\ snd (FDC_DMA_FIFO_Pull s) = snd (FDC_DMA_FIFO_Pull t).
Proof.
  unfold dma_view. intros H. injection H as H1 H2 H3 H4 H5 H6 H7 H8 H9 H10 H11.
  unfold FDC_DMA_FIFO_Pull, FDC_SetDMAStatus, FDC_GetDMAAddress, FDC_WriteDMAAddress,
    FDC_DMA_block_done. cbn.
  rewrite H3.
  destruct (SectorCount (FDC_DMA t) =? 0);
    [cbn; rewrite ?H1, ?H2, ?H3, ?H4, ?H5, ?H6, ?H7, ?H8, ?H9, ?H10, ?H11; split; reflexivity|].
  cbn. rewrite H6.
  destruct (0 <? FIFO_Size (FDC_DMA t));
    [cbn; rewrite ?H1, ?H2, ?H3, ?H4, ?H5, ?H6, ?H7, ?H8, ?H9, ?H10, ?H11; split; reflexivity|].
  cbn. rewrite ?H1, ?H2, ?H3, ?H4, ?H5, ?H6, ?H7, ?H8, ?H9, ?H10, ?H11.
  destruct (u16 (BytesInSector (FDC_DMA t) - FDC_DMA_FIFO_SIZE) <=? 0);
    cbn; rewrite ?H1, ?H2, ?H3, ?H4, ?H5, ?H6, ?H7, ?H8, ?H9, ?H10, ?H11; split; reflexivity.
Qed.

Lemma Pull_n_dma_view n : forall s t,
  dma_view s = dma_view t ->
  dma_view (fst (FDC_DMA_FIFO_Pull_n n s)) = dma_view (fst (FDC_DMA_FIFO_Pull_n n t)).
Proof.
  induction n as [|n IH]; intros s t H; [exact H|].
  rewrite !Pull_n_eq. cbn [fst]. apply IH. apply Pull_dma_view, H.
Qed.

Lemma Pull_frame s :
  let s' := fst (FDC_DMA_FIFO_Pull s) in
  FDC s' = FDC s /\ FDC_DRIVES s' = FDC_DRIVES s /\ DMADiskWorkSpace s' = DMADiskWorkSpace s
  /\ Disks s' = Disks s /\ STRam s' = STRam s
  /\ PosInBuffer (FDC_DMA s') = PosInBuffer (FDC_DMA s)
  /\ BytesToTransfer (FDC_DMA s') = BytesToTransfer (FDC_DMA s).
Proof.
  unfold FDC_DMA_FIFO_Pull, FDC_SetDMAStatus, FDC_WriteDMAAddress, FDC_DMA_block_done.
  cbn. brks; repeat split; reflexivity.
Qed.

Lemma Pull_n_S n s :
  fst (FDC_DMA_FIFO_Pull_n (S n) s) = fst (FDC_DMA_FIFO_Pull (fst (FDC_DMA_FIFO_Pull_n n s))).
Proof.
  revert s. induction n as [|n IH]; intros s.
  - rewrite Pull_n_eq. reflexivity.
  - rewrite Pull_n_eq. cbn [fst]. rewrite IH. rewrite (Pull_n_eq n s). reflexivity.
Qed.

Lemma Pull_n_add a : forall b s,
  fst (FDC_DMA_FIFO_Pull_n (a + b) s)
  = fst (FDC_DMA_FIFO_Pull_n b (fst (FDC_DMA_FIFO_Pull_n a s))).
Proof.
  induction a as [|a IH]; intros b s; [reflexivity|].
  cbn [Nat.add]. rewrite !Pull_n_eq. cbn [fst]. apply IH.
Qed.

Lemma Pull_n_blocks (k : nat) : forall (s : State),
  FIFO_Size (FDC_DMA s) = 0 ->
  SectorCount (FDC_DMA s) <> 0 ->
  16 * Z.of_nat (S k) < BytesInSector (FDC_DMA s) < 65536 ->
  let s' := fst (FDC_DMA_FIFO_Pull_n (16 * S k) s) in
  FDC_GetDMAAddress s' = Z.land (FDC_GetDMAAddress s + 16 * Z.of_nat (S k)) DMA_address_mask
  /\ FIFO_Size (FDC_DMA s') = 0
  /\ Z.testbit (Status (FDC_DMA s')) 0 = true
  /\ BytesInSector (FDC_DMA s') = BytesInSector (FDC_DMA s) - 16 * Z.of_nat (S k)
  /\ SectorCount (FDC_DMA s') = SectorCount (FDC_DMA s)
  /\ STRam s' = STRam s.
Proof.
  induction k as [|k IH]; intros s Hn Hc HB; cbv zeta.
  - destruct (Pull_block s Hn Hc) as (G1 & G2 & G3 & G4 & G5 & _). cbv zeta in *.
    assert (E : (u16 (BytesInSector (FDC_DMA s) - FDC_DMA_FIFO_SIZE) <=? 0) = false).
    { apply Z.leb_gt. unfold u16, FDC_DMA_FIFO_SIZE. rewrite Z.mod_small; lia. }
    rewrite E in G2, G3, G5. destruct (G5 Hc) as (_ & G6 & G7).
    change (16 * 1)%nat with 16%nat.
    rewrite G1, G2, G3, G4, G6, G7.
    unfold u16, FDC_DMA_FIFO_SIZE. rewrite Z.mod_small by lia.
    repeat split; auto.
  - replace (16 * S (S k))%nat with (16 * S k + 16)%nat by lia.
    rewrite Pull_n_add.
    destruct (IH s Hn Hc ltac:(lia)) as (G1 & G2 & G3 & G4 & G5 & G6).
    set (s1 := fst (FDC_DMA_FIFO_Pull_n (16 * S k) s)) in *.
    assert (Hc1 : SectorCount (FDC_DMA s1) <> 0) by congruence.
    destruct (Pull_block s1 G2 Hc1) as (K1 & K2 & K3 & K4 & K5 & _). cbv zeta in *.
    assert (E : (u16 (BytesInSector (FDC_DMA s1) - FDC_DMA_FIFO_SIZE) <=? 0) = false).
    { apply Z.leb_gt. rewrite G4. unfold u16, FDC_DMA_FIFO_SIZE. rewrite Z.mod_small; lia. }
    rewrite E in K2, K3, K5. destruct (K5 Hc1) as (_ & K6 & K7).
    rewrite K1, K2, K3, K4, K6, K7, G1, G4, G5, G6.
    unfold u16, FDC_DMA_FIFO_SIZE. rewrite Z.mod_small by lia.
    rewrite address_mask_step.
    repeat split; auto; try lia; try (f_equal; lia).
Qed.

(** The 512 pulls of a sector *)
Lemma Pull_n_sector (s : State) :
  FIFO_Size (FDC_DMA s) = 0 ->
  BytesInSector (FDC_DMA s) = FDC_DMA_SECTOR_SIZE ->
  0 < SectorCount (FDC_DMA s) < 65536 ->
  let s' := fst (FDC_DMA_FIFO_Pull_n 512 s) in
  FDC_GetDMAAddress s'
  = Z.land (FDC_GetDMAAddress s + FDC_DMA_SECTOR_SIZE) DMA_address_mask
  /\ SectorCount (FDC_DMA s') = SectorCount (FDC_DMA s) - 1
  /\ BytesInSector (FDC_DMA s') = FDC_DMA_SECTOR_SIZE
  /\ STRam s' = STRam s
  /\ (SectorCount (FDC_DMA s) <> 1 ->
      FIFO_Size (FDC_DMA s') = 0 /\ Z.testbit (Status (FDC_DMA s')) 0 = true)
  /\ (SectorCount (FDC_DMA s) = 1 ->
      FIFO_Size (FDC_DMA s') = FDC_DMA_FIFO_SIZE - 1
      /\ Z.testbit (Status (FDC_DMA s')) 0 = false).
Proof.
  intros Hn HB Hc. cbv zeta.
  change 512%nat with (16 * 31 + 16)%nat. rewrite Pull_n_add.
  destruct (Pull_n_blocks 30 s Hn ltac:(lia)
              ltac:(rewrite HB; unfold FDC_DMA_SECTOR_SIZE; lia)) as (G1 & G2 & G3 & G4 & G5 & G6).
  set (s1 := fst (FDC_DMA_FIFO_Pull_n (16 * 31) s)) in *.
  assert (Hc1 : SectorCount (FDC_DMA s1) <> 0) by (rewrite G5; lia).
  destruct (Pull_block s1 G2 Hc1) as (K1 & K2 & K3 & K4 & K5 & K6). cbv zeta in *.
  rewrite G4, HB in K2, K3, K5, K6.
  change (u16 (FDC_DMA_SECTOR_SIZE - 16 * Z.of_nat 31 - FDC_DMA_FIFO_SIZE) <=? 0)
    with true in K2, K3, K5, K6.
  cbv iota in K2, K3, K5, K6.
  assert (Eu : u16 (SectorCount (FDC_DMA s1) - 1) = SectorCount (FDC_DMA s) - 1).
  { rewrite G5. unfold u16. rewrite Z.mod_small; lia. }
  rewrite Eu in K2, K5, K6.
  rewrite K1, K2, K3, K4, G1, G6.
  change FDC_DMA_FIFO_SIZE with 16. rewrite address_mask_step.
  split; [f_equal; unfold FDC_DMA_SECTOR_SIZE; lia|].
  repeat split; auto.
  - apply K5. lia.
  - apply K5. lia.
  - apply K6. lia.
  - apply K6. lia.
Qed.

(** ** Write Sector on a disk that takes the write *)

Lemma write_env_UpdateAll s : write_env (FDC_UpdateAll s) = write_env s.
Proof.
  unfold write_env.
  destruct (regs_UpdateAll s) as (A1 & _ & _ & A4 & _).
  destruct (store_UpdateAll s) as (_ & B2 & B3).
  destruct (same_heads_head _ _ (heads_UpdateAll s)) as (C1 & _).
  cbv zeta in *. injection A1 as _ _ A1 _ _. rewrite A1, A4, B2, B3, C1. reflexivity.
Qed.

Lemma round_Write c0 s :
  Command (FDC s) = FDCEMU_CMD_WRITESECTORS ->
  FDC_Update_round c0 s = FDC_UpdateWriteSectorsCmd (FDC_UpdateAll s).
Proof.
  intros Hc. unfold FDC_Update_round, FDC_Update_dispatch.
  pose proof (view2_UpdateAll s) as Hv. unfold typeII_view in Hv.
  injection Hv as -> _ _ _ _ _ _ _ _ _ _. rewrite Hc. reflexivity.
Qed.

Lemma unprotected_test s disks sel sr side h :
  write_env s = (disks, sel, sr, side, h) -> Floppy_IsWriteProtected disks sel = false ->
  (0 <=? DriveSelSignal (FDC s)) && Enabled (seldrive s) && DiskInserted (seldrive s)
  && Floppy_IsWriteProtected (Disks s) (DriveSelSignal (FDC s)) = false.
Proof.
  unfold write_env. intros He Hp. injection He as -> -> _ _ _. rewrite Hp. apply andb_false_r.
Qed.

Lemma view2_Update_STR a b s cmd st cr str dma ws m io dens :
  typeII_view s = (cmd, st, cr, str, dma, ws, m, io, dens) ->
  typeII_view (FDC_Update_STR a b s) = (cmd, st, cr, STR_update a b str, dma, ws, m, io, dens).
Proof.
  unfold typeII_view. intros H. injection H as <- <- <- <- <- <- <- <- <-. reflexivity.
Qed.

(** One round of Write Sector on a disk that is not write protected:
    what is left is the [switch] on the state [s1] in which Write
    Protect has been cleared *)
Ltac write_round Hv He Hp s s1 :=
  rewrite (round_Write _ s (proj1 (view2_inv _ _ _ _ _ _ _ _ _ _ Hv)));
  rewrite <- (view2_UpdateAll s) in Hv;
  rewrite <- (write_env_UpdateAll s) in He;
  unfold FDC_UpdateWriteSectorsCmd;
  rewrite (unprotected_test _ _ _ _ _ _ He Hp);
  apply (view2_Update_STR FDC_STR_BIT_WPRT 0) in Hv;
  change (write_env (FDC_UpdateAll s)) with
    (write_env (FDC_Update_STR FDC_STR_BIT_WPRT 0 (FDC_UpdateAll s))) in He;
  set (s1 := FDC_Update_STR FDC_STR_BIT_WPRT 0 (FDC_UpdateAll s)) in *;
  clearbody s1.

Lemma round_Write_pull c0 s cr str dma ws m io dens disks sel sr side h :
  typeII_view s
  = (FDCEMU_CMD_WRITESECTORS, FDCEMU_RUN_WRITESECTORS_WRITEDATA_TRANSFER_LOOP,
     cr, str, dma, ws, m, io, dens) ->
  write_env s = (disks, sel, sr, side, h) ->
  Floppy_IsWriteProtected disks sel = false ->
  0 < BytesToTransfer dma ->
  dens = 1 \/ dens = 2 \/ dens = 4 ->
  let r := FDC_Update_round c0 s in
  typeII_view (fst r)
  = (FDCEMU_CMD_WRITESECTORS, FDCEMU_RUN_WRITESECTORS_WRITEDATA_TRANSFER_LOOP,
     cr, STR_update FDC_STR_BIT_WPRT 0 str, FDC_DMA (fst r), ws, m,
     (IoMem_ff8609 (fst r), IoMem_ff860b (fst r), IoMem_ff860d (fst r)), dens)
  /\ write_env (fst r) = (disks, sel, sr, side, h)
  /\ snd r <> 0
  /\ dma_view (fst r) = dma_view (fst (FDC_DMA_FIFO_Pull s))
  /\ BytesToTransfer (FDC_DMA (fst r)) = BytesToTransfer dma - 1.
Proof.
  intros Hv He Hp Hn Hd.
  pose proof (dma_view_of_view _ _ _ _ _ _ _ _ _ _ Hv) as Hu.
  write_round Hv He Hp s s1.
  destruct (view2_inv _ _ _ _ _ _ _ _ _ _ Hv) as (H1 & H2 & H3 & H4 & H5 & H6 & H7 & H8 & H9).
  rewrite H2. unfold WriteSectors_TRANSFER_LOOP. rewrite H5.
  apply Z.ltb_lt in Hn. rewrite Hn. cbv zeta. cbn [fst snd].
  match goal with |- context [FDC_DMA_FIFO_Pull ?x] =>
    destruct (Pull_frame x) as (F1 & F2 & F3 & F4 & F5 & F6 & F7);
    destruct (Pull_dma_view x s) as (F8 & _);
      [rewrite Hu; exact (dma_view_of_view s1 _ _ _ _ _ _ _ _ _ Hv)|]
  end.
  cbv zeta in *.
  split; [|split; [|split; [|split]]].
  - unfold typeII_view, seldrive, drive. rewrite F1, F2, F3, F5. cbn.
    unfold seldrive, drive in H9. rewrite H1, H2, H3, H4, H6, H7, H9. reflexivity.
  - unfold write_env, seldrive, drive. rewrite F1, F2, F4. exact He.
  - apply TransferByte_nonzero; [|auto].
    unfold seldrive, drive. rewrite F1, F2. cbn.
    exact (eq_ind_r (fun d => d = 1 \/ d = 2 \/ d = 4) Hd H9).
  - exact F8.
  - rewrite F7. reflexivity.
Qed.

Lemma STR_update_idem a x : STR_update a 0 (STR_update a 0 x) = STR_update a 0 x.
Proof.
  apply Z.bits_inj'. intros i Hi.
  destruct (Z.ltb_spec i 8) as [H8 | H8].
  - rewrite !STR_update_bit by lia. rewrite Z.bits_0, !orb_false_r, <- andb_assoc, andb_diag.
    reflexivity.
  - unfold STR_update at 1 3. rewrite !u8_testbit by lia.
    destruct (Z.ltb_spec i 8); [lia | reflexivity].
Qed.

Lemma round_Write_START c0 s cr str dma ws m io dens disks sel sr side h disks' :
  typeII_view s
  = (FDCEMU_CMD_WRITESECTORS, FDCEMU_RUN_WRITESECTORS_WRITEDATA_TRANSFER_START,
     cr, str, dma, ws, m, io, dens) ->
  write_env s = (disks, sel, sr, side, h) ->
  Floppy_IsWriteProtected disks sel = false ->
  Floppy_WriteSectors disks sel (sector_to_write s) sr h side
  = Some (disks', FDC_DMA_SECTOR_SIZE) ->
  let r := FDC_Update_round c0 s in
  typeII_view (fst r)
  = (FDCEMU_CMD_WRITESECTORS, FDCEMU_RUN_WRITESECTORS_WRITEDATA_TRANSFER_LOOP,
     cr, STR_update FDC_STR_BIT_WPRT 0 str,
     set_PosInBuffer 0 (set_BytesToTransfer FDC_DMA_SECTOR_SIZE dma),
     (if 0 <? SectorCount dma then ws
      else store_prefix (repeat 0 (Z.to_nat FDC_DMA_SECTOR_SIZE)) ws), m, io, dens)
  /\ write_env (fst r) = (disks', sel, sr, side, h)
  /\ snd r = 0.
Proof.
  intros Hv He Hp Hw.
  assert (Hsec : sector_to_write s
                 = if 0 <? SectorCount dma then STRam_sector m (let '(a, b, c) := io in
                      Z.lor (Z.lor (Z.shiftl a 16) (Z.shiftl b 8)) c)
                   else repeat 0 (Z.to_nat FDC_DMA_SECTOR_SIZE)).
  { unfold sector_to_write, FDC_GetDMAAddress.
    destruct (view2_inv _ _ _ _ _ _ _ _ _ _ Hv) as (_ & _ & _ & _ & <- & _ & <- & <- & _).
    reflexivity. }
  rewrite Hsec in Hw. clear Hsec.
  write_round Hv He Hp s s1.
  destruct (view2_inv _ _ _ _ _ _ _ _ _ _ Hv) as (H1 & H2 & H3 & H4 & H5 & H6 & H7 & H8 & H9).
  unfold write_env in He. injection He as E1 E2 E3 E4 E5.
  rewrite H2. unfold WriteSectors_TRANSFER_START, FDC_WriteSectorToFloppy.
  rewrite H5, E2, E3.
  unfold seldrive in E5, H9. rewrite E2 in E5, H9. unfold drive in *.
  destruct (0 <? SectorCount dma) eqn:Ec.
  - rewrite E1, E4, E5, H7. unfold FDC_GetDMAAddress.
    rewrite <- H8 in Hw. rewrite Hw. cbn.
    unfold typeII_view, write_env, seldrive, drive. cbn.
    rewrite H1, H3, H4, H5, H6, H7, E2, E3, E4, E5, H9. rewrite <- H8. repeat split.
  - cbn [Disks set_DMADiskWorkSpace FDC FDC_DRIVES]. rewrite E1, E4, E5, Hw. cbn.
    unfold typeII_view, write_env, seldrive, drive. cbn.
    rewrite H1, H3, H4, H5, H6, H7, E2, E3, E4, E5, H9. rewrite <- H8. repeat split.
Qed.

Lemma round_Write_done c0 s cr str dma ws m io dens disks sel sr side h :
  typeII_view s
  = (FDCEMU_CMD_WRITESECTORS, FDCEMU_RUN_WRITESECTORS_WRITEDATA_TRANSFER_LOOP,
     cr, str, dma, ws, m, io, dens) ->
  write_env s = (disks, sel, sr, side, h) ->
  Floppy_IsWriteProtected disks sel = false ->
  BytesToTransfer dma <= 0 ->
  dens = 1 \/ dens = 2 \/ dens = 4 ->
  let r := FDC_Update_round c0 s in
  typeII_view (fst r)
  = (FDCEMU_CMD_WRITESECTORS, FDCEMU_RUN_WRITESECTORS_CRC, cr,
     STR_update FDC_STR_BIT_WPRT 0 str,
     set_BytesToTransfer (BytesToTransfer dma - 1) dma, ws, m, io, dens)
  /\ write_env (fst r) = (disks, sel, sr, side, h)
  /\ snd r <> 0.
Proof.
  intros Hv He Hp Hn Hd.
  write_round Hv He Hp s s1.
  destruct (view2_inv _ _ _ _ _ _ _ _ _ _ Hv) as (H1 & H2 & H3 & H4 & H5 & H6 & H7 & H8 & H9).
  rewrite H2. unfold WriteSectors_TRANSFER_LOOP. rewrite H5.
  assert (Hn' : (0 <? BytesToTransfer dma) = false) by (apply Z.ltb_ge; exact Hn).
  rewrite Hn'. cbv zeta. cbn [fst snd].
  split; [|split].
  - unfold typeII_view in *. cbn. injection Hv as <- _ <- <- <- <- <- <- <-. reflexivity.
  - exact He.
  - apply TransferByte_nonzero; [|auto].
    exact (eq_ind_r (fun d => d = 1 \/ d = 2 \/ d = 4) Hd H9).
Qed.

Lemma round_Write_CRC c0 s cr str dma ws m io dens disks sel sr side h :
  typeII_view s
  = (FDCEMU_CMD_WRITESECTORS, FDCEMU_RUN_WRITESECTORS_CRC, cr, str, dma, ws, m, io, dens) ->
  write_env s = (disks, sel, sr, side, h) ->
  Floppy_IsWriteProtected disks sel = false ->
  tst cr FDC_COMMAND_BIT_MULTIPLE_SECTOR = false ->
  let r := FDC_Update_round c0 s in
  typeII_view (fst r)
  = (FDCEMU_CMD_WRITESECTORS, FDCEMU_RUN_WRITESECTORS_COMPLETE, cr,
     STR_update FDC_STR_BIT_WPRT 0 str, dma, ws, m, io, dens)
  /\ write_env (fst r) = (disks, sel, sr, side, h)
  /\ snd r <> 0.
Proof.
  intros Hv He Hp Hm.
  write_round Hv He Hp s s1.
  destruct (view2_inv _ _ _ _ _ _ _ _ _ _ Hv) as (H1 & H2 & H3 & H4 & H5 & H6 & H7 & H8 & H9).
  rewrite H2. unfold TypeII_CRC. rewrite H3, Hm. cbv zeta. cbn [fst snd].
  split; [|split; [exact He | discriminate]].
  unfold typeII_view in *. cbn. injection Hv as <- _ <- <- <- <- <- <- <-. reflexivity.
Qed.

Lemma round_Write_COMPLETE c0 s cr str dma ws m io dens disks sel sr side h :
  typeII_view s
  = (FDCEMU_CMD_WRITESECTORS, FDCEMU_RUN_WRITESECTORS_COMPLETE, cr, str, dma, ws, m, io, dens) ->
  write_env s = (disks, sel, sr, side, h) ->
  Floppy_IsWriteProtected disks sel = false ->
  let r := FDC_Update_round c0 s in
  typeII_view (fst r)
  = (FDCEMU_CMD_MOTOR_STOP, FDCEMU_RUN_MOTOR_STOP, cr,
     STR_update FDC_STR_BIT_BUSY 0 (STR_update FDC_STR_BIT_WPRT 0 str),
     dma, ws, m, io, dens)
  /\ write_env (fst r) = (disks, sel, sr, side, h)
  /\ snd r = 0
  /\ FDC_IRQ_asserted (fst r) = true.
Proof.
  intros Hv He Hp.
  write_round Hv He Hp s s1.
  destruct (view2_inv _ _ _ _ _ _ _ _ _ _ Hv) as (H1 & H2 & H3 & H4 & H5 & H6 & H7 & H8 & H9).
  rewrite H2. cbv zeta. split; [|split; [|split]].
  - unfold typeII_view in *. unfold_prims. cbn.
    injection Hv as _ _ <- <- <- <- <- <- <-. reflexivity.
  - exact He.
  - reflexivity.
  - unfold FDC_CmdCompleteCommon. cbn [fst]. unfold FDC_IRQ_asserted. cbn.
    rewrite u8_bit by lia. rewrite Z.land_spec. const_bits. rewrite andb_false_r. reflexivity.
Qed.

(** ** Ticks of Write Sector *)

Ltac tick_frame He :=
  rewrite ?(up_to_timer typeII_view _ _ view2_timer He);
  rewrite ?(up_to_timer write_env _ _ (fun _ _ => eq_refl) He);
  rewrite ?(up_to_timer FDC_DMA _ _ (fun _ _ => eq_refl) He);
  rewrite ?(up_to_timer IoMem_ff8609 _ _ (fun _ _ => eq_refl) He);
  rewrite ?(up_to_timer IoMem_ff860b _ _ (fun _ _ => eq_refl) He);
  rewrite ?(up_to_timer IoMem_ff860d _ _ (fun _ _ => eq_refl) He);
  rewrite ?(up_to_timer dma_view _ _ (fun _ _ => eq_refl) He);
  rewrite ?(up_to_timer FDC_IRQ_asserted _ _ (fun _ _ => eq_refl) He).

(** The header has been found: the sector goes to the disk and the first
    byte is pulled from the DMA *)
Lemma tick_Write_first t s cr str dma ws m io dens disks sel sr side h disks' :
  typeII_view s
  = (FDCEMU_CMD_WRITESECTORS, FDCEMU_RUN_WRITESECTORS_WRITEDATA_TRANSFER_START,
     cr, str, dma, ws, m, io, dens) ->
  write_env s = (disks, sel, sr, side, h) ->
  Floppy_IsWriteProtected disks sel = false ->
  Floppy_IsWriteProtected disks' sel = false ->
  Floppy_WriteSectors disks sel (sector_to_write s) sr h side
  = Some (disks', FDC_DMA_SECTOR_SIZE) ->
  dens = 1 \/ dens = 2 \/ dens = 4 ->
  (2 <= tick_fuel t)%nat ->
  exists s',
    run (tick_events t) s = Some s'
    /\ typeII_view s'
       = (FDCEMU_CMD_WRITESECTORS, FDCEMU_RUN_WRITESECTORS_WRITEDATA_TRANSFER_LOOP,
          cr, STR_update FDC_STR_BIT_WPRT 0 str, FDC_DMA s',
          (if 0 <? SectorCount dma then ws
           else store_prefix (repeat 0 (Z.to_nat FDC_DMA_SECTOR_SIZE)) ws), m,
          (IoMem_ff8609 s', IoMem_ff860b s', IoMem_ff860d s'), dens)
    /\ write_env s' = (disks', sel, sr, side, h)
    /\ dma_view s' = dma_view (fst (FDC_DMA_FIFO_Pull s))
    /\ BytesToTransfer (FDC_DMA s') = FDC_DMA_SECTOR_SIZE - 1.
Proof.
  intros Hv He Hp Hp' Hw Hd Hf. destruct t as [[n fuel] p]. unfold tick_fuel in Hf.
  cbn [fst snd] in Hf.
  set (s0 := set_FDC_Timer None
               (set_CyclesGlobalClockCounter (u64 (CyclesGlobalClockCounter s + n)) s)).
  assert (Hv0 : typeII_view s0 = typeII_view s) by reflexivity. rewrite <- Hv0 in Hv.
  assert (He0 : write_env s0 = (disks, sel, sr, side, h)) by exact He.
  assert (Hw0 : Floppy_WriteSectors disks sel (sector_to_write s0) sr h side
                = Some (disks', FDC_DMA_SECTOR_SIZE)) by exact Hw.
  destruct (round_Write_START 0 s0 _ _ _ _ _ _ _ _ _ _ _ _ _ Hv He0 Hp Hw0) as (Hv1 & He1 & Hc1).
  destruct (round_Write_pull 0 _ _ _ _ _ _ _ _ _ _ _ _ _ Hv1 He1 Hp')
    as (Hv2 & He2 & Hc2 & G1 & G2); [cbn; unfold FDC_DMA_SECTOR_SIZE; lia | exact Hd |].
  destruct (tick_round2 n fuel p s Hc1) as (s' & Hrun & Heq); auto.
  { eapply view2_not_null; [exact Hv1 | discriminate]. }
  exists s'. split; [exact Hrun|].
  tick_frame Heq. fold s0.
  rewrite STR_update_idem in Hv2.
  split; [exact Hv2|]. split; [exact He2|]. split; [|exact G2].
  rewrite G1. apply Pull_dma_view.
  rewrite (dma_view_of_view _ _ _ _ _ _ _ _ _ _ Hv1).
  change (dma_view s) with (dma_view s0).
  rewrite (dma_view_of_view _ _ _ _ _ _ _ _ _ _ Hv). reflexivity.
Qed.

Lemma tick_Write_pull t s cr str dma ws m io dens disks sel sr side h :
  typeII_view s
  = (FDCEMU_CMD_WRITESECTORS, FDCEMU_RUN_WRITESECTORS_WRITEDATA_TRANSFER_LOOP,
     cr, str, dma, ws, m, io, dens) ->
  write_env s = (disks, sel, sr, side, h) ->
  Floppy_IsWriteProtected disks sel = false ->
  STR_update FDC_STR_BIT_WPRT 0 str = str ->
  0 < BytesToTransfer dma ->
  dens = 1 \/ dens = 2 \/ dens = 4 ->
  (1 <= tick_fuel t)%nat ->
  exists s',
    run (tick_events t) s = Some s'
    /\ typeII_view s'
       = (FDCEMU_CMD_WRITESECTORS, FDCEMU_RUN_WRITESECTORS_WRITEDATA_TRANSFER_LOOP,
          cr, str, FDC_DMA s', ws, m,
          (IoMem_ff8609 s', IoMem_ff860b s', IoMem_ff860d s'), dens)
    /\ write_env s' = (disks, sel, sr, side, h)
    /\ dma_view s' = dma_view (fst (FDC_DMA_FIFO_Pull s))
    /\ BytesToTransfer (FDC_DMA s') = BytesToTransfer dma - 1.
Proof.
  intros Hv He Hp Hs Hn Hd Hf. destruct t as [[n fuel] p]. unfold tick_fuel in Hf.
  cbn [fst snd] in Hf.
  set (s0 := set_FDC_Timer None
               (set_CyclesGlobalClockCounter (u64 (CyclesGlobalClockCounter s + n)) s)).
  assert (Hv0 : typeII_view s0 = typeII_view s) by reflexivity. rewrite <- Hv0 in Hv.
  assert (He0 : write_env s0 = (disks, sel, sr, side, h)) by exact He.
  destruct (round_Write_pull 0 _ _ _ _ _ _ _ _ _ _ _ _ _ Hv He0 Hp Hn Hd)
    as (Hv2 & He2 & Hc2 & G1 & G2).
  destruct (tick_round1 n fuel p s Hc2 Hf) as (s' & Hrun & Heq).
  exists s'. split; [exact Hrun|].
  tick_frame Heq. fold s0. rewrite Hs in Hv2.
  split; [exact Hv2|]. split; [exact He2|]. split; [|exact G2].
  rewrite G1. apply Pull_dma_view. reflexivity.
Qed.

Lemma tick_Write_done t s cr str dma ws m io dens disks sel sr side h :
  typeII_view s
  = (FDCEMU_CMD_WRITESECTORS, FDCEMU_RUN_WRITESECTORS_WRITEDATA_TRANSFER_LOOP,
     cr, str, dma, ws, m, io, dens) ->
  write_env s = (disks, sel, sr, side, h) ->
  Floppy_IsWriteProtected disks sel = false ->
  STR_update FDC_STR_BIT_WPRT 0 str = str ->
  BytesToTransfer dma <= 0 ->
  dens = 1 \/ dens = 2 \/ dens = 4 ->
  (1 <= tick_fuel t)%nat ->
  exists s',
    run (tick_events t) s = Some s'
    /\ typeII_view s'
       = (FDCEMU_CMD_WRITESECTORS, FDCEMU_RUN_WRITESECTORS_CRC, cr, str,
          set_BytesToTransfer (BytesToTransfer dma - 1) dma, ws, m, io, dens)
    /\ write_env s' = (disks, sel, sr, side, h).
Proof.
  intros Hv He Hp Hs Hn Hd Hf. destruct t as [[n fuel] p]. unfold tick_fuel in Hf.
  cbn [fst snd] in Hf.
  set (s0 := set_FDC_Timer None
               (set_CyclesGlobalClockCounter (u64 (CyclesGlobalClockCounter s + n)) s)).
  assert (Hv0 : typeII_view s0 = typeII_view s) by reflexivity. rewrite <- Hv0 in Hv.
  assert (He0 : write_env s0 = (disks, sel, sr, side, h)) by exact He.
  destruct (round_Write_done 0 _ _ _ _ _ _ _ _ _ _ _ _ _ Hv He0 Hp Hn Hd) as (Hv2 & He2 & Hc2).
  destruct (tick_round1 n fuel p s Hc2 Hf) as (s' & Hrun & Heq).
  exists s'. split; [exact Hrun|].
  tick_frame Heq. fold s0. rewrite Hs in Hv2. split; [exact Hv2 | exact He2].
Qed.

Lemma tick_Write_CRC t s cr str dma ws m io dens disks sel sr side h :
  typeII_view s
  = (FDCEMU_CMD_WRITESECTORS, FDCEMU_RUN_WRITESECTORS_CRC, cr, str, dma, ws, m, io, dens) ->
  write_env s = (disks, sel, sr, side, h) ->
  Floppy_IsWriteProtected disks sel = false ->
  STR_update FDC_STR_BIT_WPRT 0 str = str ->
  tst cr FDC_COMMAND_BIT_MULTIPLE_SECTOR = false ->
  (1 <= tick_fuel t)%nat ->
  exists s',
    run (tick_events t) s = Some s'
    /\ typeII_view s'
       = (FDCEMU_CMD_WRITESECTORS, FDCEMU_RUN_WRITESECTORS_COMPLETE, cr, str,
          dma, ws, m, io, dens)
    /\ write_env s' = (disks, sel, sr, side, h).
Proof.
  intros Hv He Hp Hs Hm Hf. destruct t as [[n fuel] p]. unfold tick_fuel in Hf.
  cbn [fst snd] in Hf.
  set (s0 := set_FDC_Timer None
               (set_CyclesGlobalClockCounter (u64 (CyclesGlobalClockCounter s + n)) s)).
  assert (Hv0 : typeII_view s0 = typeII_view s) by reflexivity. rewrite <- Hv0 in Hv.
  assert (He0 : write_env s0 = (disks, sel, sr, side, h)) by exact He.
  destruct (round_Write_CRC 0 _ _ _ _ _ _ _ _ _ _ _ _ _ Hv He0 Hp Hm) as (Hv2 & He2 & Hc2).
  destruct (tick_round1 n fuel p s Hc2 Hf) as (s' & Hrun & Heq).
  exists s'. split; [exact Hrun|].
  tick_frame Heq. fold s0. rewrite Hs in Hv2. split; [exact Hv2 | exact He2].
Qed.

Lemma tick_Write_complete t s cr str dma ws m io dens disks sel sr side h :
  typeII_view s
  = (FDCEMU_CMD_WRITESECTORS, FDCEMU_RUN_WRITESECTORS_COMPLETE, cr, str, dma, ws, m, io, dens) ->
  write_env s = (disks, sel, sr, side, h) ->
  Floppy_IsWriteProtected disks sel = false ->
  STR_update FDC_STR_BIT_WPRT 0 str = str ->
  (2 <= tick_fuel t)%nat ->
  exists s',
    run (tick_events t) s = Some s'
    /\ typeII_view s'
       = (FDCEMU_CMD_MOTOR_STOP, FDCEMU_RUN_MOTOR_STOP_WAIT, cr,
          STR_update FDC_STR_BIT_BUSY 0 str, dma, ws, m, io, dens)
    /\ Disks s' = disks
    /\ FDC_IRQ_asserted s' = true.
Proof.
  intros Hv He Hp Hs Hf. destruct t as [[n fuel] p]. unfold tick_fuel in Hf.
  cbn [fst snd] in Hf.
  set (s0 := set_FDC_Timer None
               (set_CyclesGlobalClockCounter (u64 (CyclesGlobalClockCounter s + n)) s)).
  assert (Hv0 : typeII_view s0 = typeII_view s) by reflexivity. rewrite <- Hv0 in Hv.
  assert (He0 : write_env s0 = (disks, sel, sr, side, h)) by exact He.
  destruct (round_Write_COMPLETE 0 _ _ _ _ _ _ _ _ _ _ _ _ _ Hv He0 Hp) as (Hv1 & He1 & Hc1 & Hi1).
  rewrite Hs in Hv1.
  destruct (round_MotorStop_start2 0 _ _ _ _ _ _ _ _ Hv1) as (Hv2 & Hc2 & Hi2).
  destruct (view2_inv _ _ _ _ _ _ _ _ _ _ Hv1) as (V1 & V2 & _).
  pose proof (round_MotorStop_disks 0 _ V1 V2) as Hk.
  destruct (tick_round2 n fuel p s Hc1) as (s' & Hrun & Heq); auto.
  { eapply view2_not_null; [exact Hv1 | discriminate]. }
  exists s'. split; [exact Hrun|].
  tick_frame Heq. rewrite (up_to_timer Disks _ _ (fun _ _ => eq_refl) Heq). fold s0.
  split; [exact Hv2|]. split; [|auto].
  rewrite Hk. unfold write_env in He1. injection He1 as -> _ _ _ _. reflexivity.
Qed.

(** [k] bytes are left: [k] ticks pull them *)
Lemma run_Write_pulls (k : nat) :
  forall ticks s cr str dma ws m io dens disks sel sr side h,
    typeII_view s
    = (FDCEMU_CMD_WRITESECTORS, FDCEMU_RUN_WRITESECTORS_WRITEDATA_TRANSFER_LOOP,
       cr, str, dma, ws, m, io, dens) ->
    write_env s = (disks, sel, sr, side, h) ->
    Floppy_IsWriteProtected disks sel = false ->
    STR_update FDC_STR_BIT_WPRT 0 str = str ->
    BytesToTransfer dma = Z.of_nat k ->
    dens = 1 \/ dens = 2 \/ dens = 4 ->
    length ticks = k ->
    Forall (fun t => (1 <= tick_fuel t)%nat) ticks ->
    exists s',
      run (timer_events ticks) s = Some s'
      /\ typeII_view s'
         = (FDCEMU_CMD_WRITESECTORS, FDCEMU_RUN_WRITESECTORS_WRITEDATA_TRANSFER_LOOP,
            cr, str, FDC_DMA s', ws, m,
            (IoMem_ff8609 s', IoMem_ff860b s', IoMem_ff860d s'), dens)
      /\ write_env s' = (disks, sel, sr, side, h)
      /\ dma_view s' = dma_view (fst (FDC_DMA_FIFO_Pull_n k s))
      /\ BytesToTransfer (FDC_DMA s') = 0.
Proof.
  induction k as [|k IH];
    intros ticks s cr str dma ws m io dens disks sel sr side h Hv He Hp Hs Hn Hd Hlen Hfuel.
  - destruct ticks; [|discriminate]. exists s.
    destruct (view2_inv _ _ _ _ _ _ _ _ _ _ Hv) as (H1 & H2 & H3 & H4 & H5 & H6 & H7 & H8 & H9).
    split; [reflexivity|]. split.
    { rewrite Hv, H5, H8. reflexivity. }
    rewrite H5. repeat split; auto.
  - destruct ticks as [|t ticks]; [discriminate|].
    inversion Hfuel as [|? ? Hf Hfuel']; subst.
    destruct (tick_Write_pull t s _ _ _ _ _ _ _ _ _ _ _ _ Hv He Hp Hs)
      as (s1 & Hrun & Hv1 & He1 & G1 & G2); auto; [lia|].
    destruct (IH ticks s1 _ _ _ _ _ _ _ _ _ _ _ _ Hv1 He1 Hp Hs)
      as (s' & Hrun' & Hv' & He' & K1 & K2); auto; [lia|].
    exists s'. rewrite run_ticks_cons, Hrun.
    split; [exact Hrun'|]. split; [exact Hv'|]. split; [exact He'|]. split; [|exact K2].
    rewrite K1, Pull_n_eq. cbn [fst]. apply Pull_n_dma_view. exact G1.
Qed.

(** X20. Write Sector on a disk that is not write protected.  From the
    state in which the header of the sector has been found, with the
    multiple-sector bit clear and the disk image taking the sector,
    515 timer calls (every handler call having fuel for two rounds,
    nothing but the timer acting on the controller) complete the
    command: the motor-stop pseudo command runs, BUSY and Write Protect
    are clear, the interrupt line is asserted and the memory is
    unchanged.  The disk image is the one the write of the sector has
    given, the sector being the 512 bytes of memory at the DMA address,
    or 512 zero bytes when the DMA sector counter was 0.  With the
    counter at 0 the zero bytes are also in the work buffer, the DMA
    address has not moved and the DMA error is flagged.  With the
    counter at n > 0, the FIFO empty and a fresh sector countdown, the
    DMA address has advanced by 512 under the address mask and the
    counter is n - 1; for n > 1 the FIFO is empty and no DMA error is
    flagged; for n = 1 the counter reaches 0 when the last block of 16
    bytes is fetched, so that the last 15 pulls find the DMA off: 15
    bytes stay in the FIFO and the DMA error is flagged. *)
Theorem X20_write_sector (s : State) (disks' : Floppy) (ticks : list Tick) :
  Command (FDC s) = FDCEMU_CMD_WRITESECTORS ->
  CommandState (FDC s) = FDCEMU_RUN_WRITESECTORS_WRITEDATA_TRANSFER_START ->
  Floppy_IsWriteProtected (Disks s) (DriveSelSignal (FDC s)) = false ->
  Floppy_IsWriteProtected disks' (DriveSelSignal (FDC s)) = false ->
  Floppy_WriteSectors (Disks s) (DriveSelSignal (FDC s)) (sector_to_write s) (SR (FDC s))
    (HeadTrack (seldrive s)) (SideSignal (FDC s))
  = Some (disks', FDC_DMA_SECTOR_SIZE) ->
  tst (CR (FDC s)) FDC_COMMAND_BIT_MULTIPLE_SECTOR = false ->
  Density (seldrive s) = 1 \/ Density (seldrive s) = 2 \/ Density (seldrive s) = 4 ->
  length ticks = 515%nat ->
  Forall (fun t => (2 <= tick_fuel t)%nat) ticks ->
  exists s',
    run (timer_events ticks) s = Some s'
    /\ Command (FDC s') = FDCEMU_CMD_MOTOR_STOP
    /\ STR_bit FDC_STR_BIT_BUSY s' = false
    /\ STR_bit FDC_STR_BIT_WPRT s' = false
    /\ FDC_IRQ_asserted s' = true
    /\ Disks s' = disks'
    /\ STRam s' = STRam s
    /\ (SectorCount (FDC_DMA s) = 0 ->
        DMADiskWorkSpace s'
        = store_prefix (repeat 0 (Z.to_nat FDC_DMA_SECTOR_SIZE)) (DMADiskWorkSpace s)
        /\ FDC_GetDMAAddress s' = FDC_GetDMAAddress s
        /\ SectorCount (FDC_DMA s') = 0
        /\ Z.testbit (Status (FDC_DMA s')) 0 = false)
    /\ (0 < SectorCount (FDC_DMA s) < 65536 ->
        FIFO_Size (FDC_DMA s) = 0 ->
        BytesInSector (FDC_DMA s) = FDC_DMA_SECTOR_SIZE ->
        DMADiskWorkSpace s' = DMADiskWorkSpace s
        /\ FDC_GetDMAAddress s'
           = Z.land (FDC_GetDMAAddress s + FDC_DMA_SECTOR_SIZE) DMA_address_mask
        /\ SectorCount (FDC_DMA s') = SectorCount (FDC_DMA s) - 1
        /\ (SectorCount (FDC_DMA s) <> 1 ->
            FIFO_Size (FDC_DMA s') = 0 /\ Z.testbit (Status (FDC_DMA s')) 0 = true)
        /\ (SectorCount (FDC_DMA s) = 1 ->
            FIFO_Size (FDC_DMA s') = FDC_DMA_FIFO_SIZE - 1
            /\ Z.testbit (Status (FDC_DMA s')) 0 = false)).
Proof.
  intros Hcmd Hst Hp Hp' Hw Hm Hd Hticks Hfuel.
  assert (Hfuel1 : Forall (fun t => (1 <= tick_fuel t)%nat) ticks).
  { eapply Forall_impl; [|exact Hfuel]. cbn. intros; lia. }
  assert (Hv : typeII_view s
               = (FDCEMU_CMD_WRITESECTORS, FDCEMU_RUN_WRITESECTORS_WRITEDATA_TRANSFER_START,
                  CR (FDC s), STR (FDC s), FDC_DMA s, DMADiskWorkSpace s, STRam s,
                  (IoMem_ff8609 s, IoMem_ff860b s, IoMem_ff860d s), Density (seldrive s))).
  { unfold typeII_view. rewrite Hcmd, Hst. reflexivity. }
  assert (He : write_env s
               = (Disks s, DriveSelSignal (FDC s), SR (FDC s), SideSignal (FDC s),
                  HeadTrack (seldrive s))) by reflexivity.
  pose proof (STR_update_idem FDC_STR_BIT_WPRT (STR (FDC s))) as Hs.
  destruct ticks as [|t1 ticks]; [discriminate|].
  inversion Hfuel as [|? ? Hf1 Hfuel']; subst.
  inversion Hfuel1 as [|? ? _ Hfuel1']; subst.
  destruct (tick_Write_first t1 s _ _ _ _ _ _ _ _ _ _ _ _ _ Hv He Hp Hp' Hw Hd Hf1)
    as (s1 & Hrun1 & Hv1 & He1 & G1 & G2).
  rewrite (firstn_skipn_ticks 511 ticks) in Hfuel1', Hfuel' |- *.
  apply Forall_app in Hfuel1'. destruct Hfuel1' as [Hfa Hfb].
  destruct (run_Write_pulls 511 (firstn 511 ticks) s1 _ _ _ _ _ _ _ _ _ _ _ _ Hv1 He1 Hp' Hs)
    as (s2 & Hrun2 & Hv2 & He2 & K1 & K2); auto.
  { rewrite length_firstn. cbn in Hticks. lia. }
  destruct (skipn_3 ticks 511) as (ta & tb & tc & Hsk); [cbn in Hticks; lia|].
  rewrite Hsk in *.
  inversion Hfb as [|? ? Hfta Hfb1]; subst. inversion Hfb1 as [|? ? Hftb Hfb2]; subst.
  apply Forall_app in Hfuel'. destruct Hfuel' as [_ Hfc].
  inversion Hfc as [|? ? _ Hfc1]; subst. inversion Hfc1 as [|? ? _ Hfc2]; subst.
  inversion Hfc2 as [|? ? Hftc _]; subst.
  destruct (tick_Write_done ta s2 _ _ _ _ _ _ _ _ _ _ _ _ Hv2 He2 Hp' Hs)
    as (s3 & Hrun3 & Hv3 & He3); auto; [lia|].
  destruct (tick_Write_CRC tb s3 _ _ _ _ _ _ _ _ _ _ _ _ Hv3 He3 Hp' Hs Hm Hftb)
    as (s4 & Hrun4 & Hv4 & He4).
  destruct (tick_Write_complete tc s4 _ _ _ _ _ _ _ _ _ _ _ _ Hv4 He4 Hp' Hs Hftc)
    as (s5 & Hrun5 & Hv5 & Hk5 & Hi).
  exists s5. split.
  { rewrite run_ticks_cons, Hrun1, run_ticks_app, Hrun2.
    rewrite run_ticks_cons, Hrun3, run_ticks_cons, Hrun4, run_ticks_cons, Hrun5.
    reflexivity. }
  (* the DMA has been asked for 512 bytes *)
  assert (Hd5 : dma_view s5 = dma_view (fst (FDC_DMA_FIFO_Pull_n 512 s))).
  { rewrite (dma_view_of_view _ _ _ _ _ _ _ _ _ _ Hv5).
    rewrite <- (dma_view_of_view _ _ _ _ _ _ _ _ _ _ Hv3).
    transitivity (dma_view s2).
    { rewrite (dma_view_of_view _ _ _ _ _ _ _ _ _ _ Hv3).
      rewrite (dma_view_of_view _ _ _ _ _ _ _ _ _ _ Hv2). reflexivity. }
    rewrite K1. change 512%nat with (S 511). rewrite (Pull_n_eq 511 s). cbn [fst].
    apply Pull_n_dma_view. exact G1. }
  destruct (view2_inv _ _ _ _ _ _ _ _ _ _ Hv5) as (V1 & V2 & V3 & V4 & V5 & V6 & V7 & V8 & V9).
  unfold dma_view in Hd5.
  injection Hd5 as D1 D2 D3 D4 D5 D6 D7 D8 D9 D10 D11.
  split; [exact V1|].
  unfold STR_bit.
  rewrite !(tst_bit _ FDC_STR_BIT_BUSY 0), !(tst_bit _ FDC_STR_BIT_WPRT 6)
    by first [reflexivity | lia].
  rewrite V4. str_bits. cbn.
  split; [reflexivity|]. split; [reflexivity|].
  split; [exact Hi|]. split; [exact Hk5|]. split; [exact V7|].
  unfold FDC_GetDMAAddress in *. rewrite V6, D1, D3, D6, D9, D10, D11.
  split.
  - intros Hc0. rewrite Hc0. cbn [Z.ltb].
    destruct (Pull_n_off 512 s Hc0 ltac:(lia)) as (P1 & P2 & P3 & P4 & P5 & P6 & P7).
    cbv zeta in *. unfold FDC_GetDMAAddress in P3.
    repeat split; assumption.
  - intros Hc Hn HB.
    destruct (Pull_n_sector s Hn HB Hc) as (P1 & P2 & P3 & P4 & P5 & P6).
    cbv zeta in *. unfold FDC_GetDMAAddress in P1.
    assert (E : (0 <? SectorCount (FDC_DMA s)) = true) by (apply Z.ltb_lt; lia).
    rewrite E. repeat split; try assumption.
    + apply P5; assumption.
    + apply P5; assumption.
    + apply P6; assumption.
    + apply P6; assumption.
Qed.

End Properties.

(** * The claims on the test machine *)

Lemma test_power_on_reachable : reachable test_power_on.
Proof.
  exact (reach_step (EvInsertFloppy 0) _ _
           (reach_step (EvSetDriveSide 0x07 0x05) _ _ (reach_power_on _ _ _) eq_refl) eq_refl).
Qed.

Lemma test_after_reachable es s :
  reachable s ->
  match run es s with Some _ => true | None => false end = true ->
  reachable (test_after es s).
Proof.
  intros Hr H. unfold test_after. destruct (run es s) as [s'|] eqn:E; [|discriminate].
  exact (reachable_run es s s' Hr E).
Qed.


Lemma test_ticks_fuel2 n : Forall (fun t => (2 <= tick_fuel t)%nat) (test_ticks n).
Proof.
  apply Forall_forall. intros t Ht. apply repeat_spec in Ht. subst t. cbn. lia.
Qed.

Lemma test_motor_stop_reachable : reachable test_motor_stop.
Proof. apply test_after_reachable; [apply test_power_on_reachable | vm_compute; reflexivity]. Qed.

(** C1 on the test machine: while Restore is busy and can be replaced, a
    Seek (type I) is stored and a Read Sector (type II) is dropped. *)
Lemma C1_witness :
  STR_bit FDC_STR_BIT_BUSY test_restore = true
  /\ CR (FDC (FDC_WriteCommandRegister 0x18 test_restore)) = 0x18
  /\ FDC_WriteCommandRegister 0x80 test_restore = test_restore.
Proof.
  assert (Hb : STR_bit FDC_STR_BIT_BUSY test_restore = true) by (vm_compute; reflexivity).
  split; [exact Hb|]. split.
  - destruct (C1_command_write_while_busy 0x18 test_restore Hb) as [H _].
    apply H. right. vm_compute. auto.
  - destruct (C1_command_write_while_busy 0x80 test_restore Hb) as [_ H].
    apply H. vm_compute. intros [H4 | [_ [[H1 _] | [_ H2]]]]; discriminate.
Defined.

(** C2 as the specification states it fails once Restore has completed:
    BUSY is clear and the command tag is the motor-stop pseudo command,
    not Null. *)
Lemma C2_counterexample :
  reachable test_motor_stop
  /\ ~ (STR_bit FDC_STR_BIT_BUSY test_motor_stop = true
        <-> Command (FDC test_motor_stop) <> FDCEMU_CMD_NULL).
Proof.
  split; [apply test_motor_stop_reachable|].
  vm_compute. intros [_ H]. assert (E : false = true) by (apply H; discriminate).
  discriminate.
Qed.

(** C2 on the test machine: Restore has completed, the motor-stop pseudo
    command runs and BUSY is clear. *)
Lemma C2_witness :
  reachable test_motor_stop /\ STR_bit FDC_STR_BIT_BUSY test_motor_stop = false.
Proof.
  split; [apply test_motor_stop_reachable|].
  apply (proj2 (C2_busy_iff_command_in_flight test_motor_stop test_motor_stop_reachable)).
  vm_compute. reflexivity.
Defined.

(** C3 on the test machine: Read Sector of sector 1 with the sector
    counter at 0, from the state in which its header has been found. *)
Lemma C3_witness :
  exists s',
    run (timer_events (test_ticks 515)) test_read_start = Some s'
    /\ Command (FDC s') = FDCEMU_CMD_MOTOR_STOP
    /\ STR_bit FDC_STR_BIT_RNF s' = false
    /\ PosInBuffer (FDC_DMA s') = 512
    /\ STRam s' = STRam test_read_start.
Proof.
  destruct (proj2 (proj2 (@C3_sector_count_zero test_platform))
              test_read_start (test_sector 1 0 0) (test_ticks 515))
    as (s' & H0 & H1 & H2 & H3 & H4 & H5 & H6 & H7 & H8 & H9 & H10 & H11 & H12 & H13 & H14).
  - vm_compute. reflexivity.
  - vm_compute. reflexivity.
  - vm_compute. reflexivity.
  - vm_compute. reflexivity.
  - vm_compute. reflexivity.
  - vm_compute. reflexivity.
  - left. vm_compute. reflexivity.
  - vm_compute. reflexivity.
  - apply test_ticks_fuel2.
  - exists s'. split; [exact H0|]. split; [exact H1|]. split.
    + rewrite H3. vm_compute. reflexivity.
    + split; [exact H6 | exact H14].
Defined.


(** C5 on the test machine: the selected head after Restore, and a
    Step-Out with the head at track 0. *)
Lemma C5_witness :
  0 <= HeadTrack (seldrive test_motor_stop) <= FDC_PHYSICAL_MAX_TRACK
  /\ HeadTrack (seldrive (fst (FDC_UpdateStepCmd test_step_out))) = 0.
Proof.
  split.
  - exact (proj2 (proj1 (@C5_head_track_range test_platform) test_motor_stop
                    test_motor_stop_reachable)).
  - assert (H0 : HeadTrack (seldrive test_step_out) = 0) by (vm_compute; reflexivity).
    assert (Hd : StepDirection (FDC test_step_out) = -1) by (vm_compute; reflexivity).
    destruct (proj2 (proj2 (proj2 (@C5_head_track_range test_platform))) test_step_out H0)
      as [H _].
    exact (H Hd).
Defined.

(** C6 as the specification states it fails for a pull while the sector
    counter is 0: the pull gives 0 and the low half of the shadow keeps
    the 0x55 written before. *)
Lemma C6_counterexample :
  SectorCount (FDC_DMA test_shadow) = 0
  /\ snd (FDC_DMA_FIFO_Pull test_shadow) = 0
  /\ Z.land (ff8604_recent_val (FDC_DMA (fst (FDC_DMA_FIFO_Pull test_shadow)))) 0xff = 0x55
  /\ Z.land (ff8604_recent_val (FDC_DMA (fst (FDC_DMA_FIFO_Pull test_shadow)))) 0xff
     <> Z.land (snd (FDC_DMA_FIFO_Pull test_shadow)) 0xff.
Proof. vm_compute. repeat split; discriminate. Qed.

(** C6 on the test machine: a push of 0x55 after power on, and a pull
    while the sector counter is 0. *)
Lemma C6_witness :
  Z.land (ff8604_recent_val (FDC_DMA (FDC_DMA_FIFO_Push 0x55 test_power_on))) 0xff = 0x55
  /\ ff8604_recent_val (FDC_DMA (fst (FDC_DMA_FIFO_Pull test_shadow)))
     = ff8604_recent_val (FDC_DMA test_shadow).
Proof.
  split.
  - assert (Hb : 0 <= 0x55 < 256) by lia.
    assert (Hs : 0 <= FIFO_Size (FDC_DMA test_power_on) < FDC_DMA_FIFO_SIZE)
      by (vm_compute; split; [discriminate | reflexivity]).
    assert (Hl : length (FIFO (FDC_DMA test_power_on)) = Z.to_nat FDC_DMA_FIFO_SIZE)
      by (vm_compute; reflexivity).
    exact (proj1 (@C6_shadow_low_half test_platform) 0x55 test_power_on Hb Hs Hl).
  - assert (Hc : SectorCount (FDC_DMA test_shadow) = 0) by (vm_compute; reflexivity).
    exact (proj2 (proj2 (proj2 (@C6_shadow_low_half test_platform)) test_shadow Hc)).
Defined.

(** C7 on the test machine (an ST): 0xff written to the high and to the
    low byte of the DMA address. *)
Lemma C7_witness :
  IoMem_ff8609 (DmaAddress_bput 0xff8609 0xff test_power_on) = 0x3f
  /\ DMA_address_aligned (DmaAddress_bput 0xff860d 0xff test_motor_stop).
Proof.
  split.
  - destruct (proj1 (@C7_dma_address test_platform) 0xff8609 0xff test_power_on)
      as (_ & _ & H).
    destruct (H eq_refl eq_refl) as [H1 _].
    rewrite H1. vm_compute. reflexivity.
  - exact (proj2 (proj2 (proj2 (@C7_dma_address test_platform)))
             test_motor_stop 0xff860d 0xff test_motor_stop_reachable).
Defined.

(** C8 as the specification states it fails: Write Track, accepted by
    the idle controller, sets Record Not Found, but no interrupt is
    raised and the command tag is Null, not the motor-stop pseudo
    command. *)
Lemma C8_counterexample :
  let s' := FDC_WriteCommandRegister 0xF0 test_power_on in
  STR_bit FDC_STR_BIT_BUSY test_power_on = false
  /\ STR_bit FDC_STR_BIT_RNF s' = true
  /\ FDC_IRQ_asserted s' = false
  /\ MFP_FDCHDC_Inputs s' = MFP_FDCHDC_Inputs test_power_on
  /\ Command (FDC s') = FDCEMU_CMD_NULL
  /\ Command (FDC s') <> FDCEMU_CMD_MOTOR_STOP.
Proof. vm_compute. repeat split; discriminate. Qed.

(** C8 on the test machine: Write Track written to the idle
    controller. *)
Lemma C8_witness :
  STR_bit FDC_STR_BIT_RNF (FDC_WriteCommandRegister 0xF0 test_power_on) = true
  /\ Command (FDC (FDC_WriteCommandRegister 0xF0 test_power_on)) = FDCEMU_CMD_NULL.
Proof.
  assert (Hb : STR_bit FDC_STR_BIT_BUSY test_power_on = false) by (vm_compute; reflexivity).
  destruct (C8_write_track 0xF0 test_power_on eq_refl) as [_ H].
  destruct (H Hb) as (H1 & _ & H3 & _).
  split; [exact H1 | exact H3].
Defined.

(** C9 on the test machine: the Track Register written through the
    window at 8604 while Restore is busy. *)
Lemma C9_witness :
  STR_bit FDC_STR_BIT_BUSY test_busy_track_select = true
  /\ TR (FDC (FDC_DiskController_WriteWord false 0x05 0x33 test_busy_track_select)) = 0x33.
Proof.
  split; [vm_compute; reflexivity|].
  assert (H1 : tst (Mode (FDC_DMA test_busy_track_select)) 0x10 = false)
    by (vm_compute; reflexivity).
  assert (H2 : Z.land (Mode (FDC_DMA test_busy_track_select)) 0x0008 <> 0x0008)
    by (vm_compute; discriminate).
  assert (H3 : FDC_GetEmulationMode 0x05 test_busy_track_select = FDC_EMULATION_MODE_INTERNAL)
    by (vm_compute; reflexivity).
  assert (H4 : Z.shiftr (Z.land (Mode (FDC_DMA test_busy_track_select)) 0x6) 1 = 1)
    by (vm_compute; reflexivity).
  destruct (C9_track_sector_write 0 test_busy_track_select) as (_ & _ & H).
  destruct (H 0x05 0x33 H1 H2 H3) as [HT _].
  rewrite (HT H4). vm_compute. reflexivity.
Defined.

(** X18 on the test machine: the state can be reached, and the timer
    handler does not come back from it whatever its fuel is. *)
Lemma X18_witness :
  reachable test_restore_stray
  /\ Command (FDC test_restore_stray) = FDCEMU_CMD_RESTORE
  /\ forall fuel p, FDC_InterruptHandler_Update fuel p test_restore_stray = None.
Proof.
  assert (Hr : reachable test_restore_stray)
    by (apply test_after_reachable; [apply test_power_on_reachable | vm_compute; reflexivity]).
  assert (H1 : Command (FDC test_restore_stray) = FDCEMU_CMD_RESTORE)
    by (vm_compute; reflexivity).
  assert (H2 : CommandState (FDC test_restore_stray) = FDCEMU_RUN_RESTORE_SEEKTOTRACKZERO_LOOP)
    by (vm_compute; reflexivity).
  assert (H3 : TR (FDC test_restore_stray) = 0) by (vm_compute; reflexivity).
  assert (H4 : drive_enabled test_restore_stray = true) by (vm_compute; reflexivity).
  assert (H5 : HeadTrack (seldrive test_restore_stray) = 0) by (vm_compute; reflexivity).
  exact (conj Hr (conj H1 (fun fuel p =>
           X18_restore_stray_no_return fuel p test_restore_stray H1 H2 H3 H4 H5))).
Defined.

(** * More of the code on the test machine *)

Lemma test_events_reachable es :
  match run es test_power_on with Some _ => true | None => false end = true ->
  reachable (test_after es test_power_on).
Proof. apply test_after_reachable, test_power_on_reachable. Qed.

(** X2 on the test machine: 16 bytes pushed with the sector counter at
    1 are in memory at the DMA address 0, and the address is 16. *)
Lemma X2_witness :
  FIFO_Size (FDC_DMA test_dma_one) = 0
  /\ SectorCount (FDC_DMA test_dma_one) <> 0
  /\ FIFO_Size (FDC_DMA (FDC_DMA_FIFO_Push_list test_block test_dma_one)) = 0
  /\ FDC_GetDMAAddress (FDC_DMA_FIFO_Push_list test_block test_dma_one) = 16
  /\ STRam (FDC_DMA_FIFO_Push_list test_block test_dma_one) 15 = 16.
Proof.
  assert (H1 : FIFO_Size (FDC_DMA test_dma_one) = 0) by (vm_compute; reflexivity).
  assert (H2 : length (FIFO (FDC_DMA test_dma_one)) = Z.to_nat FDC_DMA_FIFO_SIZE)
    by (vm_compute; reflexivity).
  assert (H3 : SectorCount (FDC_DMA test_dma_one) <> 0) by (vm_compute; discriminate).
  pose proof (X2_push_block test_block test_dma_one H1 H2 H3) as H. cbv zeta in H.
  destruct H as [_ H]. destruct (H eq_refl) as (G1 & G2 & G3 & _).
  split; [exact H1|]. split; [exact H3|]. split; [exact G3|].
  split.
  - rewrite G2. vm_compute. reflexivity.
  - rewrite G1. vm_compute. reflexivity.
Defined.

(** X3 on the test machine: a sector pushed with the counter at 1 leaves
    the counter at 0 and the address at 512. *)
Lemma X3_witness :
  BytesInSector (FDC_DMA test_dma_one) = FDC_DMA_SECTOR_SIZE
  /\ SectorCount (FDC_DMA test_dma_one) = 1
  /\ SectorCount (FDC_DMA (FDC_DMA_FIFO_Push_list test_bytes test_dma_one)) = 0
  /\ FDC_GetDMAAddress (FDC_DMA_FIFO_Push_list test_bytes test_dma_one) = 512.
Proof.
  assert (H1 : FIFO_Size (FDC_DMA test_dma_one) = 0) by (vm_compute; reflexivity).
  assert (H2 : length (FIFO (FDC_DMA test_dma_one)) = Z.to_nat FDC_DMA_FIFO_SIZE)
    by (vm_compute; reflexivity).
  assert (H3 : BytesInSector (FDC_DMA test_dma_one) = FDC_DMA_SECTOR_SIZE)
    by (vm_compute; reflexivity).
  assert (H4 : SectorCount (FDC_DMA test_dma_one) = 1) by (vm_compute; reflexivity).
  assert (H5 : 0 < SectorCount (FDC_DMA test_dma_one) < 65536) by (rewrite H4; lia).
  assert (H0 : length test_bytes = Z.to_nat FDC_DMA_SECTOR_SIZE) by (vm_compute; reflexivity).
  pose proof (X3_push_sector test_bytes test_dma_one H0 H1 H2 H3 H5) as H. cbv zeta in H.
  destruct H as (G1 & G2 & G3 & G4 & G5).
  split; [exact H3|]. split; [exact H4|]. split.
  - rewrite G1, H4. reflexivity.
  - rewrite G4. vm_compute. reflexivity.
Defined.

(** X4 on the test machine: with two sectors to go the 16 pulls return
    the 16 bytes of memory; when the block is the last one of the last
    sector only the first byte comes and the DMA error is flagged. *)
Lemma X4_witness :
  snd (FDC_DMA_FIFO_Pull_n 16 test_pull) = map (fun k => Z.of_nat k + 1) (seq 0 16)
  /\ Z.testbit (Status (FDC_DMA (fst (FDC_DMA_FIFO_Pull_n 16 test_pull)))) 0 = true
  /\ snd (FDC_DMA_FIFO_Pull_n 16 test_pull_last) = 241 :: repeat 0 15
  /\ Z.testbit (Status (FDC_DMA (fst (FDC_DMA_FIFO_Pull_n 16 test_pull_last)))) 0 = false.
Proof.
  assert (H1 : FIFO_Size (FDC_DMA test_pull) = 0) by (vm_compute; reflexivity).
  assert (H2 : SectorCount (FDC_DMA test_pull) <> 0) by (vm_compute; discriminate).
  assert (H3 : FIFO_Size (FDC_DMA test_pull_last) = 0) by (vm_compute; reflexivity).
  assert (H4 : SectorCount (FDC_DMA test_pull_last) <> 0) by (vm_compute; discriminate).
  pose proof (X4_pull_block test_pull H1 H2) as H. cbv zeta in H.
  destruct H as (_ & _ & _ & _ & H & _).
  assert (N : (if u16 (BytesInSector (FDC_DMA test_pull) - FDC_DMA_FIFO_SIZE) <=? 0
               then u16 (SectorCount (FDC_DMA test_pull) - 1)
               else SectorCount (FDC_DMA test_pull)) <> 0) by (vm_compute; discriminate).
  destruct (H N) as (G1 & _ & G3).
  pose proof (X4_pull_block test_pull_last H3 H4) as K. cbv zeta in K.
  destruct K as (_ & _ & _ & _ & _ & K).
  assert (Z0 : (if u16 (BytesInSector (FDC_DMA test_pull_last) - FDC_DMA_FIFO_SIZE) <=? 0
                then u16 (SectorCount (FDC_DMA test_pull_last) - 1)
                else SectorCount (FDC_DMA test_pull_last)) = 0) by (vm_compute; reflexivity).
  destruct (K Z0) as (K1 & _ & K3).
  split; [rewrite G1; vm_compute; reflexivity|]. split; [exact G3|].
  split; [rewrite K1; vm_compute; reflexivity | exact K3].
Defined.

(** X5 on the test machine: with the sector counter at 1, a mode word
    that toggles bit 8 resets the counter, one that does not keeps it. *)
Lemma X5_witness :
  SectorCount (FDC_DMA test_dma_one) = 1
  /\ SectorCount (FDC_DMA (FDC_DmaModeControl_WriteWord false 0x110 test_dma_one)) = 0
  /\ SectorCount (FDC_DMA (FDC_DmaModeControl_WriteWord false 0x90 test_dma_one)) = 1.
Proof.
  assert (H1 : SectorCount (FDC_DMA test_dma_one) = 1) by (vm_compute; reflexivity).
  assert (Ht : Z.testbit 0x110 8 <> Z.testbit (Mode (FDC_DMA test_dma_one)) 8)
    by (vm_compute; discriminate).
  assert (Hk : Z.testbit 0x90 8 = Z.testbit (Mode (FDC_DMA test_dma_one)) 8)
    by (vm_compute; reflexivity).
  pose proof (X5_dma_mode_toggle 0x110 test_dma_one) as H. cbv zeta in H.
  destruct H as (_ & _ & _ & _ & _ & H & _). destruct (H Ht) as (_ & G & _).
  pose proof (X5_dma_mode_toggle 0x90 test_dma_one) as K. cbv zeta in K.
  destruct K as (_ & _ & _ & _ & _ & _ & K). destruct (K Hk) as (_ & G' & _).
  split; [exact H1|]. split; [exact G|]. rewrite G'. exact H1.
Defined.

Lemma test_dma_one_reachable : reachable test_dma_one.
Proof. apply test_events_reachable. vm_compute. reflexivity. Qed.

Lemma test_restore_reachable : reachable test_restore.
Proof. apply test_events_reachable. vm_compute. reflexivity. Qed.

(** X6 on the test machine. *)
Lemma X6_witness :
  reachable test_dma_one
  /\ exists v, snd (FDC_DmaStatus_ReadWord false test_dma_one) = Some v
       /\ Z.testbit v 0 = Z.testbit (Status (FDC_DMA test_dma_one)) 0
       /\ Z.testbit v 1 = negb (SectorCount (FDC_DMA test_dma_one) =? 0)
       /\ Z.testbit v 2 = false
       /\ (forall k, 3 <= k < 16 ->
             Z.testbit v k = Z.testbit (ff8604_recent_val (FDC_DMA test_dma_one)) k).
Proof.
  exact (conj test_dma_one_reachable (X6_dma_status_word test_dma_one test_dma_one_reachable)).
Defined.

(** X7 on the test machine: 0x1234 written to the Data Register is read
    back as 0x34. *)
Lemma X7_witness :
  Z.shiftr (Z.land (Mode (FDC_DMA test_data_select)) 0x6) 1 = 3
  /\ snd (FDC_DiskControllerStatus_ReadWord false 0x05 0
            (FDC_DiskController_WriteWord false 0x05 0x1234 test_data_select)) = Some 0x34.
Proof.
  assert (H1 : tst (Mode (FDC_DMA test_data_select)) 0x10 = false) by (vm_compute; reflexivity).
  assert (H2 : Z.land (Mode (FDC_DMA test_data_select)) 0x0008 <> 0x0008)
    by (vm_compute; discriminate).
  assert (H3 : FDC_GetEmulationMode 0x05 test_data_select = FDC_EMULATION_MODE_INTERNAL)
    by (vm_compute; reflexivity).
  assert (H4 : Z.shiftr (Z.land (Mode (FDC_DMA test_data_select)) 0x6) 1 = 3)
    by (vm_compute; reflexivity).
  assert (H5 : Z.shiftr (Z.land (Mode (FDC_DMA test_data_select)) 0x6) 1 <> 0)
    by (rewrite H4; discriminate).
  pose proof (X7_register_window_round_trip 0x05 0x1234 0 test_data_select H1 H2 H3 H5) as H.
  cbv zeta in H. destruct H as (G & _).
  split; [exact H4|]. rewrite G. reflexivity.
Defined.

(** X8 on the test machine: 5 written to the sector counter is stored,
    the read returns the shadow (0). *)
Lemma X8_witness :
  tst (Mode (FDC_DMA test_count_select)) 0x10 = true
  /\ SectorCount (FDC_DMA (FDC_DiskController_WriteWord false 0x05 0x05 test_count_select)) = 5
  /\ snd (FDC_DiskControllerStatus_ReadWord false 0x05 0
            (FDC_DiskController_WriteWord false 0x05 0x05 test_count_select)) = Some 0.
Proof.
  assert (H1 : tst (Mode (FDC_DMA test_count_select)) 0x10 = true) by (vm_compute; reflexivity).
  pose proof (X8_sector_count_register 0x05 0x05 0 test_count_select H1) as H.
  cbv zeta in H. destruct H as (G1 & _ & _ & G4 & _).
  split; [exact H1|]. split.
  - rewrite G1. reflexivity.
  - rewrite G4. vm_compute. reflexivity.
Defined.

(** X9 on the test machine: after Restore has completed the interrupt is
    requested; reading the status clears it and shows Track 0.  After a
    Force Interrupt with the immediate condition the request stays. *)
Lemma X9_witness :
  FDC_IRQ_asserted test_motor_stop = true
  /\ FDC_IRQ_asserted (fst (FDC_DiskControllerStatus_ReadWord false 0x05 0 test_motor_stop))
     = false
  /\ STR_bit FDC_STR_BIT_TR00
       (fst (FDC_DiskControllerStatus_ReadWord false 0x05 0 test_motor_stop)) = true
  /\ FDC_IRQ_asserted
       (fst (FDC_DiskControllerStatus_ReadWord false 0x05 0 test_force_immediate)) = true.
Proof.
  assert (A0 : FDC_IRQ_asserted test_motor_stop = true) by (vm_compute; reflexivity).
  assert (A1 : tst (Mode (FDC_DMA test_motor_stop)) 0x10 = false) by (vm_compute; reflexivity).
  assert (A2 : Z.land (Mode (FDC_DMA test_motor_stop)) 0x0008 <> 0x0008)
    by (vm_compute; discriminate).
  assert (A3 : FDC_GetEmulationMode 0x05 test_motor_stop = FDC_EMULATION_MODE_INTERNAL)
    by (vm_compute; reflexivity).
  assert (A4 : Z.shiftr (Z.land (Mode (FDC_DMA test_motor_stop)) 0x6) 1 = 0)
    by (vm_compute; reflexivity).
  assert (A5 : tst (InterruptCond (FDC test_motor_stop)) FDC_INTERRUPT_COND_IMMEDIATE = false)
    by (vm_compute; reflexivity).
  assert (A6 : StatusTypeI (FDC test_motor_stop) = true) by (vm_compute; reflexivity).
  assert (A7 : drive_enabled test_motor_stop = true) by (vm_compute; reflexivity).
  assert (A8 : (HeadTrack (seldrive test_motor_stop) =? 0) = true) by (vm_compute; reflexivity).
  pose proof (X9_status_read 0x05 0 test_motor_stop A1 A2 A3 A4) as H. cbv zeta in H.
  destruct H as (_ & G1 & _ & _ & G4). destruct (G4 A6) as (_ & _ & G5).
  assert (B1 : tst (Mode (FDC_DMA test_force_immediate)) 0x10 = false)
    by (vm_compute; reflexivity).
  assert (B2 : Z.land (Mode (FDC_DMA test_force_immediate)) 0x0008 <> 0x0008)
    by (vm_compute; discriminate).
  assert (B3 : FDC_GetEmulationMode 0x05 test_force_immediate = FDC_EMULATION_MODE_INTERNAL)
    by (vm_compute; reflexivity).
  assert (B4 : Z.shiftr (Z.land (Mode (FDC_DMA test_force_immediate)) 0x6) 1 = 0)
    by (vm_compute; reflexivity).
  assert (B5 : tst (InterruptCond (FDC test_force_immediate)) FDC_INTERRUPT_COND_IMMEDIATE
               = true) by (vm_compute; reflexivity).
  assert (B6 : FDC_IRQ_asserted test_force_immediate = true) by (vm_compute; reflexivity).
  pose proof (X9_status_read 0x05 0 test_force_immediate B1 B2 B3 B4) as K. cbv zeta in K.
  destruct K as (_ & _ & K2 & _).
  split; [exact A0|]. split; [exact (G1 A5)|]. split.
  - rewrite (G5 A7). exact A8.
  - exact (K2 B5 B6).
Defined.

(** X10 on the test machine: Force Interrupt 0xD8 written while Restore
    is busy clears BUSY and requests the interrupt. *)
Lemma X10_witness :
  STR_bit FDC_STR_BIT_BUSY test_restore = true
  /\ STR_bit FDC_STR_BIT_BUSY (FDC_WriteCommandRegister 0xd8 test_restore) = false
  /\ FDC_IRQ_asserted (FDC_WriteCommandRegister 0xd8 test_restore) = true.
Proof.
  assert (Hb : STR_bit FDC_STR_BIT_BUSY test_restore = true) by (vm_compute; reflexivity).
  assert (H0 : Z.land 0xd8 0xf0 = 0xd0) by reflexivity.
  pose proof (X10_force_interrupt 0xd8 test_restore H0) as H. cbv zeta in H.
  destruct H as (_ & G2 & _ & _ & _ & G6 & _).
  split; [exact Hb|]. split; [exact G2|]. rewrite G6. reflexivity.
Defined.

(** X11 on the test machine: Step-In (0x48) written to the idle
    controller. *)
Lemma X11_witness :
  STR_bit FDC_STR_BIT_BUSY test_power_on = false
  /\ Command (FDC (FDC_WriteCommandRegister 0x48 test_power_on)) = FDCEMU_CMD_STEP
  /\ StepDirection (FDC (FDC_WriteCommandRegister 0x48 test_power_on)) = 1
  /\ STR_bit FDC_STR_BIT_BUSY (FDC_WriteCommandRegister 0x48 test_power_on) = true.
Proof.
  assert (Hb : STR_bit FDC_STR_BIT_BUSY test_power_on = false) by (vm_compute; reflexivity).
  pose proof (X11_command_decode 0x48 test_power_on FDCEMU_CMD_STEP FDCEMU_RUN_STEP_ONCE Hb
                ltac:(do 4 right; left; reflexivity)) as H.
  cbv zeta in H. destruct H as (G1 & _ & _ & G4 & _ & _ & _ & G8 & _).
  split; [exact Hb|]. split; [exact G1|]. split; [|exact G4].
  rewrite G8. reflexivity.
Defined.

(** X12 on a machine whose disk is write protected. *)
Lemma X12_witness :
  Command (FDC test_write_protected) = FDCEMU_CMD_WRITESECTORS
  /\ exists s', run (tick_events (300, 3%nat, 0)) test_write_protected = Some s'
       /\ Command (FDC s') = FDCEMU_CMD_MOTOR_STOP
       /\ STR_bit FDC_STR_BIT_BUSY s' = false
       /\ STR_bit FDC_STR_BIT_WPRT s' = true
       /\ FDC_IRQ_asserted s' = true
       /\ Disks s' = Disks test_write_protected
       /\ STRam s' = STRam test_write_protected
       /\ FDC_DMA s' = FDC_DMA test_write_protected.
Proof.
  assert (H1 : Command (FDC test_write_protected) = FDCEMU_CMD_WRITESECTORS)
    by (vm_compute; reflexivity).
  assert (H2 : drive_enabled test_write_protected = true) by (vm_compute; reflexivity).
  assert (H3 : DiskInserted (seldrive test_write_protected) = true) by (vm_compute; reflexivity).
  assert (H4 : Floppy_IsWriteProtected (Disks test_write_protected)
                 (DriveSelSignal (FDC test_write_protected)) = true) by reflexivity.
  assert (H5 : (2 <= 3)%nat) by lia.
  exact (conj H1 (X12_write_sector_write_protected test_write_protected 300 3%nat 0
                    H1 H2 H3 H4 H5)).
Defined.

(** X13, X14 and X15 on the test machine. *)
Lemma X13_witness :
  reachable test_dma_one
  /\ 0 < BytesInSector (FDC_DMA test_dma_one) <= FDC_DMA_SECTOR_SIZE
  /\ BytesInSector (FDC_DMA test_dma_one) mod FDC_DMA_FIFO_SIZE = 0.
Proof.
  destruct (X13_dma_counters test_dma_one test_dma_one_reachable) as (G1 & G2 & _).
  exact (conj test_dma_one_reachable (conj G1 G2)).
Defined.

Lemma X14_witness :
  reachable test_restore
  /\ 0 <= DriveSelSignal (FDC test_restore)
  /\ 0 < FDC_TransferByte_FdcCycles 1 test_restore.
Proof.
  assert (H0 : 0 <= DriveSelSignal (FDC test_restore)) by (vm_compute; discriminate).
  destruct (X14_selected_drive test_restore test_restore_reachable) as (_ & _ & _ & G).
  destruct (G H0) as (_ & _ & G3).
  exact (conj test_restore_reachable (conj H0 (G3 1 ltac:(lia)))).
Defined.

Lemma X15_witness :
  reachable test_restore
  /\ Command (FDC test_restore) <> FDCEMU_CMD_NULL
  /\ exists c o, FDC_Timer test_restore = Some (c, o).
Proof.
  assert (H0 : Command (FDC test_restore) <> FDCEMU_CMD_NULL) by (vm_compute; discriminate).
  exact (conj test_restore_reachable
           (conj H0 (X15_command_has_timer test_restore test_restore_reachable H0))).
Defined.

(** X16 on the test machine: port A going from 7 to 4 (bits 1 and 0 low)
    selects drive 0 on side 1; from 7 to 3 (bit 2 low) drive 1. *)
Lemma X16_witness :
  DriveSelSignal (FDC (FDC_SetDriveSide 0x07 0x04 test_no_drive)) = 0
  /\ SideSignal (FDC (FDC_SetDriveSide 0x07 0x04 test_no_drive)) = 1
  /\ DriveSelSignal (FDC (FDC_SetDriveSide 0x07 0x03 test_no_drive)) = 1.
Proof.
  pose proof (X16_set_drive_side 0x07 0x04 test_no_drive) as H. cbv zeta in H.
  destruct H as (_ & H). destruct (H ltac:(discriminate)) as (G1 & G2 & _).
  pose proof (X16_set_drive_side 0x07 0x03 test_no_drive) as K. cbv zeta in K.
  destruct K as (_ & K). destruct (K ltac:(discriminate)) as (_ & K2 & _).
  split; [rewrite G2; reflexivity|]. split; [rewrite G1; reflexivity|].
  rewrite K2. reflexivity.
Defined.

(** X17 on the test machine: drive 5 does not exist; the disk of drive 0
    ejected. *)
Lemma X17_witness :
  FDC_EjectFloppy 5 test_power_on = test_power_on
  /\ DiskInserted (drive 0 test_power_on) = true
  /\ DiskInserted (drive 0 (FDC_EjectFloppy 0 (FDC_InsertFloppy 0 test_power_on))) = false.
Proof.
  assert (H0 : length (FDC_DRIVES test_power_on) = Z.to_nat MAX_FLOPPYDRIVES)
    by (vm_compute; reflexivity).
  assert (H1 : DiskInserted (drive 0 test_power_on) = true) by (vm_compute; reflexivity).
  destruct (X17_drive_events 5 test_power_on H0) as (A & _).
  destruct (A eq_refl true) as (_ & _ & A3).
  pose proof (X17_drive_events 0 test_power_on H0) as B. destruct B as (_ & B).
  pose proof (B eq_refl) as B'. cbv zeta in B'. destruct B' as (_ & _ & B3 & _).
  exact (conj A3 (conj H1 B3)).
Defined.

(** X19 on the test machine: Read Sector of sector 1 with the DMA
    address at 0x010200 and the sector counter at 1; the sector is in
    memory at that address. *)
Lemma X19_witness :
  exists s',
    run (timer_events (test_ticks 515)) test_read_dma_start = Some s'
    /\ Command (FDC s') = FDCEMU_CMD_MOTOR_STOP
    /\ map (fun k => STRam s' (0x010200 + Z.of_nat k)) (seq 0 512) = test_sector 1 0 0
    /\ FDC_GetDMAAddress s' = 0x010400
    /\ SectorCount (FDC_DMA s') = 0.
Proof.
  assert (A1 : Command (FDC test_read_dma_start) = FDCEMU_CMD_READSECTORS)
    by (vm_compute; reflexivity).
  assert (A2 : CommandState (FDC test_read_dma_start)
               = FDCEMU_RUN_READSECTORS_READDATA_TRANSFER_START) by (vm_compute; reflexivity).
  assert (A3 : sector_under_head test_read_dma_start = Some (test_sector 1 0 0))
    by (vm_compute; reflexivity).
  assert (A4 : length (test_sector 1 0 0) = 512%nat) by (vm_compute; reflexivity).
  assert (A5 : (512 <= length (DMADiskWorkSpace test_read_dma_start))%nat)
    by (apply Nat.leb_le; vm_compute; reflexivity).
  assert (A6 : tst (CR (FDC test_read_dma_start)) FDC_COMMAND_BIT_MULTIPLE_SECTOR = false)
    by (vm_compute; reflexivity).
  assert (A7 : Density (seldrive test_read_dma_start) = 1
               \/ Density (seldrive test_read_dma_start) = 2
               \/ Density (seldrive test_read_dma_start) = 4) by (left; vm_compute; reflexivity).
  assert (A8 : 0 < SectorCount (FDC_DMA test_read_dma_start) < 65536)
    by (split; vm_compute; reflexivity).
  assert (A9 : BytesInSector (FDC_DMA test_read_dma_start) = FDC_DMA_SECTOR_SIZE)
    by (vm_compute; reflexivity).
  assert (A10 : FIFO_Size (FDC_DMA test_read_dma_start) = 0) by (vm_compute; reflexivity).
  assert (A11 : length (FIFO (FDC_DMA test_read_dma_start)) = Z.to_nat FDC_DMA_FIFO_SIZE)
    by (vm_compute; reflexivity).
  assert (A12 : length (test_ticks 515) = 515%nat) by (vm_compute; reflexivity).
  destruct (@X19_read_sector_dma test_platform test_read_dma_start (test_sector 1 0 0)
              (test_ticks 515) A1 A2 A3 A4 A5 A6 A7 A8 A9 A10 A11 A12 (test_ticks_fuel2 515))
    as (s' & H0 & H1 & H2 & H3 & H4 & H5 & H6 & H7 & H8 & H9 & H10 & H11).
  exists s'. split; [exact H0|]. split; [exact H1|]. split; [|split].
  - rewrite H6. vm_compute. reflexivity.
  - rewrite H7. vm_compute. reflexivity.
  - rewrite H8. vm_compute. reflexivity.
Defined.

(** X20 on the test machine: Write Sector of sector 1 with the DMA
    address at 0x010200 and the sector counter at 1; the command ends
    with the DMA error flagged. *)
Lemma X20_witness :
  exists s',
    run (timer_events (test_ticks 515)) test_write_dma_start = Some s'
    /\ Command (FDC s') = FDCEMU_CMD_MOTOR_STOP
    /\ FDC_GetDMAAddress s' = 0x010400
    /\ SectorCount (FDC_DMA s') = 0
    /\ FIFO_Size (FDC_DMA s') = 15
    /\ Z.testbit (Status (FDC_DMA s')) 0 = false.
Proof.
  assert (A1 : Command (FDC test_write_dma_start) = FDCEMU_CMD_WRITESECTORS)
    by (vm_compute; reflexivity).
  assert (A2 : CommandState (FDC test_write_dma_start)
               = FDCEMU_RUN_WRITESECTORS_WRITEDATA_TRANSFER_START) by (vm_compute; reflexivity).
  assert (A3 : Floppy_IsWriteProtected (Disks test_write_dma_start)
                 (DriveSelSignal (FDC test_write_dma_start)) = false) by reflexivity.
  assert (A4 : @Floppy_IsWriteProtected test_platform tt
                 (DriveSelSignal (FDC test_write_dma_start)) = false)
    by reflexivity.
  assert (A5 : Floppy_WriteSectors (Disks test_write_dma_start)
                 (DriveSelSignal (FDC test_write_dma_start))
                 (sector_to_write test_write_dma_start) (SR (FDC test_write_dma_start))
                 (HeadTrack (seldrive test_write_dma_start))
                 (SideSignal (FDC test_write_dma_start))
               = Some (tt : @Floppy test_platform, FDC_DMA_SECTOR_SIZE))
    by (vm_compute; reflexivity).
  assert (A6 : tst (CR (FDC test_write_dma_start)) FDC_COMMAND_BIT_MULTIPLE_SECTOR = false)
    by (vm_compute; reflexivity).
  assert (A7 : Density (seldrive test_write_dma_start) = 1
               \/ Density (seldrive test_write_dma_start) = 2
               \/ Density (seldrive test_write_dma_start) = 4) by (left; vm_compute; reflexivity).
  assert (A8 : length (test_ticks 515) = 515%nat) by (vm_compute; reflexivity).
  assert (B1 : 0 < SectorCount (FDC_DMA test_write_dma_start) < 65536)
    by (split; vm_compute; reflexivity).
  assert (B2 : FIFO_Size (FDC_DMA test_write_dma_start) = 0) by (vm_compute; reflexivity).
  assert (B3 : BytesInSector (FDC_DMA test_write_dma_start) = FDC_DMA_SECTOR_SIZE)
    by (vm_compute; reflexivity).
  assert (B4 : SectorCount (FDC_DMA test_write_dma_start) = 1) by (vm_compute; reflexivity).
  destruct (@X20_write_sector test_platform test_write_dma_start tt (test_ticks 515)
              A1 A2 A3 A4 A5 A6 A7 A8 (test_ticks_fuel2 515))
    as (s' & H0 & H1 & H2 & H3 & H4 & H5 & H6 & _ & H8).
  destruct (H8 B1 B2 B3) as (K1 & K2 & K3 & _ & K5).
  destruct (K5 B4) as (K6 & K7).
  exists s'. split; [exact H0|]. split; [exact H1|]. split; [|split; [|split]].
  - rewrite K2. vm_compute. reflexivity.
  - rewrite K3. vm_compute. reflexivity.
  - rewrite K6. reflexivity.
  - exact K7.
Defined.
